
(** * Context propagation of dd-trace-go: a shallow embedding of
      [ddtrace/tracer/textmap.go] and the properties of its propagators.

    Go strings are byte sequences: they are modelled as [list ascii], so that
    [len(s)] is [length s] and slicing is [take]/[drop].  Where the Go code
    ranges over the runes of a string ([strings.Map]) the UTF-8 decoder of
    the Go runtime is written out.  Go maps are [gmap]s; the order in which a
    Go map is ranged over is not fixed by the language, so every function
    that ranges over a map takes the visiting order as a list. *)

From Stdlib Require Import ZArith Lia List Ascii String Bool.
From stdpp Require Import base gmap strings list.
Import ListNotations.
Open Scope Z_scope.

(** ** Go strings *)

Abbreviation gostring := (list ascii).

Definition str (s : string) : gostring := list_ascii_of_string s.

(** The numeric value of a byte. *)
Definition code (c : ascii) : Z := Z.of_N (N_of_ascii c).

Definition byte_of (z : Z) : ascii := ascii_of_N (Z.to_N z).

Definition eqb_str (a b : gostring) : bool := bool_decide (a = b).

Module GoStrings.

(** [strings.HasPrefix]. *)
Fixpoint HasPrefix (s p : gostring) : bool :=
  match p, s with
  | [], _ => true
  | _ :: _, [] => false
  | c :: p', d :: s' => Ascii.eqb c d && HasPrefix s' p'
  end.

(** [strings.TrimPrefix]. *)
Definition TrimPrefix (s p : gostring) : gostring :=
  if HasPrefix s p then drop (length p) s else s.

Definition inCutset (cutset : gostring) (c : ascii) : bool :=
  existsb (Ascii.eqb c) cutset.

(** [strings.TrimLeft] for a cutset of ASCII bytes (every cutset of the
    source is one): the leading bytes that belong to the cutset go. *)
Fixpoint TrimLeft (s cutset : gostring) : gostring :=
  match s with
  | [] => []
  | c :: s' => if inCutset cutset c then TrimLeft s' cutset else s
  end.

Definition TrimRight (s cutset : gostring) : gostring :=
  rev (TrimLeft (rev s) cutset).

(** [strings.Trim] for a cutset of ASCII bytes. *)
Definition Trim (s cutset : gostring) : gostring :=
  TrimRight (TrimLeft s cutset) cutset.

(** [strings.Split(s, sep)] for a separator of one byte (the source only
    splits on [","], [";"], ["-"] and [":"]).  The accumulator [cur] holds
    the bytes of the current piece, most recent first. *)
Fixpoint split_go (sep : ascii) (cur : gostring) (s : gostring) : list gostring :=
  match s with
  | [] => [rev cur]
  | c :: s' =>
      if Ascii.eqb c sep then rev cur :: split_go sep [] s'
      else split_go sep (c :: cur) s'
  end.

Definition Split (s : gostring) (sep : ascii) : list gostring :=
  split_go sep [] s.

(** [strings.SplitN(s, sep, n)] for [n > 0] and a separator of one byte:
    at most [n] pieces, the last one being the unsplit remainder. *)
Fixpoint splitN_go (sep : ascii) (n : nat) (cur : gostring) (s : gostring)
  : list gostring :=
  match n with
  | O => []
  | S O => [rev cur ++ s]
  | S n' =>
      match s with
      | [] => [rev cur]
      | c :: s' =>
          if Ascii.eqb c sep then rev cur :: splitN_go sep n' [] s'
          else splitN_go sep n (c :: cur) s'
      end
  end.

Definition SplitN (s : gostring) (sep : ascii) (n : nat) : list gostring :=
  splitN_go sep n [] s.

(** [strings.Cut(s, sep)] for a separator of one byte. *)
Fixpoint cut_go (sep : ascii) (cur : gostring) (s : gostring)
  : gostring * gostring * bool :=
  match s with
  | [] => (rev cur, [], false)
  | c :: s' =>
      if Ascii.eqb c sep then (rev cur, s', true)
      else cut_go sep (c :: cur) s'
  end.

Definition Cut (s : gostring) (sep : ascii) : gostring * gostring * bool :=
  cut_go sep [] s.

(** [strings.ReplaceAll(s, old, new)] where [old] and [new] are one byte. *)
Definition ReplaceAll (s : gostring) (old new : ascii) : gostring :=
  map (fun c => if Ascii.eqb c old then new else c) s.

Definition isASCII (s : gostring) : bool :=
  forallb (fun c => code c <? 128) s.

Definition lowerByte (c : ascii) : ascii :=
  if (65 <=? code c) && (code c <=? 90) then byte_of (code c + 32) else c.

(** [strings.Join(l, sep)]. *)
Fixpoint Join (l : list gostring) (sep : gostring) : gostring :=
  match l with
  | [] => []
  | [x] => x
  | x :: l' => x ++ sep ++ Join l' sep
  end.

End GoStrings.

(** ** Numeric conversions ([strconv], [fmt]) *)

Module Strconv.

(** The value of a digit as [strconv.ParseUint] reads it: ['0'..'9'], then
    letters of either case for 10 and above. *)
Definition digitVal (c : ascii) : option Z :=
  let x := code c in
  if (48 <=? x) && (x <=? 57) then Some (x - 48)
  else if (97 <=? x) && (x <=? 122) then Some (x - 97 + 10)
  else if (65 <=? x) && (x <=? 90) then Some (x - 65 + 10)
  else None.

(** The digits of [s] read in [base], left to right, from the value [acc];
    [None] on a byte that is not a digit of the base. *)
Fixpoint parseDigits (base : Z) (acc : Z) (s : gostring) : option Z :=
  match s with
  | [] => Some acc
  | c :: s' =>
      match digitVal c with
      | Some d => if d <? base then parseDigits base (acc * base + d) s' else None
      | None => None
      end
  end.

(** [strconv.ParseUint(s, base, bitSize)] for an explicit base: no sign, no
    underscore, at least one digit, and a value below [2^bitSize].  Every
    caller treats all errors alike, so the error is [None]. *)
Definition ParseUint (s : gostring) (base : Z) (bitSize : Z) : option Z :=
  match s with
  | [] => None
  | _ =>
      match parseDigits base 0 s with
      | Some n => if n <? 2 ^ bitSize then Some n else None
      | None => None
      end
  end.

(** [strconv.ParseInt(s, base, bitSize)]: an optional sign, then the
    magnitude as [ParseUint] reads it at 64 bits, then the range check of
    the signed type. *)
Definition ParseInt (s : gostring) (base : Z) (bitSize : Z) : option Z :=
  match s with
  | [] => None
  | c :: s' =>
      let neg := Ascii.eqb c "-" in
      let digits := if neg || Ascii.eqb c "+" then s' else s in
      match ParseUint digits base 64 with
      | None => None
      | Some un =>
          let cutoff := 2 ^ (bitSize - 1) in
          if negb neg && (cutoff <=? un) then None
          else if neg && (cutoff <? un) then None
          else Some (if neg then - un else un)
      end
  end.

(** [strconv.Atoi]: [ParseInt(s, 10, 0)] on a 64-bit platform. *)
Definition Atoi (s : gostring) : option Z := ParseInt s 10 64.

Definition digitChar (d : Z) : ascii :=
  if d <? 10 then byte_of (48 + d) else byte_of (97 + d - 10).

(** The digits of [n] in [base], most significant first, in front of
    [acc]. *)
Fixpoint fmtDigits (fuel : nat) (base n : Z) (acc : gostring) : gostring :=
  match fuel with
  | O => acc
  | S f =>
      let acc' := digitChar (n mod base) :: acc in
      if n <? base then acc' else fmtDigits f base (n / base) acc'
  end.

(** [strconv.FormatUint(n, base)] for [0 <= n < 2^64]. *)
Definition FormatUint (n : Z) (base : Z) : gostring := fmtDigits 64 base n [].

(** [strconv.Itoa]. *)
Definition Itoa (i : Z) : gostring :=
  if i <? 0 then "-"%char :: FormatUint (- i) 10 else FormatUint i 10.

(** [fmt.Sprintf("%0<width>x", n)]: lower-case hexadecimal, padded with
    zeros on the left up to [width] bytes. *)
Definition hexPadded (width : nat) (n : Z) : gostring :=
  let h := FormatUint n 16 in
  repeat "0"%char (width - length h) ++ h.

End Strconv.

(** ** UTF-8 ([unicode/utf8]) and [strings.Map] *)

Module Utf8.

Definition RuneError : Z := 65533.

Definition between (lo hi : Z) (b : ascii) : bool :=
  (lo <=? code b) && (code b <=? hi).

(** [utf8.DecodeRuneInString] on the non-empty string [b0 :: rest]: the
    rune and its width.  The masks and shifts of the Go code are written
    as remainders and products ([b & 0x3F] is [b mod 64], [x << 6] is
    [x * 64]).  Every malformed sequence decodes to [RuneError] with
    width 1. *)
Definition decodeRune (b0 : ascii) (rest : gostring) : Z * nat :=
  let x := code b0 in
  if x <? 128 then (x, 1%nat)
  else if (x <? 194) || (244 <? x) then (RuneError, 1%nat)
  else if x <? 224 then
    match rest with
    | b1 :: _ =>
        if between 128 191 b1
        then ((x mod 32) * 64 + code b1 mod 64, 2%nat)
        else (RuneError, 1%nat)
    | _ => (RuneError, 1%nat)
    end
  else if x <? 240 then
    match rest with
    | b1 :: b2 :: _ =>
        if between (if x =? 224 then 160 else 128)
                   (if x =? 237 then 159 else 191) b1
           && between 128 191 b2
        then ((x mod 16) * 4096 + (code b1 mod 64) * 64 + code b2 mod 64, 3%nat)
        else (RuneError, 1%nat)
    | _ => (RuneError, 1%nat)
    end
  else
    match rest with
    | b1 :: b2 :: b3 :: _ =>
        if between (if x =? 240 then 144 else 128)
                   (if x =? 244 then 143 else 191) b1
           && between 128 191 b2 && between 128 191 b3
        then ((x mod 8) * 262144 + (code b1 mod 64) * 4096
              + (code b2 mod 64) * 64 + code b3 mod 64, 4%nat)
        else (RuneError, 1%nat)
    | _ => (RuneError, 1%nat)
    end.

(** The runes a [for _, c := range s] loop sees. *)
Fixpoint runes_go (fuel : nat) (s : gostring) : list Z :=
  match fuel, s with
  | S f, b0 :: rest =>
      let '(r, w) := decodeRune b0 rest in
      r :: runes_go f (drop (w - 1) rest)
  | _, _ => []
  end.

Definition runes (s : gostring) : list Z := runes_go (length s) s.

(** [utf8.AppendRune]: surrogates and values outside Unicode are written
    as [RuneError]. *)
Definition encodeRune (r : Z) : gostring :=
  if (0 <=? r) && (r <? 128) then [byte_of r]
  else if (128 <=? r) && (r <? 2048) then
    [byte_of (192 + r / 64); byte_of (128 + r mod 64)]
  else if (r <? 0) || (1114111 <? r) || ((55296 <=? r) && (r <=? 57343)) then
    [byte_of 239; byte_of 191; byte_of 189]
  else if r <? 65536 then
    [byte_of (224 + r / 4096); byte_of (128 + (r / 64) mod 64);
     byte_of (128 + r mod 64)]
  else
    [byte_of (240 + r / 262144); byte_of (128 + (r / 4096) mod 64);
     byte_of (128 + (r / 64) mod 64); byte_of (128 + r mod 64)].

End Utf8.

(** ** The sanitizers of tracestate keys, values and origins *)

Module Sanitizer.
Import Utf8.

(** [stringMutator.mapping]: [n] is the field [sm.n]; the result is the
    rune handed to [strings.Map] (negative: drop the rune) and the new
    value of [sm.n]. *)
Definition mapping (fn : Z -> Z * bool) (n : bool) (r : Z) : Z * bool :=
  let '(v, dropConsecutiveMatches) := fn r in
  if v <? 0 then (-1, false)
  else if dropConsecutiveMatches then
    (if negb n then (v, true) else (-1, n))
  else (v, false).

(** The runes [strings.Map(sm.mapping, s)] writes, in order. *)
Fixpoint mapRunes (fn : Z -> Z * bool) (n : bool) (rs : list Z) : list Z :=
  match rs with
  | [] => []
  | r :: rs' =>
      let '(v, n') := mapping fn n r in
      (if 0 <=? v then [v] else []) ++ mapRunes fn n' rs'
  end.

(** [stringMutator.Mutate]; the mutator is reset when it returns, so
    every call starts from [sm.n = false]. *)
Definition Mutate (fn : Z -> Z * bool) (s : gostring) : gostring :=
  flat_map encodeRune (mapRunes fn false (runes s)).

Definition keyDisallowedFn (r : Z) : Z * bool :=
  if (r =? code ",") || (r =? code "=") then (code "_", false)
  else if (r <? 32) || (126 <? r) then (code "_", true)
  else (r, false).

Definition valueDisallowedFn (r : Z) : Z * bool :=
  if r =? code "=" then (code "~", false)
  else if (r =? code ",") || (r =? code "~") || (r =? code ";") then (code "_", false)
  else if (r <? 32) || (126 <? r) then (code "_", true)
  else (r, false).

Definition originDisallowedFn (r : Z) : Z * bool :=
  if r =? code "=" then (code "~", false)
  else if (r =? code ",") || (r =? code "~") || (r =? code ";") then (code "_", false)
  else if (r <? 33) || (126 <? r) then (code "_", true)
  else (r, false).

End Sanitizer.

(** ** The span context

    [spancontext.go], where [SpanContext], [trace], [traceID] and their
    methods are declared, is not among the sources.  The declarations below
    follow the data model of the specification (section 3) and the way
    [textmap.go] and its tests use each field and method. *)

Module Model.
Import GoStrings Strconv.

(** Modelled from the spec: the type [traceID] (two unsigned 64-bit halves,
    [empty] when both are zero). *)
Record traceID_t : Type := mkTraceID { upper : Z; lower : Z }.

Definition emptyTraceID : traceID_t := mkTraceID 0 0.

(** Modelled from the spec: [traceID.Empty], [HasUpper], [SetLower],
    [SetUpper], [UpperHex] (16 hex digits) and [HexEncoded] (32 hex
    digits). *)
Definition Empty (t : traceID_t) : bool := (upper t =? 0) && (lower t =? 0).
Definition HasUpper (t : traceID_t) : bool := negb (upper t =? 0).
Definition SetLower (t : traceID_t) (v : Z) : traceID_t := mkTraceID (upper t) v.
Definition SetUpper (t : traceID_t) (v : Z) : traceID_t := mkTraceID v (lower t).
Definition UpperHex (t : traceID_t) : gostring := hexPadded 16 (upper t).
Definition HexEncoded (t : traceID_t) : gostring :=
  hexPadded 16 (upper t) ++ hexPadded 16 (lower t).

(** Modelled from the spec: [traceID.SetUpperFromHex], which reads the upper
    half from hexadecimal digits and reports whether it could.  The B3 tests
    of the repository set an upper half from fewer than 16 digits (the id
    [20000000000000001]), so the length is not checked here. *)
Definition SetUpperFromHex (t : traceID_t) (s : gostring) : traceID_t * bool :=
  match ParseUint s 16 64 with
  | Some u => (SetUpper t u, true)
  | None => (t, false)
  end.

(** Modelled from the spec: the type [trace], as far as propagation uses it:
    the optional sampling priority, the propagating tags, the trace-level
    tags and whether the trace has a root span.  The priority is a
    [*float64] that is only ever set from an [int]; the field holds the
    value of that float64, an integer. *)
Record trace_t : Type := mkTrace {
  priority : option Z;
  propagatingTags : gmap gostring gostring;
  tags : gmap gostring gostring;
  root : bool
}.

(** Modelled from the spec: [newTrace], a trace with nothing set. *)
Definition newTrace : trace_t := mkTrace None ∅ ∅ false.

Module SpanLink.
Record t : Type := mk {
  TraceID : Z;
  TraceIDHigh : Z;
  SpanID : Z;
  Attributes : gmap gostring gostring;
  Tracestate : gostring;
  Flags : Z
}.
End SpanLink.

(** Modelled from the spec: the type [SpanContext].  A nil [baggage] map and
    an empty one read alike and are both the empty [gmap]. *)
Record SpanContext : Type := mkSpanContext {
  updated : bool;
  trace : option trace_t;
  traceID : traceID_t;
  spanID : Z;
  baggage : gmap gostring gostring;
  hasBaggage : bool;
  origin : gostring;
  spanLinks : list SpanLink.t;
  baggageOnly : bool;
  reparentID : gostring;
  isRemote : bool
}.

(** The zero value [SpanContext{}]. *)
Definition zeroSpanContext : SpanContext :=
  mkSpanContext false None emptyTraceID 0 ∅ false [] [] false [] false.

Definition with_updated (c : SpanContext) (v : bool) : SpanContext :=
  mkSpanContext v (trace c) (traceID c) (spanID c) (baggage c) (hasBaggage c)
    (origin c) (spanLinks c) (baggageOnly c) (reparentID c) (isRemote c).
Definition with_trace (c : SpanContext) (v : option trace_t) : SpanContext :=
  mkSpanContext (updated c) v (traceID c) (spanID c) (baggage c) (hasBaggage c)
    (origin c) (spanLinks c) (baggageOnly c) (reparentID c) (isRemote c).
Definition with_traceID (c : SpanContext) (v : traceID_t) : SpanContext :=
  mkSpanContext (updated c) (trace c) v (spanID c) (baggage c) (hasBaggage c)
    (origin c) (spanLinks c) (baggageOnly c) (reparentID c) (isRemote c).
Definition with_spanID (c : SpanContext) (v : Z) : SpanContext :=
  mkSpanContext (updated c) (trace c) (traceID c) v (baggage c) (hasBaggage c)
    (origin c) (spanLinks c) (baggageOnly c) (reparentID c) (isRemote c).
Definition with_baggage (c : SpanContext) (v : gmap gostring gostring) (h : bool)
  : SpanContext :=
  mkSpanContext (updated c) (trace c) (traceID c) (spanID c) v h
    (origin c) (spanLinks c) (baggageOnly c) (reparentID c) (isRemote c).
Definition with_origin (c : SpanContext) (v : gostring) : SpanContext :=
  mkSpanContext (updated c) (trace c) (traceID c) (spanID c) (baggage c)
    (hasBaggage c) v (spanLinks c) (baggageOnly c) (reparentID c) (isRemote c).
Definition with_spanLinks (c : SpanContext) (v : list SpanLink.t) : SpanContext :=
  mkSpanContext (updated c) (trace c) (traceID c) (spanID c) (baggage c)
    (hasBaggage c) (origin c) v (baggageOnly c) (reparentID c) (isRemote c).
Definition with_reparentID (c : SpanContext) (v : gostring) : SpanContext :=
  mkSpanContext (updated c) (trace c) (traceID c) (spanID c) (baggage c)
    (hasBaggage c) (origin c) (spanLinks c) (baggageOnly c) v (isRemote c).
Definition with_isRemote (c : SpanContext) (v : bool) : SpanContext :=
  mkSpanContext (updated c) (trace c) (traceID c) (spanID c) (baggage c)
    (hasBaggage c) (origin c) (spanLinks c) (baggageOnly c) (reparentID c) v.

(** The trace of a context, created on demand as [setPropagatingTag] and
    [unmarshalPropagatingTags] do. *)
Definition traceOrNew (c : SpanContext) : trace_t :=
  match trace c with Some t => t | None => newTrace end.

(** Modelled from the spec: the methods of [trace] on its propagating tags
    ([propagatingTag] reads the empty string for an absent tag).  The
    receiver is a trace that exists: each method locks the mutex of the
    trace first, so a call on a nil [*trace] panics, and every caller
    below says what it does when [ctx.trace] is nil. *)
Definition propagatingTag (t : trace_t) (k : gostring) : gostring :=
  default [] (propagatingTags t !! k).
Definition hasPropagatingTag (t : trace_t) (k : gostring) : bool :=
  bool_decide (is_Some (propagatingTags t !! k)).
Definition propagatingTagsLen (t : trace_t) : Z :=
  Z.of_nat (size (propagatingTags t)).
Definition trace_setPropagatingTag (t : trace_t) (k v : gostring) : trace_t :=
  mkTrace (priority t) (<[k := v]> (propagatingTags t)) (tags t) (root t).
Definition trace_unsetPropagatingTag (t : trace_t) (k : gostring) : trace_t :=
  mkTrace (priority t) (delete k (propagatingTags t)) (tags t) (root t).
Definition trace_replacePropagatingTags (t : trace_t) (m : gmap gostring gostring)
  : trace_t :=
  mkTrace (priority t) m (tags t) (root t).
Definition trace_setTag (t : trace_t) (k v : gostring) : trace_t :=
  mkTrace (priority t) (propagatingTags t) (<[k := v]> (tags t)) (root t).

(** [ctx.trace.unsetPropagatingTag(k)] under the guard [ctx.trace != nil]. *)
Definition unsetPropagatingTag (c : SpanContext) (k : gostring) : SpanContext :=
  match trace c with
  | Some t => with_trace c (Some (trace_unsetPropagatingTag t k))
  | None => c
  end.

(** [setPropagatingTag] of [textmap.go]. *)
Definition setPropagatingTag (c : SpanContext) (k v : gostring) : SpanContext :=
  with_trace c (Some (trace_setPropagatingTag (traceOrNew c) k v)).

Definition keyDecisionMaker : gostring := str "_dd.p.dm".
Definition keyTraceID128 : gostring := str "_dd.p.tid".
Definition keyPropagationError : gostring := str "_dd.propagation_error".

(** [samplernames.Unknown] and [samplernames.Default]. *)
Definition samplerUnknown : Z := -1.
Definition samplerDefault : Z := 0.

(** [ext.PriorityAutoReject] and [ext.PriorityAutoKeep]. *)
Definition PriorityAutoReject : Z := 0.
Definition PriorityAutoKeep : Z := 1.

(** [float64(p)] for an [int] of 64 bits: the nearest float64, a tie going
    to the even mantissa.  An integer up to [2^53] in magnitude is kept as
    it is; a larger one keeps its 53 leading bits. *)
Definition float64_of_int (p : Z) : Z :=
  let a := Z.abs p in
  if a <=? 2 ^ 53 then p
  else
    let e := Z.log2 a - 52 in
    let q := a / 2 ^ e in
    let r := a mod 2 ^ e in
    let q :=
      if (2 ^ (e - 1) <? r) || ((r =? 2 ^ (e - 1)) && Z.odd q) then q + 1 else q in
    Z.sgn p * (q * 2 ^ e).

(** [int(f)] for a float64 that holds an integer.  Within the range of
    [int] the conversion is exact.  Outside it the Go specification leaves
    the result to the implementation; amd64 yields the smallest [int],
    which is what this definition does. *)
Definition int_of_float64 (f : Z) : Z :=
  if (- 2 ^ 63 <=? f) && (f <? 2 ^ 63) then f else - 2 ^ 63.

(** Modelled from the spec: [SpanContext.setSamplingPriority] (declared in
    [spancontext.go]).  It stores the priority, converted to float64, with
    its provenance: a positive priority from a known sampler writes the
    decision-maker tag ["-<sampler>"], a non-positive priority removes that
    tag, and the context is marked updated when the priority or the tag
    changed.  The W3C extraction tests of the repository expect exactly
    these tags. *)
Definition setSamplingPriority (c : SpanContext) (p : Z) (sampler : Z)
  : SpanContext :=
  let t := traceOrNew c in
  let updatedPriority := negb (bool_decide (priority t = Some (float64_of_int p))) in
  let t1 := mkTrace (Some (float64_of_int p)) (propagatingTags t) (tags t) (root t) in
  let curDM := propagatingTags t !! keyDecisionMaker in
  let dm := "-"%char :: Itoa sampler in
  if (0 <? p) && negb (sampler =? samplerUnknown)
     && negb (bool_decide (curDM = Some dm))
  then with_updated (with_trace c (Some (trace_setPropagatingTag t1 keyDecisionMaker dm))) true
  else
    let t2 := if p <=? 0 then trace_unsetPropagatingTag t1 keyDecisionMaker else t1 in
    with_updated (with_trace c (Some t2)) (updated c || updatedPriority).

(** Modelled from the spec: [SpanContext.SamplingPriority], the priority as
    an [int] and whether one is set; a nil context or trace has none. *)
Definition SamplingPriority (c : option SpanContext) : Z * bool :=
  match c with
  | Some c =>
      match trace c with
      | Some t =>
          match priority t with
          | Some p => (int_of_float64 p, true)
          | None => (0, false)
          end
      | None => (0, false)
      end
  | None => (0, false)
  end.

(** Modelled from the spec: the nil-safe accessors of [SpanContext].  The
    trace id is compared as the pair of its halves, which determines the 32
    fixed-width hex digits [TraceID] returns. *)
Definition TraceID (c : option SpanContext) : traceID_t :=
  match c with Some c => traceID c | None => emptyTraceID end.
Definition SpanID (c : option SpanContext) : Z :=
  match c with Some c => spanID c | None => 0 end.
Definition TraceIDLower (c : SpanContext) : Z := lower (traceID c).
Definition TraceIDUpper (c : SpanContext) : Z := upper (traceID c).

Definition eqb_traceID (a b : traceID_t) : bool :=
  (upper a =? upper b) && (lower a =? lower b).

(** Modelled from the spec: [SpanContext.setBaggageItem]. *)
Definition setBaggageItem (c : SpanContext) (k v : gostring) : SpanContext :=
  with_baggage c (<[k := v]> (baggage c)) true.

(** Modelled from the spec: [spanIDHexEncoded(id, 16)], the span id as 16
    hex digits. *)
Definition spanIDHexEncoded (id : Z) (padding : nat) : gostring :=
  hexPadded padding id.

Inductive error : Type :=
| ErrInvalidCarrier
| ErrInvalidSpanContext
| ErrSpanContextNotFound
| ErrSpanContextCorrupted
| ErrOther (msg : gostring).

(** What a call that may dereference a nil pointer does: it returns a
    value, or it panics. *)
Inductive result (A : Type) : Type :=
| Returned (a : A)
| Panicked.
Arguments Returned {A} a.
Arguments Panicked {A}.

Definition eqb_error (a b : error) : bool :=
  match a, b with
  | ErrInvalidCarrier, ErrInvalidCarrier => true
  | ErrInvalidSpanContext, ErrInvalidSpanContext => true
  | ErrSpanContextNotFound, ErrSpanContextNotFound => true
  | ErrSpanContextCorrupted, ErrSpanContextCorrupted => true
  | ErrOther m, ErrOther m' => eqb_str m m'
  | _, _ => false
  end.

End Model.

(** ** [net/url] and [strings.TrimSpace] *)

Module Url.
Import GoStrings Strconv.

Definition ishex (c : ascii) : bool :=
  match digitVal c with Some d => d <? 16 | None => false end.

Definition unhex (c : ascii) : Z := default 0 (digitVal c).

(** The first pass of [url.unescape]: every ['%'] is followed by two hex
    digits. *)
Fixpoint validEscapes (s : gostring) : bool :=
  match s with
  | [] => true
  | c :: s' =>
      if Ascii.eqb c "%" then
        match s' with
        | h1 :: h2 :: _ => ishex h1 && ishex h2 && validEscapes s'
        | _ => false
        end
      else validEscapes s'
  end.

(** The second pass: ["%XX"] becomes the byte, ['+'] a space. *)
Fixpoint unescapeBytes (fuel : nat) (s : gostring) : gostring :=
  match fuel, s with
  | S f, c :: s' =>
      if Ascii.eqb c "%" then
        match s' with
        | h1 :: h2 :: s'' => byte_of (unhex h1 * 16 + unhex h2) :: unescapeBytes f s''
        | _ => []
        end
      else if Ascii.eqb c "+" then " "%char :: unescapeBytes f s'
      else c :: unescapeBytes f s'
  | _, _ => []
  end.

(** [url.QueryUnescape]: the decoded string, or the empty string with an
    error ([None] here; the source drops the error and keeps the empty
    string). *)
Definition QueryUnescape (s : gostring) : option gostring :=
  if validEscapes s then Some (unescapeBytes (length s) s) else None.

(** The white space of [unicode.IsSpace], as the UTF-8 bytes of each rune:
    the six ASCII spaces, U+0085, U+00A0, U+1680, U+2000..U+200A, U+2028,
    U+2029, U+202F, U+205F and U+3000. *)
Definition spaceRunes : list gostring :=
  map (map byte_of)
    [[9]; [10]; [11]; [12]; [13]; [32]; [194; 133]; [194; 160]; [225; 154; 128];
     [226; 128; 128]; [226; 128; 129]; [226; 128; 130]; [226; 128; 131];
     [226; 128; 132]; [226; 128; 133]; [226; 128; 134]; [226; 128; 135];
     [226; 128; 136]; [226; 128; 137]; [226; 128; 138]; [226; 128; 168];
     [226; 128; 169]; [226; 128; 175]; [226; 129; 159]; [227; 128; 128]].

(** The rest of [s] behind a leading white-space rune, if it has one. *)
Definition stripSpace (spaces : list gostring) (s : gostring) : option gostring :=
  match List.filter (fun p => HasPrefix s p) spaces with
  | p :: _ => Some (drop (length p) s)
  | [] => None
  end.

Fixpoint trimSpaceLeft (fuel : nat) (spaces : list gostring) (s : gostring)
  : gostring :=
  match fuel with
  | O => s
  | S f =>
      match stripSpace spaces s with
      | Some s' => trimSpaceLeft f spaces s'
      | None => s
      end
  end.

(** [strings.TrimSpace]: leading white-space runes go, then trailing ones
    (found from the end, hence on the reversed bytes). *)
Definition TrimSpace (s : gostring) : gostring :=
  let l := trimSpaceLeft (length s) spaceRunes s in
  rev (trimSpaceLeft (length l) (map (@rev ascii) spaceRunes) (rev l)).

End Url.

(** ** The propagators of [textmap.go] *)

Module Tracer.
Import GoStrings Strconv Utf8 Sanitizer Url Model.

Section Propagation.

(** [strings.ToLower] lowers the ASCII letters of an ASCII-only string byte
    by byte; a string with a byte above 127 goes through the Unicode case
    tables, which stay abstract. *)
Variable unicodeToLower : gostring -> gostring.

(** The order in which a [range] over a Go map visits its entries.  The
    language leaves it open, so it is a parameter. *)
Variable rangeMap : gmap gostring gostring -> list (gostring * gostring).

(** [isValidPropagatableTag] and [parsePropagatableTraceTags] are declared
    outside the sources; the functions that call them take them as they
    are. *)
Variable isValidPropagatableTag : gostring -> gostring -> bool.
Variable parsePropagatableTraceTags : gostring -> option (gmap gostring gostring).

Definition ToLower (s : gostring) : gostring :=
  if isASCII s then map lowerByte s else unicodeToLower s.

Definition len (s : gostring) : Z := Z.of_nat (length s).

Definition tab : ascii := byte_of 9.
Definition newline : ascii := byte_of 10.

Definition traceparentHeader : gostring := str "traceparent".
Definition tracestateHeader : gostring := str "tracestate".
Definition DefaultBaggageHeaderPrefix : gostring := str "ot-baggage-".
Definition DefaultTraceIDHeader : gostring := str "x-datadog-trace-id".
Definition DefaultParentIDHeader : gostring := str "x-datadog-parent-id".
Definition DefaultPriorityHeader : gostring := str "x-datadog-sampling-priority".
Definition DefaultBaggageHeader : gostring := str "baggage".
Definition originHeader : gostring := str "x-datadog-origin".
Definition traceTagsHeader : gostring := str "x-datadog-tags".
Definition propagationExtractMaxSize : Z := 512.

(** A carrier, as the type switches of [Inject] and [Extract] see it: a
    [TextMapCarrier] is a writer and a reader; any other reader is given by
    the pairs its [ForeachKey] hands to the handler, in order (an
    [HTTPHeadersCarrier] hands a key once per value); anything else is no
    carrier. *)
Inductive carrier : Type :=
| TextMapCarrier (m : gmap gostring gostring)
| TextMapReader (visits : list (gostring * gostring))
| NoCarrier.

Definition readerOf (c : carrier) : option (list (gostring * gostring)) :=
  match c with
  | TextMapCarrier m => Some (rangeMap m)
  | TextMapReader l => Some l
  | NoCarrier => None
  end.

(** [ForeachKey]: the handler runs on each pair until it returns an
    error. *)
Fixpoint ForeachKey {S : Type}
  (handler : S -> gostring -> gostring -> S * option error)
  (visits : list (gostring * gostring)) (st : S) : S * option error :=
  match visits with
  | [] => (st, None)
  | (k, v) :: rest =>
      match handler st k v with
      | (st', None) => ForeachKey handler rest st'
      | (st', Some e) => (st', Some e)
      end
  end.

(** [isValidID]: every rune is one of [0-9a-f], and there is at least
    one. *)
Definition isValidID (id : gostring) : bool :=
  negb (length id =? 0)%nat
  && forallb (fun c => negb ((c <? 48) || (102 <? c) || ((57 <? c) && (c <? 97))))
       (runes id).

(** *** W3C tracestate: composition *)

(** The head of the [dd=] member: priority, origin and parent id. *)
Definition composeHead (ctx : SpanContext) (priority : Z) : gostring :=
  str "dd=s:" ++ Itoa priority
  ++ (if negb (length (origin ctx) =? 0)%nat
      then str ";o:" ++ Mutate originDisallowedFn (origin ctx) else [])
  ++ (if negb (isRemote ctx)
      then str ";p:" ++ spanIDHexEncoded (SpanID (Some ctx)) 16
      else if negb (length (reparentID ctx) =? 0)%nat
           then str ";p:" ++ reparentID ctx else []).

(** The callback of [iteratePropagatingTags] in [composeTracestate], run on
    the tags in the order they are visited; [b] is the builder.  The
    callback returning false ends the iteration. *)
Fixpoint appendTags (b : gostring) (tags : list (gostring * gostring))
  : gostring :=
  match tags with
  | [] => b
  | (k, v) :: rest =>
      if negb (HasPrefix k (str "_dd.p.")) then appendTags b rest
      else
        let key := Mutate keyDisallowedFn (drop (length (str "_dd.p.")) k) in
        let value := Mutate valueDisallowedFn v in
        if 256 <? len b + len key + len value + 4 then b
        else appendTags (b ++ str ";t." ++ key ++ str ":" ++ value) rest
  end.

(** The loop over the old state: vendors other than [dd] are appended until
    the list would exceed 32 members. *)
Fixpoint appendVendors (b : gostring) (listLength : Z) (states : list gostring)
  : gostring :=
  match states with
  | [] => b
  | s :: rest =>
      if HasPrefix s (str "dd=") then appendVendors b listLength rest
      else
        let listLength := listLength + 1 in
        if 32 <? listLength then b
        else appendVendors (b ++ str "," ++ Trim s [" "%char; tab]) listLength rest
  end.

(** The [dd=] member [composeTracestate] builds, before the old state is
    appended, when [ctx.trace] is the trace [t]. *)
Definition composeDD (ctx : SpanContext) (t : trace_t) (priority : Z) : gostring :=
  appendTags (composeHead ctx priority) (rangeMap (propagatingTags t)).

(** [composeTracestate].  [ctx.trace.iteratePropagatingTags] is called
    without a test of [ctx.trace]: on a context without a trace the call
    panics. *)
Definition composeTracestate (ctx : SpanContext) (priority : Z)
  (oldState : gostring) : result gostring :=
  match trace ctx with
  | None => Panicked
  | Some t =>
      let b := composeDD ctx t priority in
      if (length oldState =? 0)%nat then Returned b
      else Returned (appendVendors b 1 (Split (Trim oldState [" "%char; tab]) ","))
  end.

(** *** W3C traceparent and tracestate: parsing *)

Definition extractTraceID128 (ctx : SpanContext) (v : gostring)
  : SpanContext * option error :=
  let v := if (32 <? length v)%nat then drop (length v - 32) v else v in
  let v := TrimLeft v (str "0") in
  if (length v <=? 16)%nat then
    match ParseUint v 16 64 with
    | Some tid => (with_traceID ctx (SetLower (traceID ctx) tid), None)
    | None => (with_traceID ctx (SetLower (traceID ctx) 0),
               Some ErrSpanContextCorrupted)
    end
  else
    let idUpper := take (length v - 16) v in
    let t := fst (SetUpperFromHex (traceID ctx) idUpper) in
    match ParseUint (drop (length idUpper) v) 16 64 with
    | Some l => (with_traceID ctx (SetLower t l), None)
    | None => (with_traceID ctx (SetLower t 0), Some ErrSpanContextCorrupted)
    end.

Definition nonWordCutset : gostring := ["_"%char; "-"%char; tab; " "%char; newline].

Definition parseTraceparent (ctx : SpanContext) (header : gostring)
  : SpanContext * option error :=
  let header := ToLower (Trim header [tab; " "%char; "-"%char]) in
  let headerLen := len header in
  if headerLen =? 0 then (ctx, Some ErrSpanContextNotFound)
  else if headerLen <? 55 then (ctx, Some ErrSpanContextCorrupted)
  else
    let parts := SplitN header "-" 5 in
    if Z.of_nat (length parts) <? 4 then (ctx, Some ErrSpanContextCorrupted)
    else
      let version := Trim (nth 0 parts []) nonWordCutset in
      if negb (len version =? 2) then (ctx, Some ErrSpanContextCorrupted)
      else
        match ParseUint version 16 64 with
        | None => (ctx, Some ErrSpanContextCorrupted)
        | Some v =>
            if v =? 255 then (ctx, Some ErrSpanContextCorrupted)
            else if (v =? 0) && negb (headerLen =? 55)
            then (ctx, Some ErrSpanContextCorrupted)
            else
              let fullTraceID := Trim (nth 1 parts []) nonWordCutset in
              if negb (len fullTraceID =? 32) then (ctx, Some ErrSpanContextCorrupted)
              else if negb (isValidID fullTraceID)
              then (ctx, Some ErrSpanContextCorrupted)
              else
                let ctx := unsetPropagatingTag ctx keyTraceID128 in
                match extractTraceID128 ctx fullTraceID with
                | (ctx, Some e) => (ctx, Some e)
                | (ctx, None) =>
                    let spanID := Trim (nth 2 parts []) nonWordCutset in
                    if negb (len spanID =? 16) then (ctx, Some ErrSpanContextCorrupted)
                    else if negb (isValidID spanID)
                    then (ctx, Some ErrSpanContextCorrupted)
                    else
                      match ParseUint spanID 16 64 with
                      | None => (with_spanID ctx 0, Some ErrSpanContextCorrupted)
                      | Some sid =>
                          let ctx := with_spanID ctx sid in
                          if sid =? 0 then (ctx, Some ErrSpanContextNotFound)
                          else
                            let flags := nth 3 parts [] in
                            match ParseInt flags 16 8 with
                            | None => (ctx, Some ErrSpanContextCorrupted)
                            | Some f =>
                                (setSamplingPriority ctx (Z.land f 1) samplerUnknown,
                                 None)
                            end
                      end
                end
        end.

(** One member of the [dd=] list, in [parseTracestate]; the state is the
    context and the local [dropDM].  The loop runs on a context with a
    trace: [parseTracestate] stores the header as a propagating tag before
    it, which creates the trace, and no member removes it; the branch for
    a context without one is never taken. *)
Definition parseMember (st : SpanContext * bool) (member : gostring)
  : SpanContext * bool :=
  let '(ctx, dropDM) := st in
  match SplitN member ":" 2 with
  | [key; val] =>
      if eqb_str key (str "o") then (with_origin ctx (ReplaceAll val "~" "="), dropDM)
      else if eqb_str key (str "s") then
        match Atoi val with
        | None => st
        | Some stateP =>
            let parentP := fst (SamplingPriority (Some ctx)) in
            let ctx :=
              if ((parentP =? 1) && (0 <? stateP)) || ((parentP =? 0) && (stateP <=? 0))
              then setSamplingPriority ctx stateP samplerUnknown else ctx in
            let ctx :=
              if (parentP =? 1) && (stateP <=? 0)
              then setSamplingPriority ctx PriorityAutoKeep samplerDefault else ctx in
            if (parentP =? 0) && (0 <? stateP)
            then (setSamplingPriority ctx PriorityAutoReject samplerUnknown, true)
            else (ctx, dropDM)
        end
      else if eqb_str key (str "p") then (with_reparentID ctx val, dropDM)
      else if HasPrefix key (str "t.dm") then
        match trace ctx with
        | Some t =>
            if hasPropagatingTag t keyDecisionMaker || dropDM then st
            else (setPropagatingTag ctx keyDecisionMaker val, dropDM)
        | None => st
        end
      else if HasPrefix key (str "t.") then
        (setPropagatingTag ctx (str "_dd.p." ++ drop (length (str "t.")) key)
           (ReplaceAll val "~" "="), dropDM)
      else st
  | _ => st
  end.

Definition parseGroup (ctx : SpanContext) (group : gostring) : SpanContext :=
  if negb (HasPrefix group (str "dd=")) then ctx
  else
    let ddMembers := Split (drop (length (str "dd=")) group) ";" in
    fst (fold_left parseMember ddMembers (ctx, false)).

Definition parseTracestate (ctx : SpanContext) (header : gostring) : SpanContext :=
  if (length header =? 0)%nat then ctx
  else
    let ctx := setPropagatingTag ctx tracestateHeader header in
    let combined := Split (Trim header [tab; " "%char]) "," in
    fold_left parseGroup combined ctx.

(** The handler of [propagatorW3c.extractTextMap]; the state is
    [parentHeader], [stateHeader] and the context. *)
Definition w3cHandler (st : gostring * gostring * SpanContext) (k v : gostring)
  : (gostring * gostring * SpanContext) * option error :=
  let '(parentHeader, stateHeader, ctx) := st in
  let key := ToLower k in
  if eqb_str key traceparentHeader then
    if negb (length parentHeader =? 0)%nat then (st, Some ErrSpanContextCorrupted)
    else ((v, stateHeader, ctx), None)
  else if eqb_str key tracestateHeader then ((parentHeader, v, ctx), None)
  else if HasPrefix key DefaultBaggageHeaderPrefix then
    ((parentHeader, stateHeader,
      setBaggageItem ctx (TrimPrefix key DefaultBaggageHeaderPrefix) v), None)
  else (st, None).

Definition w3c_extractTextMap (reader : list (gostring * gostring))
  : option SpanContext * option error :=
  let ctx := with_isRemote zeroSpanContext true in
  match ForeachKey w3cHandler reader ([], [], ctx) with
  | (_, Some err) => (None, Some err)
  | ((parentHeader, stateHeader, ctx), None) =>
      match parseTraceparent ctx parentHeader with
      | (_, Some err) => (None, Some err)
      | (ctx, None) => (Some (parseTracestate ctx stateHeader), None)
      end
  end.

Definition w3c_Extract (c : carrier) : option SpanContext * option error :=
  match readerOf c with
  | Some reader => w3c_extractTextMap reader
  | None => (None, Some ErrInvalidCarrier)
  end.

(** [Set] on a [TextMapCarrier]. *)
Definition carrierSet (m : gmap gostring gostring) (k v : gostring)
  : gmap gostring gostring := <[k := v]> m.

(** [propagatorW3c.injectTextMap].  The last operand of the condition,
    [ctx.trace.propagatingTagsLen() == 0], and the argument
    [ctx.trace.propagatingTag(tracestateHeader)] of both branches are
    evaluated without a test of [ctx.trace]: for a context that has no
    trace behind the step of the upper half, one of them is reached
    whatever the other operands are, and the call panics (the traceparent
    is written by then). *)
Definition w3c_injectTextMap (ctx : SpanContext) (writer : gmap gostring gostring)
  : result (SpanContext * gmap gostring gostring * option error) :=
  if Empty (traceID ctx) || (spanID ctx =? 0)
  then Returned (ctx, writer, Some ErrInvalidSpanContext)
  else
    let '(p, ok) := SamplingPriority (Some ctx) in
    let flags := if ok && (PriorityAutoKeep <=? p) then str "01" else str "00" in
    let ctx :=
      if HasUpper (traceID ctx)
      then setPropagatingTag ctx keyTraceID128 (UpperHex (traceID ctx))
      else unsetPropagatingTag ctx keyTraceID128 in
    let traceIDs := HexEncoded (traceID ctx) in
    let writer :=
      carrierSet writer traceparentHeader
        (str "00-" ++ traceIDs ++ str "-" ++ hexPadded 16 (spanID ctx)
         ++ str "-" ++ flags) in
    match trace ctx with
    | None => Panicked
    | Some t =>
        if updated ctx
           || (negb (isRemote ctx) || (isRemote ctx && root t))
           || negb (HasPrefix (propagatingTag t tracestateHeader) (str "dd="))
           || (propagatingTagsLen t =? 0)
        then
          match composeTracestate ctx p (propagatingTag t tracestateHeader) with
          | Returned s => Returned (ctx, carrierSet writer tracestateHeader s, None)
          | Panicked => Panicked
          end
        else
          Returned (ctx, carrierSet writer tracestateHeader
                           (propagatingTag t tracestateHeader), None)
    end.

(** *** B3 *)

Definition b3TraceIDHeader : gostring := str "x-b3-traceid".
Definition b3SpanIDHeader : gostring := str "x-b3-spanid".
Definition b3SampledHeader : gostring := str "x-b3-sampled".
Definition b3SingleHeader : gostring := str "b3".

Definition b3TraceIDString (ctx : SpanContext) : gostring :=
  if negb (HasUpper (traceID ctx)) then hexPadded 16 (lower (traceID ctx))
  else HexEncoded (traceID ctx).

Definition b3_injectTextMap (ctx : SpanContext) (writer : gmap gostring gostring)
  : SpanContext * gmap gostring gostring * option error :=
  if Empty (traceID ctx) || (spanID ctx =? 0)
  then (ctx, writer, Some ErrInvalidSpanContext)
  else
    let writer := carrierSet writer b3TraceIDHeader (b3TraceIDString ctx) in
    let writer := carrierSet writer b3SpanIDHeader (hexPadded 16 (spanID ctx)) in
    let '(p, ok) := SamplingPriority (Some ctx) in
    let writer :=
      if ok then
        carrierSet writer b3SampledHeader
          (if PriorityAutoKeep <=? p then str "1" else str "0")
      else writer in
    (ctx, writer, None).

Definition b3Handler (ctx : SpanContext) (k v : gostring)
  : SpanContext * option error :=
  let key := ToLower k in
  if eqb_str key b3TraceIDHeader then (fst (extractTraceID128 ctx v), None)
  else if eqb_str key b3SpanIDHeader then
    match ParseUint v 16 64 with
    | Some sid => (with_spanID ctx sid, None)
    | None => (ctx, Some ErrSpanContextCorrupted)
    end
  else if eqb_str key b3SampledHeader then
    match Atoi v with
    | Some priority => (setSamplingPriority ctx priority samplerUnknown, None)
    | None => (ctx, Some ErrSpanContextCorrupted)
    end
  else (ctx, None).

Definition b3_extractTextMap (reader : list (gostring * gostring))
  : option SpanContext * option error :=
  match ForeachKey b3Handler reader zeroSpanContext with
  | (_, Some err) => (None, Some err)
  | (ctx, None) =>
      if Empty (traceID ctx) || (spanID ctx =? 0)
      then (None, Some ErrSpanContextNotFound)
      else (Some ctx, None)
  end.

Definition b3single_injectTextMap (ctx : SpanContext)
  (writer : gmap gostring gostring)
  : SpanContext * gmap gostring gostring * option error :=
  if Empty (traceID ctx) || (spanID ctx =? 0)
  then (ctx, writer, Some ErrInvalidSpanContext)
  else
    let sb := b3TraceIDString ctx ++ str "-" ++ hexPadded 16 (spanID ctx) in
    let '(p, ok) := SamplingPriority (Some ctx) in
    let sb :=
      if ok then sb ++ (if PriorityAutoKeep <=? p then str "-1" else str "-0")
      else sb in
    (ctx, carrierSet writer b3SingleHeader sb, None).

Definition b3singleHandler (ctx : SpanContext) (k v : gostring)
  : SpanContext * option error :=
  let key := ToLower k in
  if eqb_str key b3SingleHeader then
    let b3Parts := Split v "-" in
    if (2 <=? length b3Parts)%nat then
      match extractTraceID128 ctx (nth 0 b3Parts []) with
      | (ctx, Some err) => (ctx, Some err)
      | (ctx, None) =>
          match ParseUint (nth 1 b3Parts []) 16 64 with
          | None => (ctx, Some ErrSpanContextCorrupted)
          | Some sid =>
              let ctx := with_spanID ctx sid in
              if (3 <=? length b3Parts)%nat then
                let flag := nth 2 b3Parts [] in
                if eqb_str flag [] then (ctx, None)
                else if eqb_str flag (str "1") || eqb_str flag (str "d") then
                  (setSamplingPriority ctx PriorityAutoKeep samplerUnknown, None)
                else if eqb_str flag (str "0") then
                  (setSamplingPriority ctx PriorityAutoReject samplerUnknown, None)
                else (ctx, Some ErrSpanContextCorrupted)
              else (ctx, None)
          end
      end
    else (ctx, Some ErrSpanContextCorrupted)
  else (ctx, None).

Definition b3single_extractTextMap (reader : list (gostring * gostring))
  : option SpanContext * option error :=
  match ForeachKey b3singleHandler reader zeroSpanContext with
  | (_, Some err) => (None, Some err)
  | (ctx, None) =>
      if Empty (traceID ctx) || (spanID ctx =? 0)
      then (None, Some ErrSpanContextNotFound)
      else (Some ctx, None)
  end.

(** *** The Datadog format *)

Record PropagatorConfig : Type := mkPropagatorConfig {
  BaggagePrefix : gostring;
  TraceHeader : gostring;
  ParentHeader : gostring;
  PriorityHeader : gostring;
  MaxTagsHeaderLen : Z;
  B3 : bool;
  BaggageHeader : gostring
}.

(** The configuration [NewPropagator] completes from an empty one, with the
    given limit on the tags header. *)
Definition defaultConfig (maxTagsHeaderLen : Z) : PropagatorConfig :=
  mkPropagatorConfig DefaultBaggageHeaderPrefix DefaultTraceIDHeader
    DefaultParentIDHeader DefaultPriorityHeader maxTagsHeaderLen false
    DefaultBaggageHeader.

(** Modelled from the spec: [parseUint64] (declared outside the sources)
    reads the decimal digits of an unsigned 64-bit number; a decimal with a
    minus sign is read as a signed 64-bit number and taken modulo [2^64]. *)
Definition parseUint64 (s : gostring) : option Z :=
  if HasPrefix s (str "-")
  then option_map (fun i => i mod 2 ^ 64) (ParseInt s 10 64)
  else ParseUint s 10 64.

(** Modelled from the spec: [ForeachBaggageItem] (declared in
    [spancontext.go]) hands the baggage items to the handler in the order of
    the map, and none when the [hasBaggage] flag is not set.  The handlers of
    [textmap.go] that never stop it fold over that list. *)
Definition baggageItems (ctx : SpanContext) : list (gostring * gostring) :=
  if hasBaggage ctx then rangeMap (baggage ctx) else [].

(** The callback of [iteratePropagatingTags] in [marshalPropagatingTags]:
    the builder and [properr]. *)
Fixpoint marshalTags (maxLen : Z) (sb properr : gostring)
  (tags : list (gostring * gostring)) : gostring * gostring :=
  match tags with
  | [] => (sb, properr)
  | (k, v) :: rest =>
      if eqb_str k tracestateHeader || eqb_str k traceparentHeader
      then marshalTags maxLen sb properr rest
      else if negb (isValidPropagatableTag k v)
      then marshalTags maxLen sb (str "encoding_error") rest
      else if maxLen <? len sb + len k + len v
      then ([], str "inject_max_size")
      else
        let sb := if 0 <? len sb then sb ++ str "," else sb in
        marshalTags maxLen (sb ++ k ++ str "=" ++ v) properr rest
  end.

Definition marshalPropagatingTags (cfg : PropagatorConfig) (ctx : SpanContext)
  : SpanContext * gostring :=
  match trace ctx with
  | None => (ctx, [])
  | Some t =>
      let '(sb, properr) :=
        marshalTags (MaxTagsHeaderLen cfg) [] [] (rangeMap (propagatingTags t)) in
      if negb (length properr =? 0)%nat
      then (with_trace ctx (Some (trace_setTag t keyPropagationError properr)), sb)
      else (ctx, sb)
  end.

(** The callback of [ForeachBaggageItem] in the Datadog injection. *)
Definition writeBaggageItem (cfg : PropagatorConfig)
  (writer : gmap gostring gostring) (kv : gostring * gostring)
  : gmap gostring gostring :=
  let '(k, v) := kv in carrierSet writer (BaggagePrefix cfg ++ k) v.

Definition dd_injectTextMap (cfg : PropagatorConfig) (ctx : SpanContext)
  (writer : gmap gostring gostring)
  : SpanContext * gmap gostring gostring * option error :=
  if Empty (traceID ctx) || (spanID ctx =? 0)
  then (ctx, writer, Some ErrInvalidSpanContext)
  else
    let ctx :=
      if HasUpper (traceID ctx)
      then setPropagatingTag ctx keyTraceID128 (UpperHex (traceID ctx))
      else unsetPropagatingTag ctx keyTraceID128 in
    let writer := carrierSet writer (TraceHeader cfg) (FormatUint (lower (traceID ctx)) 10) in
    let writer := carrierSet writer (ParentHeader cfg) (FormatUint (spanID ctx) 10) in
    let '(sp, ok) := SamplingPriority (Some ctx) in
    let writer := if ok then carrierSet writer (PriorityHeader cfg) (Itoa sp) else writer in
    let writer :=
      if negb (length (origin ctx) =? 0)%nat
      then carrierSet writer originHeader (origin ctx) else writer in
    let writer := fold_left (writeBaggageItem cfg) (baggageItems ctx) writer in
    if MaxTagsHeaderLen cfg <=? 0 then (ctx, writer, None)
    else
      let '(ctx, s) := marshalPropagatingTags cfg ctx in
      if 0 <? len s then (ctx, carrierSet writer traceTagsHeader s, None)
      else (ctx, writer, None).

Definition unmarshalPropagatingTags (ctx : SpanContext) (v : gostring)
  : SpanContext :=
  let t := traceOrNew ctx in
  if propagationExtractMaxSize <? len v
  then with_trace ctx (Some (trace_setTag t keyPropagationError (str "extract_max_size")))
  else
    match parsePropagatableTraceTags v with
    | Some tags => with_trace ctx (Some (trace_replacePropagatingTags t tags))
    | None =>
        with_trace ctx
          (Some (trace_replacePropagatingTags
                   (trace_setTag t keyPropagationError (str "decoding_error")) ∅))
    end.

Definition ddHandler (cfg : PropagatorConfig) (ctx : SpanContext) (k v : gostring)
  : SpanContext * option error :=
  let key := ToLower k in
  if eqb_str key (TraceHeader cfg) then
    match parseUint64 v with
    | Some lowerTid => (with_traceID ctx (SetLower (traceID ctx) lowerTid), None)
    | None => (ctx, Some ErrSpanContextCorrupted)
    end
  else if eqb_str key (ParentHeader cfg) then
    match parseUint64 v with
    | Some sid => (with_spanID ctx sid, None)
    | None => (with_spanID ctx 0, Some ErrSpanContextCorrupted)
    end
  else if eqb_str key (PriorityHeader cfg) then
    match Atoi v with
    | Some priority => (setSamplingPriority ctx priority samplerUnknown, None)
    | None => (ctx, Some ErrSpanContextCorrupted)
    end
  else if eqb_str key originHeader then (with_origin ctx v, None)
  else if eqb_str key traceTagsHeader then (unmarshalPropagatingTags ctx v, None)
  else if HasPrefix key (BaggagePrefix cfg)
  then (setBaggageItem ctx (TrimPrefix key (BaggagePrefix cfg)) v, None)
  else (ctx, None).

Definition validateTID (tid : gostring) : bool :=
  (length tid =? 16)%nat && isValidID tid.

Definition dd_extractTextMap (cfg : PropagatorConfig)
  (reader : list (gostring * gostring)) : option SpanContext * option error :=
  match ForeachKey (ddHandler cfg) reader zeroSpanContext with
  | (_, Some err) => (None, Some err)
  | (ctx, None) =>
      let ctx :=
        match trace ctx with
        | None => ctx
        | Some t =>
            let tid := propagatingTag t keyTraceID128 in
            if negb (validateTID tid) then unsetPropagatingTag ctx keyTraceID128
            else
              match SetUpperFromHex (traceID ctx) tid with
              | (t', true) => with_traceID ctx t'
              | (_, false) => unsetPropagatingTag ctx keyTraceID128
              end
        end in
      if Empty (traceID ctx)
         || ((spanID ctx =? 0) && negb (eqb_str (origin ctx) (str "synthetics")))
      then (None, Some ErrSpanContextNotFound)
      else (Some ctx, None)
  end.

(** *** The baggage format *)

Definition baggageMaxItems : Z := 64.
Definition baggageMaxBytes : Z := 8192.
Definition safeCharactersKey : gostring :=
  str "ABCDEFGHIJKLMNOPQRSTUVWXYZabcdefghijklmnopqrstuvwxyz0123456789!#$%&'*+-.^_`|~".
Definition safeCharactersValue : gostring :=
  str "ABCDEFGHIJKLMNOPQRSTUVWXYZabcdefghijklmnopqrstuvwxyz0123456789!#$%&'()*+-./:<>?@[]^_`{|}~".

Definition upperhex (d : Z) : ascii :=
  if d <? 10 then byte_of (48 + d) else byte_of (65 + d - 10).

(** [url.QueryEscape] of the bytes of one rune: letters, digits and
    [-_.~] stay, a space becomes ['+'], every other byte is written
    [%XX]. *)
Definition queryEscapeByte (c : ascii) : gostring :=
  let x := code c in
  if ((48 <=? x) && (x <=? 57)) || ((65 <=? x) && (x <=? 90))
     || ((97 <=? x) && (x <=? 122))
     || inCutset (str "-_.~") c
  then [c]
  else if x =? 32 then ["+"%char]
  else ["%"%char; upperhex (x / 16); upperhex (x mod 16)].

Definition urlEncode (input safeCharacters : gostring) : gostring :=
  flat_map
    (fun c =>
       if existsb (Z.eqb c) (map code safeCharacters) then encodeRune c
       else flat_map queryEscapeByte (encodeRune c))
    (runes input).

Definition encodeKey (key : gostring) : gostring :=
  urlEncode (TrimSpace key) safeCharactersKey.
Definition encodeValue (value : gostring) : gostring :=
  urlEncode (TrimSpace value) safeCharactersValue.

(** The callback of [ForeachBaggageItem] in the baggage injection: the
    counter and the builder. *)
Fixpoint baggageItemsEncoded (ctr : Z) (b : gostring)
  (items : list (gostring * gostring)) : gostring :=
  match items with
  | [] => b
  | (k, v) :: rest =>
      if baggageMaxItems <=? ctr then b
      else
        let item :=
          (if 0 <? ctr then str "," else []) ++ encodeKey k ++ str "="
          ++ encodeValue v in
        if baggageMaxBytes <? len item + len b then b
        else baggageItemsEncoded (ctr + 1) (b ++ item) rest
  end.

Definition baggage_injectTextMap (ctx : option SpanContext)
  (writer : gmap gostring gostring) : gmap gostring gostring * option error :=
  match ctx with
  | None => (writer, None)
  | Some ctx =>
      let b := baggageItemsEncoded 0 [] (baggageItems ctx) in
      if 0 <? len b then (carrierSet writer (str "baggage") b, None)
      else (writer, None)
  end.

(** The first loop of the baggage extraction: every piece is cut at its
    first ['='] and trimmed; [None] when a piece is invalid. *)
Fixpoint validateBaggage (parts : list gostring) : option (list gostring) :=
  match parts with
  | [] => Some []
  | kv :: rest =>
      let '(k, v, ok) := Cut kv "=" in
      let trimmedK := TrimSpace k in
      let trimmedV := TrimSpace v in
      if negb ok || (length trimmedK =? 0)%nat || (length trimmedV =? 0)%nat
      then None
      else
        match validateBaggage rest with
        | Some rest' => Some ((trimmedK ++ str "=" ++ trimmedV) :: rest')
        | None => None
        end
  end.

(** The second loop: decode and store each pair. *)
Definition applyBaggage (ctx : SpanContext) (kv : gostring) : SpanContext :=
  let '(rawK, rawV, _) := Cut kv "=" in
  let key := default [] (QueryUnescape rawK) in
  let val := default [] (QueryUnescape rawV) in
  setBaggageItem ctx key val.

Definition baggageHandler (baggageHeader : gostring) (k v : gostring)
  : gostring * option error :=
  if eqb_str (ToLower k) (str "baggage") then (v, None) else (baggageHeader, None).

Definition baggage_extractTextMap (reader : list (gostring * gostring))
  : option SpanContext * option error :=
  match ForeachKey baggageHandler reader [] with
  | (_, Some err) => (None, Some err)
  | (baggageHeader, None) =>
      if (length baggageHeader =? 0)%nat then (Some zeroSpanContext, None)
      else
        match validateBaggage (Split baggageHeader ",") with
        | None => (Some zeroSpanContext, None)
        | Some parts => (Some (fold_left applyBaggage parts zeroSpanContext), None)
        end
  end.

(** *** The chained propagator *)

(** The dynamic type of a [Propagator] value, as the type switches of
    [Extract] and [getPropagatorName] tell them apart. *)
Inductive propagatorType : Type :=
| TypePropagator
| TypePropagatorB3
| TypePropagatorB3SingleHeader
| TypePropagatorW3c
| TypePropagatorBaggage
| TypeOther.

(** The interface [Propagator] with the dynamic type of the value.  [Inject]
    returns the context and the carrier as the call leaves them (both are
    shared with the caller), or it panics. *)
Record Propagator : Type := mkPropagator {
  typeOf : propagatorType;
  Inject : option SpanContext -> carrier ->
           result (option SpanContext * carrier * option error);
  Extract : carrier -> option SpanContext * option error
}.

(** The method [Inject] of the four trace formats, around their
    [injectTextMap]. *)
Definition injectWith
  (injectTextMap : SpanContext -> gmap gostring gostring ->
                   result (SpanContext * gmap gostring gostring * option error))
  (spanCtx : option SpanContext) (c : carrier)
  : result (option SpanContext * carrier * option error) :=
  match spanCtx with
  | None => Returned (None, c, Some ErrInvalidSpanContext)
  | Some ctx =>
      match c with
      | TextMapCarrier w =>
          match injectTextMap ctx w with
          | Returned (ctx, w, err) => Returned (Some ctx, TextMapCarrier w, err)
          | Panicked => Panicked
          end
      | _ => Returned (Some ctx, c, Some ErrInvalidCarrier)
      end
  end.

Definition extractWith
  (extractTextMap : list (gostring * gostring) -> option SpanContext * option error)
  (c : carrier) : option SpanContext * option error :=
  match readerOf c with
  | Some reader => extractTextMap reader
  | None => (None, Some ErrInvalidCarrier)
  end.

Definition propagator (cfg : PropagatorConfig) : Propagator :=
  mkPropagator TypePropagator
    (injectWith (fun ctx w => Returned (dd_injectTextMap cfg ctx w)))
    (extractWith (dd_extractTextMap cfg)).

Definition propagatorB3 : Propagator :=
  mkPropagator TypePropagatorB3
    (injectWith (fun ctx w => Returned (b3_injectTextMap ctx w)))
    (extractWith b3_extractTextMap).

Definition propagatorB3SingleHeader : Propagator :=
  mkPropagator TypePropagatorB3SingleHeader
    (injectWith (fun ctx w => Returned (b3single_injectTextMap ctx w)))
    (extractWith b3single_extractTextMap).

Definition propagatorW3c : Propagator :=
  mkPropagator TypePropagatorW3c (injectWith w3c_injectTextMap)
    (extractWith w3c_extractTextMap).

Definition propagatorBaggage : Propagator :=
  mkPropagator TypePropagatorBaggage
    (fun spanCtx c =>
       match c with
       | TextMapCarrier w =>
           let '(w, err) := baggage_injectTextMap spanCtx w in
           Returned (spanCtx, TextMapCarrier w, err)
       | _ => Returned (spanCtx, c, Some ErrInvalidCarrier)
       end)
    (extractWith baggage_extractTextMap).

Record chainedPropagator : Type := mkChainedPropagator {
  injectors : list Propagator;
  extractors : list Propagator;
  injectorNames : gostring;
  extractorsNames : gostring;
  onlyExtractFirst : bool
}.

Fixpoint injectAll (l : list Propagator) (spanCtx : option SpanContext)
  (c : carrier) : result (option SpanContext * carrier * option error) :=
  match l with
  | [] => Returned (spanCtx, c, None)
  | v :: rest =>
      match Inject v spanCtx c with
      | Returned (spanCtx, c, Some err) => Returned (spanCtx, c, Some err)
      | Returned (spanCtx, c, None) => injectAll rest spanCtx c
      | Panicked => Panicked
      end
  end.

(** [chainedPropagator.Inject]. *)
Definition chained_Inject (p : chainedPropagator) (spanCtx : option SpanContext)
  (c : carrier) : result (option SpanContext * carrier * option error) :=
  match spanCtx with
  | None => Returned (None, c, Some ErrInvalidSpanContext)
  | Some _ => injectAll (injectors p) spanCtx c
  end.

Definition isType (a b : propagatorType) : bool :=
  match a, b with
  | TypePropagator, TypePropagator
  | TypePropagatorB3, TypePropagatorB3
  | TypePropagatorB3SingleHeader, TypePropagatorB3SingleHeader
  | TypePropagatorW3c, TypePropagatorW3c
  | TypePropagatorBaggage, TypePropagatorBaggage
  | TypeOther, TypeOther => true
  | _, _ => false
  end.

Definition getPropagatorName (p : Propagator) : gostring :=
  match typeOf p with
  | TypePropagator => str "datadog"
  | TypePropagatorB3 => str "b3multi"
  | TypePropagatorB3SingleHeader => str "b3"
  | TypePropagatorW3c => str "tracecontext"
  | TypePropagatorBaggage => str "baggage"
  | TypeOther => []
  end.

Definition propagateTracestate (ctx : SpanContext) (w3cCtx : option SpanContext)
  : result SpanContext :=
  match w3cCtx with
  | None => Returned ctx
  | Some w =>
      if negb (eqb_traceID (TraceID (Some ctx)) (TraceID w3cCtx)) then Returned ctx
      else
        match trace w with
        | None => Returned ctx
        | Some wt =>
            let ctx := with_trace ctx (Some (traceOrNew ctx)) in
            let ts := propagatingTag wt tracestateHeader in
            let priority := fst (SamplingPriority (Some ctx)) in
            match composeTracestate ctx priority ts with
            | Returned s =>
                Returned (with_isRemote (setPropagatingTag ctx tracestateHeader s)
                            (isRemote w))
            | Panicked => Panicked
            end
        end
  end.

Definition getDatadogPropagator (cp : chainedPropagator) : option Propagator :=
  List.find (fun e => isType (typeOf e) TypePropagator) (extractors cp).

Definition overrideDatadogParentID (ctx : SpanContext)
  (w3cCtx ddCtx : option SpanContext) : SpanContext :=
  match w3cCtx, ddCtx with
  | Some w, Some _ =>
      let ctx := with_spanID ctx (spanID w) in
      if negb (length (reparentID w) =? 0)%nat
      then with_reparentID ctx (reparentID w)
      else with_reparentID ctx (hexPadded 16 (SpanID ddCtx))
  | _, _ => ctx
  end.

(** [uint32(f)] for a float64 that holds the integer [p].  Within the
    range of the target the conversion is exact.  Outside it the Go
    specification leaves the result to the implementation; the amd64
    compiler truncates to a 64-bit integer and keeps the low 32 bits, which
    is what this definition does. *)
Definition uint32_of_float64 (p : Z) : Z := p mod 2 ^ 32.

(** What a call does: it returns, or it panics (a nil pointer is
    dereferenced). *)
Inductive outcome : Type :=
| Returns (ctx : option SpanContext) (err : option error)
| Panics.

(** The span link of an extracted context whose trace id differs; [None]
    when [*trace.priority] dereferences a nil pointer. *)
Definition makeLink (v : Propagator) (e : SpanContext) : option SpanLink.t :=
  let attributes : gmap gostring gostring :=
    <[str "context_headers" := getPropagatorName v]>
      (<[str "reason" := str "terminated_context"]> ∅) in
  match trace e with
  | None =>
      Some (SpanLink.mk (TraceIDLower e) (TraceIDUpper e) (SpanID (Some e))
              attributes [] 0)
  | Some t =>
      match priority t with
      | None => None
      | Some p =>
          let flags := if 0 <? uint32_of_float64 p then 1 else 0 in
          Some (SpanLink.mk (TraceIDLower e) (TraceIDUpper e) (SpanID (Some e))
                  attributes (propagatingTag t tracestateHeader) flags)
      end
  end.

(** The code of [chainedPropagator.Extract] behind its loop. *)
Definition finishExtract (ctx : option SpanContext) (links : list SpanLink.t)
  (pendingBaggage : gmap gostring gostring) : outcome :=
  match ctx with
  | None =>
      if (0 <? size pendingBaggage)%nat
      then Returns (Some (mkSpanContext false None emptyTraceID 0 pendingBaggage
                            true [] [] true [] false)) None
      else Returns None (Some ErrSpanContextNotFound)
  | Some ctx =>
      let ctx :=
        if (0 <? size pendingBaggage)%nat
        then with_baggage ctx (pendingBaggage ∪ baggage ctx) true else ctx in
      let ctx := if (0 <? length links)%nat then with_spanLinks ctx links else ctx in
      Returns (Some ctx) None
  end.

(** The loop of [chainedPropagator.Extract] over the extractors that are
    left, from the current [ctx], [links] and [pendingBaggage]. *)
Fixpoint extractLoop (p : chainedPropagator) (c : carrier)
  (exts : list Propagator) (ctx : option SpanContext)
  (links : list SpanLink.t) (pendingBaggage : gmap gostring gostring) : outcome :=
  match exts with
  | [] => finishExtract ctx links pendingBaggage
  | v :: rest =>
      let '(extractedCtx, err) := Extract v c in
      if isType (typeOf v) TypePropagatorBaggage then
        let pendingBaggage :=
          match extractedCtx with
          | Some e =>
              if (0 <? size (baggage e))%nat then baggage e ∪ pendingBaggage
              else pendingBaggage
          | None => pendingBaggage
          end in
        extractLoop p c rest ctx links pendingBaggage
      else
        match ctx with
        | None =>
            match err with
            | Some e =>
                if onlyExtractFirst p then Returns None (Some e)
                else if negb (eqb_error e ErrSpanContextNotFound)
                then Returns None (Some e)
                else extractLoop p c rest extractedCtx links pendingBaggage
            | None =>
                if onlyExtractFirst p then Returns extractedCtx None
                else extractLoop p c rest extractedCtx links pendingBaggage
            end
        | Some ctx2 =>
            if eqb_traceID (TraceID extractedCtx) (TraceID (Some ctx2)) then
              if isType (typeOf v) TypePropagatorW3c then
                match propagateTracestate ctx2 extractedCtx with
                | Panicked => Panics
                | Returned ctx2 =>
                    let ctx2 :=
                      if negb (SpanID extractedCtx =? SpanID (Some ctx2)) then
                        let ddCtx :=
                          match getDatadogPropagator p with
                          | Some ddp =>
                              match Extract ddp c with
                              | (ddSpanCtx, None) => ddSpanCtx
                              | (_, Some _) => None
                              end
                          | None => None
                          end in
                        overrideDatadogParentID ctx2 extractedCtx ddCtx
                      else ctx2 in
                    extractLoop p c rest (Some ctx2) links pendingBaggage
                end
              else extractLoop p c rest (Some ctx2) links pendingBaggage
            else
              match extractedCtx with
              | None => extractLoop p c rest (Some ctx2) links pendingBaggage
              | Some e =>
                  match makeLink v e with
                  | None => Panics
                  | Some link =>
                      extractLoop p c rest (Some ctx2) (links ++ [link]) pendingBaggage
                  end
              end
        end
  end.

(** [chainedPropagator.Extract]. *)
Definition chained_Extract (p : chainedPropagator) (c : carrier) : outcome :=
  extractLoop p c (extractors p) None [] ∅.

(** *** The propagators of a configuration *)

(** The loop of [getPropagators] over the names of the style: [lst] (the
    slice [list] of the source) and [listNames] as the names seen so far
    leave them.  The name [none] and an unknown name only log a warning. *)
Fixpoint addPropagators (cfg : PropagatorConfig) (lst : list Propagator)
  (listNames : list gostring) (vs : list gostring)
  : list Propagator * list gostring :=
  match vs with
  | [] => (lst, listNames)
  | v :: rest =>
      let v := ToLower v in
      if eqb_str v (str "datadog")
      then addPropagators cfg (lst ++ [propagator cfg]) (listNames ++ [v]) rest
      else if eqb_str v (str "tracecontext")
      then addPropagators cfg (lst ++ [propagatorW3c]) (listNames ++ [v]) rest
      else if eqb_str v (str "baggage")
      then addPropagators cfg (lst ++ [propagatorBaggage]) (listNames ++ [v]) rest
      else if eqb_str v (str "b3") || eqb_str v (str "b3multi")
      then
        if negb (B3 cfg)
        then addPropagators cfg (lst ++ [propagatorB3]) (listNames ++ [v]) rest
        else addPropagators cfg lst listNames rest
      else if eqb_str v (str "b3 single header")
      then addPropagators cfg (lst ++ [propagatorB3SingleHeader]) (listNames ++ [v]) rest
      else addPropagators cfg lst listNames rest
  end.

(** [getPropagators].  [propagationStyle] is what
    [getDDorOtelConfig("propagationStyle")] reads from the environment; a
    nil slice is the empty list. *)
Definition getPropagators (propagationStyle : gostring) (cfg : PropagatorConfig)
  (ps : gostring) : list Propagator * gostring :=
  let defaultPs :=
    [propagator cfg; propagatorW3c; propagatorBaggage]
    ++ (if B3 cfg then [propagatorB3] else []) in
  let defaultPsName :=
    str "datadog,tracecontext,baggage" ++ (if B3 cfg then str ",b3" else []) in
  let useStyle (ps : gostring) :=
    let ps := ToLower ps in
    if eqb_str ps (str "none") then ([], [])
    else
      let '(lst, listNames) :=
        addPropagators cfg
          (if B3 cfg then [propagatorB3] else [])
          (if B3 cfg then [str "b3"] else [])
          (Split ps ",") in
      if (length lst =? 0)%nat then (defaultPs, defaultPsName)
      else (lst, Join listNames (str ",")) in
  if (length ps =? 0)%nat then
    if negb (length propagationStyle =? 0)%nat then useStyle propagationStyle
    else (defaultPs, defaultPsName)
  else useStyle ps.

(** What [NewPropagator] reads from the environment:
    [DD_TRACE_PROPAGATION_EXTRACT_FIRST] as [internal.BoolEnv] parses it,
    the two variables of the inject and extract styles, and the value of
    [getDDorOtelConfig("propagationStyle")]. *)
Record environment : Type := mkEnvironment {
  extractFirst : bool;
  styleInject : gostring;
  styleExtract : gostring;
  propagationStyle : gostring
}.

Definition orDefault (s dflt : gostring) : gostring :=
  if (length s =? 0)%nat then dflt else s.

(** [NewPropagator]; a nil configuration is [None]. *)
Definition NewPropagator (env : environment) (cfg : option PropagatorConfig)
  (propagators : list Propagator) : chainedPropagator :=
  let cfg := default (mkPropagatorConfig [] [] [] [] 0 false []) cfg in
  let cfg :=
    mkPropagatorConfig
      (orDefault (BaggagePrefix cfg) DefaultBaggageHeaderPrefix)
      (orDefault (TraceHeader cfg) DefaultTraceIDHeader)
      (orDefault (ParentHeader cfg) DefaultParentIDHeader)
      (orDefault (PriorityHeader cfg) DefaultPriorityHeader)
      (MaxTagsHeaderLen cfg) (B3 cfg)
      (orDefault (BaggageHeader cfg) DefaultBaggageHeader) in
  if (0 <? length propagators)%nat
  then mkChainedPropagator propagators propagators [] [] (extractFirst env)
  else
    let '(injectors, injectorNames) :=
      getPropagators (propagationStyle env) cfg (styleInject env) in
    let '(extractors, extractorsNames) :=
      getPropagators (propagationStyle env) cfg (styleExtract env) in
    mkChainedPropagator injectors extractors injectorNames extractorsNames
      (extractFirst env).

End Propagation.

End Tracer.

(** ** The parameters, made concrete

    These are used to run the model on concrete carriers. *)

Module Concrete.
Import GoStrings Strconv Utf8 Model Tracer.

Definition printable (c : ascii) : bool := (32 <=? code c) && (code c <=? 126).

(** Modelled from the spec: [isValidPropagatableTag] (section 4.3: entries
    whose key or value holds [','], ['='] or a non-printable character are
    dropped).  The tests of the repository propagate the value ["world="],
    so ['='] is refused in keys only; an empty key or value is refused. *)
Definition isValidPropagatableTag (k v : gostring) : bool :=
  negb (length k =? 0)%nat && negb (length v =? 0)%nat
  && forallb (fun c => printable c && negb (inCutset (str " ,=") c)) k
  && forallb (fun c => printable c && negb (inCutset (str ",") c)) v.

(** Modelled from the spec: [parsePropagatableTraceTags] (section 4.3:
    strict [k=v] pairs separated by [',']); a pair is cut at its first
    ['='], and a pair without ['='], key or value is an error. *)
Fixpoint parsePairs (pairs : list gostring) (m : gmap gostring gostring)
  : option (gmap gostring gostring) :=
  match pairs with
  | [] => Some m
  | kv :: rest =>
      let '(k, v, ok) := Cut kv "=" in
      if negb ok || (length k =? 0)%nat || (length v =? 0)%nat then None
      else parsePairs rest (<[k := v]> m)
  end.

Definition parsePropagatableTraceTags (s : gostring)
  : option (gmap gostring gostring) :=
  if (length s =? 0)%nat then Some ∅ else parsePairs (Split s ",") ∅.

(** One order a map can be ranged over in. *)
Definition rangeMap (m : gmap gostring gostring) : list (gostring * gostring) :=
  map_to_list m.

(** Case mapping that leaves non-ASCII strings alone; the concrete carriers
    below are ASCII. *)
Definition unicodeToLower (s : gostring) : gostring := s.

Definition parseTraceparent := Tracer.parseTraceparent unicodeToLower.
Definition parseTracestate := Tracer.parseTracestate.
Definition composeTracestate := Tracer.composeTracestate rangeMap.
Definition w3c_extractTextMap := Tracer.w3c_extractTextMap unicodeToLower.
Definition baggage_extractTextMap := Tracer.baggage_extractTextMap unicodeToLower.
Definition dd_extractTextMap :=
  Tracer.dd_extractTextMap unicodeToLower parsePropagatableTraceTags.
Definition dd_injectTextMap := Tracer.dd_injectTextMap rangeMap isValidPropagatableTag.
Definition propagator :=
  Tracer.propagator unicodeToLower rangeMap isValidPropagatableTag
    parsePropagatableTraceTags.
Definition propagatorB3 := Tracer.propagatorB3 unicodeToLower rangeMap.
Definition propagatorB3SingleHeader :=
  Tracer.propagatorB3SingleHeader unicodeToLower rangeMap.
Definition propagatorW3c := Tracer.propagatorW3c unicodeToLower rangeMap.
Definition propagatorBaggage := Tracer.propagatorBaggage unicodeToLower rangeMap.
Definition chained_Extract := Tracer.chained_Extract rangeMap.
Definition chained_Inject := Tracer.chained_Inject.
Definition composeDD := Tracer.composeDD rangeMap.
Definition w3c_injectTextMap := Tracer.w3c_injectTextMap rangeMap.
Definition getPropagators :=
  Tracer.getPropagators unicodeToLower rangeMap isValidPropagatableTag
    parsePropagatableTraceTags.
Definition NewPropagator :=
  Tracer.NewPropagator unicodeToLower rangeMap isValidPropagatableTag
    parsePropagatableTraceTags.

(** A chain with the given injectors and extractors. *)
Definition chain (inj ext : list Propagator) (first : bool) : chainedPropagator :=
  mkChainedPropagator inj ext [] [] first.

(** A [TextMapCarrier] holding the given headers. *)
Definition textMap (l : list (string * string)) : carrier :=
  TextMapCarrier (list_to_map (map (fun '(k, v) => (str k, str v)) l)).

End Concrete.

(** ** Concrete contexts and carriers the properties are run on *)

Module Inputs.
Import GoStrings Strconv Model Tracer.


(** The context of a local span of trace 1 and span 2 with the priority 1
    and no propagating tag, whose origin is 300 bytes long. *)
Definition longOriginContext : SpanContext :=
  with_origin
    (setSamplingPriority
       (with_spanID (with_traceID zeroSpanContext (mkTraceID 0 1)) 2)
       1 samplerUnknown)
    (repeat "a"%char 300).

(** A context with the origin [rum], the priority 2 and the tag
    [_dd.p.usr.id]. *)
Definition rumContext : SpanContext :=
  setPropagatingTag
    (setSamplingPriority (with_origin zeroSpanContext (str "rum")) 2 samplerUnknown)
    (str "_dd.p.usr.id") (str "baz64").

(** The Datadog propagator with the default header names and a tags header of
    at most 128 bytes. *)
Definition datadogPropagator : Propagator := Concrete.propagator (defaultConfig 128).

(** A carrier whose Datadog trace id is not a number, next to a valid
    traceparent. *)
Definition corruptedDatadogCarrier : carrier :=
  Concrete.textMap
    [("x-datadog-trace-id", "abc"); ("x-datadog-parent-id", "1");
     ("traceparent", "00-00000000000000000000000000000001-0000000000000002-01")]%string.

(** Datadog headers of trace 1 with the priority -1 (the user rejected the
    trace), next to the traceparent of trace 2. *)
Definition rejectedDatadogCarrier : carrier :=
  Concrete.textMap
    [("x-datadog-trace-id", "1"); ("x-datadog-parent-id", "1");
     ("x-datadog-sampling-priority", "-1");
     ("traceparent", "00-00000000000000000000000000000002-0000000000000002-01")]%string.

(** Datadog headers of trace 1 with tags and no sampling priority, next to
    the traceparent of trace 2. *)
Definition untaggedPriorityCarrier : carrier :=
  Concrete.textMap
    [("x-datadog-trace-id", "1"); ("x-datadog-parent-id", "1");
     ("x-datadog-tags", "_dd.p.usr.id=baz64");
     ("traceparent", "00-00000000000000000000000000000002-0000000000000002-01")]%string.

(** A version-0 traceparent of 55 bytes, and the same header followed by a
    space. *)
Definition traceparent55 : gostring :=
  str "00-00000000000000001111111111111111-2222222222222222-01".
Definition traceparent56 : gostring := traceparent55 ++ str " ".

(** A traceparent whose span id is sixteen zeros. *)
Definition traceparentZeroSpan : gostring :=
  str "00-00000000000000001111111111111111-0000000000000000-01".

(** The context [parseTraceparent] leaves for a traceparent with the sampled
    flag set. *)
Definition sampledContext : SpanContext :=
  fst (Concrete.parseTraceparent (with_isRemote zeroSpanContext true) traceparent55).

(** A context of trace 1234 and span 5678 with the priority 2 and one
    baggage item, under a lower-case key and under a capitalised one. *)
Definition baggageContext (key : gostring) : SpanContext :=
  setBaggageItem
    (setSamplingPriority
       (with_spanID (with_traceID zeroSpanContext (mkTraceID 0 1234)) 5678)
       2 samplerUnknown)
    key (str "value").
Definition lowerKeyContext : SpanContext := baggageContext (str "key").
Definition capitalKeyContext : SpanContext := baggageContext (str "Key").

(** The chain that injects and extracts the Datadog format only, and the
    one for the B3 multi-header format. *)
Definition datadogChain : chainedPropagator :=
  Concrete.chain [datadogPropagator] [datadogPropagator] false.
Definition b3Chain : chainedPropagator :=
  Concrete.chain [Concrete.propagatorB3] [Concrete.propagatorB3] false.

(** The context [parseTraceparent] leaves for a traceparent without the
    sampled flag. *)
Definition unsampledContext : SpanContext :=
  fst (Concrete.parseTraceparent (with_isRemote zeroSpanContext true)
         (str "00-00000000000000001111111111111111-2222222222222222-00")).

(** The Datadog propagator in front of the baggage propagator, and the
    three default formats as extractors. *)
Definition datadogBaggageChain : chainedPropagator :=
  Concrete.chain [datadogPropagator; Concrete.propagatorBaggage]
    [datadogPropagator; Concrete.propagatorBaggage] false.
Definition defaultExtractors : chainedPropagator :=
  Concrete.chain []
    [datadogPropagator; Concrete.propagatorW3c; Concrete.propagatorBaggage] false.

(** Datadog headers under names in upper case, and under the same names in
    lower case. *)
Definition capitalHeaders : list (gostring * gostring) :=
  [(str "X-Datadog-Trace-Id", str "1"); (str "X-DATADOG-PARENT-ID", str "2")].
Definition lowerHeaders : list (gostring * gostring) :=
  [(str "x-datadog-trace-id", str "1"); (str "x-datadog-parent-id", str "2")].

(** A reader whose second header holds a trace id that is no number. *)
Definition corruptedHeaders : list (gostring * gostring) :=
  [(str "x-datadog-parent-id", str "1"); (str "X-Datadog-Trace-Id", str "abc")].

(** Datadog headers next to a baggage header. *)
Definition datadogBaggageCarrier : carrier :=
  Concrete.textMap
    [("x-datadog-trace-id", "1"); ("x-datadog-parent-id", "2");
     ("baggage", "user=alice")]%string.

(** The context an extraction returns, the empty one if there is none. *)
Definition extracted (r : option SpanContext * option error) : SpanContext :=
  default zeroSpanContext (fst r).
Definition returned (o : outcome) : SpanContext :=
  match o with
  | Returns (Some c) _ => c
  | _ => zeroSpanContext
  end.

(** Datadog headers of trace 1 and span 2 next to the traceparent of trace 1
    and span 3. *)
Definition reparentedCarrier : carrier :=
  Concrete.textMap
    [("x-datadog-trace-id", "1"); ("x-datadog-parent-id", "2");
     ("traceparent", "00-00000000000000000000000000000001-0000000000000003-01")]%string.
Definition datadogW3cChain : chainedPropagator :=
  Concrete.chain [] [datadogPropagator; Concrete.propagatorW3c] false.

(** The traceparent of trace 2 next to Datadog headers of trace 1 with the
    priority 1. *)
Definition keptDatadogCarrier : carrier :=
  Concrete.textMap
    [("x-datadog-trace-id", "1"); ("x-datadog-parent-id", "1");
     ("x-datadog-sampling-priority", "1");
     ("traceparent", "00-00000000000000000000000000000002-0000000000000002-01")]%string.
Definition w3cDatadogChain : chainedPropagator :=
  Concrete.chain [] [Concrete.propagatorW3c; datadogPropagator] false.

(** The default configuration with [B3] set, and an environment whose
    styles are [none]. *)
Definition b3Config : PropagatorConfig :=
  mkPropagatorConfig DefaultBaggageHeaderPrefix DefaultTraceIDHeader
    DefaultParentIDHeader DefaultPriorityHeader 128 true DefaultBaggageHeader.
Definition noneEnvironment : environment :=
  mkEnvironment false (str "None") (str "none") [].

(** A 128-bit trace id. *)
Definition wideTraceID : traceID_t := mkTraceID 5 6.

(** The context [lowerKeyContext] under a trace id of 128 bits, and the
    chain of the Datadog format with the propagation of tags switched
    off. *)
Definition wideContext : SpanContext := with_traceID lowerKeyContext wideTraceID.
Definition untaggedChain : chainedPropagator :=
  Concrete.chain [Concrete.propagator (defaultConfig 0)]
    [Concrete.propagator (defaultConfig 0)] false.

(** A remote context with a reparent id, whose origin and whose tag hold
    commas. *)
Definition commaContext : SpanContext :=
  with_isRemote
    (with_reparentID
       (with_origin
          (setPropagatingTag (setSamplingPriority zeroSpanContext 1 samplerUnknown)
             (str "_dd.p.usr,id") (str "a,b"))
          (str "syn,thetics"))
       (str "00000000000000ff"))
    true.

End Inputs.

(** ** Predicates the properties are stated with *)

Module Spec.
Import GoStrings Strconv Utf8 Sanitizer Url Model Tracer.

(** The runes each sanitizer lets through unchanged. *)
Definition keyOK (r : Z) : Prop :=
  32 <= r <= 126 /\ r <> code "," /\ r <> code "=".

Definition valueOK (r : Z) : Prop :=
  32 <= r <= 126 /\ r <> code "=" /\ r <> code "," /\ r <> code "~" /\ r <> code ";".

Definition originOK (r : Z) : Prop :=
  33 <= r <= 126 /\ r <> code "=" /\ r <> code "," /\ r <> code "~" /\ r <> code ";".

(** A piece of a baggage header the first loop of the extraction refuses:
    no ['='], or nothing left of the key or of the value once trimmed. *)
Definition malformedPiece (kv : gostring) : Prop :=
  let '(k, v, ok) := Cut kv "=" in
  ok = false \/ TrimSpace k = [] \/ TrimSpace v = [].

(** An outcome of the chained extraction that keeps the trace of [c]: the
    call returns a context with the trace id of [c], unless it panics. *)
Definition keepsTrace (c : SpanContext) (o : outcome) : Prop :=
  o = Panics
  \/ exists c', o = Returns (Some c') None /\ traceID c' = traceID c.

(** A lower-case hexadecimal digit, and a string of [n] of them. *)
Definition isHex (c : ascii) : Prop :=
  48 <= code c <= 57 \/ 97 <= code c <= 102.

Definition hexString (n : nat) (s : gostring) : Prop :=
  length s = n /\ Forall isHex s.

(** The header [parseTraceparent] works on: trimmed of tabs, spaces and
    dashes at both ends, then lowered. *)
Definition normalized (unicodeToLower : gostring -> gostring) (header : gostring)
  : gostring :=
  ToLower unicodeToLower (Trim header [tab; " "%char; "-"%char]).

(** The decision-maker tag of a context, if it has one. *)
Definition decisionMaker (c : SpanContext) : option gostring :=
  match trace c with
  | Some t => propagatingTags t !! keyDecisionMaker
  | None => None
  end.

(** The tag [_dd.p.tid] of a context, if it has one, and the one the
    Datadog injection of [C] leaves on it: the upper half of the trace id
    as 16 hex digits when there is one. *)
Definition tidTag (c : SpanContext) : option gostring :=
  match trace c with
  | Some t => propagatingTags t !! keyTraceID128
  | None => None
  end.

Definition upperTag (C : SpanContext) : option gostring :=
  if HasUpper (traceID C) then Some (UpperHex (traceID C)) else None.

(** The propagating tags of [C] when the Datadog injection marshals them:
    those of its trace, with the tag [_dd.p.tid] set to the upper half of
    the trace id or removed. *)
Definition injectedTags (C : SpanContext) : gmap gostring gostring :=
  let tags :=
    match trace C with Some t => propagatingTags t | None => ∅ end in
  if HasUpper (traceID C) then <[keyTraceID128 := UpperHex (traceID C)]> tags
  else delete keyTraceID128 tags.

(** A tag [marshalPropagatingTags] writes: not one of the W3C headers, and
    valid. *)
Definition propagated (isValid : gostring -> gostring -> bool)
  (kv : gostring * gostring) : bool :=
  negb (eqb_str (fst kv) tracestateHeader || eqb_str (fst kv) traceparentHeader)
  && isValid (fst kv) (snd kv).

(** The pairs [k=v] of a list of tags, separated by commas, and the bytes
    they take when each is counted with its ['='] and a [','] . *)
Definition tagPair (kv : gostring * gostring) : gostring :=
  fst kv ++ str "=" ++ snd kv.

Definition tagPairs (l : list (gostring * gostring)) : gostring :=
  match l with
  | [] => []
  | kv :: rest => tagPair kv ++ flat_map (fun kv => str "," ++ tagPair kv) rest
  end.

Definition tagsBytes (l : list (gostring * gostring)) : Z :=
  fold_right (fun kv acc => len (fst kv) + len (snd kv) + 2 + acc) 0 l.

(** What the round trip of the upper half needs of the two functions that
    are declared outside the sources: from the pairs of valid tags with
    distinct keys, the parser reads the tag [_dd.p.tid] back as it was
    written, and reads none where none was written. *)
Definition readsBack (isValid : gostring -> gostring -> bool)
  (parse : gostring -> option (gmap gostring gostring)) : Prop :=
  forall l : list (gostring * gostring),
  l <> [] -> NoDup (map fst l) ->
  Forall (fun kv => isValid (fst kv) (snd kv) = true) l ->
  exists tags,
    parse (tagPairs l) = Some tags
    /\ tags !! keyTraceID128
       = (list_to_map l : gmap gostring gostring) !! keyTraceID128.

(** A value of the tags header from which the extraction gets the tag
    [_dd.p.tid] of the injection of [C]. *)
Definition readsUpper (parse : gostring -> option (gmap gostring gostring))
  (C : SpanContext) (v : gostring) : Prop :=
  forall st,
  tidTag st = None \/ tidTag st = upperTag C ->
  tidTag (unmarshalPropagatingTags parse st v) = upperTag C.

(** An entry the Datadog injection of the context [C] may write under the
    default header names: the trace id, the parent id, the priority when
    [C] has one, the origin, the tags, or a baggage item of [C]. *)
Definition datadogEntry (parse : gostring -> option (gmap gostring gostring))
  (C : SpanContext) (k v : gostring) : Prop :=
  (k = DefaultTraceIDHeader /\ v = FormatUint (lower (traceID C)) 10)
  \/ (k = DefaultParentIDHeader /\ v = FormatUint (spanID C) 10)
  \/ (k = DefaultPriorityHeader
      /\ exists sp, SamplingPriority (Some C) = (sp, true) /\ v = Itoa sp)
  \/ k = originHeader
  \/ (k = traceTagsHeader /\ readsUpper parse C v)
  \/ (exists j, k = DefaultBaggageHeaderPrefix ++ j /\ baggage C !! j = Some v).

(** [Set(k, v)] when there is a value to write. *)
Definition setOptional (m : gmap gostring gostring) (k : gostring)
  (v : option gostring) : gmap gostring gostring :=
  match v with Some v => carrierSet m k v | None => m end.

(** What the Datadog extraction has rebuilt of [C] once it has visited the
    keys [seen]. *)
Definition rebuilt (C : SpanContext) (seen : list gostring) (st : SpanContext)
  : Prop :=
  (In DefaultTraceIDHeader seen -> lower (traceID st) = lower (traceID C))
  /\ (In DefaultParentIDHeader seen -> spanID st = spanID C)
  /\ (forall sp, SamplingPriority (Some C) = (sp, true) ->
      In DefaultPriorityHeader seen -> SamplingPriority (Some st) = (sp, true))
  /\ (snd (SamplingPriority (Some C)) = false ->
      SamplingPriority (Some st) = (0, false))
  /\ (forall j v, baggage st !! j = Some v -> baggage C !! j = Some v)
  /\ (forall j, In (DefaultBaggageHeaderPrefix ++ j) seen ->
      baggage st !! j = baggage C !! j)
  /\ upper (traceID st) = 0
  /\ (tidTag st = None \/ tidTag st = upperTag C)
  /\ (In traceTagsHeader seen -> tidTag st = upperTag C).

(** Two readers that hand over the same values under header names that
    differ in case only. *)
Definition sameHeaders (unicodeToLower : gostring -> gostring)
  (l l' : list (gostring * gostring)) : Prop :=
  Forall2 (fun a b => ToLower unicodeToLower (fst a) = ToLower unicodeToLower (fst b)
                      /\ snd a = snd b) l l'.

(** An extractor that finds nothing in the carrier [c]: a trace format
    reports [ErrSpanContextNotFound]; the baggage format returns no context
    or one without baggage. *)
Definition findsNothing (c : carrier) (v : Propagator) : Prop :=
  if isType (typeOf v) TypePropagatorBaggage
  then match fst (Extract v c) with
       | Some e => size (baggage e) = 0%nat
       | None => True
       end
  else Extract v c = (None, Some ErrSpanContextNotFound).

(** A header the handler of the Datadog extraction refuses: the trace id or
    the parent id is no 64-bit decimal, or the priority is no integer (the
    handler looks at the trace header first, then at the parent header, then
    at the priority header). *)
Definition corruptedDatadogEntry (unicodeToLower : gostring -> gostring)
  (cfg : PropagatorConfig) (k v : gostring) : Prop :=
  let key := ToLower unicodeToLower k in
  (key = TraceHeader cfg /\ parseUint64 v = None)
  \/ (key <> TraceHeader cfg /\ key = ParentHeader cfg /\ parseUint64 v = None)
  \/ (key <> TraceHeader cfg /\ key <> ParentHeader cfg
      /\ key = PriorityHeader cfg /\ Atoi v = None).

(** A header the B3 injection of the context [C] writes: the trace id, the
    span id, or the sampling decision when [C] has a priority. *)
Definition b3Entry (C : SpanContext) (k v : gostring) : Prop :=
  (k = b3TraceIDHeader /\ v = b3TraceIDString C)
  \/ (k = b3SpanIDHeader /\ v = hexPadded 16 (spanID C))
  \/ (k = b3SampledHeader
      /\ exists p, SamplingPriority (Some C) = (p, true)
                   /\ v = if PriorityAutoKeep <=? p then str "1" else str "0").

(** What B3 keeps of a sampling priority: whether it keeps the trace. *)
Definition b3Sampled (C : SpanContext) : Z * bool :=
  match SamplingPriority (Some C) with
  | (p, true) => (if PriorityAutoKeep <=? p then 1 else 0, true)
  | (_, false) => (0, false)
  end.

(** What the B3 extraction has rebuilt of [C] once it has visited the keys
    [seen]. *)
Definition b3Rebuilt (C : SpanContext) (seen : list gostring) (st : SpanContext)
  : Prop :=
  (~ In b3TraceIDHeader seen -> upper (traceID st) = 0)
  /\ (In b3TraceIDHeader seen -> traceID st = traceID C)
  /\ (In b3SpanIDHeader seen -> spanID st = spanID C)
  /\ (In b3SampledHeader seen -> SamplingPriority (Some st) = b3Sampled C)
  /\ (~ In b3SampledHeader seen -> SamplingPriority (Some st) = (0, false))
  /\ baggage st = ∅.

(** The traceparent the W3C injection writes for [C] with the given
    flags. *)
Definition traceparentOf (C : SpanContext) (flags : gostring) : gostring :=
  str "00-" ++ HexEncoded (traceID C) ++ str "-" ++ hexPadded 16 (spanID C)
  ++ str "-" ++ flags.

(** The two headers of a W3C injection, and what the handler of the W3C
    extraction has collected from them once it has visited the keys
    [seen]. *)
Definition w3cEntry (tp ts : gostring) (k v : gostring) : Prop :=
  (k = traceparentHeader /\ v = tp) \/ (k = tracestateHeader /\ v = ts).

Definition w3cCollected (tp ts : gostring) (seen : list gostring)
  (st : gostring * gostring * SpanContext) : Prop :=
  let '(parentHeader, stateHeader, ctx) := st in
  ctx = with_isRemote zeroSpanContext true
  /\ (~ In traceparentHeader seen -> parentHeader = [])
  /\ (In traceparentHeader seen -> parentHeader = tp)
  /\ (stateHeader = [] \/ stateHeader = ts).

(** The style [getPropagators] works with: the argument, or else the
    generic propagation style of the environment. *)
Definition effectiveStyle (propagationStyle ps : gostring) : gostring :=
  if (length ps =? 0)%nat then propagationStyle else ps.

(** How many B3 multi-header propagators a list holds. *)
Definition countB3 (l : list Propagator) : nat :=
  length (List.filter (fun v => isType (typeOf v) TypePropagatorB3) l).

(** A printable rune from [lo] up that is no separator of the tracestate:
    no [','], no [';'] and no ['=']. *)
Definition separatorFree (lo : Z) (r : Z) : Prop :=
  lo <= r <= 126 /\ r <> code "," /\ r <> code ";" /\ r <> code "=".

(** The members of an old tracestate that [composeTracestate] keeps behind
    its own: those that do not start with [dd=], the first 31 of them,
    each trimmed of spaces and tabs. *)
Definition foreignMembers (oldState : gostring) : list gostring :=
  map (fun s => Trim s [" "%char; tab])
    (take 31 (List.filter (fun s => negb (HasPrefix s (str "dd=")))
                (Split (Trim oldState [" "%char; tab]) ","))).

(** ASCII text that [urlEncode] and [url.QueryUnescape] carry unchanged
    under every set of safe characters: no ['%'] and no ['+'] (kept as they
    are when they are safe, and read back as an escape and as a space). *)
Definition plainByte (c : ascii) : Prop :=
  code c < 128 /\ c <> "%"%char /\ c <> "+"%char.

(** What [urlEncode] writes for one ASCII byte. *)
Definition escapeByte (safe : gostring) (c : ascii) : gostring :=
  if existsb (Z.eqb (code c)) (map code safe) then [c] else queryEscapeByte c.

(** A baggage key or value the baggage header carries unchanged: not
    empty, printable ASCII without a space, without ['%'] and ['+']. *)
Definition plainText (s : gostring) : Prop :=
  s <> []
  /\ Forall (fun c => 33 <= code c <= 126 /\ c <> "%"%char /\ c <> "+"%char) s.

(** The size of the baggage header of the given items, counted with a
    [','] and a ['='] for each. *)
Definition baggageBytes (items : list (gostring * gostring)) : Z :=
  fold_right
    (fun kv acc => len (encodeKey (fst kv)) + len (encodeValue (snd kv)) + 2 + acc)
    0 items.

(** Bytes of an encoded baggage key, and of an encoded baggage value. *)
Definition keyByte (b : ascii) : bool :=
  (33 <=? code b) && (code b <=? 126) && negb (Ascii.eqb b ",")
  && negb (Ascii.eqb b "=").
Definition valueByte (b : ascii) : bool :=
  (33 <=? code b) && (code b <=? 126) && negb (Ascii.eqb b ",").

(** The piece of the baggage header for one item. *)
Definition baggagePiece (kv : gostring * gostring) : gostring :=
  encodeKey (fst kv) ++ str "=" ++ encodeValue (snd kv).

(** The priority [p] as the float64 of the trace holds it and
    [SamplingPriority] reads it back: [p] itself up to [2^53] in
    magnitude. *)
Definition heldPriority (p : Z) : Z := int_of_float64 (float64_of_int p).

(** The value of a member of the [dd=] list whose key starts with [t.dm],
    and the first such value of a list of members. *)
Definition dmOf (member : gostring) : option gostring :=
  match SplitN member ":" 2 with
  | [key; val] => if HasPrefix key (str "t.dm") then Some val else None
  | _ => None
  end.

Fixpoint firstDM (members : list gostring) : option gostring :=
  match members with
  | [] => None
  | m :: rest =>
      match dmOf m with
      | Some v => Some v
      | None => firstDM rest
      end
  end.

(** The decision maker behind a run of members that hold no [s:]: the one
    there was, or else, unless [dropDM] is set, the first one of the
    members. *)
Definition dmBehind (dm : option gostring) (dropDM : bool)
  (members : list gostring) : option gostring :=
  match dm with
  | Some d => Some d
  | None => if dropDM then None else firstDM members
  end.

End Spec.

(** * Properties *)

(** ** Bytes, runes and numbers *)

Module BasicFacts.
Import GoStrings Strconv Utf8.

Lemma code_range (c : ascii) : 0 <= code c < 256.
Proof.
  unfold code. pose proof (N_ascii_bounded c) as H. lia.
Qed.

Lemma code_byte_of (z : Z) : 0 <= z < 256 -> code (byte_of z) = z.
Proof.
  intros H. unfold code, byte_of.
  rewrite N_ascii_embedding by lia. lia.
Qed.

Lemma byte_of_code (c : ascii) : byte_of (code c) = c.
Proof.
  unfold code, byte_of. rewrite N2Z.id. apply ascii_N_embedding.
Qed.

Lemma code_inj (a b : ascii) : code a = code b -> a = b.
Proof.
  intros H. rewrite <- (byte_of_code a), <- (byte_of_code b). now rewrite H.
Qed.

(** A rune decoded from a string is its first byte when that byte is ASCII,
    and is not ASCII otherwise. *)
Lemma decodeRune_cases (b0 : ascii) (rest : gostring) (r : Z) (w : nat) :
  decodeRune b0 rest = (r, w) ->
  (r = code b0 /\ code b0 < 128 /\ w = 1%nat) \/ 128 <= r.
Proof.
  unfold decodeRune, RuneError, between.
  pose proof (code_range b0) as Hb0.
  repeat match goal with
  | |- context [if ?c then _ else _] => destruct c eqn:?
  | |- context [match ?l with [] => _ | _ :: _ => _ end] => destruct l
  end;
  intros [= <- <-]; try (right; lia); try (left; lia).
  all: right;
    repeat match goal with
    | H : _ && _ = true |- _ => apply andb_true_iff in H; destruct H
    | H : _ || _ = false |- _ => apply orb_false_iff in H; destruct H
    | H : (_ <? _) = true |- _ => apply Z.ltb_lt in H
    | H : (_ <? _) = false |- _ => apply Z.ltb_ge in H
    | H : (_ <=? _) = true |- _ => apply Z.leb_le in H
    | H : (_ =? _) = true |- _ => apply Z.eqb_eq in H
    | H : (_ =? _) = false |- _ => apply Z.eqb_neq in H
    end;
    Z.div_mod_to_equations; lia.
Qed.

Lemma decodeRune_ascii (b0 : ascii) (rest : gostring) :
  code b0 < 128 -> decodeRune b0 rest = (code b0, 1%nat).
Proof.
  intros H. unfold decodeRune.
  destruct (code b0 <? 128) eqn:E; [reflexivity | apply Z.ltb_ge in E; lia].
Qed.

(** The runes of an ASCII string are its bytes. *)
Lemma runes_go_ascii (s : gostring) :
  forall fuel, (length s <= fuel)%nat ->
  Forall (fun b => code b < 128) s -> runes_go fuel s = map code s.
Proof.
  induction s as [|b s IH]; intros fuel Hlen Hs.
  - destruct fuel; reflexivity.
  - destruct fuel as [|fuel]; [simpl in Hlen; lia|].
    inversion Hs as [|? ? Hb Hs']; subst.
    simpl. rewrite decodeRune_ascii by assumption. simpl.
    rewrite drop_0. f_equal. apply IH; [simpl in Hlen; lia | assumption].
Qed.

Lemma runes_ascii (s : gostring) :
  Forall (fun b => code b < 128) s -> runes s = map code s.
Proof.
  intros H. apply runes_go_ascii; [lia | assumption].
Qed.

Lemma encodeRune_ascii (r : Z) : 0 <= r < 128 -> encodeRune r = [byte_of r].
Proof.
  intros H. unfold encodeRune.
  destruct ((0 <=? r) && (r <? 128)) eqn:E; [reflexivity|].
  apply andb_false_iff in E as [E|E];
    [apply Z.leb_gt in E | apply Z.ltb_ge in E]; lia.
Qed.

(** The encoding of ASCII runes, rune by rune. *)
Lemma encode_ascii_runes (rs : list Z) :
  Forall (fun r => 0 <= r < 128) rs ->
  flat_map encodeRune rs = map byte_of rs.
Proof.
  induction 1 as [|r rs Hr _ IH]; [reflexivity|].
  simpl. rewrite encodeRune_ascii by assumption. simpl. now rewrite IH.
Qed.

Lemma runes_encode_ascii (rs : list Z) :
  Forall (fun r => 0 <= r < 128) rs ->
  runes (flat_map encodeRune rs) = rs.
Proof.
  intros H. rewrite encode_ascii_runes by assumption.
  rewrite runes_ascii.
  - rewrite map_map. rewrite <- (map_id rs) at 2.
    apply map_ext_in. intros r Hr.
    rewrite Forall_forall in H. apply code_byte_of.
    specialize (H r (proj2 (list_elem_of_In _ _) Hr)). lia.
  - apply Forall_map. eapply Forall_impl; [exact H|].
    intros r Hr. cbv beta in Hr. rewrite code_byte_of; lia.
Qed.

(** A rune of a string that is an ASCII rune is a byte of the string. *)
Lemma runes_go_ascii_in (fuel : nat) :
  forall (s : gostring) (r : Z),
  In r (runes_go fuel s) -> r < 128 -> exists b, In b s /\ code b = r.
Proof.
  induction fuel as [|fuel IH]; intros s r Hin Hr; [destruct s; contradiction|].
  destruct s as [|b0 rest]; [contradiction|].
  simpl in Hin. destruct (decodeRune b0 rest) as [r0 w] eqn:Hd.
  destruct Hin as [<- | Hin].
  - apply decodeRune_cases in Hd as [(-> & _ & _) | Hd]; [|lia].
    exists b0. split; [now left | reflexivity].
  - destruct (IH _ _ Hin Hr) as (b & Hb & Hc).
    exists b. split; [right | exact Hc].
    rewrite <- (take_drop (w - 1) rest). apply in_or_app. now right.
Qed.

End BasicFacts.

(** ** The sanitizers *)

Module SanitizerFacts.
Import GoStrings Strconv Utf8 Sanitizer Spec BasicFacts.

Section Fixpoints.

Variable fn : Z -> Z * bool.

(** The runes a mapping function lets through unchanged. *)
Variable ok : Z -> Prop.
Hypothesis ok_ascii : forall r, ok r -> 0 <= r < 128.
Hypothesis ok_fn : forall r, ok r -> fn r = (r, false).

Lemma mapRunes_ok (rs : list Z) :
  forall n, Forall ok rs -> mapRunes fn n rs = rs.
Proof.
  induction rs as [|r rs IH]; intros n H; [reflexivity|].
  inversion H as [|? ? Hr Hrs]; subst.
  simpl. unfold mapping. rewrite (ok_fn r Hr).
  pose proof (ok_ascii r Hr) as Hb.
  destruct (r <? 0) eqn:E; [apply Z.ltb_lt in E; lia|].
  destruct (0 <=? r) eqn:E'; [|apply Z.leb_gt in E'; lia].
  simpl. f_equal. now apply IH.
Qed.

(** A string written from runes that pass unchanged is a fixed point of the
    sanitizer. *)
Lemma Mutate_ok (rs : list Z) :
  Forall ok rs -> Mutate fn (flat_map encodeRune rs) = flat_map encodeRune rs.
Proof.
  intros H. unfold Mutate.
  rewrite runes_encode_ascii.
  - now rewrite mapRunes_ok.
  - eapply Forall_impl; [exact H | exact ok_ascii].
Qed.

End Fixpoints.

Ltac bools :=
  repeat match goal with
  | H : _ && _ = true |- _ => apply andb_true_iff in H; destruct H
  | H : _ || _ = false |- _ => apply orb_false_iff in H; destruct H
  | H : _ || _ = true |- _ => apply orb_true_iff in H
  | H : (_ <? _) = true |- _ => apply Z.ltb_lt in H
  | H : (_ <? _) = false |- _ => apply Z.ltb_ge in H
  | H : (_ <=? _) = true |- _ => apply Z.leb_le in H
  | H : (_ <=? _) = false |- _ => apply Z.leb_gt in H
  | H : (_ =? _) = true |- _ => apply Z.eqb_eq in H
  | H : (_ =? _) = false |- _ => apply Z.eqb_neq in H
  end.

Ltac codes := change (code ",") with 44 in *; change (code "=") with 61 in *;
  change (code "_") with 95 in *; change (code "~") with 126 in *;
  change (code ";") with 59 in *.

Lemma keyOK_fn (r : Z) : keyOK r -> keyDisallowedFn r = (r, false).
Proof.
  unfold keyOK, keyDisallowedFn. codes. intros (H1 & H2 & H3).
  destruct ((r =? 44) || (r =? 61)) eqn:E1; [bools; lia|].
  destruct ((r <? 32) || (126 <? r)) eqn:E2; [bools; lia|]. reflexivity.
Qed.

Lemma valueOK_fn (r : Z) : valueOK r -> valueDisallowedFn r = (r, false).
Proof.
  unfold valueOK, valueDisallowedFn. codes. intros (H1 & H2 & H3 & H4 & H5).
  destruct (r =? 61) eqn:E0; [bools; lia|].
  destruct ((r =? 44) || (r =? 126) || (r =? 59)) eqn:E1; [bools; lia|].
  destruct ((r <? 32) || (126 <? r)) eqn:E2; [bools; lia|]. reflexivity.
Qed.

Lemma originOK_fn (r : Z) : originOK r -> originDisallowedFn r = (r, false).
Proof.
  unfold originOK, originDisallowedFn. codes. intros (H1 & H2 & H3 & H4 & H5).
  destruct (r =? 61) eqn:E0; [bools; lia|].
  destruct ((r =? 44) || (r =? 126) || (r =? 59)) eqn:E1; [bools; lia|].
  destruct ((r <? 33) || (126 <? r)) eqn:E2; [bools; lia|]. reflexivity.
Qed.

(** Whatever the key sanitizer writes passes it unchanged. *)
Lemma key_output (rs : list Z) :
  forall n, Forall keyOK (mapRunes keyDisallowedFn n rs).
Proof.
  induction rs as [|r rs IH]; intros n; [constructor|].
  simpl. unfold mapping, keyDisallowedFn. codes.
  destruct ((r =? 44) || (r =? 61)) eqn:E1; simpl.
  - constructor; [unfold keyOK; codes; lia | apply IH].
  - destruct ((r <? 32) || (126 <? r)) eqn:E2; simpl.
    + destruct n; simpl; [apply IH|].
      constructor; [unfold keyOK; codes; lia | apply IH].
    + bools. destruct (r <? 0) eqn:E3; [bools; lia|].
      destruct (0 <=? r) eqn:E4; [|bools; lia].
      simpl. constructor; [unfold keyOK; codes; lia | apply IH].
Qed.

(** Without the rune ['='] in the input, whatever the value sanitizer writes
    passes it unchanged. *)
Lemma value_output (rs : list Z) :
  forall n, Forall (fun r => r <> code "=") rs ->
  Forall valueOK (mapRunes valueDisallowedFn n rs).
Proof.
  induction rs as [|r rs IH]; intros n H; [constructor|].
  inversion H as [|? ? Hr Hrs]; subst.
  simpl. unfold mapping, valueDisallowedFn. codes.
  destruct (r =? 61) eqn:E0; [bools; lia|].
  destruct ((r =? 44) || (r =? 126) || (r =? 59)) eqn:E1; simpl.
  - constructor; [unfold valueOK; codes; lia | now apply IH].
  - destruct ((r <? 32) || (126 <? r)) eqn:E2; simpl.
    + destruct n; simpl; [now apply IH|].
      constructor; [unfold valueOK; codes; lia | now apply IH].
    + bools. destruct (r <? 0) eqn:E3; [bools; lia|].
      destruct (0 <=? r) eqn:E4; [|bools; lia].
      simpl. constructor; [unfold valueOK; codes; lia | now apply IH].
Qed.

Lemma origin_output (rs : list Z) :
  forall n, Forall (fun r => r <> code "=") rs ->
  Forall originOK (mapRunes originDisallowedFn n rs).
Proof.
  induction rs as [|r rs IH]; intros n H; [constructor|].
  inversion H as [|? ? Hr Hrs]; subst.
  simpl. unfold mapping, originDisallowedFn. codes.
  destruct (r =? 61) eqn:E0; [bools; lia|].
  destruct ((r =? 44) || (r =? 126) || (r =? 59)) eqn:E1; simpl.
  - constructor; [unfold originOK; codes; lia | now apply IH].
  - destruct ((r <? 33) || (126 <? r)) eqn:E2; simpl.
    + destruct n; simpl; [now apply IH|].
      constructor; [unfold originOK; codes; lia | now apply IH].
    + bools. destruct (r <? 0) eqn:E3; [bools; lia|].
      destruct (0 <=? r) eqn:E4; [|bools; lia].
      simpl. constructor; [unfold originOK; codes; lia | now apply IH].
Qed.

(** A string without the byte ['='] has no rune ['=']. *)
Lemma runes_no_equals (s : gostring) :
  ~ In "="%char s -> Forall (fun r => r <> code "=") (runes s).
Proof.
  intros Hs. apply Forall_forall. intros r Hr Heq.
  apply list_elem_of_In in Hr.
  destruct (runes_go_ascii_in _ _ _ Hr) as (b & Hb & Hc).
  - rewrite Heq. codes. lia.
  - apply Hs. replace "="%char with b; [exact Hb|].
    apply code_inj. now rewrite Hc.
Qed.

Lemma key_idempotent (s : gostring) :
  Mutate keyDisallowedFn (Mutate keyDisallowedFn s) = Mutate keyDisallowedFn s.
Proof.
  unfold Mutate at 2 3.
  apply (Mutate_ok keyDisallowedFn keyOK).
  - unfold keyOK. intros r H. lia.
  - exact keyOK_fn.
  - apply key_output.
Qed.

Lemma value_idempotent (s : gostring) :
  ~ In "="%char s ->
  Mutate valueDisallowedFn (Mutate valueDisallowedFn s) = Mutate valueDisallowedFn s.
Proof.
  intros Hs. unfold Mutate at 2 3.
  apply (Mutate_ok valueDisallowedFn valueOK).
  - unfold valueOK. intros r H. lia.
  - exact valueOK_fn.
  - apply value_output, runes_no_equals, Hs.
Qed.

Lemma origin_idempotent (s : gostring) :
  ~ In "="%char s ->
  Mutate originDisallowedFn (Mutate originDisallowedFn s) = Mutate originDisallowedFn s.
Proof.
  intros Hs. unfold Mutate at 2 3.
  apply (Mutate_ok originDisallowedFn originOK).
  - unfold originOK. intros r H. lia.
  - exact originOK_fn.
  - apply origin_output, runes_no_equals, Hs.
Qed.

(** C7, as stated, fails: the value sanitizer writes ['~'] for ['='] and
    ['_'] for ['~'], so a second pass over its output for ["="] changes
    it. *)
Lemma value_sanitizer_not_idempotent :
  Mutate valueDisallowedFn (Mutate valueDisallowedFn (str "="))
  <> Mutate valueDisallowedFn (str "=").
Proof.
  vm_compute. discriminate.
Qed.

(** C7 (amended): the key sanitizer is idempotent on every string; the value
    and the origin sanitizers are idempotent on every string that holds no
    ['=']. *)
Theorem sanitizers_idempotent (s : gostring) :
  Mutate keyDisallowedFn (Mutate keyDisallowedFn s) = Mutate keyDisallowedFn s
  /\ (~ In "="%char s ->
      Mutate valueDisallowedFn (Mutate valueDisallowedFn s)
      = Mutate valueDisallowedFn s
      /\ Mutate originDisallowedFn (Mutate originDisallowedFn s)
         = Mutate originDisallowedFn s).
Proof.
  split; [apply key_idempotent|].
  intros Hs. split; [now apply value_idempotent | now apply origin_idempotent].
Qed.

Lemma sanitizers_idempotent_witness :
  ~ In "="%char (str "a,b;c~d e") /\
  Mutate valueDisallowedFn (Mutate valueDisallowedFn (str "a,b;c~d e"))
  = Mutate valueDisallowedFn (str "a,b;c~d e").
Proof.
  assert (H : ~ In "="%char (str "a,b;c~d e")).
  { vm_compute. intros H. repeat (destruct H as [H|H]; [discriminate H|]). exact H. }
  split; [exact H|].
  exact (proj1 (proj2 (sanitizers_idempotent (str "a,b;c~d e")) H)).
Defined.

End SanitizerFacts.

(** ** The propagators *)

Module TracerFacts.
Import GoStrings Strconv Utf8 Sanitizer Url Model Tracer Spec BasicFacts Inputs.

Ltac hex_digits :=
  repeat (apply List.Forall_cons;
          [unfold isHex; vm_compute;
           first [left; split; discriminate | right; split; discriminate]|]);
  apply List.Forall_nil.

Ltac hex_literal := split; [reflexivity | hex_digits].

Section Facts.

Variable unicodeToLower : gostring -> gostring.
Variable rangeMap : gmap gostring gostring -> list (gostring * gostring).
Variable isValidPropagatableTag : gostring -> gostring -> bool.
Variable parsePropagatableTraceTags : gostring -> option (gmap gostring gostring).

(** *** The size of the [dd=] member *)

Lemma len_app (a b : gostring) : len (a ++ b) = len a + len b.
Proof.
  unfold len. rewrite length_app. lia.
Qed.

(** A tag is appended only when the builder stays within 256 bytes. *)
Lemma appendTags_bound (tags : list (gostring * gostring)) :
  forall b, len b <= 256 -> len (appendTags b tags) <= 256.
Proof.
  induction tags as [|[k v] tags IH]; intros b Hb; [exact Hb|].
  cbn [appendTags].
  destruct (negb (HasPrefix k (str "_dd.p."))); [now apply IH|].
  match goal with |- context [if ?c then _ else _] => destruct c eqn:E end;
    [exact Hb|].
  apply IH. apply Z.ltb_ge in E.
  rewrite !len_app. change (len (str ";t.")) with 3.
  change (len (str ":")) with 1. lia.
Qed.

(** A builder that is beyond 256 bytes takes no tag. *)
Lemma appendTags_full (tags : list (gostring * gostring)) (b : gostring) :
  256 < len b -> appendTags b tags = b.
Proof.
  intros Hb. induction tags as [|[k v] tags IH]; [reflexivity|].
  cbn [appendTags].
  destruct (negb (HasPrefix k (str "_dd.p."))); [exact IH|].
  match goal with |- context [if ?c then _ else _] => destruct c eqn:E end;
    [reflexivity|].
  apply Z.ltb_ge in E. unfold len in *. lia.
Qed.

(** The old state only adds members behind the builder. *)
Lemma appendVendors_prefix (states : list gostring) :
  forall b n, exists rest,
    appendVendors b n states = b ++ rest
    /\ (rest = [] \/ exists r, rest = ","%char :: r).
Proof.
  induction states as [|s states IH]; intros b n.
  - exists []. split; [now rewrite app_nil_r | now left].
  - cbn [appendVendors]. destruct (HasPrefix s (str "dd=")); [apply IH|].
    destruct (32 <? n + 1).
    + exists []. split; [now rewrite app_nil_r | now left].
    + destruct (IH (b ++ str "," ++ Trim s [" "%char; tab]) (n + 1))
        as (rest & -> & _).
      exists (str "," ++ Trim s [" "%char; tab] ++ rest). split.
      * now rewrite <- !app_assoc.
      * right. eexists. reflexivity.
Qed.

(** On a context with a trace [composeTracestate] returns the [dd=] member
    followed by nothing or by a comma and the other vendors; on a context
    without one it panics. *)
Lemma composeTracestate_shape (ctx : SpanContext) (priority : Z)
  (oldState : gostring) :
  match trace ctx with
  | None => composeTracestate rangeMap ctx priority oldState = Panicked
  | Some t =>
      exists rest,
        composeTracestate rangeMap ctx priority oldState
        = Returned (composeDD rangeMap ctx t priority ++ rest)
        /\ (rest = [] \/ exists r, rest = ","%char :: r)
  end.
Proof.
  unfold composeTracestate. destruct (trace ctx) as [t|]; [|reflexivity].
  destruct (length oldState =? 0)%nat.
  - exists []. split; [now rewrite app_nil_r | now left].
  - destruct (appendVendors_prefix (Split (Trim oldState [" "%char; tab]) ",")
                (composeDD rangeMap ctx t priority) 1) as (rest & Heq & Hrest).
    exists rest. split; [now rewrite Heq | exact Hrest].
Qed.

(** X25: The tag loop keeps the bound: the [dd=] member, counted with its [dd=],
    is at most 256 bytes long whenever its head ([dd=s:<priority>], the
    origin and the parent id) is, since a tag is appended only while the
    member stays within 256 bytes. *)
Theorem composeTracestate_dd_bound (ctx : SpanContext) (t : trace_t)
  (priority : Z) (oldState : gostring) :
  trace ctx = Some t ->
  len (composeHead ctx priority) <= 256 ->
  exists rest,
    composeTracestate rangeMap ctx priority oldState
    = Returned (composeDD rangeMap ctx t priority ++ rest)
    /\ (rest = [] \/ exists r, rest = ","%char :: r)
    /\ len (composeDD rangeMap ctx t priority) <= 256.
Proof.
  intros Ht Hhead.
  pose proof (composeTracestate_shape ctx priority oldState) as Hs.
  rewrite Ht in Hs. destruct Hs as (rest & Heq & Hrest).
  exists rest. split; [exact Heq | split; [exact Hrest|]].
  now apply appendTags_bound.
Qed.

(** Nothing checks the head: when the head is beyond 256 bytes, the [dd=]
    member is the head as it is, whatever the tags are. *)
Lemma composeTracestate_head_unchecked (ctx : SpanContext) (t : trace_t)
  (priority : Z) (oldState : gostring) :
  trace ctx = Some t ->
  256 < len (composeHead ctx priority) ->
  exists rest,
    composeTracestate rangeMap ctx priority oldState
    = Returned (composeHead ctx priority ++ rest)
    /\ (rest = [] \/ exists r, rest = ","%char :: r).
Proof.
  intros Ht Hhead.
  pose proof (composeTracestate_shape ctx priority oldState) as Hs.
  rewrite Ht in Hs. destruct Hs as (rest & Heq & Hrest).
  exists rest. split; [|exact Hrest].
  rewrite Heq. unfold composeDD. now rewrite appendTags_full.
Qed.


(** *** The baggage header *)

Lemma baggageHandler_no_error (reader : list (gostring * gostring)) :
  forall h, snd (ForeachKey (baggageHandler unicodeToLower) reader h) = None.
Proof.
  induction reader as [|[k v] reader IH]; intros h; [reflexivity|].
  cbn [ForeachKey]. unfold baggageHandler at 1.
  destruct (eqb_str _ _); apply IH.
Qed.

Lemma length_eqb_nil (s : gostring) : (length s =? 0)%nat = true <-> s = [].
Proof.
  rewrite Nat.eqb_eq. destruct s; simpl; split; intros H; try reflexivity;
    discriminate H.
Qed.

Lemma validateBaggage_malformed (parts : list gostring) :
  Exists malformedPiece parts -> validateBaggage parts = None.
Proof.
  induction 1 as [kv parts H | kv parts _ IH].
  - cbn [validateBaggage]. unfold malformedPiece in H.
    destruct (Cut kv "=") as [[k v] ok].
    destruct H as [-> | [H | H]]; [reflexivity | |];
      rewrite H; cbn [length Nat.eqb]; now rewrite ?orb_true_r.
  - cbn [validateBaggage]. destruct (Cut kv "=") as [[k v] ok].
    rewrite IH. now destruct (_ || _).
Qed.

(** C9: when a comma-separated piece of the baggage header the extractor
    reads has no ['='], or an empty key or value once trimmed, the
    extraction returns the empty context, which carries no baggage, and no
    error. *)
Theorem baggage_malformed_discarded (reader : list (gostring * gostring)) :
  Exists malformedPiece
    (Split (fst (ForeachKey (baggageHandler unicodeToLower) reader [])) ",") ->
  baggage_extractTextMap unicodeToLower reader = (Some zeroSpanContext, None)
  /\ baggage zeroSpanContext = ∅.
Proof.
  intros H. split; [|reflexivity].
  unfold baggage_extractTextMap.
  pose proof (baggageHandler_no_error reader []) as Hnone.
  destruct (ForeachKey (baggageHandler unicodeToLower) reader []) as [h e].
  cbn [fst snd] in *. subst e.
  destruct (length h =? 0)%nat; [reflexivity|].
  now rewrite (validateBaggage_malformed _ H).
Qed.

(** *** More than one traceparent entry *)

Lemma ForeachKey_app {S : Type}
  (handler : S -> gostring -> gostring -> S * option error)
  (l1 l2 : list (gostring * gostring)) :
  forall st,
  ForeachKey handler (l1 ++ l2) st =
  match ForeachKey handler l1 st with
  | (st', None) => ForeachKey handler l2 st'
  | (st', Some e) => (st', Some e)
  end.
Proof.
  induction l1 as [|[k v] l1 IH]; intros st; [reflexivity|].
  cbn [ForeachKey app]. destruct (handler st k v) as [st' [e|]]; [reflexivity|].
  apply IH.
Qed.




(** *** The chained extraction *)

(** [propagateTracestate] creates the trace of the context before it
    composes the tracestate: it never panics, and it keeps the trace id. *)
Lemma propagateTracestate_returns (ctx : SpanContext) (w : option SpanContext) :
  exists ctx',
    propagateTracestate rangeMap ctx w = Returned ctx'
    /\ traceID ctx' = traceID ctx.
Proof.
  unfold propagateTracestate. destruct w as [w|]; [|now exists ctx].
  destruct (negb _); [now exists ctx|].
  destruct (trace w); [|now exists ctx].
  unfold composeTracestate. cbn [trace with_trace].
  destruct (length _ =? 0)%nat; eexists; (split; [reflexivity|reflexivity]).
Qed.

Lemma overrideDatadogParentID_traceID (ctx : SpanContext)
  (w d : option SpanContext) :
  traceID (overrideDatadogParentID ctx w d) = traceID ctx.
Proof.
  unfold overrideDatadogParentID. destruct w, d; try reflexivity.
  now destruct (negb _).
Qed.

Lemma finishExtract_keepsTrace (ctx : SpanContext) (links : list SpanLink.t)
  (pb : gmap gostring gostring) :
  keepsTrace ctx (finishExtract (Some ctx) links pb).
Proof.
  right. unfold finishExtract. eexists. split; [reflexivity|].
  destruct (0 <? size pb)%nat, (0 <? length links)%nat; reflexivity.
Qed.

(** Once a context has been extracted, the rest of the chain never replaces
    it by a context of another trace. *)
Lemma extractLoop_keepsTrace (p : chainedPropagator) (c : carrier)
  (exts : list Propagator) :
  forall ctx links pb,
  keepsTrace ctx (extractLoop rangeMap p c exts (Some ctx) links pb).
Proof.
  induction exts as [|v exts IH]; intros ctx links pb.
  - apply finishExtract_keepsTrace.
  - cbn [extractLoop]. destruct (Extract v c) as [e err].
    destruct (isType (typeOf v) TypePropagatorBaggage); [apply IH|].
    destruct (eqb_traceID (TraceID e) (TraceID (Some ctx))).
    + destruct (isType (typeOf v) TypePropagatorW3c); [|apply IH].
      destruct (propagateTracestate_returns ctx e) as (ctx1 & -> & Hctx1).
      match goal with
      | |- keepsTrace _ (extractLoop _ _ _ _ (Some ?c') _ _) =>
          assert (Hc : traceID c' = traceID ctx)
      end.
      { destruct (negb _).
        - now rewrite overrideDatadogParentID_traceID.
        - exact Hctx1. }
      match goal with
      | |- keepsTrace _ (extractLoop _ _ _ _ (Some ?c') _ _) =>
          destruct (IH c' links pb) as [H | (c'' & H & Ht)]
      end.
      * now left.
      * right. exists c''. split; [exact H | congruence].
    + destruct e as [e|]; [|apply IH].
      destruct (makeLink v e); [apply IH | now left].
Qed.

(** C2: with no context extracted yet, an extractor other than the baggage
    one decides as follows.  With extract-first off, an error other than
    [ErrSpanContextNotFound] is returned as the result of the whole
    extraction; [ErrSpanContextNotFound] is dropped and the chain goes on
    with the next extractor; an extracted context becomes the current one,
    the chain goes on with it, and the extraction returns a context of its
    trace (unless it panics).  With extract-first on, the error of the
    extractor, or else its context, is returned at once. *)
Theorem chained_first_extract (p : chainedPropagator) (c : carrier)
  (v : Propagator) (rest : list Propagator) (links : list SpanLink.t)
  (pb : gmap gostring gostring) :
  isType (typeOf v) TypePropagatorBaggage = false ->
  (onlyExtractFirst p = false ->
   (forall ctx e, Extract v c = (ctx, Some e) -> e <> ErrSpanContextNotFound ->
      extractLoop rangeMap p c (v :: rest) None links pb = Returns None (Some e))
   /\ (forall ctx, Extract v c = (ctx, Some ErrSpanContextNotFound) ->
         extractLoop rangeMap p c (v :: rest) None links pb
         = extractLoop rangeMap p c rest ctx links pb)
   /\ (forall ctx, Extract v c = (Some ctx, None) ->
         extractLoop rangeMap p c (v :: rest) None links pb
         = extractLoop rangeMap p c rest (Some ctx) links pb
         /\ keepsTrace ctx (extractLoop rangeMap p c (v :: rest) None links pb)))
  /\ (onlyExtractFirst p = true ->
      forall ctx err, Extract v c = (ctx, err) ->
        extractLoop rangeMap p c (v :: rest) None links pb
        = match err with
          | Some e => Returns None (Some e)
          | None => Returns ctx None
          end).
Proof.
  intros Hv. split.
  - intros Hfirst. repeat split.
    + intros ctx e He Hne. cbn [extractLoop]. rewrite He, Hv, Hfirst.
      destruct e; try reflexivity. contradiction.
    + intros ctx He. cbn [extractLoop]. now rewrite He, Hv, Hfirst.
    + cbn [extractLoop]. now rewrite H, Hv, Hfirst.
    + cbn [extractLoop]. rewrite H, Hv, Hfirst. apply extractLoop_keepsTrace.
  - intros Hfirst ctx err He. cbn [extractLoop]. rewrite He, Hv, Hfirst.
    now destruct err.
Qed.

(** *** Span links *)

(** For a priority within the range of [uint32] the link has the fields the
    specification lists: the halves of the trace id, the span id, the flag 1
    exactly for a positive priority, the tracestate tag and the two
    attributes. *)
Lemma makeLink_in_range (v : Propagator) (e : SpanContext) (t : trace_t) (p : Z) :
  trace e = Some t -> priority t = Some p -> 0 <= p < 2 ^ 32 ->
  makeLink v e =
  Some (SpanLink.mk (lower (traceID e)) (upper (traceID e)) (spanID e)
          (<[str "context_headers" := getPropagatorName v]>
             (<[str "reason" := str "terminated_context"]> ∅))
          (propagatingTag t tracestateHeader)
          (if 0 <? p then 1 else 0)).
Proof.
  intros Ht Hp Hr. unfold makeLink. rewrite Ht, Hp.
  unfold uint32_of_float64. rewrite Z.mod_small by exact Hr. reflexivity.
Qed.

(** *** The traceparent header *)

Lemma isHex_range (c : ascii) : isHex c -> 48 <= code c <= 102.
Proof.
  unfold isHex. lia.
Qed.

Lemma hex_ascii (s : gostring) :
  Forall isHex s -> Forall (fun b => code b < 128) s.
Proof.
  intros H. eapply Forall_impl; [exact H|]. intros c Hc.
  apply isHex_range in Hc. lia.
Qed.

Lemma isValidID_hex (s : gostring) :
  Forall isHex s -> s <> [] -> isValidID s = true.
Proof.
  intros H Hne. unfold isValidID.
  destruct s as [|c s]; [contradiction|]. cbn [length Nat.eqb negb andb].
  rewrite runes_ascii by (now apply hex_ascii).
  apply forallb_forall. intros r Hr. apply in_map_iff in Hr as (b & <- & Hb).
  rewrite Forall_forall in H. specialize (H b (proj2 (list_elem_of_In _ _) Hb)).
  unfold isHex in H.
  destruct (code b <? 48) eqn:E1, (102 <? code b) eqn:E2,
    (57 <? code b) eqn:E3, (code b <? 97) eqn:E4; try reflexivity;
    repeat match goal with
    | H : (_ <? _) = true |- _ => apply Z.ltb_lt in H
    | H : (_ <? _) = false |- _ => apply Z.ltb_ge in H
    end; lia.
Qed.

(** A hex digit belongs to no cutset of the parser and is no separator. *)
Lemma hex_not_in_cutset (c : ascii) : isHex c -> inCutset nonWordCutset c = false.
Proof.
  intros H. unfold inCutset, nonWordCutset. cbn [existsb].
  repeat match goal with
  | |- context [Ascii.eqb c ?d] =>
      destruct (Ascii.eqb_spec c d) as [->|_];
        [exfalso; vm_compute in H; intuition lia|]
  end. reflexivity.
Qed.

Lemma hex_not_dash (c : ascii) : isHex c -> Ascii.eqb c "-" = false.
Proof.
  intros H. destruct (Ascii.eqb_spec c "-") as [->|_]; [|reflexivity].
  exfalso. vm_compute in H. intuition lia.
Qed.

Lemma TrimLeft_head (s cutset : gostring) :
  match s with [] => True | c :: _ => inCutset cutset c = false end ->
  TrimLeft s cutset = s.
Proof.
  destruct s as [|c s]; [reflexivity|]. intros H. cbn [TrimLeft]. now rewrite H.
Qed.

Lemma Trim_hex (s : gostring) : Forall isHex s -> Trim s nonWordCutset = s.
Proof.
  intros H. unfold Trim, TrimRight.
  rewrite (TrimLeft_head s).
  - rewrite TrimLeft_head; [apply rev_involutive|].
    destruct (rev s) as [|c r] eqn:E; [exact I|].
    apply hex_not_in_cutset. rewrite Forall_forall in H. apply H.
    apply list_elem_of_In, in_rev. rewrite E. now left.
  - destruct H as [|c s Hc _]; [exact I | now apply hex_not_in_cutset].
Qed.

(** Splitting in front of a separator that the first piece does not hold. *)
Lemma splitN_go_piece (sep : ascii) (a : gostring) :
  Forall (fun c => Ascii.eqb c sep = false) a ->
  forall n cur rest,
  splitN_go sep (S (S n)) cur (a ++ sep :: rest)
  = (rev cur ++ a) :: splitN_go sep (S n) [] rest.
Proof.
  induction 1 as [|c a Hc _ IH]; intros n cur rest.
  - cbn [app splitN_go]. rewrite Ascii.eqb_refl. now rewrite app_nil_r.
  - cbn [app splitN_go]. rewrite Hc. rewrite IH. cbn [rev].
    now rewrite <- app_assoc.
Qed.

Lemma hex_no_dash (s : gostring) :
  Forall isHex s -> Forall (fun c => Ascii.eqb c "-" = false) s.
Proof.
  intros H. eapply Forall_impl; [exact H | exact hex_not_dash].
Qed.

(** The fields of a header made of a version, a trace id and a span id of
    hex digits, followed by anything. *)
Lemma SplitN_traceparent (ver tid sid rest : gostring) :
  Forall isHex ver -> Forall isHex tid -> Forall isHex sid ->
  SplitN (ver ++ str "-" ++ tid ++ str "-" ++ sid ++ str "-" ++ rest) "-" 5
  = ver :: tid :: sid :: splitN_go "-" 2 [] rest.
Proof.
  intros Hv Ht Hs. unfold SplitN. change (str "-") with ["-"%char].
  cbn [app].
  rewrite (splitN_go_piece "-" ver (hex_no_dash _ Hv)).
  rewrite (splitN_go_piece "-" tid (hex_no_dash _ Ht)).
  rewrite (splitN_go_piece "-" sid (hex_no_dash _ Hs)).
  reflexivity.
Qed.

Lemma splitN_go_two_length (rest cur : gostring) :
  (1 <= length (splitN_go "-" 2 cur rest))%nat.
Proof.
  revert cur. induction rest as [|c rest IH]; intros cur; cbn [splitN_go].
  - simpl. lia.
  - destruct (Ascii.eqb c "-"); [simpl; lia | apply IH].
Qed.

Lemma splitN_go_two_nodash (rest : gostring) :
  Forall (fun c => Ascii.eqb c "-" = false) rest ->
  forall cur, splitN_go "-" 2 cur rest = [rev cur ++ rest].
Proof.
  induction 1 as [|c rest Hc _ IH]; intros cur; cbn [splitN_go].
  - now rewrite app_nil_r.
  - rewrite Hc, IH. cbn [rev]. now rewrite <- app_assoc.
Qed.

(** Hexadecimal digits are read without error, below [16^length]. *)
Lemma digitVal_hex (c : ascii) :
  isHex c -> exists d, digitVal c = Some d /\ 0 <= d < 16.
Proof.
  unfold isHex, digitVal. intros H.
  destruct ((48 <=? code c) && (code c <=? 57)) eqn:E1.
  - eexists. split; [reflexivity|].
    apply andb_true_iff in E1 as [E1 E2].
    apply Z.leb_le in E1. apply Z.leb_le in E2. lia.
  - destruct ((97 <=? code c) && (code c <=? 122)) eqn:E2.
    + eexists. split; [reflexivity|].
      apply andb_false_iff in E1. apply andb_true_iff in E2 as [E2 E3].
      apply Z.leb_le in E2. apply Z.leb_le in E3.
      destruct E1 as [E1|E1]; apply Z.leb_gt in E1; lia.
    + exfalso. apply andb_false_iff in E1. apply andb_false_iff in E2.
      destruct E1 as [E1|E1], E2 as [E2|E2];
        apply Z.leb_gt in E1; apply Z.leb_gt in E2; lia.
Qed.

Lemma parseDigits_hex (s : gostring) :
  Forall isHex s ->
  forall acc, 0 <= acc ->
  exists n, parseDigits 16 acc s = Some n
            /\ acc * 16 ^ Z.of_nat (length s) <= n
               < (acc + 1) * 16 ^ Z.of_nat (length s).
Proof.
  induction 1 as [|c s Hc _ IH]; intros acc Hacc.
  - exists acc. split; [reflexivity|]. simpl. lia.
  - destruct (digitVal_hex c Hc) as (d & Hd & Hr).
    cbn [parseDigits]. rewrite Hd.
    destruct (d <? 16) eqn:E; [|apply Z.ltb_ge in E; lia].
    destruct (IH (acc * 16 + d) ltac:(lia)) as (n & Hn & Hb).
    exists n. split; [exact Hn|].
    cbn [length]. rewrite Nat2Z.inj_succ, Z.pow_succ_r by lia.
    nia.
Qed.

Lemma ParseUint_hex (s : gostring) :
  Forall isHex s -> (0 < length s <= 16)%nat ->
  exists n, ParseUint s 16 64 = Some n /\ 0 <= n < 2 ^ 64.
Proof.
  intros H Hlen. destruct (parseDigits_hex s H 0 ltac:(lia)) as (n & Hn & Hb).
  exists n. unfold ParseUint. destruct s as [|c s]; [simpl in Hlen; lia|].
  rewrite Hn.
  assert (Hpow : 16 ^ Z.of_nat (length (c :: s)) <= 2 ^ 64).
  { change (2 ^ 64) with (16 ^ 16). apply Z.pow_le_mono_r; lia. }
  destruct (n <? 2 ^ 64) eqn:E; [|apply Z.ltb_ge in E; lia].
  split; [reflexivity | lia].
Qed.

Lemma TrimLeft_drop (s cutset : gostring) :
  exists k, TrimLeft s cutset = drop k s.
Proof.
  induction s as [|c s [k IH]].
  - now exists 0%nat.
  - cbn [TrimLeft]. destruct (inCutset cutset c).
    + exists (S k). exact IH.
    + now exists 0%nat.
Qed.

Lemma TrimLeft_hex (s cutset : gostring) :
  Forall isHex s ->
  Forall isHex (TrimLeft s cutset) /\ (length (TrimLeft s cutset) <= length s)%nat.
Proof.
  intros H. destruct (TrimLeft_drop s cutset) as [k ->]. split.
  - now apply Forall_drop.
  - rewrite length_drop. lia.
Qed.

(** A trace id of 32 hex digits that are not all zero is read without
    error; only the trace id of the context changes. *)
Lemma extractTraceID128_hex (ctx : SpanContext) (tid : gostring) :
  hexString 32 tid -> TrimLeft tid (str "0") <> [] ->
  exists t, extractTraceID128 ctx tid = (with_traceID ctx t, None).
Proof.
  intros [Hlen Hhex] Hnz. unfold extractTraceID128.
  rewrite Hlen. change (32 <? 32)%nat with false. cbv iota.
  destruct (TrimLeft_hex tid (str "0") Hhex) as [Hh Hl].
  set (v := TrimLeft tid (str "0")) in *.
  assert (Hpos : (0 < length v)%nat) by (destruct v; [contradiction | simpl; lia]).
  destruct (length v <=? 16)%nat eqn:E.
  - apply Nat.leb_le in E.
    destruct (ParseUint_hex v Hh ltac:(lia)) as (n & -> & _). now eexists.
  - apply Nat.leb_gt in E.
    assert (Hd : Forall isHex (drop (length (take (length v - 16) v)) v))
      by (now apply Forall_drop).
    assert (Hdl : length (drop (length (take (length v - 16) v)) v) = 16%nat).
    { rewrite length_drop, length_take. lia. }
    destruct (ParseUint_hex _ Hd ltac:(lia)) as (n & -> & _). now eexists.
Qed.

(** A priority up to [2^53] in magnitude is held by the float64 as it
    is. *)
Lemma float64_of_int_small (p : Z) :
  - 2 ^ 53 <= p <= 2 ^ 53 -> float64_of_int p = p.
Proof.
  intros H. unfold float64_of_int.
  destruct (Z.abs p <=? 2 ^ 53) eqn:E; [reflexivity|].
  apply Z.leb_gt in E. lia.
Qed.

Lemma int_of_float64_small (f : Z) :
  - 2 ^ 63 <= f < 2 ^ 63 -> int_of_float64 f = f.
Proof.
  intros H. unfold int_of_float64.
  destruct (- 2 ^ 63 <=? f) eqn:E1; [|apply Z.leb_gt in E1; lia].
  destruct (f <? 2 ^ 63) eqn:E2; [reflexivity|apply Z.ltb_ge in E2; lia].
Qed.

(** The priority read back after [setSamplingPriority] is the one that went
    through the float64. *)
Lemma SamplingPriority_set_float (c : SpanContext) (p sampler : Z) :
  SamplingPriority (Some (setSamplingPriority c p sampler))
  = (int_of_float64 (float64_of_int p), true).
Proof.
  unfold setSamplingPriority.
  destruct (_ && _); [reflexivity|]. now destruct (p <=? 0).
Qed.

Lemma SamplingPriority_set (c : SpanContext) (p sampler : Z) :
  - 2 ^ 53 <= p <= 2 ^ 53 ->
  SamplingPriority (Some (setSamplingPriority c p sampler)) = (p, true).
Proof.
  intros H. rewrite SamplingPriority_set_float, float64_of_int_small by exact H.
  rewrite int_of_float64_small by lia. reflexivity.
Qed.

Lemma land_1_range (f : Z) : - 2 ^ 53 <= Z.land f 1 <= 2 ^ 53.
Proof.
  change 1 with (Z.ones 1). rewrite Z.land_ones by lia.
  pose proof (Z.mod_pos_bound f (2 ^ 1) ltac:(lia)). lia.
Qed.

Lemma setSamplingPriority_fields (c : SpanContext) (p sampler : Z) :
  traceID (setSamplingPriority c p sampler) = traceID c
  /\ spanID (setSamplingPriority c p sampler) = spanID c
  /\ baggage (setSamplingPriority c p sampler) = baggage c
  /\ origin (setSamplingPriority c p sampler) = origin c.
Proof.
  unfold setSamplingPriority. destruct (_ && _); now repeat split.
Qed.

(** What [parseTraceparent] does with a header whose version, trace id and
    span id are hex fields of the right length: the span id decides between
    [ErrSpanContextNotFound] and the flags, and the flags between
    [ErrSpanContextCorrupted] and success. *)
Lemma parseTraceparent_fields (ctx : SpanContext)
  (header ver tid sid rest : gostring) (v sidv : Z) :
  normalized unicodeToLower header
  = ver ++ str "-" ++ tid ++ str "-" ++ sid ++ str "-" ++ rest ->
  hexString 2 ver -> ParseUint ver 16 64 = Some v -> v <> 255 ->
  (v = 0 -> length rest = 2%nat) -> (2 <= length rest)%nat ->
  hexString 32 tid -> TrimLeft tid (str "0") <> [] ->
  hexString 16 sid -> ParseUint sid 16 64 = Some sidv ->
  exists t,
    let ctx3 :=
      with_spanID (with_traceID (unsetPropagatingTag ctx keyTraceID128) t) sidv in
    parseTraceparent unicodeToLower ctx header =
    if sidv =? 0 then (ctx3, Some ErrSpanContextNotFound)
    else
      match ParseInt (nth 0 (splitN_go "-" 2 [] rest) []) 16 8 with
      | None => (ctx3, Some ErrSpanContextCorrupted)
      | Some f => (setSamplingPriority ctx3 (Z.land f 1) samplerUnknown, None)
      end.
Proof.
  intros HN [Hvl Hvh] Hv Hv255 Hv0 Hrest [Htl Hth] Htnz [Hsl Hsh] Hsid.
  destruct (extractTraceID128_hex (unsetPropagatingTag ctx keyTraceID128) tid
              (conj Htl Hth) Htnz) as [t Ht].
  exists t. cbv zeta. unfold parseTraceparent.
  change (ToLower unicodeToLower (Trim header [tab; " "%char; "-"%char]))
    with (normalized unicodeToLower header).
  rewrite HN. cbv zeta.
  assert (Hlen : len (ver ++ str "-" ++ tid ++ str "-" ++ sid ++ str "-" ++ rest)
                 = 53 + len rest).
  { rewrite !len_app. unfold len at 1 2 3 4 5 6. rewrite Hvl, Htl, Hsl.
    change (length (str "-")) with 1%nat. lia. }
  rewrite Hlen.
  assert (Hrl : 2 <= len rest) by (unfold len; lia).
  destruct (53 + len rest =? 0) eqn:E0; [apply Z.eqb_eq in E0; lia|].
  destruct (53 + len rest <? 55) eqn:E1; [apply Z.ltb_lt in E1; lia|].
  rewrite (SplitN_traceparent ver tid sid rest Hvh Hth Hsh).
  pose proof (splitN_go_two_length rest []) as Hparts.
  cbn [length nth].
  destruct (Z.of_nat (S (S (S (length (splitN_go "-" 2 [] rest))))) <? 4) eqn:E2;
    [apply Z.ltb_lt in E2; lia|].
  rewrite (Trim_hex ver Hvh), (Trim_hex tid Hth), (Trim_hex sid Hsh).
  unfold len at 1. rewrite Hvl. change (Z.of_nat 2 =? 2) with true.
  cbn [negb]. rewrite Hv.
  destruct (v =? 255) eqn:E3; [apply Z.eqb_eq in E3; contradiction|].
  assert (E4 : (v =? 0) && negb (53 + len rest =? 55) = false).
  { destruct (v =? 0) eqn:E; [|reflexivity]. apply Z.eqb_eq in E.
    specialize (Hv0 E). unfold len. rewrite Hv0. reflexivity. }
  rewrite E4.
  unfold len at 1. rewrite Htl. change (Z.of_nat 32 =? 32) with true.
  cbn [negb].
  rewrite (isValidID_hex tid Hth) by (intros ->; discriminate Htl).
  cbn [negb]. rewrite Ht.
  unfold len at 1. rewrite Hsl. change (Z.of_nat 16 =? 16) with true.
  cbn [negb].
  rewrite (isValidID_hex sid Hsh) by (intros ->; discriminate Hsl).
  cbn [negb]. rewrite Hsid. reflexivity.
Qed.

Lemma parseTraceparent_version (ctx : SpanContext) (header a rest : gostring)
  (v : Z) :
  normalized unicodeToLower header = a ++ "-"%char :: rest ->
  Forall isHex a -> length a = 2%nat -> ParseUint a 16 64 = Some v ->
  (v = 255 \/ (v = 0 /\ len (normalized unicodeToLower header) <> 55)) ->
  snd (parseTraceparent unicodeToLower ctx header) = Some ErrSpanContextCorrupted.
Proof.
  intros HN Hhex Hal Hv Hbad. unfold parseTraceparent.
  change (ToLower unicodeToLower (Trim header [tab; " "%char; "-"%char]))
    with (normalized unicodeToLower header).
  cbv zeta. set (h := normalized unicodeToLower header) in *.
  destruct (len h =? 0) eqn:E0.
  { exfalso. apply Z.eqb_eq in E0. rewrite HN, len_app in E0.
    unfold len in E0. cbn [length] in E0. lia. }
  destruct (len h <? 55); [reflexivity|].
  remember (len h) as L eqn:HL.
  unfold SplitN. rewrite HN.
    rewrite (splitN_go_piece "-" a (hex_no_dash _ Hhex)). cbn [rev app nth].
    destruct (_ <? 4); [reflexivity|].
    rewrite (Trim_hex a Hhex). unfold len at 1. rewrite Hal.
    change (negb (Z.of_nat 2 =? 2)) with false. cbv iota. rewrite Hv.
    destruct Hbad as [-> | [-> Hl]]; [reflexivity|].
    change (0 =? 255) with false. cbv iota. change (0 =? 0) with true.
    destruct (L =? 55) eqn:E; [apply Z.eqb_eq in E; contradiction|].
    reflexivity.
Qed.

Lemma HasPrefix_app (s p : gostring) :
  HasPrefix s p = true -> exists rest, s = p ++ rest.
Proof.
  revert s. induction p as [|c p IH]; intros s H.
  - now exists s.
  - destruct s as [|d s]; [discriminate H|]. cbn [HasPrefix] in H.
    apply andb_true_iff in H as [Hc Hp]. apply Ascii.eqb_eq in Hc. subst d.
    destruct (IH s Hp) as [rest ->]. now exists rest.
Qed.

(** C5 (amended): lengths are those of the header once it is trimmed of
    tabs, spaces and dashes at both ends and lowered.  A header shorter than
    55 bytes is corrupted; a version-0 header longer than 55 bytes is
    corrupted; the version-0 header [00-<32 hex, not all zero>-<16 hex, not
    zero>-<2 hex that ParseInt reads at 8 bits>] is parsed, with the span id
    and the low bit of the flags as priority; a header with the same fields,
    a version from 1 to 254 and a suffix behind a further dash is parsed as
    well; version ff is corrupted. *)
Theorem traceparent_lengths (ctx : SpanContext) (header : gostring) :
  let h := normalized unicodeToLower header in
  (0 < len h < 55 ->
   snd (parseTraceparent unicodeToLower ctx header) = Some ErrSpanContextCorrupted)
  /\ (forall tid sid flags sidv f,
        h = str "00" ++ str "-" ++ tid ++ str "-" ++ sid ++ str "-" ++ flags ->
        hexString 32 tid -> TrimLeft tid (str "0") <> [] ->
        hexString 16 sid -> ParseUint sid 16 64 = Some sidv -> sidv <> 0 ->
        hexString 2 flags -> ParseInt flags 16 8 = Some f ->
        len h = 55
        /\ exists ctx',
             parseTraceparent unicodeToLower ctx header = (ctx', None)
             /\ spanID ctx' = sidv
             /\ SamplingPriority (Some ctx') = (Z.land f 1, true))
  /\ (HasPrefix h (str "00-") = true -> 55 < len h ->
      snd (parseTraceparent unicodeToLower ctx header) = Some ErrSpanContextCorrupted)
  /\ (forall ver v tid sid flags suffix sidv f,
        h = ver ++ str "-" ++ tid ++ str "-" ++ sid ++ str "-"
            ++ flags ++ str "-" ++ suffix ->
        hexString 2 ver -> ParseUint ver 16 64 = Some v -> 1 <= v -> v <> 255 ->
        hexString 32 tid -> TrimLeft tid (str "0") <> [] ->
        hexString 16 sid -> ParseUint sid 16 64 = Some sidv -> sidv <> 0 ->
        hexString 2 flags -> ParseInt flags 16 8 = Some f ->
        55 < len h
        /\ exists ctx',
             parseTraceparent unicodeToLower ctx header = (ctx', None)
             /\ spanID ctx' = sidv
             /\ SamplingPriority (Some ctx') = (Z.land f 1, true))
  /\ (HasPrefix h (str "ff-") = true ->
      snd (parseTraceparent unicodeToLower ctx header) = Some ErrSpanContextCorrupted).
Proof.
  intros h. repeat apply conj.
  - intros [H0 H55]. unfold parseTraceparent.
    change (ToLower unicodeToLower (Trim header [tab; " "%char; "-"%char])) with h.
    cbv zeta. destruct (len h =? 0) eqn:E0; [apply Z.eqb_eq in E0; lia|].
    destruct (len h <? 55) eqn:E1; [reflexivity | apply Z.ltb_ge in E1; lia].
  - intros tid sid flags sidv f Hh Htid Htnz Hsid Hsv Hsnz Hfl Hf.
    assert (Hlen : len h = 55).
    { rewrite Hh, !len_app. unfold len. destruct Htid as [-> _], Hsid as [-> _],
        Hfl as [-> _]. reflexivity. }
    split; [exact Hlen|].
    destruct (parseTraceparent_fields ctx header (str "00") tid sid flags 0 sidv)
      as [t Ht]; try assumption.
    + hex_literal.
    + reflexivity.
    + discriminate.
    + intros _. now destruct Hfl.
    + destruct Hfl as [-> _]. lia.
    + cbv zeta in Ht. rewrite Ht.
      destruct (sidv =? 0) eqn:E; [apply Z.eqb_eq in E; contradiction|].
      rewrite (splitN_go_two_nodash flags (hex_no_dash _ (proj2 Hfl))).
      cbn [rev app nth]. rewrite Hf. eexists. split; [reflexivity|]. split.
      * now rewrite (proj1 (proj2 (setSamplingPriority_fields _ _ _))).
      * apply SamplingPriority_set, land_1_range.
  - intros Hp Hl. destruct (HasPrefix_app _ _ Hp) as [rest Hr].
    apply (parseTraceparent_version ctx header (str "00") rest 0).
    + exact Hr.
    + hex_digits.
    + reflexivity.
    + reflexivity.
    + right. split; [reflexivity|]. fold h. lia.
  - intros ver v tid sid flags suffix sidv f Hh Hver Hv Hv1 Hv255 Htid Htnz Hsid
      Hsv Hsnz Hfl Hf.
    assert (Hlen : 55 < len h).
    { rewrite Hh, !len_app. unfold len. destruct Hver as [-> _], Htid as [-> _],
        Hsid as [-> _], Hfl as [-> _]. change (length (str "-")) with 1%nat. lia. }
    split; [exact Hlen|].
    destruct (parseTraceparent_fields ctx header ver tid sid
                (flags ++ str "-" ++ suffix) v sidv) as [t Ht]; try assumption.
    + intros ->. lia.
    + rewrite length_app. destruct Hfl as [-> _]. lia.
    + cbv zeta in Ht. rewrite Ht.
      destruct (sidv =? 0) eqn:E; [apply Z.eqb_eq in E; contradiction|].
      change (str "-" ++ suffix) with ("-"%char :: suffix).
      rewrite (splitN_go_piece "-" flags (hex_no_dash _ (proj2 Hfl))).
      cbn [rev app nth]. rewrite Hf. eexists. split; [reflexivity|]. split.
      * now rewrite (proj1 (proj2 (setSamplingPriority_fields _ _ _))).
      * apply SamplingPriority_set, land_1_range.
  - intros Hp. destruct (HasPrefix_app _ _ Hp) as [rest Hr].
    apply (parseTraceparent_version ctx header (str "ff") rest 255).
    + exact Hr.
    + hex_digits.
    + reflexivity.
    + reflexivity.
    + now left.
Qed.

(** The handler leaves the traceparent value alone on entries with other
    keys. *)
Lemma w3cHandler_other_keys (reader : list (gostring * gostring)) :
  Forall (fun kv => ToLower unicodeToLower (fst kv) <> traceparentHeader) reader ->
  forall ph sh ctx, exists sh' ctx',
    ForeachKey (w3cHandler unicodeToLower) reader (ph, sh, ctx)
    = ((ph, sh', ctx'), None).
Proof.
  induction 1 as [|[k v] reader Hk _ IH]; intros ph sh ctx.
  - now exists sh, ctx.
  - cbn [ForeachKey]. unfold w3cHandler at 1. cbn [fst] in Hk.
    unfold eqb_str at 1. rewrite bool_decide_eq_false_2 by exact Hk.
    destruct (eqb_str _ tracestateHeader); [apply IH|].
    destruct (HasPrefix _ _); apply IH.
Qed.

(** C6: when the only traceparent entry of the carrier is well formed but
    for a span id of sixteen zeros (a version other than ff, a trace id of
    32 hex digits that are not all zero, and, for version 0, nothing behind
    the two bytes of the flags), the W3C extraction fails with
    [ErrSpanContextNotFound]. *)
Theorem w3c_zero_span_id (l1 l2 : list (gostring * gostring))
  (k header ver tid rest : gostring) (v : Z) :
  Forall (fun kv => ToLower unicodeToLower (fst kv) <> traceparentHeader) l1 ->
  Forall (fun kv => ToLower unicodeToLower (fst kv) <> traceparentHeader) l2 ->
  ToLower unicodeToLower k = traceparentHeader ->
  normalized unicodeToLower header
  = ver ++ str "-" ++ tid ++ str "-" ++ str "0000000000000000" ++ str "-" ++ rest ->
  hexString 2 ver -> ParseUint ver 16 64 = Some v -> v <> 255 ->
  (v = 0 -> length rest = 2%nat) -> (2 <= length rest)%nat ->
  hexString 32 tid -> TrimLeft tid (str "0") <> [] ->
  w3c_extractTextMap unicodeToLower (l1 ++ (k, header) :: l2)
  = (None, Some ErrSpanContextNotFound).
Proof.
  intros Hl1 Hl2 Hk HN Hver Hv Hv255 Hv0 Hrest Htid Htnz.
  unfold w3c_extractTextMap. rewrite ForeachKey_app.
  destruct (w3cHandler_other_keys l1 Hl1 [] [] (with_isRemote zeroSpanContext true))
    as (sh1 & c1 & ->).
  cbn [ForeachKey]. unfold w3cHandler at 1. rewrite Hk.
  change (eqb_str traceparentHeader traceparentHeader) with true. cbv iota.
  cbn [length Nat.eqb negb].
  destruct (w3cHandler_other_keys l2 Hl2 header sh1 c1) as (sh2 & c2 & ->).
  destruct (parseTraceparent_fields c2 header ver tid (str "0000000000000000")
              rest v 0) as [t Ht]; try assumption.
  - hex_literal.
  - reflexivity.
  - cbv zeta in Ht. rewrite Ht. reflexivity.
Qed.

(** *** The tracestate header *)

Lemma split_go_nosep (sep : ascii) (s : gostring) :
  Forall (fun c => Ascii.eqb c sep = false) s ->
  forall cur, split_go sep cur s = [rev cur ++ s].
Proof.
  induction 1 as [|c s Hc _ IH]; intros cur; cbn [split_go].
  - now rewrite app_nil_r.
  - rewrite Hc, IH. cbn [rev]. now rewrite <- app_assoc.
Qed.

Lemma split_go_piece (sep : ascii) (a : gostring) :
  Forall (fun c => Ascii.eqb c sep = false) a ->
  forall cur rest,
  split_go sep cur (a ++ sep :: rest) = (rev cur ++ a) :: split_go sep [] rest.
Proof.
  induction 1 as [|c a Hc _ IH]; intros cur rest; cbn [app split_go].
  - rewrite Ascii.eqb_refl. now rewrite app_nil_r.
  - rewrite Hc, IH. cbn [rev]. now rewrite <- app_assoc.
Qed.

(** Trimming changes nothing when neither end belongs to the cutset. *)
Lemma Trim_ends (s cutset : gostring) :
  match s with [] => True | c :: _ => inCutset cutset c = false end ->
  match rev s with [] => True | c :: _ => inCutset cutset c = false end ->
  Trim s cutset = s.
Proof.
  intros H1 H2. unfold Trim, TrimRight.
  rewrite (TrimLeft_head s cutset H1), (TrimLeft_head (rev s) cutset H2).
  apply rev_involutive.
Qed.

Lemma decisionMaker_has (c : SpanContext) (t : trace_t) :
  trace c = Some t ->
  hasPropagatingTag t keyDecisionMaker
  = match decisionMaker c with Some _ => true | None => false end.
Proof.
  intros Ht. unfold hasPropagatingTag, decisionMaker. rewrite Ht.
  destruct (propagatingTags t !! keyDecisionMaker) eqn:E.
  - apply bool_decide_eq_true_2. now eexists.
  - apply bool_decide_eq_false_2. intros [x Hx]. discriminate Hx.
Qed.

Lemma setPropagatingTag_tracestate (c : SpanContext) (v : gostring) :
  SamplingPriority (Some (setPropagatingTag c tracestateHeader v))
  = SamplingPriority (Some c)
  /\ decisionMaker (setPropagatingTag c tracestateHeader v) = decisionMaker c.
Proof.
  unfold setPropagatingTag, SamplingPriority, decisionMaker, traceOrNew.
  cbn [trace with_trace trace_setPropagatingTag priority propagatingTags].
  destruct (trace c) as [t|]; (split; [reflexivity|]);
    now rewrite lookup_insert_ne by (vm_compute; discriminate).
Qed.

Lemma setPropagatingTag_decisionMaker (c : SpanContext) (v : gostring) :
  SamplingPriority (Some (setPropagatingTag c keyDecisionMaker v))
  = SamplingPriority (Some c)
  /\ decisionMaker (setPropagatingTag c keyDecisionMaker v) = Some v.
Proof.
  unfold setPropagatingTag, SamplingPriority, decisionMaker, traceOrNew.
  cbn [trace with_trace trace_setPropagatingTag priority propagatingTags].
  destruct (trace c) as [t|]; (split; [reflexivity|]); apply lookup_insert_eq.
Qed.

(** The decision maker after [setSamplingPriority]: kept by a positive
    priority of unknown provenance, removed by a non-positive priority, set
    to ["-0"] by a positive priority of the default sampler. *)
Lemma setSamplingPriority_decisionMaker (c : SpanContext) (p : Z) :
  (0 < p ->
   decisionMaker (setSamplingPriority c p samplerUnknown) = decisionMaker c
   /\ decisionMaker (setSamplingPriority c p samplerDefault) = Some (str "-0"))
  /\ (p <= 0 -> forall sampler,
      decisionMaker (setSamplingPriority c p sampler) = None).
Proof.
  unfold setSamplingPriority, decisionMaker, traceOrNew. split.
  - intros Hp. destruct (0 <? p) eqn:E; [|apply Z.ltb_ge in E; lia].
    destruct (p <=? 0) eqn:E'; [apply Z.leb_le in E'; lia|].
    split.
    + change (samplerUnknown =? samplerUnknown) with true.
      cbn [negb andb with_updated with_trace trace propagatingTags].
      now destruct (trace c).
    + change (samplerDefault =? samplerUnknown) with false.
      change ("-"%char :: Itoa samplerDefault) with (str "-0").
      cbn [negb andb].
      destruct (bool_decide _) eqn:Eb; cbn [negb].
      * apply bool_decide_eq_true_1 in Eb.
        cbn [with_updated with_trace trace propagatingTags].
        destruct (trace c); exact Eb.
      * cbn [with_updated with_trace trace trace_setPropagatingTag propagatingTags].
        apply lookup_insert_eq.
  - intros Hp sampler.
    destruct (0 <? p) eqn:E; [apply Z.ltb_lt in E; lia|].
    destruct (p <=? 0) eqn:E'; [|apply Z.leb_gt in E'; lia].
    cbn [andb with_updated with_trace trace trace_unsetPropagatingTag propagatingTags].
    apply lookup_delete_eq.
Qed.

Lemma splitN_go_one (sep : ascii) (cur s : gostring) :
  splitN_go sep 1 cur s = [rev cur ++ s].
Proof.
  now destruct s.
Qed.

(** A member [key:value] whose key holds no colon splits into the two. *)
Lemma SplitN_member (key val : gostring) :
  Forall (fun c => Ascii.eqb c ":" = false) key ->
  SplitN (key ++ str ":" ++ val) ":" 2 = [key; val].
Proof.
  intros H. unfold SplitN. change (str ":" ++ val) with (":"%char :: val).
  rewrite (splitN_go_piece ":" key H). now rewrite splitN_go_one.
Qed.

Lemma parseMember_s (ctx : SpanContext) (d : bool) (val : gostring) (s : Z) :
  Atoi val = Some s ->
  parseMember (ctx, d) (str "s" ++ str ":" ++ val) =
  let parentP := fst (SamplingPriority (Some ctx)) in
  let ctx1 :=
    if ((parentP =? 1) && (0 <? s)) || ((parentP =? 0) && (s <=? 0))
    then setSamplingPriority ctx s samplerUnknown else ctx in
  let ctx2 :=
    if (parentP =? 1) && (s <=? 0)
    then setSamplingPriority ctx1 PriorityAutoKeep samplerDefault else ctx1 in
  if (parentP =? 0) && (0 <? s)
  then (setSamplingPriority ctx2 PriorityAutoReject samplerUnknown, true)
  else (ctx2, d).
Proof.
  intros H. unfold parseMember.
  rewrite SplitN_member by (repeat constructor).
  change (eqb_str (str "s") (str "o")) with false.
  change (eqb_str (str "s") (str "s")) with true.
  cbv iota. rewrite H. reflexivity.
Qed.


Lemma HasPrefix_self_app (p rest : gostring) : HasPrefix (p ++ rest) p = true.
Proof.
  induction p as [|c p IH]; [now destruct rest|].
  cbn [app HasPrefix]. now rewrite Ascii.eqb_refl.
Qed.

(** The two pieces [SplitN(s, sep, 2)] returns stand around the first
    separator. *)
Lemma splitN_go_two_inv (sep : ascii) (s : gostring) :
  forall cur a b, splitN_go sep 2 cur s = [a; b] -> rev cur ++ s = a ++ sep :: b.
Proof.
  induction s as [|c s IH]; intros cur a b H; cbn [splitN_go] in H.
  - discriminate H.
  - destruct (Ascii.eqb_spec c sep) as [->|Hne].
    + rewrite splitN_go_one in H. cbn [rev app] in H.
      injection H as <- <-. reflexivity.
    + apply IH in H. cbn [rev] in H. now rewrite <- app_assoc in H.
Qed.

(** A member that does not start with [s:] is no priority member. *)
Lemma other_member_key (m key val : gostring) :
  HasPrefix m (str "s:") = false ->
  SplitN m ":" 2 = [key; val] -> eqb_str key (str "s") = false.
Proof.
  intros Hs H. apply bool_decide_eq_false_2. intros ->.
  apply splitN_go_two_inv in H. cbn [rev app] in H. subst m.
  destruct val; vm_compute in Hs; discriminate Hs.
Qed.

Lemma dmBehind_cons (dm : option gostring) (d : bool) (m : gostring)
  (l : list gostring) :
  dmBehind (dmBehind dm d [m]) d l = dmBehind dm d (m :: l).
Proof.
  unfold dmBehind. destruct dm as [x|]; [reflexivity|].
  destruct d; [reflexivity|]. cbn [firstDM]. now destruct (dmOf m).
Qed.

Lemma dmBehind_none (dm : option gostring) (d : bool) (m : gostring) :
  dmOf m = None -> dmBehind dm d [m] = dm.
Proof.
  intros H. unfold dmBehind. cbn [firstDM]. rewrite H.
  destruct dm, d; reflexivity.
Qed.

(** The key of a propagated tag is the decision maker's only for a member
    whose key starts with [t.dm]. *)
Lemma tag_key_decisionMaker (key : gostring) :
  HasPrefix key (str "t.") = true -> HasPrefix key (str "t.dm") = false ->
  str "_dd.p." ++ drop (length (str "t.")) key <> keyDecisionMaker.
Proof.
  intros Ht Hdm E.
  destruct key as [|a key]; [discriminate Ht|].
  destruct key as [|b key].
  { change (HasPrefix [a] (str "t.")) with (Ascii.eqb "t" a && false) in Ht.
    rewrite andb_false_r in Ht. discriminate Ht. }
  change (HasPrefix (a :: b :: key) (str "t."))
    with (Ascii.eqb "t" a && (Ascii.eqb "." b && HasPrefix key [])) in Ht.
  apply andb_true_iff in Ht as [Ha Ht]. apply andb_true_iff in Ht as [Hb _].
  apply Ascii.eqb_eq in Ha, Hb. subst a b.
  vm_compute in E. injection E as E. subst key.
  vm_compute in Hdm. discriminate Hdm.
Qed.

(** A member other than [s:] leaves the priority and [dropDM] alone; only
    a [t.dm] member changes the decision maker, and only when there is
    none and [dropDM] is not set.  The trace stays in place. *)
Lemma parseMember_other (ctx : SpanContext) (t : trace_t) (d : bool)
  (m : gostring) :
  trace ctx = Some t ->
  HasPrefix m (str "s:") = false ->
  exists ctx' t',
    parseMember (ctx, d) m = (ctx', d)
    /\ trace ctx' = Some t'
    /\ SamplingPriority (Some ctx') = SamplingPriority (Some ctx)
    /\ decisionMaker ctx' = dmBehind (decisionMaker ctx) d [m].
Proof.
  intros Ht Hs. unfold parseMember.
  assert (Hdm : dmOf m = match SplitN m ":" 2 with
                         | [key; val] =>
                             if HasPrefix key (str "t.dm") then Some val else None
                         | _ => None
                         end) by reflexivity.
  assert (Hkey : forall key val, SplitN m ":" 2 = [key; val] ->
                                 eqb_str key (str "s") = false)
    by (intros key val; now apply other_member_key).
  destruct (SplitN m ":" 2) as [|key [|val [|x l]]];
    try (exists ctx, t; rewrite (dmBehind_none _ _ _ Hdm); now repeat split).
  rewrite (Hkey key val eq_refl).
  destruct (eqb_str key (str "o")) eqn:Eo.
  { apply bool_decide_eq_true_1 in Eo. subst key.
    change (HasPrefix (str "o") (str "t.dm")) with false in Hdm.
    exists (with_origin ctx (ReplaceAll val "~" "=")), t.
    rewrite (dmBehind_none _ _ _ Hdm).
    unfold SamplingPriority, decisionMaker. cbn [trace with_origin].
    now repeat split. }
  destruct (eqb_str key (str "p")) eqn:Ep.
  { apply bool_decide_eq_true_1 in Ep. subst key.
    change (HasPrefix (str "p") (str "t.dm")) with false in Hdm.
    exists (with_reparentID ctx val), t.
    rewrite (dmBehind_none _ _ _ Hdm).
    unfold SamplingPriority, decisionMaker. cbn [trace with_reparentID].
    now repeat split. }
  destruct (HasPrefix key (str "t.dm")) eqn:Edm.
  { rewrite Ht, (decisionMaker_has ctx t Ht).
    unfold dmBehind. cbn [firstDM]. rewrite Hdm.
    destruct (decisionMaker ctx) as [x|] eqn:Ex; cbn [orb].
    - exists ctx, t. now repeat split.
    - destruct d.
      + exists ctx, t. now repeat split.
      + destruct (setPropagatingTag_decisionMaker ctx val) as [Hp Hd].
        eexists _, _. split; [reflexivity|]. split; [reflexivity|].
        split; [exact Hp | exact Hd]. }
  rewrite (dmBehind_none _ _ _ Hdm).
  destruct (HasPrefix key (str "t.")) eqn:Et.
  - eexists _, _. split; [reflexivity|]. split; [reflexivity|].
    unfold setPropagatingTag, SamplingPriority, decisionMaker, traceOrNew.
    rewrite Ht.
    cbn [trace with_trace trace_setPropagatingTag priority propagatingTags].
    split; [reflexivity|].
    apply lookup_insert_ne. now apply tag_key_decisionMaker.
  - exists ctx, t. now repeat split.
Qed.

Lemma fold_parseMember_other (l : list gostring) :
  forall (ctx : SpanContext) (t : trace_t) (d : bool),
  trace ctx = Some t ->
  Forall (fun m => HasPrefix m (str "s:") = false) l ->
  exists ctx' t',
    fold_left parseMember l (ctx, d) = (ctx', d)
    /\ trace ctx' = Some t'
    /\ SamplingPriority (Some ctx') = SamplingPriority (Some ctx)
    /\ decisionMaker ctx' = dmBehind (decisionMaker ctx) d l.
Proof.
  induction l as [|m l IH]; intros ctx t d Ht Hl.
  - exists ctx, t. repeat split; [exact Ht|].
    unfold dmBehind. now destruct (decisionMaker ctx), d.
  - apply Forall_cons in Hl as [Hm Hl]. cbn [fold_left].
    destruct (parseMember_other ctx t d m Ht Hm) as (c1 & t1 & -> & Ht1 & Hp1 & Hd1).
    destruct (IH c1 t1 d Ht1 Hl) as (c2 & t2 & -> & Ht2 & Hp2 & Hd2).
    exists c2, t2. repeat split; [exact Ht2 | congruence|].
    rewrite Hd2, Hd1. apply dmBehind_cons.
Qed.

(** [setSamplingPriority] creates the trace when there is none. *)
Lemma setSamplingPriority_trace (c : SpanContext) (p sampler : Z) :
  exists t, trace (setSamplingPriority c p sampler) = Some t.
Proof.
  unfold setSamplingPriority. destruct (_ && _); eexists; reflexivity.
Qed.

(** The groups of other vendors are passed over. *)
Lemma fold_parseGroup_foreign (l : list gostring) (ctx : SpanContext) :
  Forall (fun g => HasPrefix g (str "dd=") = false) l ->
  fold_left parseGroup l ctx = ctx.
Proof.
  induction 1 as [|g l Hg _ IH]; [reflexivity|].
  cbn [fold_left]. unfold parseGroup at 2. now rewrite Hg.
Qed.

(** A tracestate with one [dd=] group whose members are [pre], one [s:]
    member and [post]: the members run in this order on the context that
    holds the header as its tracestate tag. *)
Lemma parseTracestate_one_group (ctx : SpanContext) (header body sval : gostring)
  (gpre gpost pre post : list gostring) :
  header <> [] ->
  Split (Trim header [tab; " "%char]) "," = gpre ++ (str "dd=" ++ body) :: gpost ->
  Forall (fun g => HasPrefix g (str "dd=") = false) (gpre ++ gpost) ->
  Split body ";" = pre ++ sval :: post ->
  parseTracestate ctx header
  = fst (fold_left parseMember post
           (parseMember
              (fold_left parseMember pre
                 (setPropagatingTag ctx tracestateHeader header, false))
              sval)).
Proof.
  intros Hne Hg Hf Hb. unfold parseTracestate.
  destruct header as [|c header]; [contradiction|].
  change (length (c :: header) =? 0)%nat with false. cbv iota zeta.
  rewrite Hg. apply Forall_app in Hf as [Hpre Hpost].
  rewrite fold_left_app, (fold_parseGroup_foreign gpre _ Hpre).
  cbn [fold_left]. rewrite (fold_parseGroup_foreign gpost _ Hpost).
  unfold parseGroup. rewrite HasPrefix_self_app. cbn [negb].
  rewrite drop_app_length, Hb, fold_left_app. reflexivity.
Qed.


Lemma heldPriority_small (p : Z) :
  - 2 ^ 53 <= p <= 2 ^ 53 -> heldPriority p = p.
Proof.
  intros H. unfold heldPriority. rewrite float64_of_int_small by exact H.
  apply int_of_float64_small. lia.
Qed.

(** C3 (amended): a tracestate with one [dd=] member, whose list holds the
    members [pre], then [s:<s>] with an integer [s], then [post], parsed
    into a context that holds the traceparent flag as its priority.  Flag 1
    with [s > 0] gives the priority [s] and keeps the decision maker of the
    context, or else takes the first [t.dm] of the list; flag 0 with
    [s <= 0] gives the priority [s] and removes the decision maker there is
    when [s:] is read, so that only a [t.dm] behind [s:] is kept; flag 1
    with [s <= 0] gives auto-keep and the decision maker of the default
    sampler, ["-0"]; flag 0 with [s > 0] gives auto-reject and no decision
    maker.  The priority [s] is read back as the float64 of the trace holds
    it. *)
Theorem tracestate_priority_reconciled (ctx : SpanContext) (flag s : Z)
  (header body val : gostring) (gpre gpost pre post : list gostring) :
  SamplingPriority (Some ctx) = (flag, true) ->
  header <> [] ->
  Split (Trim header [tab; " "%char]) "," = gpre ++ (str "dd=" ++ body) :: gpost ->
  Forall (fun g => HasPrefix g (str "dd=") = false) (gpre ++ gpost) ->
  Split body ";" = pre ++ (str "s:" ++ val) :: post ->
  Forall (fun m => HasPrefix m (str "s:") = false) (pre ++ post) ->
  Atoi val = Some s ->
  let ctx' := parseTracestate ctx header in
  (flag = 1 -> 0 < s ->
   SamplingPriority (Some ctx') = (heldPriority s, true)
   /\ decisionMaker ctx'
      = match decisionMaker ctx with
        | Some d => Some d
        | None => firstDM (pre ++ post)
        end)
  /\ (flag = 0 -> s <= 0 ->
      SamplingPriority (Some ctx') = (heldPriority s, true)
      /\ decisionMaker ctx' = firstDM post)
  /\ (flag = 1 -> s <= 0 ->
      SamplingPriority (Some ctx') = (PriorityAutoKeep, true)
      /\ decisionMaker ctx' = Some (str "-0"))
  /\ (flag = 0 -> 0 < s ->
      SamplingPriority (Some ctx') = (PriorityAutoReject, true)
      /\ decisionMaker ctx' = None).
Proof.
  intros Hflag Hne Hg Hf Hb Hm Hval ctx'. subst ctx'.
  rewrite (parseTracestate_one_group ctx header body (str "s:" ++ val)
             gpre gpost pre post Hne Hg Hf Hb).
  apply Forall_app in Hm as [Hpre Hpost].
  set (ctx0 := setPropagatingTag ctx tracestateHeader header).
  destruct (setPropagatingTag_tracestate ctx header) as [Hp0 Hd0].
  fold ctx0 in Hp0, Hd0. rewrite Hflag in Hp0.
  assert (Ht0 : exists t0, trace ctx0 = Some t0) by (eexists; reflexivity).
  destruct Ht0 as [t0 Ht0].
  destruct (fold_parseMember_other pre ctx0 t0 false Ht0 Hpre)
    as (c1 & t1 & -> & Ht1 & Hp1 & Hd1).
  rewrite Hp0 in Hp1. rewrite Hd0 in Hd1.
  change (str "s:" ++ val) with (str "s" ++ str ":" ++ val).
  rewrite (parseMember_s c1 false val s Hval). cbv zeta.
  rewrite Hp1. cbn [fst].
  assert (Hfirst : forall x, dmBehind (dmBehind (decisionMaker ctx) false pre) x post
                             = if x then dmBehind (decisionMaker ctx) false pre
                               else match decisionMaker ctx with
                                    | Some d => Some d
                                    | None => firstDM (pre ++ post)
                                    end).
  { intros x. unfold dmBehind. destruct (decisionMaker ctx) as [d|]; [now destruct x|].
    clear. induction pre as [|m pre IH]; cbn [firstDM app].
    - now destruct x.
    - destruct (dmOf m); [now destruct x | exact IH]. }
  repeat apply conj; intros -> Hs.
  - change (1 =? 1) with true. change (1 =? 0) with false.
    destruct (0 <? s) eqn:E; [|apply Z.ltb_ge in E; lia].
    destruct (s <=? 0) eqn:E'; [apply Z.leb_le in E'; lia|].
    cbn [andb orb].
    destruct (setSamplingPriority_trace c1 s samplerUnknown) as [t2 Ht2].
    destruct (fold_parseMember_other post _ t2 false Ht2 Hpost)
      as (c3 & t3 & -> & _ & Hp3 & Hd3).
    cbn [fst]. rewrite Hp3, Hd3. split; [apply SamplingPriority_set_float|].
    rewrite (proj1 (proj1 (setSamplingPriority_decisionMaker c1 s) Hs)), Hd1.
    apply (Hfirst false).
  - change (0 =? 1) with false. change (0 =? 0) with true.
    destruct (0 <? s) eqn:E; [apply Z.ltb_lt in E; lia|].
    destruct (s <=? 0) eqn:E'; [|apply Z.leb_gt in E'; lia].
    cbn [andb orb].
    destruct (setSamplingPriority_trace c1 s samplerUnknown) as [t2 Ht2].
    destruct (fold_parseMember_other post _ t2 false Ht2 Hpost)
      as (c3 & t3 & -> & _ & Hp3 & Hd3).
    cbn [fst]. rewrite Hp3, Hd3. split; [apply SamplingPriority_set_float|].
    now rewrite (proj2 (setSamplingPriority_decisionMaker c1 s) Hs).
  - change (1 =? 1) with true. change (1 =? 0) with false.
    destruct (0 <? s) eqn:E; [apply Z.ltb_lt in E; lia|].
    destruct (s <=? 0) eqn:E'; [|apply Z.leb_gt in E'; lia].
    cbn [andb orb].
    destruct (setSamplingPriority_trace c1 PriorityAutoKeep samplerDefault)
      as [t2 Ht2].
    destruct (fold_parseMember_other post _ t2 false Ht2 Hpost)
      as (c3 & t3 & -> & _ & Hp3 & Hd3).
    cbn [fst]. rewrite Hp3, Hd3. split.
    + apply SamplingPriority_set. unfold PriorityAutoKeep. lia.
    + now rewrite (proj2 (proj1 (setSamplingPriority_decisionMaker c1 PriorityAutoKeep)
                            ltac:(reflexivity))).
  - change (0 =? 1) with false. change (0 =? 0) with true.
    destruct (0 <? s) eqn:E; [|apply Z.ltb_ge in E; lia].
    destruct (s <=? 0) eqn:E'; [apply Z.leb_le in E'; lia|].
    cbn [andb orb].
    destruct (setSamplingPriority_trace c1 PriorityAutoReject samplerUnknown)
      as [t2 Ht2].
    destruct (fold_parseMember_other post _ t2 true Ht2 Hpost)
      as (c3 & t3 & -> & _ & Hp3 & Hd3).
    cbn [fst]. rewrite Hp3, Hd3. split.
    + apply SamplingPriority_set. unfold PriorityAutoReject. lia.
    + now rewrite (proj2 (setSamplingPriority_decisionMaker c1 PriorityAutoReject)
                     ltac:(unfold PriorityAutoReject; lia)).
Qed.


(** *** Decimal numbers *)

Lemma digitVal_digitChar (d : Z) :
  0 <= d < 10 -> digitVal (digitChar d) = Some d.
Proof.
  intros H. unfold digitChar, digitVal.
  destruct (d <? 10) eqn:E; [|apply Z.ltb_ge in E; lia].
  rewrite code_byte_of by lia.
  destruct ((48 <=? 48 + d) && (48 + d <=? 57)) eqn:E1.
  - f_equal. lia.
  - apply andb_false_iff in E1 as [E1|E1]; apply Z.leb_gt in E1; lia.
Qed.

Lemma digitChar_not_sign (d : Z) :
  0 <= d < 10 ->
  Ascii.eqb (digitChar d) "-" = false /\ Ascii.eqb (digitChar d) "+" = false.
Proof.
  intros H.
  assert (Hc : code (digitChar d) = 48 + d).
  { unfold digitChar. destruct (d <? 10) eqn:E; [|apply Z.ltb_ge in E; lia].
    apply code_byte_of. lia. }
  split.
  - destruct (Ascii.eqb_spec (digitChar d) "-") as [Heq|]; [|reflexivity].
    rewrite Heq in Hc. change (code "-") with 45 in Hc. lia.
  - destruct (Ascii.eqb_spec (digitChar d) "+") as [Heq|]; [|reflexivity].
    rewrite Heq in Hc. change (code "+") with 43 in Hc. lia.
Qed.

(** Reading the decimal digits of [n] gives [n] back. *)
Lemma parseDigits_fmtDigits (fuel : nat) :
  forall n acc, 0 <= n < 10 ^ Z.of_nat fuel ->
  parseDigits 10 0 (fmtDigits fuel 10 n acc) = parseDigits 10 n acc.
Proof.
  induction fuel as [|fuel IH]; intros n acc Hn.
  - assert (n = 0) as -> by (simpl in Hn; lia). reflexivity.
  - cbn [fmtDigits].
    assert (Hmod : 0 <= n mod 10 < 10) by (apply Z.mod_pos_bound; lia).
    destruct (n <? 10) eqn:E.
    + apply Z.ltb_lt in E. rewrite Z.mod_small by lia.
      cbn [parseDigits]. rewrite digitVal_digitChar by lia.
      destruct (n <? 10) eqn:E'; [|apply Z.ltb_ge in E'; lia].
      f_equal.
    + apply Z.ltb_ge in E. rewrite IH.
      * cbn [parseDigits]. rewrite digitVal_digitChar by lia.
        destruct (n mod 10 <? 10) eqn:E'; [|apply Z.ltb_ge in E'; lia].
        f_equal. pose proof (Z.div_mod n 10 ltac:(lia)). lia.
      * rewrite Nat2Z.inj_succ, Z.pow_succ_r in Hn by lia.
        split; [apply Z.div_pos; lia|].
        apply Z.div_lt_upper_bound; lia.
Qed.

(** The decimal form of a number starts with a digit. *)
Lemma fmtDigits_head (fuel : nat) :
  forall n acc, 0 <= n ->
  exists d rest, 0 <= d < 10 /\ fmtDigits (S fuel) 10 n acc = digitChar d :: rest.
Proof.
  induction fuel as [|fuel IH]; intros n acc Hn.
  - cbn [fmtDigits]. exists (n mod 10).
    assert (Hmod : 0 <= n mod 10 < 10) by (apply Z.mod_pos_bound; lia).
    destruct (n <? 10); eexists; split; try exact Hmod; reflexivity.
  - assert (Hmod : 0 <= n mod 10 < 10) by (apply Z.mod_pos_bound; lia).
    change (fmtDigits (S (S fuel)) 10 n acc)
      with (if n <? 10 then digitChar (n mod 10) :: acc
            else fmtDigits (S fuel) 10 (n / 10) (digitChar (n mod 10) :: acc)).
    destruct (n <? 10).
    + exists (n mod 10). eexists. split; [exact Hmod | reflexivity].
    + apply IH. apply Z.div_pos; lia.
Qed.

Lemma ParseUint_FormatUint (n : Z) :
  0 <= n < 2 ^ 64 -> ParseUint (FormatUint n 10) 10 64 = Some n.
Proof.
  intros Hn. unfold ParseUint, FormatUint.
  destruct (fmtDigits_head 63 n [] ltac:(lia)) as (d & rest & Hd & Heq).
  rewrite parseDigits_fmtDigits.
  - rewrite Heq. cbn [parseDigits].
    destruct (n <? 2 ^ 64) eqn:E; [reflexivity | apply Z.ltb_ge in E; lia].
  - split; [lia|]. eapply Z.lt_trans; [exact (proj2 Hn)|]. reflexivity.
Qed.

Lemma parseUint64_FormatUint (n : Z) :
  0 <= n < 2 ^ 64 -> parseUint64 (FormatUint n 10) = Some n.
Proof.
  intros Hn. unfold parseUint64.
  destruct (fmtDigits_head 63 n [] ltac:(lia)) as (d & rest & Hd & Heq).
  unfold FormatUint at 1. rewrite Heq.
  change (HasPrefix (digitChar d :: rest) (str "-"))
    with (Ascii.eqb "-" (digitChar d) && HasPrefix rest []).
  rewrite Ascii.eqb_sym, (proj1 (digitChar_not_sign d Hd)). cbn [andb].
  now apply ParseUint_FormatUint.
Qed.

Lemma Atoi_Itoa (p : Z) :
  - 2 ^ 63 <= p < 2 ^ 63 -> Atoi (Itoa p) = Some p.
Proof.
  intros Hp. unfold Atoi, Itoa, ParseInt.
  destruct (p <? 0) eqn:E.
  - apply Z.ltb_lt in E. change (Ascii.eqb "-" "-") with true. cbn [orb].
    rewrite ParseUint_FormatUint by lia.
    cbn [negb andb].
    destruct (2 ^ (64 - 1) <? - p) eqn:E'; [apply Z.ltb_lt in E'; lia|].
    f_equal. lia.
  - apply Z.ltb_ge in E.
    destruct (fmtDigits_head 63 p [] ltac:(lia)) as (d & rest & Hd & Heq).
    fold (FormatUint p 10) in Heq.
    pose proof (ParseUint_FormatUint p ltac:(lia)) as Hparse.
    rewrite Heq in *.
    destruct (digitChar_not_sign d Hd) as [-> ->]. cbn [orb negb andb].
    rewrite Hparse.
    destruct (2 ^ (64 - 1) <=? p) eqn:E'; [apply Z.leb_le in E'; lia|].
    reflexivity.
Qed.

(** ** Hexadecimal numbers *)

Lemma digitChar_code (d : Z) :
  0 <= d < 16 -> code (digitChar d) = if d <? 10 then 48 + d else 87 + d.
Proof.
  intros H. unfold digitChar.
  destruct (d <? 10); rewrite code_byte_of by lia; lia.
Qed.

Lemma digitVal_digitChar_hex (d : Z) :
  0 <= d < 16 -> digitVal (digitChar d) = Some d.
Proof.
  intros H. unfold digitVal. rewrite (digitChar_code d H).
  destruct (d <? 10) eqn:E; [apply Z.ltb_lt in E | apply Z.ltb_ge in E].
  - replace ((48 <=? 48 + d) && (48 + d <=? 57)) with true
      by (symmetry; apply andb_true_iff; split; apply Z.leb_le; lia).
    f_equal. lia.
  - replace ((48 <=? 87 + d) && (87 + d <=? 57)) with false
      by (symmetry; apply andb_false_iff; right; apply Z.leb_gt; lia).
    replace ((97 <=? 87 + d) && (87 + d <=? 122)) with true
      by (symmetry; apply andb_true_iff; split; apply Z.leb_le; lia).
    f_equal. lia.
Qed.

Lemma digitChar_isHex (d : Z) : 0 <= d < 16 -> isHex (digitChar d).
Proof.
  intros H. unfold isHex. rewrite (digitChar_code d H).
  destruct (d <? 10) eqn:E; [apply Z.ltb_lt in E | apply Z.ltb_ge in E]; lia.
Qed.

Lemma digitChar_not_zero (d : Z) :
  0 < d < 16 -> inCutset (str "0") (digitChar d) = false.
Proof.
  intros H. unfold inCutset. cbn [str list_ascii_of_string existsb].
  rewrite orb_false_r.
  destruct (Ascii.eqb_spec (digitChar d) "0") as [Heq|]; [|reflexivity].
  apply (f_equal code) in Heq. rewrite digitChar_code in Heq by lia.
  change (code "0") with 48 in Heq.
  destruct (d <? 10); lia.
Qed.

(** Reading the hexadecimal digits of [n] gives [n] back. *)
Lemma parseDigits_fmtDigits_hex (fuel : nat) :
  forall n acc, 0 <= n < 16 ^ Z.of_nat fuel ->
  parseDigits 16 0 (fmtDigits fuel 16 n acc) = parseDigits 16 n acc.
Proof.
  induction fuel as [|fuel IH]; intros n acc Hn.
  - assert (n = 0) as -> by (simpl in Hn; lia). reflexivity.
  - cbn [fmtDigits].
    assert (Hmod : 0 <= n mod 16 < 16) by (apply Z.mod_pos_bound; lia).
    destruct (n <? 16) eqn:E.
    + apply Z.ltb_lt in E. rewrite Z.mod_small by lia.
      cbn [parseDigits]. rewrite digitVal_digitChar_hex by lia.
      destruct (n <? 16) eqn:E'; [|apply Z.ltb_ge in E'; lia].
      f_equal.
    + apply Z.ltb_ge in E. rewrite IH.
      * cbn [parseDigits]. rewrite digitVal_digitChar_hex by lia.
        destruct (n mod 16 <? 16) eqn:E'; [|apply Z.ltb_ge in E'; lia].
        f_equal. pose proof (Z.div_mod n 16 ltac:(lia)). lia.
      * rewrite Nat2Z.inj_succ, Z.pow_succ_r in Hn by lia.
        split; [apply Z.div_pos; lia|].
        apply Z.div_lt_upper_bound; lia.
Qed.

Lemma fmtDigits_isHex (fuel : nat) :
  forall n acc, 0 <= n -> Forall isHex acc ->
  Forall isHex (fmtDigits fuel 16 n acc).
Proof.
  induction fuel as [|fuel IH]; intros n acc Hn Hacc; [exact Hacc|].
  cbn [fmtDigits].
  assert (Hmod : 0 <= n mod 16 < 16) by (apply Z.mod_pos_bound; lia).
  assert (Hacc' : Forall isHex (digitChar (n mod 16) :: acc))
    by (constructor; [now apply digitChar_isHex | exact Hacc]).
  destruct (n <? 16); [exact Hacc'|].
  apply IH; [apply Z.div_pos; lia | exact Hacc'].
Qed.

Lemma fmtDigits_length (fuel : nat) :
  forall n acc k, 0 <= n < 16 ^ Z.of_nat k -> (1 <= k <= fuel)%nat ->
  (length acc < length (fmtDigits fuel 16 n acc) <= k + length acc)%nat.
Proof.
  induction fuel as [|fuel IH]; intros n acc k Hn Hk; [lia|].
  cbn [fmtDigits]. destruct (n <? 16) eqn:E.
  - cbn [length]. lia.
  - apply Z.ltb_ge in E.
    destruct k as [|[|k]]; [lia | simpl in Hn; lia |].
    specialize (IH (n / 16) (digitChar (n mod 16) :: acc) (S k)).
    cbn [length] in IH.
    assert (H16 : 0 <= n / 16 < 16 ^ Z.of_nat (S k)).
    { rewrite (Nat2Z.inj_succ (S k)), Z.pow_succ_r in Hn by lia.
      split; [apply Z.div_pos; lia|].
      apply Z.div_lt_upper_bound; lia. }
    specialize (IH H16 ltac:(lia)). lia.
Qed.

(** The hexadecimal form of a positive number starts with a digit other
    than zero. *)
Lemma fmtDigits_head_hex (fuel : nat) :
  forall n acc, 0 < n < 16 ^ Z.of_nat fuel ->
  exists d rest, 0 < d < 16 /\ fmtDigits fuel 16 n acc = digitChar d :: rest.
Proof.
  induction fuel as [|fuel IH]; intros n acc Hn; [simpl in Hn; lia|].
  cbn [fmtDigits]. destruct (n <? 16) eqn:E.
  - apply Z.ltb_lt in E. exists n, acc. rewrite Z.mod_small by lia.
    split; [lia | reflexivity].
  - apply Z.ltb_ge in E. apply IH.
    rewrite Nat2Z.inj_succ, Z.pow_succ_r in Hn by lia.
    split; [apply Z.div_str_pos; lia|].
    apply Z.div_lt_upper_bound; lia.
Qed.

Lemma FormatUint_hex (n : Z) :
  0 <= n < 2 ^ 64 ->
  Forall isHex (FormatUint n 16)
  /\ (0 < length (FormatUint n 16) <= 16)%nat
  /\ parseDigits 16 0 (FormatUint n 16) = Some n.
Proof.
  intros Hn. unfold FormatUint. split; [|split].
  - apply fmtDigits_isHex; [lia | constructor].
  - pose proof (fmtDigits_length 64 n [] 16) as H. cbn [length] in H.
    change (16 ^ Z.of_nat 16) with (2 ^ 64) in H.
    specialize (H Hn ltac:(lia)). lia.
  - rewrite parseDigits_fmtDigits_hex; [reflexivity|].
    split; [lia|]. eapply Z.lt_trans; [exact (proj2 Hn)|]. reflexivity.
Qed.

Lemma parseDigits_zeros (k : nat) (s : gostring) :
  parseDigits 16 0 (repeat "0"%char k ++ s) = parseDigits 16 0 s.
Proof.
  induction k as [|k IH]; [reflexivity|]. cbn [repeat app parseDigits]. exact IH.
Qed.

Lemma TrimLeft_zeros (k : nat) (s : gostring) :
  TrimLeft (repeat "0"%char k ++ s) (str "0") = TrimLeft s (str "0").
Proof.
  induction k as [|k IH]; [reflexivity|]. cbn [repeat app TrimLeft]. exact IH.
Qed.

Lemma hexPadded_hex (w : nat) (n : Z) :
  0 <= n < 2 ^ 64 -> (16 <= w)%nat -> hexString w (hexPadded w n).
Proof.
  intros Hn Hw. destruct (FormatUint_hex n Hn) as (Hh & Hl & _).
  unfold hexString, hexPadded. cbv zeta. split.
  - rewrite length_app, repeat_length. lia.
  - apply Forall_app. split; [|exact Hh].
    apply Forall_forall. intros c Hc. apply list_elem_of_In, repeat_spec in Hc.
    subst c. left. change (code "0") with 48. lia.
Qed.

(** [%0<w>x] and [strconv.ParseUint(_, 16, 64)]: the number comes back. *)
Lemma ParseUint_hexPadded (w : nat) (n : Z) :
  0 <= n < 2 ^ 64 -> ParseUint (hexPadded w n) 16 64 = Some n.
Proof.
  intros Hn. destruct (FormatUint_hex n Hn) as (_ & Hl & Hp).
  unfold ParseUint, hexPadded. cbv zeta.
  destruct (repeat "0"%char (w - length (FormatUint n 16)) ++ FormatUint n 16)
    as [|c s] eqn:E.
  - apply (f_equal (@length ascii)) in E. rewrite length_app in E.
    cbn [length] in E. lia.
  - rewrite <- E, parseDigits_zeros, Hp.
    destruct (n <? 2 ^ 64) eqn:E'; [reflexivity | apply Z.ltb_ge in E'; lia].
Qed.

Lemma TrimLeft_hexPadded (w : nat) (n : Z) :
  0 < n < 2 ^ 64 -> TrimLeft (hexPadded w n) (str "0") = FormatUint n 16.
Proof.
  intros Hn. unfold hexPadded. cbv zeta. rewrite TrimLeft_zeros.
  destruct (fmtDigits_head_hex 64 n []) as (d & rest & Hd & Heq).
  { split; [lia|]. eapply Z.lt_trans; [exact (proj2 Hn)|]. reflexivity. }
  unfold FormatUint. rewrite Heq. apply TrimLeft_head.
  now apply digitChar_not_zero.
Qed.

(** *** The pairs of the tags header *)

Lemma tagsBytes_nonneg (l : list (gostring * gostring)) : 0 <= tagsBytes l.
Proof.
  induction l as [|kv l IH]; cbn [tagsBytes fold_right]; [lia|].
  fold (tagsBytes l). unfold len. lia.
Qed.

Lemma tagsBytes_perm (l l' : list (gostring * gostring)) :
  l ≡ₚ l' -> tagsBytes l = tagsBytes l'.
Proof.
  induction 1 as [| kv l l' _ IH | a b l | l1 l2 l3 _ IH1 _ IH2];
    cbn [tagsBytes fold_right]; try fold (tagsBytes l); try fold (tagsBytes l');
    lia.
Qed.

Lemma tagsBytes_filter (f : gostring * gostring -> bool)
  (l : list (gostring * gostring)) :
  tagsBytes (List.filter f l) <= tagsBytes l.
Proof.
  induction l as [|kv l IH]; [reflexivity|].
  cbn [List.filter]. destruct (f kv); cbn [tagsBytes fold_right];
    fold (tagsBytes l); fold (tagsBytes (List.filter f l)); unfold len; lia.
Qed.

(** The pairs take less than the bytes they are counted with. *)
Lemma tagPairs_len (l : list (gostring * gostring)) :
  forall sb,
  len (sb ++ flat_map (fun kv => str "," ++ tagPair kv) l) <= len sb + tagsBytes l.
Proof.
  induction l as [|kv l IH]; intros sb; cbn [flat_map tagsBytes fold_right].
  - rewrite app_nil_r. lia.
  - fold (tagsBytes l). rewrite app_assoc.
    etransitivity; [apply IH|]. unfold tagPair. rewrite !len_app.
    change (len (str ",")) with 1. change (len (str "=")) with 1. lia.
Qed.

Lemma tagPairs_bytes (l : list (gostring * gostring)) :
  len (tagPairs l) <= tagsBytes l.
Proof.
  destruct l as [|kv l]; [reflexivity|].
  cbn [tagPairs tagsBytes fold_right]. fold (tagsBytes l).
  etransitivity; [apply tagPairs_len|]. unfold tagPair. rewrite !len_app.
  change (len (str "=")) with 1. lia.
Qed.

Lemma NoDup_fst_filter (f : gostring * gostring -> bool)
  (l : list (gostring * gostring)) :
  NoDup (map fst l) -> NoDup (map fst (List.filter f l)).
Proof.
  induction l as [|kv l IH]; intros H; [constructor|].
  cbn [map] in H. apply NoDup_cons in H as [Hnotin Hnd].
  cbn [List.filter]. destruct (f kv); [|now apply IH].
  cbn [map]. apply NoDup_cons. split; [|now apply IH].
  intros Hin. apply Hnotin. apply list_elem_of_In in Hin.
  apply in_map_iff in Hin as (x & Hx & Hin). apply filter_In in Hin as [Hin _].
  apply list_elem_of_In, in_map_iff. now exists x.
Qed.

Lemma tagsBytes_In (f : gostring * gostring -> bool)
  (l : list (gostring * gostring)) (k v : gostring) :
  In (k, v) (List.filter f l) -> len k + len v + 2 <= tagsBytes l.
Proof.
  induction l as [|kv l IH]; intros Hin; [contradiction|].
  cbn [List.filter] in Hin. cbn [tagsBytes fold_right]. fold (tagsBytes l).
  pose proof (tagsBytes_nonneg l).
  destruct (f kv).
  - destruct Hin as [-> | Hin]; [cbn [fst snd]; unfold len; lia|].
    specialize (IH Hin). unfold len in *. lia.
  - specialize (IH Hin). unfold len in *. lia.
Qed.

Lemma cut_go_piece (sep : ascii) (a : gostring) :
  Forall (fun c => Ascii.eqb c sep = false) a ->
  forall cur rest, cut_go sep cur (a ++ sep :: rest) = (rev cur ++ a, rest, true).
Proof.
  induction 1 as [|c a Hc _ IH]; intros cur rest; cbn [app cut_go].
  - rewrite Ascii.eqb_refl. now rewrite app_nil_r.
  - rewrite Hc, IH. cbn [rev]. now rewrite <- app_assoc.
Qed.

(** The entries of a list with distinct keys, inserted one by one. *)
Lemma fold_insert_lookup (l : list (gostring * gostring)) :
  NoDup (map fst l) ->
  forall (m : gmap gostring gostring) (k : gostring),
  fold_left (fun m kv => <[fst kv := snd kv]> m) l m !! k
  = match (list_to_map l : gmap gostring gostring) !! k with
    | Some v => Some v
    | None => m !! k
    end.
Proof.
  induction l as [|[a b] l IH]; intros Hnd m k; [reflexivity|].
  cbn [map fst] in Hnd. apply NoDup_cons in Hnd as [Hnotin Hnd].
  cbn [fold_left list_to_map foldr fst snd uncurry]. rewrite (IH Hnd).
  destruct (decide (k = a)) as [->|Hne].
  - rewrite (not_elem_of_list_to_map_1 _ _ Hnotin), !lookup_insert_eq. reflexivity.
  - rewrite !lookup_insert_ne by congruence. reflexivity.
Qed.


(** *** The Datadog round trip *)

Section Roundtrip.

Variable maxLen : Z.
Variable C : SpanContext.

Hypothesis rangeMap_perm : forall m, rangeMap m ≡ₚ map_to_list m.
Hypothesis tags_read_back :
  readsBack isValidPropagatableTag parsePropagatableTraceTags.
Hypothesis upper_range : 0 <= upper (traceID C) < 2 ^ 64.
Hypothesis lower_range : 0 <= lower (traceID C) < 2 ^ 64.
Hypothesis traceID_set : Empty (traceID C) = false.
Hypothesis span_range : 0 < spanID C < 2 ^ 64.
Hypothesis priority_held :
  forall sp, SamplingPriority (Some C) = (sp, true) -> heldPriority sp = sp.
Hypothesis upper_fits :
  HasUpper (traceID C) = true ->
  isValidPropagatableTag keyTraceID128 (UpperHex (traceID C)) = true
  /\ tagsBytes (map_to_list (injectedTags C))
     <= Z.min maxLen propagationExtractMaxSize.
Hypothesis baggage_flag : hasBaggage C = false -> baggage C = ∅.
Hypothesis baggage_keys_lower :
  forall j v, baggage C !! j = Some v ->
  ToLower unicodeToLower (DefaultBaggageHeaderPrefix ++ j)
  = DefaultBaggageHeaderPrefix ++ j.

Local Abbreviation cfg := (defaultConfig maxLen).
Local Abbreviation writeBaggage := (writeBaggageItem (defaultConfig maxLen)).

Lemma baggageItems_spec (j v : gostring) :
  In (j, v) (baggageItems rangeMap C) <-> baggage C !! j = Some v.
Proof.
  unfold baggageItems. destruct (hasBaggage C) eqn:E.
  - rewrite <- list_elem_of_In, (rangeMap_perm (baggage C)).
    apply elem_of_map_to_list.
  - rewrite (baggage_flag eq_refl). rewrite lookup_empty. split; [contradiction | discriminate].
Qed.

Lemma baggageItems_NoDup : NoDup (map fst (baggageItems rangeMap C)).
Proof.
  unfold baggageItems. destruct (hasBaggage C); [|constructor].
  change (map fst (rangeMap (baggage C))) with ((rangeMap (baggage C)).*1).
  rewrite (rangeMap_perm (baggage C)). apply NoDup_fst_map_to_list.
Qed.

(** The baggage loop of the injection leaves the other keys alone. *)
Lemma writeBaggage_frame (l : list (gostring * gostring)) :
  forall w k,
  (forall j v, In (j, v) l -> k <> DefaultBaggageHeaderPrefix ++ j) ->
  fold_left writeBaggage l w !! k = w !! k.
Proof.
  induction l as [|[j v] l IH]; intros w k H; [reflexivity|].
  cbn [fold_left writeBaggageItem BaggagePrefix defaultConfig]. rewrite IH.
  - unfold carrierSet. apply lookup_insert_ne. intros Heq.
    apply (H j v); [now left | now symmetry].
  - intros j' v' Hin. apply (H j' v'). now right.
Qed.

Lemma writeBaggage_complete (l : list (gostring * gostring)) :
  forall w, NoDup (map fst l) ->
  forall j v, In (j, v) l ->
  fold_left writeBaggage l w !! (DefaultBaggageHeaderPrefix ++ j) = Some v.
Proof.
  induction l as [|[j0 v0] l IH]; intros w Hnd j v Hin; [contradiction|].
  cbn [map fst] in Hnd. apply NoDup_cons in Hnd as [Hnotin Hnd].
  cbn [fold_left writeBaggageItem BaggagePrefix defaultConfig]. destruct Hin as [[= -> ->] | Hin].
  - rewrite writeBaggage_frame.
    + unfold carrierSet. apply lookup_insert_eq.
    + intros j' v' Hin' Heq. apply app_inv_head in Heq. subst j'.
      apply Hnotin. apply list_elem_of_In, in_map_iff. now exists (j, v').
  - now apply IH.
Qed.

Lemma writeBaggage_sound (l : list (gostring * gostring)) :
  forall w k v, fold_left writeBaggage l w !! k = Some v ->
  w !! k = Some v
  \/ exists j, In (j, v) l /\ k = DefaultBaggageHeaderPrefix ++ j.
Proof.
  induction l as [|[j0 v0] l IH]; intros w k v H; [now left|].
  cbn [fold_left writeBaggageItem BaggagePrefix defaultConfig] in H. apply IH in H as [H | (j & Hin & ->)].
  - unfold carrierSet in H. apply lookup_insert_Some in H as [[<- <-] | [_ H]].
    + right. exists j0. split; [now left | reflexivity].
    + now left.
  - right. exists j. split; [now right | reflexivity].
Qed.


Lemma tag_update_fields (c : SpanContext) (k v : gostring) :
  let c1 := setPropagatingTag c k v in
  let c2 := unsetPropagatingTag c k in
  (traceID c1 = traceID c /\ spanID c1 = spanID c /\ origin c1 = origin c
   /\ SamplingPriority (Some c1) = SamplingPriority (Some c)
   /\ baggage c1 = baggage c /\ hasBaggage c1 = hasBaggage c)
  /\ (traceID c2 = traceID c /\ spanID c2 = spanID c /\ origin c2 = origin c
      /\ SamplingPriority (Some c2) = SamplingPriority (Some c)
      /\ baggage c2 = baggage c /\ hasBaggage c2 = hasBaggage c).
Proof.
  cbv zeta. unfold setPropagatingTag, unsetPropagatingTag, traceOrNew,
    SamplingPriority.
  destruct (trace c) as [t|] eqn:E; cbn; rewrite ?E; repeat split.
Qed.

(** **** The tags header *)

(** What [marshalPropagatingTags] has in its builder behind the loop: the
    pairs of the propagated tags behind what the builder held, or nothing
    when a tag went beyond the limit; and the pairs whenever the tags fit. *)
Lemma marshalTags_written (l : list (gostring * gostring)) :
  forall sb properr,
  let written :=
    match sb with
    | [] => tagPairs (List.filter (propagated isValidPropagatableTag) l)
    | _ =>
        sb ++ flat_map (fun kv => str "," ++ tagPair kv)
                (List.filter (propagated isValidPropagatableTag) l)
    end in
  (fst (marshalTags isValidPropagatableTag maxLen sb properr l) = []
   \/ fst (marshalTags isValidPropagatableTag maxLen sb properr l) = written)
  /\ (len sb + tagsBytes l <= maxLen ->
      fst (marshalTags isValidPropagatableTag maxLen sb properr l) = written).
Proof.
  induction l as [|[k v] l IH]; intros sb properr; cbv zeta.
  - cbn [marshalTags List.filter flat_map tagPairs fst].
    rewrite app_nil_r. destruct sb; split; auto.
  - set (P := propagated isValidPropagatableTag) in *.
    cbn [marshalTags].
    change (List.filter P ((k, v) :: l))
      with (if P (k, v) then (k, v) :: List.filter P l else List.filter P l).
    assert (HP : P (k, v)
                 = negb (eqb_str k tracestateHeader || eqb_str k traceparentHeader)
                   && isValidPropagatableTag k v) by reflexivity.
    cbn [tagsBytes fold_right fst snd]. fold (tagsBytes l).
    pose proof (tagsBytes_nonneg l) as Hnn.
    destruct (eqb_str k tracestateHeader || eqb_str k traceparentHeader);
      cbn [negb andb] in HP.
    { rewrite HP. destruct (IH sb properr) as [H1 H2]. split; [exact H1|].
      intros Hfit. apply H2. unfold len in *. lia. }
    destruct (isValidPropagatableTag k v); cbn [negb]; rewrite HP.
    2:{ destruct (IH sb (str "encoding_error")) as [H1 H2]. split; [exact H1|].
        intros Hfit. apply H2. unfold len in *. lia. }
    destruct (maxLen <? len sb + len k + len v) eqn:E.
    { split; [now left|]. intros Hfit. apply Z.ltb_lt in E. unfold len in *. lia. }
    apply Z.ltb_ge in E.
    set (sb' := (if 0 <? len sb then sb ++ str "," else sb) ++ k ++ str "=" ++ v).
    destruct (IH sb' properr) as [H1 H2].
    assert (Hsb' : sb' <> []).
    { unfold sb'. destruct (0 <? len sb), sb, k; discriminate. }
    assert (Hw : match sb' with
                 | [] => tagPairs (List.filter P l)
                 | _ => sb' ++ flat_map (fun kv => str "," ++ tagPair kv)
                                 (List.filter P l)
                 end
                 = match sb with
                   | [] => tagPairs ((k, v) :: List.filter P l)
                   | _ => sb ++ flat_map (fun kv => str "," ++ tagPair kv)
                                  ((k, v) :: List.filter P l)
                   end).
    { destruct sb' as [|c0 r0] eqn:E'; [contradiction|]. rewrite <- E'.
      unfold sb'. destruct sb as [|c sb].
      - reflexivity.
      - change (0 <? len (c :: sb)) with (0 <? Z.of_nat (S (length sb))).
        destruct (0 <? Z.of_nat (S (length sb))) eqn:E0;
          [|apply Z.ltb_ge in E0; lia].
        cbn [flat_map]. unfold tagPair. cbn [fst snd].
        now rewrite <- !app_assoc. }
    rewrite Hw in H1, H2. split; [exact H1|].
    intros Hfit. apply H2. unfold sb'.
    destruct (0 <? len sb); rewrite !len_app;
      change (len (str ",")) with 1; change (len (str "=")) with 1; lia.
Qed.

Lemma rangeMap_lookup (m : gmap gostring gostring) (k v : gostring) :
  In (k, v) (rangeMap m) <-> m !! k = Some v.
Proof.
  rewrite <- list_elem_of_In, (rangeMap_perm m). apply elem_of_map_to_list.
Qed.

Lemma rangeMap_NoDup (m : gmap gostring gostring) : NoDup (map fst (rangeMap m)).
Proof.
  change (map fst (rangeMap m)) with ((rangeMap m).*1).
  rewrite (rangeMap_perm m). apply NoDup_fst_map_to_list.
Qed.

(** The tag [_dd.p.tid] among the propagated tags of the injection. *)
Lemma propagated_tid :
  (list_to_map (List.filter (propagated isValidPropagatableTag)
                  (rangeMap (injectedTags C))) : gmap gostring gostring)
  !! keyTraceID128
  = upperTag C.
Proof.
  set (l := List.filter _ _).
  assert (Hnd : NoDup (map fst l)) by apply NoDup_fst_filter, rangeMap_NoDup.
  pose proof upper_fits as Hfit.
  unfold upperTag. destruct (HasUpper (traceID C)) eqn:Eu.
  - apply elem_of_list_to_map_1; [exact Hnd|].
    apply list_elem_of_In, filter_In. split.
    + apply rangeMap_lookup. unfold injectedTags. rewrite Eu. apply lookup_insert_eq.
    + unfold propagated. cbn [fst snd].
      rewrite (proj1 (Hfit eq_refl)). reflexivity.
  - apply not_elem_of_list_to_map_1. intros Hin.
    apply list_elem_of_In, in_map_iff in Hin as ([k v] & Hk & Hin).
    cbn [fst] in Hk. subst k. apply filter_In in Hin as [Hin _].
    apply rangeMap_lookup in Hin. unfold injectedTags in Hin. rewrite Eu in Hin.
    rewrite lookup_delete_eq in Hin. discriminate Hin.
Qed.

Lemma unmarshal_tidTag (st : SpanContext) (v : gostring) :
  tidTag (unmarshalPropagatingTags parsePropagatableTraceTags st v)
  = if propagationExtractMaxSize <? len v then tidTag st
    else match parsePropagatableTraceTags v with
         | Some tags => tags !! keyTraceID128
         | None => None
         end.
Proof.
  unfold unmarshalPropagatingTags, tidTag, traceOrNew.
  destruct (propagationExtractMaxSize <? len v).
  - cbn [trace with_trace trace_setTag propagatingTags].
    now destruct (trace st).
  - destruct (parsePropagatableTraceTags v); reflexivity.
Qed.

(** What the injection writes as tags header gives the tag [_dd.p.tid]
    back. *)
Lemma written_tags_read (s : gostring) :
  s = tagPairs (List.filter (propagated isValidPropagatableTag)
                  (rangeMap (injectedTags C))) ->
  0 < len s -> readsUpper parsePropagatableTraceTags C s.
Proof.
  intros Hs Hpos st Hst. rewrite unmarshal_tidTag.
  set (l := List.filter _ _) in Hs.
  assert (Hne : l <> []) by (intros E; rewrite E in Hs; subst s; discriminate Hpos).
  assert (Hnd : NoDup (map fst l)) by apply NoDup_fst_filter, rangeMap_NoDup.
  assert (Hv : Forall (fun kv => isValidPropagatableTag (fst kv) (snd kv) = true) l).
  { apply Forall_forall. intros kv Hin.
    apply list_elem_of_In, filter_In in Hin as [_ Hin].
    unfold propagated in Hin. now apply andb_true_iff in Hin as [_ Hin]. }
  destruct (tags_read_back l Hne Hnd Hv) as (tags & Hparse & Htid).
  rewrite <- Hs in Hparse. rewrite Hparse, Htid. fold l. unfold l.
  rewrite propagated_tid.
  destruct (propagationExtractMaxSize <? len s) eqn:E; [|reflexivity].
  apply Z.ltb_lt in E. unfold upperTag in *.
  pose proof upper_fits as Hfits.
  destruct (HasUpper (traceID C)) eqn:Eu; [|now destruct Hst].
  exfalso. destruct (Hfits eq_refl) as [_ Hfit].
  pose proof (tagPairs_bytes l) as H1.
  pose proof (tagsBytes_filter (propagated isValidPropagatableTag)
                (rangeMap (injectedTags C))) as H2.
  fold l in H2. rewrite (tagsBytes_perm _ _ (rangeMap_perm (injectedTags C))) in H2.
  rewrite <- Hs in H1. lia.
Qed.

(** The tags header the injection writes: one that gives the tag
    [_dd.p.tid] back, and there is one when the trace id has an upper
    half. *)
Lemma dd_inject_tags (c1 : SpanContext) :
  c1 = (if HasUpper (traceID C)
        then setPropagatingTag C keyTraceID128 (UpperHex (traceID C))
        else unsetPropagatingTag C keyTraceID128) ->
  let s := snd (marshalPropagatingTags rangeMap isValidPropagatableTag cfg c1) in
  (0 < len s -> readsUpper parsePropagatableTraceTags C s)
  /\ (HasUpper (traceID C) = true -> 0 < maxLen /\ 0 < len s).
Proof.
  intros Hc1. cbv zeta. unfold marshalPropagatingTags.
  cbn [MaxTagsHeaderLen defaultConfig].
  destruct (trace c1) as [t1|] eqn:Et1.
  2:{ cbn [snd]. split; [intros H; discriminate H|].
      intros Eu. rewrite Eu in Hc1. subst c1. discriminate Et1. }
  assert (Htags : propagatingTags t1 = injectedTags C).
  { unfold injectedTags. subst c1. destruct (HasUpper (traceID C)).
    - unfold setPropagatingTag, traceOrNew in Et1. cbn [trace with_trace] in Et1.
      injection Et1 as <-. now destruct (trace C).
    - unfold unsetPropagatingTag in Et1. destruct (trace C) as [t|] eqn:Et.
      + cbn [trace with_trace] in Et1. now injection Et1 as <-.
      + rewrite Et in Et1. discriminate Et1. }
  rewrite Htags.
  destruct (marshalTags_written (rangeMap (injectedTags C)) [] []) as [H1 H2].
  cbv zeta in H1, H2.
  destruct (marshalTags isValidPropagatableTag maxLen [] []
              (rangeMap (injectedTags C))) as [sb properr].
  cbn [fst] in H1, H2.
  assert (Hs : snd (if negb (length properr =? 0)%nat
                    then (with_trace c1
                            (Some (trace_setTag t1 keyPropagationError properr)), sb)
                    else (c1, sb)) = sb) by (now destruct (negb _)).
  rewrite Hs. split.
  - intros Hpos. destruct H1 as [H1 | H1]; [rewrite H1 in Hpos; discriminate Hpos|].
    now apply written_tags_read.
  - intros Eu. destruct (upper_fits Eu) as [Hvalid Hfit].
    pose proof (tagsBytes_perm _ _ (rangeMap_perm (injectedTags C))) as Hperm.
    assert (Hin : In (keyTraceID128, UpperHex (traceID C))
                    (List.filter (propagated isValidPropagatableTag)
                       (rangeMap (injectedTags C)))).
    { apply filter_In. split.
      - apply rangeMap_lookup. unfold injectedTags. rewrite Eu. apply lookup_insert_eq.
      - unfold propagated. cbn [fst snd]. rewrite Hvalid. reflexivity. }
    pose proof (tagsBytes_In _ _ _ _ Hin) as Hbytes.
    assert (0 <= len (UpperHex (traceID C))) by (unfold len; lia).
    change (len keyTraceID128) with 9 in Hbytes.
    split; [lia|].
    rewrite H2 by (change (len []) with 0; lia).
    destruct (List.filter _ _) as [|kv l]; [contradiction|].
    cbn [tagPairs]. unfold tagPair. rewrite !len_app.
    change (len (str "=")) with 1. unfold len. lia.
Qed.

(** The carrier the Datadog injection of [C] writes into an empty one: the
    trace id, the parent id, the priority if there is one, perhaps the
    origin, the baggage items, perhaps the tags. *)
Lemma dd_inject_shape :
  exists C' ov tv,
    dd_injectTextMap rangeMap isValidPropagatableTag cfg C ∅
    = (C',
       setOptional
         (fold_left writeBaggage (baggageItems rangeMap C)
            (setOptional
               (setOptional
                  (carrierSet
                     (carrierSet ∅ DefaultTraceIDHeader
                        (FormatUint (lower (traceID C)) 10))
                     DefaultParentIDHeader (FormatUint (spanID C) 10))
                  DefaultPriorityHeader
                  (if snd (SamplingPriority (Some C))
                   then Some (Itoa (fst (SamplingPriority (Some C)))) else None))
               originHeader ov))
         traceTagsHeader tv,
       None)
    /\ (forall s, tv = Some s -> readsUpper parsePropagatableTraceTags C s)
    /\ (HasUpper (traceID C) = true -> is_Some tv).
Proof.
  unfold dd_injectTextMap.
  assert (HE : Empty (traceID C) || (spanID C =? 0) = false).
  { rewrite traceID_set. apply Z.eqb_neq. lia. }
  rewrite HE.
  set (c1 := if HasUpper (traceID C) then _ else _).
  assert (Hc1 : traceID c1 = traceID C /\ spanID c1 = spanID C
                /\ origin c1 = origin C
                /\ SamplingPriority (Some c1) = SamplingPriority (Some C)
                /\ baggage c1 = baggage C /\ hasBaggage c1 = hasBaggage C).
  { unfold c1. destruct (HasUpper (traceID C)).
    - apply (proj1 (tag_update_fields C keyTraceID128 (UpperHex (traceID C)))).
    - apply (proj2 (tag_update_fields C keyTraceID128 [])). }
  destruct Hc1 as (Ht & Hs & Ho & Hp & Hb & Hh).
  assert (Hi : baggageItems rangeMap c1 = baggageItems rangeMap C)
    by (unfold baggageItems; rewrite Hb, Hh; reflexivity).
  destruct (dd_inject_tags c1 eq_refl) as [Hread Hupper]. cbv zeta in Hread, Hupper.
  rewrite Ht, Hs, Ho, Hp, !Hi.
  cbn [TraceHeader ParentHeader PriorityHeader MaxTagsHeaderLen defaultConfig].
  destruct (SamplingPriority (Some C)) as [sp ok]. cbn [fst snd].
  destruct (maxLen <=? 0) eqn:Emax.
  { apply Z.leb_le in Emax.
    exists c1, (if negb (length (origin C) =? 0)%nat then Some (origin C) else None),
      None.
    split; [|split].
    - destruct ok, (negb (length (origin C) =? 0)%nat); reflexivity.
    - intros s H. discriminate H.
    - intros Eu. destruct (Hupper Eu) as [Hpos _]. lia. }
  destruct (marshalPropagatingTags rangeMap isValidPropagatableTag
              (defaultConfig maxLen) c1) as [c2 s].
  cbn [snd] in Hread, Hupper.
  destruct (0 <? len s) eqn:Elen.
  - apply Z.ltb_lt in Elen.
    exists c2, (if negb (length (origin C) =? 0)%nat then Some (origin C) else None),
      (Some s).
    split; [|split].
    + destruct ok, (negb (length (origin C) =? 0)%nat); reflexivity.
    + intros s' [= <-]. now apply Hread.
    + intros _. now exists s.
  - apply Z.ltb_ge in Elen.
    exists c2, (if negb (length (origin C) =? 0)%nat then Some (origin C) else None),
      None.
    split; [|split].
    + destruct ok, (negb (length (origin C) =? 0)%nat); reflexivity.
    + intros s' H. discriminate H.
    + intros Eu. destruct (Hupper Eu) as [_ Hpos]. lia.
Qed.

Ltac distinct_keys :=
  let H := fresh in intros H; vm_compute in H; discriminate H.

Lemma lookup_setOptional_ne (m : gmap gostring gostring) (k k' : gostring)
  (ov : option gostring) :
  k <> k' -> setOptional m k' ov !! k = m !! k.
Proof.
  intros Hne. destruct ov as [v|]; [|reflexivity].
  apply lookup_insert_ne. congruence.
Qed.

Lemma lookup_setOptional_Some (m : gmap gostring gostring) (k k' v : gostring)
  (ov : option gostring) :
  setOptional m k' ov !! k = Some v -> (k = k' /\ ov = Some v) \/ m !! k = Some v.
Proof.
  destruct ov as [v'|]; [|now right]. cbn [setOptional]. unfold carrierSet.
  intros [[<- <-] | [_ H]]%lookup_insert_Some; [now left | now right].
Qed.

(** The headers the Datadog injection writes for [C], and those it is sure
    to write. *)
Lemma dd_inject_entries :
  exists C' m,
    dd_injectTextMap rangeMap isValidPropagatableTag cfg C ∅ = (C', m, None)
    /\ (forall k v, m !! k = Some v ->
        datadogEntry parsePropagatableTraceTags C k v)
    /\ is_Some (m !! DefaultTraceIDHeader)
    /\ is_Some (m !! DefaultParentIDHeader)
    /\ (snd (SamplingPriority (Some C)) = true -> is_Some (m !! DefaultPriorityHeader))
    /\ (forall j v, baggage C !! j = Some v ->
        m !! (DefaultBaggageHeaderPrefix ++ j) = Some v)
    /\ (HasUpper (traceID C) = true -> is_Some (m !! traceTagsHeader)).
Proof.
  destruct dd_inject_shape as (C' & ov & tv & H & Hread & Hupper).
  eexists _, _. split; [exact H|]. clear H.
  split; [|split; [|split; [|split; [|split]]]].
  - intros k v H. unfold datadogEntry.
    apply lookup_setOptional_Some in H as [[-> Htv] | H].
    { do 4 right. left. split; [reflexivity | now apply Hread]. }
    apply writeBaggage_sound in H as [H | (j & Hin & ->)].
    2:{ do 5 right. exists j. split; [reflexivity|]. now apply baggageItems_spec. }
    apply lookup_setOptional_Some in H as [[-> _] | H]; [tauto|].
    apply lookup_setOptional_Some in H as [[-> Hv] | H].
    { right; right; left. split; [reflexivity|].
      destruct (SamplingPriority (Some C)) as [sp ok]. cbn [fst snd] in Hv.
      destruct ok; [|discriminate]. exists sp. split; [reflexivity | congruence]. }
    unfold carrierSet in H.
    apply lookup_insert_Some in H as [[<- <-] | [_ H]]; [tauto|].
    apply lookup_insert_Some in H as [[<- <-] | [_ H]]; [tauto|].
    rewrite lookup_empty in H. discriminate.
  - rewrite lookup_setOptional_ne by distinct_keys.
    rewrite writeBaggage_frame by (intros; distinct_keys).
    rewrite !lookup_setOptional_ne by distinct_keys.
    unfold carrierSet. rewrite lookup_insert_ne by distinct_keys.
    rewrite lookup_insert_eq. eauto.
  - rewrite lookup_setOptional_ne by distinct_keys.
    rewrite writeBaggage_frame by (intros; distinct_keys).
    rewrite !lookup_setOptional_ne by distinct_keys.
    unfold carrierSet. rewrite lookup_insert_eq. eauto.
  - intros Hok. rewrite Hok.
    rewrite lookup_setOptional_ne by distinct_keys.
    rewrite writeBaggage_frame by (intros; distinct_keys).
    rewrite lookup_setOptional_ne by distinct_keys.
    cbn [setOptional]. unfold carrierSet. rewrite lookup_insert_eq. eauto.
  - intros j v Hjv.
    rewrite lookup_setOptional_ne by distinct_keys.
    apply writeBaggage_complete; [apply baggageItems_NoDup|].
    now apply baggageItems_spec.
  - intros Eu. destruct (Hupper Eu) as [s ->].
    cbn [setOptional]. unfold carrierSet. rewrite lookup_insert_eq. eauto.
Qed.

(** What the handler of the Datadog extraction does with each header of the
    default configuration. *)
Lemma ddHandler_trace (st : SpanContext) (v : gostring) :
  ddHandler unicodeToLower parsePropagatableTraceTags cfg st DefaultTraceIDHeader v
  = match parseUint64 v with
    | Some lowerTid => (with_traceID st (SetLower (traceID st) lowerTid), None)
    | None => (st, Some ErrSpanContextCorrupted)
    end.
Proof. reflexivity. Qed.

Lemma ddHandler_parent (st : SpanContext) (v : gostring) :
  ddHandler unicodeToLower parsePropagatableTraceTags cfg st DefaultParentIDHeader v
  = match parseUint64 v with
    | Some sid => (with_spanID st sid, None)
    | None => (with_spanID st 0, Some ErrSpanContextCorrupted)
    end.
Proof. reflexivity. Qed.

Lemma ddHandler_priority (st : SpanContext) (v : gostring) :
  ddHandler unicodeToLower parsePropagatableTraceTags cfg st DefaultPriorityHeader v
  = match Atoi v with
    | Some priority => (setSamplingPriority st priority samplerUnknown, None)
    | None => (st, Some ErrSpanContextCorrupted)
    end.
Proof. reflexivity. Qed.

Lemma ddHandler_origin (st : SpanContext) (v : gostring) :
  ddHandler unicodeToLower parsePropagatableTraceTags cfg st originHeader v
  = (with_origin st v, None).
Proof. reflexivity. Qed.

Lemma ddHandler_tags (st : SpanContext) (v : gostring) :
  ddHandler unicodeToLower parsePropagatableTraceTags cfg st traceTagsHeader v
  = (unmarshalPropagatingTags parsePropagatableTraceTags st v, None).
Proof. reflexivity. Qed.

Lemma ddHandler_baggage (st : SpanContext) (j v : gostring) :
  ToLower unicodeToLower (DefaultBaggageHeaderPrefix ++ j)
  = DefaultBaggageHeaderPrefix ++ j ->
  ddHandler unicodeToLower parsePropagatableTraceTags cfg st
    (DefaultBaggageHeaderPrefix ++ j) v
  = (setBaggageItem st j v, None).
Proof.
  intros Hlow. unfold ddHandler. cbv zeta. rewrite Hlow.
  cbn [TraceHeader ParentHeader PriorityHeader BaggagePrefix defaultConfig].
  unfold eqb_str.
  rewrite !bool_decide_eq_false_2 by distinct_keys.
  unfold TrimPrefix. rewrite HasPrefix_self_app.
  rewrite drop_app_length. reflexivity.
Qed.

Lemma unmarshalPropagatingTags_fields (st : SpanContext) (v : gostring) :
  let st' := unmarshalPropagatingTags parsePropagatableTraceTags st v in
  traceID st' = traceID st /\ spanID st' = spanID st
  /\ baggage st' = baggage st
  /\ SamplingPriority (Some st') = SamplingPriority (Some st).
Proof.
  cbv zeta. unfold unmarshalPropagatingTags, traceOrNew, SamplingPriority.
  destruct (trace st) as [t|] eqn:E;
    destruct (_ <? _); try destruct (parsePropagatableTraceTags v);
    cbn; rewrite ?E; repeat split.
Qed.

Lemma SamplingPriority_range (c : option SpanContext) (sp : Z) (ok : bool) :
  SamplingPriority c = (sp, ok) -> - 2 ^ 63 <= sp < 2 ^ 63.
Proof.
  unfold SamplingPriority. destruct c as [c|]; [|intros [= <- _]; lia].
  destruct (trace c) as [t|]; [|intros [= <- _]; lia].
  destruct (priority t) as [q|]; [|intros [= <- _]; lia].
  intros [= <- _]. unfold int_of_float64.
  destruct (- 2 ^ 63 <=? q) eqn:E1; [|cbn [andb]; lia].
  destruct (q <? 2 ^ 63) eqn:E2; cbn [andb]; [|lia].
  apply Z.leb_le in E1. apply Z.ltb_lt in E2. lia.
Qed.

Lemma setSamplingPriority_tidTag (c : SpanContext) (p sampler : Z) :
  tidTag (setSamplingPriority c p sampler) = tidTag c.
Proof.
  unfold setSamplingPriority, tidTag, traceOrNew.
  destruct (_ && _).
  - cbn [trace with_updated with_trace trace_setPropagatingTag propagatingTags].
    rewrite lookup_insert_ne by (vm_compute; discriminate).
    now destruct (trace c).
  - destruct (p <=? 0);
      cbn [trace with_updated with_trace trace_unsetPropagatingTag propagatingTags].
    + rewrite lookup_delete_ne by (vm_compute; discriminate).
      now destruct (trace c).
    + now destruct (trace c).
Qed.

Ltac old_key I :=
  let E := fresh in
  let H := fresh in
  intros [E | H]; [exfalso; vm_compute in E; discriminate E | exact (I H)].

(** One header of the injection of [C] keeps the extraction on the way to
    [C]. *)
Lemma ddHandler_step (seen : list gostring) (st : SpanContext) (k v : gostring) :
  datadogEntry parsePropagatableTraceTags C k v -> rebuilt C seen st ->
  exists st',
    ddHandler unicodeToLower parsePropagatableTraceTags cfg st k v = (st', None)
    /\ rebuilt C (k :: seen) st'.
Proof.
  intros Hentry (I1 & I2 & I3 & I4 & I5 & I6 & I7 & I8 & I9).
  destruct Hentry as [[-> ->] | [[-> ->] | [[-> (sp & Hsp & ->)]
                     | [-> | [[-> Hread] | (j & -> & Hj)]]]]].
  - rewrite ddHandler_trace, parseUint64_FormatUint by lia.
    eexists. split; [reflexivity|].
    split; [intros _; reflexivity|]. split; [old_key I2|].
    split; [intros sp Hsp; old_key (I3 sp Hsp)|].
    split; [exact I4|]. split; [exact I5|].
    split; [intros j; old_key (I6 j)|].
    split; [exact I7|]. split; [exact I8 | old_key I9].
  - rewrite ddHandler_parent, parseUint64_FormatUint by lia.
    eexists. split; [reflexivity|].
    split; [old_key I1|]. split; [intros _; reflexivity|].
    split; [intros sp Hsp; old_key (I3 sp Hsp)|].
    split; [exact I4|]. split; [exact I5|].
    split; [intros j; old_key (I6 j)|].
    split; [exact I7|]. split; [exact I8 | old_key I9].
  - rewrite ddHandler_priority, Atoi_Itoa
      by (apply (SamplingPriority_range _ _ _ Hsp)).
    eexists. split; [reflexivity|].
    destruct (setSamplingPriority_fields st sp samplerUnknown) as (Ft & Fs & Fb & _).
    unfold rebuilt.
    rewrite Ft, Fs, Fb, SamplingPriority_set_float, setSamplingPriority_tidTag.
    fold (heldPriority sp). rewrite (priority_held sp Hsp).
    split; [old_key I1|]. split; [old_key I2|].
    split; [intros sp' Hsp' _; congruence|].
    split; [rewrite Hsp; discriminate|]. split; [exact I5|].
    split; [intros j; old_key (I6 j)|].
    split; [exact I7|]. split; [exact I8 | old_key I9].
  - rewrite ddHandler_origin.
    eexists. split; [reflexivity|].
    split; [old_key I1|]. split; [old_key I2|].
    split; [intros sp Hsp; old_key (I3 sp Hsp)|].
    split; [exact I4|]. split; [exact I5|].
    split; [intros j; old_key (I6 j)|].
    split; [exact I7|]. split; [exact I8 | old_key I9].
  - rewrite ddHandler_tags.
    eexists. split; [reflexivity|].
    destruct (unmarshalPropagatingTags_fields st v) as (Ft & Fs & Fb & Fp).
    unfold rebuilt. rewrite Ft, Fs, Fb, Fp, (Hread st I8).
    split; [old_key I1|]. split; [old_key I2|].
    split; [intros sp Hsp; old_key (I3 sp Hsp)|].
    split; [exact I4|]. split; [exact I5|].
    split; [intros j; old_key (I6 j)|].
    split; [exact I7|]. split; [now right | reflexivity].
  - rewrite ddHandler_baggage by (apply (baggage_keys_lower j v Hj)).
    eexists. split; [reflexivity|].
    split; [old_key I1|]. split; [old_key I2|].
    split; [intros sp Hsp; old_key (I3 sp Hsp)|].
    split; [exact I4|].
    split; [|split; [|split; [exact I7 | split; [exact I8 | old_key I9]]]].
    + intros j' v'. unfold setBaggageItem, with_baggage; cbn [baggage].
      intros [[<- <-] | [_ H]]%lookup_insert_Some.
      * exact Hj.
      * now apply I5.
    + intros j'. unfold setBaggageItem, with_baggage; cbn [baggage].
      destruct (decide (j' = j)) as [-> | Hne].
      * intros _. now rewrite lookup_insert_eq.
      * rewrite lookup_insert_ne by congruence.
        intros [E | H]; [|now apply I6].
        apply app_inv_head in E. congruence.
Qed.

Lemma ForeachKey_rebuilt (l : list (gostring * gostring)) :
  forall seen st,
  (forall k v, In (k, v) l -> datadogEntry parsePropagatableTraceTags C k v) ->
  rebuilt C seen st ->
  exists st',
    ForeachKey (ddHandler unicodeToLower parsePropagatableTraceTags cfg) l st
    = (st', None)
    /\ rebuilt C (rev (map fst l) ++ seen) st'.
Proof.
  induction l as [|[k v] l IH]; intros seen st Hl Hinv.
  - exists st. split; [reflexivity | exact Hinv].
  - destruct (ddHandler_step seen st k v) as (st1 & Hstep & Hinv1);
      [apply Hl; now left | exact Hinv |].
    destruct (IH (k :: seen) st1) as (st' & Hfold & Hinv');
      [intros k' v' Hin; apply Hl; now right | exact Hinv1 |].
    exists st'. split.
    + cbn [ForeachKey]. rewrite Hstep. exact Hfold.
    + cbn [map fst rev]. rewrite <- app_assoc. exact Hinv'.
Qed.

Lemma rebuilt_zero : rebuilt C [] zeroSpanContext.
Proof.
  repeat split; try contradiction; try (now left).
  intros j v H. cbn in H. rewrite lookup_empty in H. discriminate.
Qed.

Lemma SamplingPriority_false (c : SpanContext) :
  snd (SamplingPriority (Some c)) = false -> SamplingPriority (Some c) = (0, false).
Proof.
  unfold SamplingPriority. destruct (trace c) as [t|]; [|reflexivity].
  destruct (priority t); [discriminate | reflexivity].
Qed.

Lemma traceID_eta (a b : traceID_t) :
  upper a = upper b -> lower a = lower b -> a = b.
Proof.
  destruct a, b. cbn. now intros -> ->.
Qed.

(** The upper half behind the loop: the tag [_dd.p.tid] of the injection,
    where there is one, is 16 hex digits and is read into the trace id; a
    context without the tag keeps the upper half 0. *)
Lemma dd_extract_upper (st : SpanContext) :
  upper (traceID st) = 0 ->
  tidTag st = upperTag C ->
  let ctx :=
    match trace st with
    | None => st
    | Some t =>
        let tid := propagatingTag t keyTraceID128 in
        if negb (validateTID tid) then unsetPropagatingTag st keyTraceID128
        else
          match SetUpperFromHex (traceID st) tid with
          | (t', true) => with_traceID st t'
          | (_, false) => unsetPropagatingTag st keyTraceID128
          end
    end in
  upper (traceID ctx) = upper (traceID C)
  /\ lower (traceID ctx) = lower (traceID st)
  /\ spanID ctx = spanID st /\ baggage ctx = baggage st
  /\ origin ctx = origin st
  /\ SamplingPriority (Some ctx) = SamplingPriority (Some st).
Proof.
  intros Hup Htid. cbv zeta. unfold tidTag, upperTag in Htid.
  destruct (tag_update_fields st keyTraceID128 [])
    as [_ (U1 & U2 & U3 & U4 & U5 & _)].
  assert (Hzero : HasUpper (traceID C) = false -> 0 = upper (traceID C)).
  { unfold HasUpper. intros H. apply negb_false_iff, Z.eqb_eq in H. lia. }
  destruct (trace st) as [t|] eqn:Et.
  2:{ destruct (HasUpper (traceID C)); [discriminate Htid|].
      rewrite Hup. now repeat split; try apply Hzero. }
  unfold propagatingTag. rewrite Htid.
  destruct (HasUpper (traceID C)) eqn:Eu; cbn [default from_option]; unfold id.
  - destruct (hexPadded_hex 16 (upper (traceID C)) upper_range ltac:(lia))
      as [Hlen Hhex].
    assert (Hv : validateTID (UpperHex (traceID C)) = true).
    { unfold validateTID, UpperHex. rewrite Hlen, Nat.eqb_refl.
      rewrite isValidID_hex;
        [reflexivity | exact Hhex | intros E; rewrite E in Hlen; discriminate Hlen]. }
    assert (Hs : SetUpperFromHex (traceID st) (UpperHex (traceID C))
                 = (SetUpper (traceID st) (upper (traceID C)), true)).
    { unfold SetUpperFromHex, UpperHex.
      now rewrite (ParseUint_hexPadded 16 _ upper_range). }
    rewrite Hv, Hs. cbn [negb]. now repeat split.
  - change (validateTID []) with false. cbn [negb].
    rewrite U1, U2, U3, U4, U5, Hup. now repeat split; try apply Hzero.
Qed.

(** The Datadog extraction of a carrier that holds headers of the injection
    of [C] only, the two ids, the priority and the baggage among them, and
    the tags when the trace id has an upper half. *)
Lemma dd_extract_rebuilt (m : gmap gostring gostring) :
  (forall k v, m !! k = Some v -> datadogEntry parsePropagatableTraceTags C k v) ->
  is_Some (m !! DefaultTraceIDHeader) ->
  is_Some (m !! DefaultParentIDHeader) ->
  (snd (SamplingPriority (Some C)) = true -> is_Some (m !! DefaultPriorityHeader)) ->
  (forall j v, baggage C !! j = Some v ->
   m !! (DefaultBaggageHeaderPrefix ++ j) = Some v) ->
  (HasUpper (traceID C) = true -> is_Some (m !! traceTagsHeader)) ->
  exists E,
    dd_extractTextMap unicodeToLower parsePropagatableTraceTags cfg (rangeMap m)
    = (Some E, None)
    /\ traceID E = traceID C
    /\ spanID E = spanID C
    /\ baggage E = baggage C
    /\ SamplingPriority (Some E) = SamplingPriority (Some C).
Proof.
  intros Hentries Htrace Hparent Hprio Hbag Htags.
  assert (Hseen : forall k, is_Some (m !! k) ->
                  In k (rev (map fst (rangeMap m)) ++ [])).
  { intros k [v Hv]. rewrite app_nil_r, <- in_rev.
    apply in_map_iff. exists (k, v). split; [reflexivity | now apply rangeMap_lookup]. }
  destruct (ForeachKey_rebuilt (rangeMap m) [] zeroSpanContext) as (st & HF & R);
    [intros k v H; apply Hentries; now apply rangeMap_lookup | apply rebuilt_zero |].
  destruct R as (I1 & I2 & I3 & I4 & I5 & I6 & I7 & I8 & I9).
  assert (Ht : lower (traceID st) = lower (traceID C)) by auto.
  assert (Hs : spanID st = spanID C) by auto.
  assert (Hp : SamplingPriority (Some st) = SamplingPriority (Some C)).
  { destruct (SamplingPriority (Some C)) as [sp ok] eqn:E. destruct ok.
    - apply I3; [reflexivity | apply Hseen, Hprio; reflexivity].
    - rewrite (I4 eq_refl). rewrite <- E. symmetry.
      apply SamplingPriority_false. now rewrite E. }
  assert (Hb : baggage st = baggage C).
  { apply map_eq. intros j. destruct (baggage C !! j) as [v|] eqn:Ej.
    - rewrite <- Ej. apply I6, Hseen. rewrite (Hbag j v Ej). eauto.
    - destruct (baggage st !! j) as [v|] eqn:Es; [|reflexivity].
      rewrite (I5 j v Es) in Ej. discriminate. }
  assert (Hu : tidTag st = upperTag C).
  { destruct I8 as [I8 | I8]; [|exact I8].
    unfold upperTag in *. destruct (HasUpper (traceID C)) eqn:Eu; [|exact I8].
    apply I9, Hseen, Htags. reflexivity. }
  unfold dd_extractTextMap. rewrite HF. cbv zeta.
  destruct (dd_extract_upper st I7 Hu) as (C0 & C1 & C2 & C3 & _ & C4).
  cbv zeta in C0, C1, C2, C3, C4.
  match goal with |- context [Empty (traceID ?c)] => set (ctx := c) in * end.
  assert (Hid : traceID ctx = traceID C) by (apply traceID_eta; congruence).
  assert (HE : Empty (traceID ctx)
               || ((spanID ctx =? 0) && negb (eqb_str (origin ctx) (str "synthetics")))
               = false).
  { rewrite Hid, traceID_set. cbn [orb].
    apply andb_false_iff. left. apply Z.eqb_neq. lia. }
  rewrite HE. exists ctx. split; [reflexivity|].
  repeat split; congruence.
Qed.


(** C1 (amended): with the Datadog format of the default header names on
    both sides, [C] with a trace id that is not empty and a span id that is
    not zero (of 64 bits each half and the span id), a sampling priority
    (if any) that the float64 of the trace holds, its baggage flag set when
    there is baggage, and baggage keys that [strings.ToLower] leaves alone
    behind the baggage prefix; and, when the trace id has an upper half,
    propagating tags that fit into the tags header (the limit of the
    configuration and the 512 bytes the extraction reads), among them a
    valid [_dd.p.tid]: the injection of [C] into an empty carrier succeeds,
    and the extraction from the carrier it leaves returns a context with
    the trace id in full, the span id, the baggage map and the sampling
    priority of [C].  The parser of the tags header, which is declared
    outside the sources, is taken to read the tag [_dd.p.tid] back from the
    pairs of valid tags. *)
Theorem datadog_roundtrip (first : bool) :
  let dd :=
    propagator unicodeToLower rangeMap isValidPropagatableTag
      parsePropagatableTraceTags cfg in
  let p := mkChainedPropagator [dd] [dd] [] [] first in
  exists C' m E,
    chained_Inject p (Some C) (TextMapCarrier ∅)
    = Returned (Some C', TextMapCarrier m, None)
    /\ chained_Extract rangeMap p (TextMapCarrier m) = Returns (Some E) None
    /\ traceID E = traceID C
    /\ spanID E = spanID C
    /\ baggage E = baggage C
    /\ SamplingPriority (Some E) = SamplingPriority (Some C).
Proof.
  intros dd p.
  destruct dd_inject_entries as (C' & m & Hinj & He & Ht & Hp & Hpr & Hb & Hu).
  destruct (dd_extract_rebuilt m He Ht Hp Hpr Hb Hu) as (E & Hext & F).
  exists C', m, E. split; [|split; [|exact F]].
  - unfold chained_Inject, p. cbn [injectors injectAll].
    unfold dd. cbn [Inject propagator injectWith]. rewrite Hinj. reflexivity.
  - unfold chained_Extract, p. cbn [extractors extractLoop].
    unfold dd. cbn [Extract typeOf propagator extractWith readerOf isType].
    rewrite Hext. cbn [onlyExtractFirst].
    destruct first; [reflexivity|].
    unfold finishExtract. rewrite map_size_empty. reflexivity.
Qed.

End Roundtrip.

End Facts.

(** C8 fails on the code: the 256 bytes are checked in the tag loop only.
    Origin and parent id are written unchecked, so for [longOriginContext],
    a local span with a priority, no tag and an origin of 300 bytes,
    [composeTracestate] returns a [dd=] member of 328 bytes, and the W3C
    injection writes it as the tracestate of the carrier. *)
Theorem composeTracestate_dd_unbounded :
  composeTracestate Concrete.rangeMap longOriginContext 1 []
  = Returned (str "dd=s:1;o:" ++ repeat "a"%char 300 ++ str ";p:0000000000000002")
  /\ len (str "dd=s:1;o:" ++ repeat "a"%char 300 ++ str ";p:0000000000000002") = 328
  /\ exists ctx w,
       Concrete.w3c_injectTextMap longOriginContext ∅ = Returned (ctx, w, None)
       /\ w !! tracestateHeader
          = Some (str "dd=s:1;o:" ++ repeat "a"%char 300 ++ str ";p:0000000000000002").
Proof.
  split; [vm_compute; reflexivity|]. split; [vm_compute; reflexivity|].
  eexists _, _. split; [vm_compute; reflexivity|]. vm_compute. reflexivity.
Qed.

(** Whatever the tags and the old state are, a head beyond 256 bytes is
    returned as it is: here for [longOriginContext] with an old state. *)
Lemma composeTracestate_head_unchecked_witness :
  exists rest,
    composeTracestate Concrete.rangeMap longOriginContext 1 (str "othervendor=t61rcWkgMzE")
    = Returned (composeHead longOriginContext 1 ++ rest)
    /\ (rest = [] \/ exists r, rest = ","%char :: r).
Proof.
  refine (composeTracestate_head_unchecked Concrete.rangeMap longOriginContext
            _ 1 (str "othervendor=t61rcWkgMzE") eq_refl _).
  vm_compute. reflexivity.
Defined.

Lemma composeTracestate_dd_bound_witness :
  len (composeHead rumContext 2) <= 256
  /\ exists t rest,
       trace rumContext = Some t
       /\ composeTracestate Concrete.rangeMap rumContext 2 (str "othervendor=t61rcWkgMzE")
          = Returned (composeDD Concrete.rangeMap rumContext t 2 ++ rest)
       /\ (rest = [] \/ exists r, rest = ","%char :: r)
       /\ len (composeDD Concrete.rangeMap rumContext t 2) <= 256.
Proof.
  assert (H : len (composeHead rumContext 2) <= 256) by (vm_compute; discriminate).
  split; [exact H|].
  destruct (trace rumContext) as [t|] eqn:Ht; [|vm_compute in Ht; discriminate Ht].
  exists t.
  destruct (composeTracestate_dd_bound Concrete.rangeMap rumContext t 2
              (str "othervendor=t61rcWkgMzE") Ht H) as (rest & H1 & H2 & H3).
  exists rest. repeat split; assumption.
Defined.


Lemma baggage_malformed_discarded_witness :
  Exists malformedPiece
    (Split (fst (ForeachKey (baggageHandler Concrete.unicodeToLower)
                   [(str "baggage", str "key1=value1,key2=")] [])) ",")
  /\ baggage_extractTextMap Concrete.unicodeToLower
       [(str "baggage", str "key1=value1,key2=")]
     = (Some zeroSpanContext, None).
Proof.
  assert (H : Exists malformedPiece
                (Split (fst (ForeachKey (baggageHandler Concrete.unicodeToLower)
                               [(str "baggage", str "key1=value1,key2=")] [])) ",")).
  { vm_compute. apply Exists_cons_tl, Exists_cons_hd. right. right. reflexivity. }
  split; [exact H|].
  exact (proj1 (baggage_malformed_discarded Concrete.unicodeToLower _ H)).
Defined.



Lemma chained_first_extract_witness :
  isType (typeOf datadogPropagator) TypePropagatorBaggage = false
  /\ onlyExtractFirst (Concrete.chain [] [datadogPropagator; Concrete.propagatorW3c] false)
     = false
  /\ Extract datadogPropagator corruptedDatadogCarrier
     = (None, Some ErrSpanContextCorrupted)
  /\ ErrSpanContextCorrupted <> ErrSpanContextNotFound
  /\ extractLoop Concrete.rangeMap
       (Concrete.chain [] [datadogPropagator; Concrete.propagatorW3c] false)
       corruptedDatadogCarrier [datadogPropagator; Concrete.propagatorW3c] None [] ∅
     = Returns None (Some ErrSpanContextCorrupted).
Proof.
  assert (H1 : isType (typeOf datadogPropagator) TypePropagatorBaggage = false)
    by reflexivity.
  assert (H2 : onlyExtractFirst
                 (Concrete.chain [] [datadogPropagator; Concrete.propagatorW3c] false)
               = false) by reflexivity.
  assert (H3 : Extract datadogPropagator corruptedDatadogCarrier
               = (None, Some ErrSpanContextCorrupted)) by (vm_compute; reflexivity).
  assert (H4 : ErrSpanContextCorrupted <> ErrSpanContextNotFound) by discriminate.
  split; [exact H1|]. split; [exact H2|]. split; [exact H3|]. split; [exact H4|].
  exact (proj1 (proj1 (chained_first_extract Concrete.rangeMap
                         (Concrete.chain [] [datadogPropagator; Concrete.propagatorW3c] false)
                         corruptedDatadogCarrier datadogPropagator
                         [Concrete.propagatorW3c] [] ∅ H1) H2)
           None ErrSpanContextCorrupted H3 H4).
Defined.

(** C4 fails on the code: the flag is computed from the priority converted
    to [uint32], and a negative priority converts to a positive number.  With the extractors tracecontext, datadog and the
    carrier [rejectedDatadogCarrier] the Datadog context (trace 1, priority
    -1) differs from the winning one (trace 2), and its link carries the
    flag 1. *)
Theorem span_link_flag_of_negative_priority :
  SamplingPriority (fst (Extract datadogPropagator rejectedDatadogCarrier))
  = (-1, true)
  /\ exists ctx,
       Concrete.chained_Extract
         (Concrete.chain [] [Concrete.propagatorW3c; datadogPropagator] false)
         rejectedDatadogCarrier
       = Returns (Some ctx) None
       /\ traceID ctx = mkTraceID 0 2
       /\ spanLinks ctx =
          [SpanLink.mk 1 0 1
             (<[str "context_headers" := str "datadog"]>
                (<[str "reason" := str "terminated_context"]> ∅))
             [] 1].
Proof.
  split; [vm_compute; reflexivity|].
  eexists. split; [vm_compute; reflexivity|]. split; vm_compute; reflexivity.
Qed.

(** A later context that has a trace but no priority (Datadog headers with
    tags and no sampling priority) makes the extraction dereference a nil
    pointer. *)
Lemma span_link_without_priority_panics :
  Concrete.chained_Extract
    (Concrete.chain [] [Concrete.propagatorW3c; datadogPropagator] false)
    untaggedPriorityCarrier
  = Panics.
Proof.
  vm_compute. reflexivity.
Qed.

(** C5, as stated, fails: the header is trimmed before its length is
    checked, so the version-0 header [traceparent56], 56 bytes long, is
    parsed. *)
Lemma traceparent_longer_than_55_parsed :
  HasPrefix traceparent56 (str "00-") = true
  /\ length traceparent56 = 56%nat
  /\ snd (Concrete.parseTraceparent zeroSpanContext traceparent56) = None
  /\ spanID (fst (Concrete.parseTraceparent zeroSpanContext traceparent56))
     = 2459565876494606882.
Proof.
  repeat split; vm_compute; reflexivity.
Qed.

(** Flags from 80 to ff do not fit the 8-bit signed integer the parser
    reads them into: such a header is corrupted. *)
Lemma traceparent_high_flags_corrupted :
  snd (Concrete.parseTraceparent zeroSpanContext
         (str "00-00000000000000001111111111111111-2222222222222222-80"))
  = Some ErrSpanContextCorrupted.
Proof.
  vm_compute. reflexivity.
Qed.

Lemma traceparent_lengths_witness :
  normalized Concrete.unicodeToLower traceparent56
  = str "00" ++ str "-" ++ str "00000000000000001111111111111111" ++ str "-"
    ++ str "2222222222222222" ++ str "-" ++ str "01"
  /\ hexString 32 (str "00000000000000001111111111111111")
  /\ TrimLeft (str "00000000000000001111111111111111") (str "0") <> []
  /\ hexString 16 (str "2222222222222222")
  /\ ParseUint (str "2222222222222222") 16 64 = Some 2459565876494606882
  /\ 2459565876494606882 <> 0
  /\ hexString 2 (str "01")
  /\ ParseInt (str "01") 16 8 = Some 1
  /\ exists ctx',
       parseTraceparent Concrete.unicodeToLower zeroSpanContext traceparent56
       = (ctx', None)
       /\ spanID ctx' = 2459565876494606882
       /\ SamplingPriority (Some ctx') = (Z.land 1 1, true).
Proof.
  assert (H1 : normalized Concrete.unicodeToLower traceparent56
               = str "00" ++ str "-" ++ str "00000000000000001111111111111111"
                 ++ str "-" ++ str "2222222222222222" ++ str "-" ++ str "01")
    by (vm_compute; reflexivity).
  assert (H2 : hexString 32 (str "00000000000000001111111111111111"))
    by hex_literal.
  assert (H3 : TrimLeft (str "00000000000000001111111111111111") (str "0") <> [])
    by (vm_compute; discriminate).
  assert (H4 : hexString 16 (str "2222222222222222")) by hex_literal.
  assert (H5 : ParseUint (str "2222222222222222") 16 64 = Some 2459565876494606882)
    by (vm_compute; reflexivity).
  assert (H6 : 2459565876494606882 <> 0) by discriminate.
  assert (H7 : hexString 2 (str "01")) by hex_literal.
  assert (H8 : ParseInt (str "01") 16 8 = Some 1) by (vm_compute; reflexivity).
  split; [exact H1|]. split; [exact H2|]. split; [exact H3|]. split; [exact H4|].
  split; [exact H5|]. split; [exact H6|]. split; [exact H7|]. split; [exact H8|].
  exact (proj2 (proj1 (proj2 (traceparent_lengths Concrete.unicodeToLower
                                zeroSpanContext traceparent56))
                  _ _ _ _ _ H1 H2 H3 H4 H5 H6 H7 H8)).
Defined.

Lemma w3c_zero_span_id_witness :
  w3c_extractTextMap Concrete.unicodeToLower
    ([(str "tracestate", str "dd=s:1")]
     ++ (str "Traceparent", traceparentZeroSpan) :: [])
  = (None, Some ErrSpanContextNotFound).
Proof.
  apply (w3c_zero_span_id Concrete.unicodeToLower
           [(str "tracestate", str "dd=s:1")] [] (str "Traceparent")
           traceparentZeroSpan (str "00")
           (str "00000000000000001111111111111111") (str "01") 0).
  - repeat constructor. vm_compute. discriminate.
  - constructor.
  - vm_compute. reflexivity.
  - vm_compute. reflexivity.
  - hex_literal.
  - vm_compute. reflexivity.
  - discriminate.
  - reflexivity.
  - simpl. lia.
  - hex_literal.
  - vm_compute. discriminate.
Defined.

(** C3, as stated, fails: with the flag 0 and [s <= 0] the decision maker
    does not stay as it is.  A [t.dm] member in front of [s:] is taken (the
    tracestate [dd=t.dm:-4] alone leaves the decision maker [-4]) and then
    removed when [s:0] is read, while the same two members in the other
    order leave the decision maker [-4]. *)
Lemma tracestate_decision_maker_removed :
  SamplingPriority (Some unsampledContext) = (0, true)
  /\ decisionMaker (parseTracestate unsampledContext (str "dd=t.dm:-4")) = Some (str "-4")
  /\ SamplingPriority (Some (parseTracestate unsampledContext (str "dd=t.dm:-4;s:0")))
     = (0, true)
  /\ decisionMaker (parseTracestate unsampledContext (str "dd=t.dm:-4;s:0")) = None
  /\ decisionMaker (parseTracestate unsampledContext (str "dd=s:0;t.dm:-4"))
     = Some (str "-4").
Proof.
  repeat split; vm_compute; reflexivity.
Qed.

(** Beyond [2^53] the priority of the tracestate is not kept as it is: the
    float64 of the trace rounds it. *)
Lemma tracestate_priority_rounded :
  SamplingPriority
    (Some (parseTracestate sampledContext (str "dd=s:9007199254740993")))
  = (9007199254740992, true).
Proof.
  vm_compute. reflexivity.
Qed.

Lemma tracestate_priority_reconciled_witness :
  SamplingPriority (Some unsampledContext) = (0, true)
  /\ SamplingPriority
       (Some (parseTracestate unsampledContext
                (str "foo=1,dd=t.dm:-4;s:-1;o:rum;t.dm:-3,bar=2")))
     = (-1, true)
  /\ decisionMaker
       (parseTracestate unsampledContext
          (str "foo=1,dd=t.dm:-4;s:-1;o:rum;t.dm:-3,bar=2"))
     = Some (str "-3").
Proof.
  assert (H1 : SamplingPriority (Some unsampledContext) = (0, true)) by reflexivity.
  split; [exact H1|].
  exact (proj1 (proj2 (tracestate_priority_reconciled unsampledContext 0 (-1)
                         (str "foo=1,dd=t.dm:-4;s:-1;o:rum;t.dm:-3,bar=2")
                         (str "t.dm:-4;s:-1;o:rum;t.dm:-3") (str "-1")
                         [str "foo=1"] [str "bar=2"] [str "t.dm:-4"]
                         [str "o:rum"; str "t.dm:-3"]
                         H1 ltac:(discriminate) eq_refl
                         ltac:(repeat constructor) eq_refl
                         ltac:(repeat constructor) eq_refl))
           eq_refl ltac:(lia)).
Defined.


(** The Datadog format does not give back a baggage key with a capital
    letter: the extraction lowers the header names, so the item [Key] of
    the injected context comes back as [key]. *)
Lemma datadog_roundtrip_lowers_baggage_keys :
  Empty (traceID capitalKeyContext) = false
  /\ spanID capitalKeyContext <> 0
  /\ exists C' m E,
       Concrete.chained_Inject datadogChain (Some capitalKeyContext) (TextMapCarrier ∅)
       = Returned (Some C', TextMapCarrier m, None)
       /\ Concrete.chained_Extract datadogChain (TextMapCarrier m)
          = Returns (Some E) None
       /\ baggage capitalKeyContext !! str "Key" = Some (str "value")
       /\ baggage E !! str "Key" = None
       /\ baggage E <> baggage capitalKeyContext.
Proof.
  split; [reflexivity|]. split; [discriminate|].
  eexists _, _, _. split; [vm_compute; reflexivity|].
  split; [vm_compute; reflexivity|].
  split; [vm_compute; reflexivity|].
  split; [vm_compute; reflexivity|].
  intros H. apply (f_equal (fun b => b !! str "Key")) in H.
  vm_compute in H. discriminate H.
Qed.

(** The upper half of a trace id travels in the tags header only: with the
    propagation of tags switched off (a limit of 0), the trace id of
    [wideContext] comes back without its upper half. *)
Lemma datadog_roundtrip_upper_needs_tags :
  exists C' m E,
    Concrete.chained_Inject untaggedChain (Some wideContext) (TextMapCarrier ∅)
    = Returned (Some C', TextMapCarrier m, None)
    /\ Concrete.chained_Extract untaggedChain (TextMapCarrier m)
       = Returns (Some E) None
    /\ traceID wideContext = mkTraceID 5 6
    /\ traceID E = mkTraceID 0 6.
Proof.
  eexists _, _, _. split; [vm_compute; reflexivity|].
  split; [vm_compute; reflexivity|]. split; vm_compute; reflexivity.
Qed.

(** The B3 format carries no baggage and keeps of the priority only whether
    it is positive. *)
Lemma b3_roundtrip_loses_baggage_and_priority :
  exists C' m E,
    Concrete.chained_Inject b3Chain (Some lowerKeyContext) (TextMapCarrier ∅)
    = Returned (Some C', TextMapCarrier m, None)
    /\ Concrete.chained_Extract b3Chain (TextMapCarrier m) = Returns (Some E) None
    /\ baggage E = ∅
    /\ SamplingPriority (Some lowerKeyContext) = (2, true)
    /\ SamplingPriority (Some E) = (1, true).
Proof.
  eexists _, _, _. split; [vm_compute; reflexivity|].
  split; [vm_compute; reflexivity|].
  split; [vm_compute; reflexivity|].
  split; vm_compute; reflexivity.
Qed.

(** **** The tags header of the concrete parameters *)

Lemma concrete_valid_tag (k v : gostring) :
  Concrete.isValidPropagatableTag k v = true ->
  Forall (fun c => Ascii.eqb c "=" = false) k
  /\ Forall (fun c => Ascii.eqb c "," = false) k
  /\ Forall (fun c => Ascii.eqb c "," = false) v
  /\ k <> [] /\ v <> [].
Proof.
  unfold Concrete.isValidPropagatableTag. intros H.
  apply andb_true_iff in H as [H Hv]. apply andb_true_iff in H as [H Hk].
  apply andb_true_iff in H as [Hk0 Hv0].
  rewrite forallb_forall in Hk, Hv.
  assert (Hkc : forall c, In c k ->
                Ascii.eqb c "=" = false /\ Ascii.eqb c "," = false).
  { intros c Hc. specialize (Hk c Hc). apply andb_true_iff in Hk as [_ Hk].
    apply negb_true_iff in Hk. unfold inCutset in Hk.
    cbn [str list_ascii_of_string existsb] in Hk.
    apply orb_false_iff in Hk as [_ Hk]. apply orb_false_iff in Hk as [H1 Hk].
    apply orb_false_iff in Hk as [H2 _]. now split. }
  assert (Hvc : forall c, In c v -> Ascii.eqb c "," = false).
  { intros c Hc. specialize (Hv c Hc). apply andb_true_iff in Hv as [_ Hv].
    apply negb_true_iff in Hv. unfold inCutset in Hv.
    cbn [str list_ascii_of_string existsb] in Hv.
    now apply orb_false_iff in Hv as [H1 _]. }
  repeat split.
  - apply Forall_forall. intros c Hc. apply list_elem_of_In in Hc. now apply Hkc.
  - apply Forall_forall. intros c Hc. apply list_elem_of_In in Hc. now apply Hkc.
  - apply Forall_forall. intros c Hc. apply list_elem_of_In in Hc. now apply Hvc.
  - intros ->. discriminate Hk0.
  - intros ->. discriminate Hv0.
Qed.

Lemma concrete_pair_no_comma (kv : gostring * gostring) :
  Concrete.isValidPropagatableTag (fst kv) (snd kv) = true ->
  Forall (fun c => Ascii.eqb c "," = false) (tagPair kv).
Proof.
  intros H. destruct (concrete_valid_tag _ _ H) as (_ & Hk & Hv & _).
  unfold tagPair. apply Forall_app. split; [exact Hk|].
  apply Forall_app. split; [repeat constructor | exact Hv].
Qed.

Lemma concrete_split_pairs (l : list (gostring * gostring)) :
  Forall (fun kv => Concrete.isValidPropagatableTag (fst kv) (snd kv) = true) l ->
  forall p cur,
  Forall (fun c => Ascii.eqb c "," = false) p ->
  split_go "," cur (p ++ flat_map (fun kv => str "," ++ tagPair kv) l)
  = (rev cur ++ p) :: map tagPair l.
Proof.
  induction 1 as [|kv l Hkv _ IH]; intros p cur Hp.
  - cbn [flat_map map]. rewrite app_nil_r. now apply split_go_nosep.
  - cbn [flat_map map]. rewrite <- app_assoc.
    change (str "," ++ tagPair kv ++ flat_map (fun kv0 => str "," ++ tagPair kv0) l)
      with (","%char :: tagPair kv
                       ++ flat_map (fun kv0 => str "," ++ tagPair kv0) l).
    rewrite (split_go_piece "," p Hp).
    rewrite (IH (tagPair kv) [] (concrete_pair_no_comma kv Hkv)). reflexivity.
Qed.

Lemma concrete_parsePairs (l : list (gostring * gostring)) :
  Forall (fun kv => Concrete.isValidPropagatableTag (fst kv) (snd kv) = true) l ->
  forall m,
  Concrete.parsePairs (map tagPair l) m
  = Some (fold_left (fun m kv => <[fst kv := snd kv]> m) l m).
Proof.
  induction 1 as [|[k v] l Hkv _ IH]; intros m; [reflexivity|].
  cbn [map Concrete.parsePairs fold_left]. cbn [fst snd] in Hkv.
  destruct (concrete_valid_tag k v Hkv) as (Hk & _ & _ & Hk0 & Hv0).
  unfold tagPair, Cut. cbn [fst snd].
  change (str "=" ++ v) with ("="%char :: v).
  rewrite (cut_go_piece "=" k Hk). cbn [rev app negb orb].
  destruct k as [|c k]; [contradiction|]. destruct v as [|d v]; [contradiction|].
  cbn [length Nat.eqb]. apply IH.
Qed.

(** The parser of the concrete parameters reads the pairs of valid tags
    back. *)
Lemma concrete_tags_read_back :
  readsBack Concrete.isValidPropagatableTag Concrete.parsePropagatableTraceTags.
Proof.
  intros l Hne Hnd Hv. destruct l as [|kv rest]; [contradiction|].
  apply Forall_cons in Hv as Hv'. destruct Hv' as [Hkv Hrest].
  unfold Concrete.parsePropagatableTraceTags.
  assert (Hlen : (length (tagPairs (kv :: rest)) =? 0)%nat = false).
  { cbn [tagPairs]. unfold tagPair.
    destruct (concrete_valid_tag _ _ Hkv) as (_ & _ & _ & Hk0 & _).
    destruct (fst kv); [contradiction | reflexivity]. }
  rewrite Hlen. unfold Split. cbn [tagPairs].
  rewrite (concrete_split_pairs rest Hrest (tagPair kv) []
             (concrete_pair_no_comma kv Hkv)).
  change (rev [] ++ tagPair kv :: map tagPair rest) with (map tagPair (kv :: rest)).
  cbn [rev app].
  change (tagPair kv :: map tagPair rest) with (map tagPair (kv :: rest)).
  rewrite (concrete_parsePairs (kv :: rest) Hv).
  eexists. split; [reflexivity|].
  rewrite (fold_insert_lookup (kv :: rest) Hnd), lookup_empty.
  now destruct (_ !! _).
Qed.

Lemma datadog_roundtrip_witness :
  (forall m, Concrete.rangeMap m ≡ₚ map_to_list m)
  /\ readsBack Concrete.isValidPropagatableTag Concrete.parsePropagatableTraceTags
  /\ 0 <= upper (traceID wideContext) < 2 ^ 64
  /\ 0 <= lower (traceID wideContext) < 2 ^ 64
  /\ Empty (traceID wideContext) = false
  /\ 0 < spanID wideContext < 2 ^ 64
  /\ (forall sp, SamplingPriority (Some wideContext) = (sp, true) ->
      heldPriority sp = sp)
  /\ (HasUpper (traceID wideContext) = true ->
      Concrete.isValidPropagatableTag keyTraceID128 (UpperHex (traceID wideContext))
      = true
      /\ tagsBytes (map_to_list (injectedTags wideContext))
         <= Z.min 128 propagationExtractMaxSize)
  /\ (hasBaggage wideContext = false -> baggage wideContext = ∅)
  /\ (forall j v, baggage wideContext !! j = Some v ->
      ToLower Concrete.unicodeToLower (DefaultBaggageHeaderPrefix ++ j)
      = DefaultBaggageHeaderPrefix ++ j)
  /\ exists C' m E,
       chained_Inject datadogChain (Some wideContext) (TextMapCarrier ∅)
       = Returned (Some C', TextMapCarrier m, None)
       /\ chained_Extract Concrete.rangeMap datadogChain (TextMapCarrier m)
          = Returns (Some E) None
       /\ traceID E = traceID wideContext
       /\ spanID E = spanID wideContext
       /\ baggage E = baggage wideContext
       /\ SamplingPriority (Some E) = SamplingPriority (Some wideContext).
Proof.
  assert (H1 : forall m, Concrete.rangeMap m ≡ₚ map_to_list m) by reflexivity.
  assert (H2 : 0 <= upper (traceID wideContext) < 2 ^ 64) by (cbn; lia).
  assert (H3 : 0 <= lower (traceID wideContext) < 2 ^ 64) by (cbn; lia).
  assert (H4 : Empty (traceID wideContext) = false) by reflexivity.
  assert (H5 : 0 < spanID wideContext < 2 ^ 64) by (cbn; lia).
  assert (H6 : forall sp, SamplingPriority (Some wideContext) = (sp, true) ->
               heldPriority sp = sp).
  { intros sp H. vm_compute in H. injection H as <-. reflexivity. }
  assert (H7 : HasUpper (traceID wideContext) = true ->
               Concrete.isValidPropagatableTag keyTraceID128
                 (UpperHex (traceID wideContext)) = true
               /\ tagsBytes (map_to_list (injectedTags wideContext))
                  <= Z.min 128 propagationExtractMaxSize).
  { intros _. split; [vm_compute; reflexivity | vm_compute; discriminate]. }
  assert (H8 : hasBaggage wideContext = false -> baggage wideContext = ∅)
    by discriminate.
  assert (H9 : forall j v, baggage wideContext !! j = Some v ->
               ToLower Concrete.unicodeToLower (DefaultBaggageHeaderPrefix ++ j)
               = DefaultBaggageHeaderPrefix ++ j).
  { intros j v H.
    change (baggage wideContext)
      with (<[str "key" := str "value"]> (∅ : gmap gostring gostring)) in H.
    apply lookup_insert_Some in H as [[<- _] | [_ H]]; [reflexivity|].
    rewrite lookup_empty in H. discriminate H. }
  split; [exact H1|]. split; [exact concrete_tags_read_back|].
  split; [exact H2|]. split; [exact H3|]. split; [exact H4|]. split; [exact H5|].
  split; [exact H6|]. split; [exact H7|]. split; [exact H8|]. split; [exact H9|].
  exact (datadog_roundtrip Concrete.unicodeToLower Concrete.rangeMap
           Concrete.isValidPropagatableTag Concrete.parsePropagatableTraceTags
           128 wideContext H1 concrete_tags_read_back H2 H3 H4 H5 H6 H7 H8 H9
           false).
Defined.

End TracerFacts.

(** * Further properties of the propagators *)

Module PropagationFacts.
Import GoStrings Strconv Utf8 Sanitizer Url Model Tracer Spec BasicFacts Inputs.
Import SanitizerFacts TracerFacts.

Section More.

Variable unicodeToLower : gostring -> gostring.
Variable rangeMap : gmap gostring gostring -> list (gostring * gostring).
Variable isValidPropagatableTag : gostring -> gostring -> bool.
Variable parsePropagatableTraceTags : gostring -> option (gmap gostring gostring).

Local Abbreviation datadog :=
  (propagator unicodeToLower rangeMap isValidPropagatableTag
     parsePropagatableTraceTags).
Local Abbreviation b3multi := (propagatorB3 unicodeToLower rangeMap).
Local Abbreviation b3single := (propagatorB3SingleHeader unicodeToLower rangeMap).
Local Abbreviation tracecontext := (propagatorW3c unicodeToLower rangeMap).
Local Abbreviation baggageFormat := (propagatorBaggage unicodeToLower rangeMap).

(** ** The chained propagator *)

(** X18: [chainedPropagator.Inject] runs its injectors in order: the injectors
    [l2] run on what the injectors [l1] leave, and not at all when one of
    [l1] fails or panics. *)
Theorem injectAll_app (l1 l2 : list Propagator) :
  forall (spanCtx : option SpanContext) (c : carrier),
  injectAll (l1 ++ l2) spanCtx c
  = match injectAll l1 spanCtx c with
    | Returned (spanCtx', c', None) => injectAll l2 spanCtx' c'
    | Returned (spanCtx', c', Some err) => Returned (spanCtx', c', Some err)
    | Panicked => Panicked
    end.
Proof.
  induction l1 as [|v l1 IH]; intros spanCtx c; [reflexivity|].
  cbn [app injectAll].
  destruct (Inject v spanCtx c) as [[[spanCtx' c'] [err|]]|]; try reflexivity.
  apply IH.
Qed.

(** X19: A chain whose first injector is one of the four trace formats refuses a
    context with an empty trace id or a zero span id: the call returns
    [ErrInvalidSpanContext], the carrier is as it was and no later injector
    runs. *)
Theorem chained_inject_invalid_context (p : chainedPropagator)
  (cfg : PropagatorConfig) (v : Propagator) (rest : list Propagator)
  (ctx : SpanContext) (w : gmap gostring gostring) :
  injectors p = v :: rest ->
  In v [datadog cfg; b3multi; b3single; tracecontext] ->
  Empty (traceID ctx) || (spanID ctx =? 0) = true ->
  chained_Inject p (Some ctx) (TextMapCarrier w)
  = Returned (Some ctx, TextMapCarrier w, Some ErrInvalidSpanContext).
Proof.
  intros Hp Hv Hbad. unfold chained_Inject. rewrite Hp. cbn [injectAll].
  destruct Hv as [<- | [<- | [<- | [<- | []]]]];
    cbn [Inject propagator propagatorB3 propagatorB3SingleHeader propagatorW3c
         injectWith];
    unfold dd_injectTextMap, b3_injectTextMap, b3single_injectTextMap,
      w3c_injectTextMap;
    rewrite Hbad; reflexivity.
Qed.

(** X17: When no extractor finds anything in the carrier, the chain returns
    [ErrSpanContextNotFound], whether it only relies on its first extractor
    or not. *)
Theorem chained_extract_nothing_found (p : chainedPropagator) (c : carrier) :
  Forall (findsNothing c) (extractors p) ->
  chained_Extract rangeMap p c = Returns None (Some ErrSpanContextNotFound).
Proof.
  unfold chained_Extract. generalize (extractors p) as exts.
  intros exts H. induction H as [|v exts Hv _ IH].
  - cbn [extractLoop finishExtract]. rewrite map_size_empty. reflexivity.
  - cbn [extractLoop]. unfold findsNothing in Hv.
    destruct (Extract v c) as [extractedCtx err].
    destruct (isType (typeOf v) TypePropagatorBaggage).
    + cbn [fst] in Hv. destruct extractedCtx as [e|]; [|exact IH].
      rewrite Hv. exact IH.
    + injection Hv as -> ->. cbn [eqb_error negb].
      destruct (onlyExtractFirst p); [reflexivity | exact IH].
Qed.

Lemma finishExtract_pending (ctx : option SpanContext) (links : list SpanLink.t)
  (pb : gmap gostring gostring) (r : SpanContext) :
  finishExtract ctx links pb = Returns (Some r) None -> pb ⊆ baggage r.
Proof.
  unfold finishExtract. destruct ctx as [ctx|].
  - destruct (0 <? size pb)%nat eqn:E; intros [= <-].
    + destruct (0 <? length links)%nat; cbn; apply map_union_subseteq_l.
    + apply Nat.ltb_ge in E.
      assert (pb = ∅) as -> by (apply map_size_empty_iff; lia).
      apply map_empty_subseteq.
  - destruct (0 <? size pb)%nat; [|discriminate]. now intros [= <-].
Qed.

(** The trace extractors of a chain leave the pending baggage alone. *)
Lemma extractLoop_pending (p : chainedPropagator) (c : carrier)
  (exts : list Propagator) :
  Forall (fun v => isType (typeOf v) TypePropagatorBaggage = false) exts ->
  onlyExtractFirst p = false ->
  forall ctx links pb r,
  extractLoop rangeMap p c exts ctx links pb = Returns (Some r) None ->
  pb ⊆ baggage r.
Proof.
  intros Hexts Hfirst. induction Hexts as [|v exts Hv _ IH]; intros ctx links pb r.
  - apply finishExtract_pending.
  - cbn [extractLoop]. destruct (Extract v c) as [extractedCtx err].
    rewrite Hv, Hfirst.
    repeat match goal with
           | |- context [match ?x with _ => _ end] =>
               match type of x with
               | option _ => destruct x
               | bool => destruct x
               | result _ => destruct x
               end
           end; try discriminate; apply IH.
Qed.

(** X14: What the baggage extractor of a chain finds is in the baggage of the
    context the chain returns, whatever the extractors before it are and
    whichever trace formats come behind it; the chain must not stop at its
    first extractor. *)
Theorem chained_extract_keeps_baggage (p : chainedPropagator) (c : carrier)
  (pre post : list Propagator) (b : Propagator) (e r : SpanContext)
  (err : option error) :
  extractors p = pre ++ b :: post ->
  isType (typeOf b) TypePropagatorBaggage = true ->
  Forall (fun v => isType (typeOf v) TypePropagatorBaggage = false) post ->
  Extract b c = (Some e, err) ->
  onlyExtractFirst p = false ->
  chained_Extract rangeMap p c = Returns (Some r) None ->
  baggage e ⊆ baggage r.
Proof.
  intros Hp Hb Hpost He Hfirst. unfold chained_Extract. rewrite Hp. clear Hp.
  generalize (@None SpanContext) as ctx, (@nil SpanLink.t) as links,
    (∅ : gmap gostring gostring) as pb.
  induction pre as [|v pre IH]; intros ctx links pb.
  - cbn [app extractLoop]. rewrite He, Hb. intros H.
    apply (extractLoop_pending p c post Hpost Hfirst) in H.
    etransitivity; [|exact H].
    destruct (0 <? size (baggage e))%nat eqn:E; [apply map_union_subseteq_l|].
    apply Nat.ltb_ge in E.
    assert (baggage e = ∅) as -> by (apply map_size_empty_iff; lia).
    apply map_empty_subseteq.
  - cbn [app extractLoop]. destruct (Extract v c) as [extractedCtx err'].
    rewrite Hfirst.
    repeat match goal with
           | |- context [match ?x with _ => _ end] =>
               match type of x with
               | option _ => destruct x
               | bool => destruct x
               | result _ => destruct x
               end
           end; try discriminate; apply IH.
Qed.

(** [propagateTracestate] returns, and changes the tracestate tag and the
    remote flag only. *)
Lemma propagateTracestate_fields (d : SpanContext) (w : option SpanContext) :
  exists d1,
    propagateTracestate rangeMap d w = Returned d1
    /\ traceID d1 = traceID d /\ spanID d1 = spanID d
    /\ baggage d1 = baggage d /\ origin d1 = origin d
    /\ SamplingPriority (Some d1) = SamplingPriority (Some d).
Proof.
  unfold propagateTracestate. destruct w as [w|]; [|now exists d].
  destruct (negb (eqb_traceID _ _)); [now exists d|].
  destruct (trace w) as [wt|]; [|now exists d].
  unfold composeTracestate. cbn [trace with_trace].
  destruct (length _ =? 0)%nat; eexists; (split; [reflexivity|]);
    unfold setPropagatingTag, traceOrNew, SamplingPriority;
    destruct (trace d) as [t|] eqn:Et; cbn; rewrite ?Et; now repeat split.
Qed.

(** X15: Datadog headers in front of a traceparent of the same trace with another
    span id: the chain returns the Datadog context under the span id of the
    traceparent; its reparent id is the one of the tracestate, or else the
    Datadog span id as 16 hex digits. *)
Theorem chained_extract_w3c_parent (p : chainedPropagator) (c : carrier)
  (ddp w3cp : Propagator) (d w : SpanContext) :
  extractors p = [ddp; w3cp] ->
  typeOf ddp = TypePropagator ->
  typeOf w3cp = TypePropagatorW3c ->
  onlyExtractFirst p = false ->
  Extract ddp c = (Some d, None) ->
  Extract w3cp c = (Some w, None) ->
  traceID w = traceID d ->
  spanID w <> spanID d ->
  exists r,
    chained_Extract rangeMap p c = Returns (Some r) None
    /\ traceID r = traceID d
    /\ spanID r = spanID w
    /\ reparentID r
       = (if (length (reparentID w) =? 0)%nat then hexPadded 16 (spanID d)
          else reparentID w)
    /\ baggage r = baggage d
    /\ origin r = origin d
    /\ SamplingPriority (Some r) = SamplingPriority (Some d).
Proof.
  intros Hp Hdd Hw3c Hfirst Hd Hw Htid Hsid.
  unfold chained_Extract. rewrite Hp. cbn [extractLoop].
  rewrite Hd, Hw, Hdd, Hw3c, Hfirst. cbn [isType].
  assert (Heq : eqb_traceID (TraceID (Some w)) (TraceID (Some d)) = true).
  { cbn [TraceID]. rewrite Htid. unfold eqb_traceID.
    now rewrite !Z.eqb_refl. }
  rewrite Heq.
  assert (Hget : getDatadogPropagator p = Some ddp).
  { unfold getDatadogPropagator. rewrite Hp. cbn [find]. now rewrite Hdd. }
  rewrite Hget, Hd.
  destruct (propagateTracestate_fields d (Some w))
    as (d1 & -> & T1 & S1 & B1 & O1 & P1).
  assert (Hne : negb (SpanID (Some w) =? SpanID (Some d1)) = true).
  { cbn [SpanID]. rewrite S1. apply negb_true_iff, Z.eqb_neq. exact Hsid. }
  rewrite Hne. unfold finishExtract. rewrite map_size_empty.
  eexists. split; [reflexivity|]. cbn [Nat.ltb Nat.leb length].
  unfold overrideDatadogParentID.
  destruct (length (reparentID w) =? 0)%nat; cbn; now repeat split.
Qed.

Lemma eqb_traceID_neq (a b : traceID_t) : a <> b -> eqb_traceID a b = false.
Proof.
  intros Hne. unfold eqb_traceID.
  destruct (upper a =? upper b) eqn:E1; [|reflexivity].
  destruct (lower a =? lower b) eqn:E2; [|reflexivity].
  apply Z.eqb_eq in E1, E2. exfalso. apply Hne.
  destruct a, b. cbn in *. congruence.
Qed.

(** X16: A second trace format that finds another trace than the first one does
    not change the context the chain returns; the other trace is attached
    as a span link with its trace id, span id and tracestate, and with the
    flag 1 exactly when its priority (from 0 up, below [2^32]) is
    positive. *)
Theorem chained_extract_span_link (p : chainedPropagator) (c : carrier)
  (a b : Propagator) (ca cb : SpanContext) (errb : option error)
  (t : trace_t) (q : Z) :
  extractors p = [a; b] ->
  isType (typeOf a) TypePropagatorBaggage = false ->
  isType (typeOf b) TypePropagatorBaggage = false ->
  onlyExtractFirst p = false ->
  Extract a c = (Some ca, None) ->
  Extract b c = (Some cb, errb) ->
  traceID cb <> traceID ca ->
  trace cb = Some t -> priority t = Some q -> 0 <= q < 2 ^ 32 ->
  chained_Extract rangeMap p c
  = Returns
      (Some (with_spanLinks ca
               [SpanLink.mk (lower (traceID cb)) (upper (traceID cb)) (spanID cb)
                  (<[str "context_headers" := getPropagatorName b]>
                     (<[str "reason" := str "terminated_context"]> ∅))
                  (propagatingTag t tracestateHeader)
                  (if 0 <? q then 1 else 0)]))
      None.
Proof.
  intros Hp Ha Hb Hfirst Hea Heb Hne Ht Hq Hr.
  unfold chained_Extract. rewrite Hp. cbn [extractLoop].
  rewrite Hea, Heb, Ha, Hb, Hfirst. cbn [TraceID].
  rewrite (eqb_traceID_neq _ _ Hne), (makeLink_in_range b cb t q Ht Hq Hr).
  unfold finishExtract. rewrite map_size_empty. reflexivity.
Qed.

(** ** Propagation styles *)

Local Abbreviation getPs :=
  (getPropagators unicodeToLower rangeMap isValidPropagatableTag
     parsePropagatableTraceTags).
Local Abbreviation addPs :=
  (addPropagators unicodeToLower rangeMap isValidPropagatableTag
     parsePropagatableTraceTags).
Local Abbreviation newPropagator :=
  (NewPropagator unicodeToLower rangeMap isValidPropagatableTag
     parsePropagatableTraceTags).

(** X20: Only the style [none] leaves a configuration without propagators: any
    other style, and a style without a known name in it, gives a list that
    is not empty. *)
Theorem getPropagators_empty (propagationStyle : gostring)
  (cfg : PropagatorConfig) (ps : gostring) :
  fst (getPs propagationStyle cfg ps) = [] ->
  effectiveStyle propagationStyle ps <> []
  /\ ToLower unicodeToLower (effectiveStyle propagationStyle ps) = str "none".
Proof.
  unfold getPropagators, effectiveStyle. cbv zeta.
  assert (Hstyle : forall s, s <> [] ->
            fst (if eqb_str (ToLower unicodeToLower s) (str "none")
                 then ([], [])
                 else
                   let '(lst, listNames) :=
                     addPs cfg (if B3 cfg then [propagatorB3 unicodeToLower rangeMap] else [])
                       (if B3 cfg then [str "b3"] else [])
                       (Split (ToLower unicodeToLower s) ",") in
                   if (length lst =? 0)%nat
                   then ([datadog cfg; tracecontext; baggageFormat]
                         ++ (if B3 cfg then [b3multi] else []),
                         str "datadog,tracecontext,baggage"
                         ++ (if B3 cfg then str ",b3" else []))
                   else (lst, Join listNames (str ","))) = [] ->
            s <> [] /\ ToLower unicodeToLower s = str "none").
  { intros s Hs. unfold eqb_str.
    destruct (decide (ToLower unicodeToLower s = str "none")) as [E|E].
    - intros _. split; [exact Hs | exact E].
    - rewrite (bool_decide_eq_false_2 _ E). destruct (addPs cfg _ _ _) as [lst names].
      destruct lst as [|v lst]; cbn [length Nat.eqb fst]; discriminate. }
  destruct ps as [|c ps]; cbn [length Nat.eqb].
  - destruct propagationStyle as [|c s]; cbn [length Nat.eqb negb].
    + cbn [fst]. discriminate.
    + apply Hstyle. discriminate.
  - apply Hstyle. discriminate.
Qed.

Lemma countB3_app (l1 l2 : list Propagator) :
  countB3 (l1 ++ l2) = (countB3 l1 + countB3 l2)%nat.
Proof. unfold countB3. now rewrite List.filter_app, length_app. Qed.

Lemma addPropagators_countB3 (cfg : PropagatorConfig) (vs : list gostring) :
  B3 cfg = true ->
  forall lst names, countB3 (fst (addPs cfg lst names vs)) = countB3 lst.
Proof.
  intros HB3. induction vs as [|v vs IH]; intros lst names; [reflexivity|].
  cbn [addPropagators]. rewrite HB3. cbn [negb].
  repeat match goal with
         | |- context [if ?b then _ else _] => destruct b
         end;
    rewrite IH, ?countB3_app; cbn; lia.
Qed.

(** X21: With [B3] set in the configuration the B3 multi-header propagator is
    there exactly once, however often the style names [b3] or [b3multi]. *)
Theorem getPropagators_one_B3 (propagationStyle : gostring)
  (cfg : PropagatorConfig) (ps : gostring) :
  B3 cfg = true ->
  fst (getPs propagationStyle cfg ps) <> [] ->
  countB3 (fst (getPs propagationStyle cfg ps)) = 1%nat.
Proof.
  intros HB3. unfold getPropagators. cbv zeta. rewrite HB3.
  assert (Hstyle : forall s,
            let r := (if eqb_str (ToLower unicodeToLower s) (str "none")
                 then ([], [])
                 else
                   let '(lst, listNames) :=
                     addPs cfg [propagatorB3 unicodeToLower rangeMap] [str "b3"]
                       (Split (ToLower unicodeToLower s) ",") in
                   if (length lst =? 0)%nat
                   then ([datadog cfg; tracecontext; baggageFormat] ++ [b3multi],
                         str "datadog,tracecontext,baggage" ++ str ",b3")
                   else (lst, Join listNames (str ","))) in
            fst r <> [] -> countB3 (fst r) = 1%nat).
  { intros s. cbv zeta. destruct (eqb_str _ _); [intros H; now contradiction H|].
    pose proof (addPropagators_countB3 cfg (Split (ToLower unicodeToLower s) ",")
                  HB3 [propagatorB3 unicodeToLower rangeMap] [str "b3"]) as Hc.
    destruct (addPs cfg _ _ _) as [lst names]. cbn [fst] in Hc.
    destruct (length lst =? 0)%nat; intros _; [reflexivity | exact Hc]. }
  destruct (length ps =? 0)%nat; [|apply Hstyle].
  destruct (negb _); [apply Hstyle | reflexivity].
Qed.

(** X22: The inject style [none] switches injection off and the extract style
    [none] switches extraction off: [Inject] leaves the carrier as it is
    and reports no error, [Extract] finds no span context. *)
Theorem style_none_disables (env : environment) (cfg : option PropagatorConfig)
  (ctx : SpanContext) (c : carrier) :
  let p := newPropagator env cfg [] in
  (effectiveStyle (propagationStyle env) (styleInject env) <> [] ->
   ToLower unicodeToLower (effectiveStyle (propagationStyle env) (styleInject env))
   = str "none" ->
   chained_Inject p (Some ctx) c = Returned (Some ctx, c, None))
  /\ (effectiveStyle (propagationStyle env) (styleExtract env) <> [] ->
      ToLower unicodeToLower (effectiveStyle (propagationStyle env) (styleExtract env))
      = str "none" ->
      chained_Extract rangeMap p c = Returns None (Some ErrSpanContextNotFound)).
Proof.
  assert (Hnone : forall cfg' ps,
            effectiveStyle (propagationStyle env) ps <> [] ->
            ToLower unicodeToLower (effectiveStyle (propagationStyle env) ps)
            = str "none" ->
            getPs (propagationStyle env) cfg' ps = ([], [])).
  { intros cfg' ps. unfold effectiveStyle, getPropagators. cbv zeta.
    destruct (length ps =? 0)%nat.
    - intros Hne Hlow. destruct (propagationStyle env) as [|a s]; [contradiction|].
      cbn [length Nat.eqb negb]. unfold eqb_str.
      now rewrite bool_decide_eq_true_2.
    - intros _ Hlow. unfold eqb_str. now rewrite bool_decide_eq_true_2. }
  cbv zeta. unfold NewPropagator. cbn [length Nat.ltb Nat.leb]. cbv zeta.
  split; intros Hne Hlow.
  - rewrite (Hnone _ _ Hne Hlow). destruct (getPs _ _ (styleExtract env)).
    reflexivity.
  - destruct (getPs _ _ (styleInject env)). rewrite (Hnone _ _ Hne Hlow).
    unfold chained_Extract. cbn [extractors extractLoop finishExtract].
    rewrite map_size_empty. reflexivity.
Qed.

(** ** Header names *)

Lemma ForeachKey_ext {S : Type}
  (h : S -> gostring -> gostring -> S * option error)
  (l l' : list (gostring * gostring)) :
  Forall2 (fun a b => forall st, h st (fst a) (snd a) = h st (fst b) (snd b)) l l' ->
  forall st, ForeachKey h l st = ForeachKey h l' st.
Proof.
  induction 1 as [|[k v] [k' v'] l l' Hh _ IH]; intros st; [reflexivity|].
  cbn [ForeachKey]. cbn [fst snd] in Hh. rewrite Hh.
  destruct (h st k' v') as [st' [e|]]; [reflexivity | apply IH].
Qed.

Lemma sameHeaders_handler {S : Type}
  (h : S -> gostring -> gostring -> S * option error)
  (l l' : list (gostring * gostring)) :
  (forall st k k' v,
   ToLower unicodeToLower k = ToLower unicodeToLower k' -> h st k v = h st k' v) ->
  sameHeaders unicodeToLower l l' ->
  forall st, ForeachKey h l st = ForeachKey h l' st.
Proof.
  intros Hh Hl. apply ForeachKey_ext.
  eapply Forall2_impl; [exact Hl|].
  intros [k v] [k' v'] [Hk Hv] st. cbn [fst snd] in *. subst v'. now apply Hh.
Qed.

(** X13: Every extraction matches header names without regard to case: two
    readers that hand over the same values, in the same order, under names
    with the same lower-case form give the same result, in each of the five
    formats. *)
Theorem extraction_ignores_header_case (cfg : PropagatorConfig)
  (l l' : list (gostring * gostring)) :
  sameHeaders unicodeToLower l l' ->
  dd_extractTextMap unicodeToLower parsePropagatableTraceTags cfg l
  = dd_extractTextMap unicodeToLower parsePropagatableTraceTags cfg l'
  /\ b3_extractTextMap unicodeToLower l = b3_extractTextMap unicodeToLower l'
  /\ b3single_extractTextMap unicodeToLower l = b3single_extractTextMap unicodeToLower l'
  /\ w3c_extractTextMap unicodeToLower l = w3c_extractTextMap unicodeToLower l'
  /\ baggage_extractTextMap unicodeToLower l = baggage_extractTextMap unicodeToLower l'.
Proof.
  intros H.
  unfold dd_extractTextMap, b3_extractTextMap, b3single_extractTextMap,
    w3c_extractTextMap, baggage_extractTextMap.
  rewrite (sameHeaders_handler (ddHandler unicodeToLower parsePropagatableTraceTags cfg) l l');
    [|intros st k k' v Hk; unfold ddHandler; now rewrite Hk | exact H].
  rewrite (sameHeaders_handler (b3Handler unicodeToLower) l l');
    [|intros st k k' v Hk; unfold b3Handler; now rewrite Hk | exact H].
  rewrite (sameHeaders_handler (b3singleHandler unicodeToLower) l l');
    [|intros st k k' v Hk; unfold b3singleHandler; now rewrite Hk | exact H].
  rewrite (sameHeaders_handler (w3cHandler unicodeToLower) l l');
    [|intros [[ph sh] ctx] k k' v Hk; unfold w3cHandler; now rewrite Hk | exact H].
  rewrite (sameHeaders_handler (baggageHandler unicodeToLower) l l');
    [|intros st k k' v Hk; unfold baggageHandler; now rewrite Hk | exact H].
  repeat split.
Qed.

(** ** The Datadog format *)

Lemma ddHandler_errors (cfg : PropagatorConfig) (st st' : SpanContext)
  (k v : gostring) (e : error) :
  ddHandler unicodeToLower parsePropagatableTraceTags cfg st k v = (st', Some e) ->
  e = ErrSpanContextCorrupted.
Proof.
  unfold ddHandler. cbv zeta.
  repeat match goal with
         | |- context [if ?b then _ else _] => destruct b
         | |- context [match ?o with Some _ => _ | None => _ end] => destruct o
         end; congruence.
Qed.

Lemma ddHandler_corrupted (cfg : PropagatorConfig) (st : SpanContext)
  (k v : gostring) :
  corruptedDatadogEntry unicodeToLower cfg k v ->
  snd (ddHandler unicodeToLower parsePropagatableTraceTags cfg st k v)
  = Some ErrSpanContextCorrupted.
Proof.
  unfold corruptedDatadogEntry, ddHandler, eqb_str. cbv zeta.
  intros [[Hk Hv] | [(Hk1 & Hk & Hv) | (Hk1 & Hk2 & Hk & Hv)]].
  - rewrite bool_decide_eq_true_2 by exact Hk. now rewrite Hv.
  - rewrite bool_decide_eq_false_2 by exact Hk1.
    rewrite bool_decide_eq_true_2 by exact Hk. now rewrite Hv.
  - rewrite bool_decide_eq_false_2 by exact Hk1.
    rewrite bool_decide_eq_false_2 by exact Hk2.
    rewrite bool_decide_eq_true_2 by exact Hk. now rewrite Hv.
Qed.

(** X12: One header with an unreadable trace id, parent id or priority makes the
    Datadog extraction fail with [ErrSpanContextCorrupted], wherever the
    header stands in the carrier and whatever the other headers hold. *)
Theorem dd_extract_corrupted (cfg : PropagatorConfig)
  (l : list (gostring * gostring)) (k v : gostring) :
  In (k, v) l ->
  corruptedDatadogEntry unicodeToLower cfg k v ->
  dd_extractTextMap unicodeToLower parsePropagatableTraceTags cfg l
  = (None, Some ErrSpanContextCorrupted).
Proof.
  intros Hin Hbad. unfold dd_extractTextMap.
  assert (H : forall st, snd (ForeachKey
                (ddHandler unicodeToLower parsePropagatableTraceTags cfg) l st)
              = Some ErrSpanContextCorrupted).
  { induction l as [|[k0 v0] l IH]; [contradiction|]. intros st.
    cbn [ForeachKey].
    destruct (ddHandler unicodeToLower parsePropagatableTraceTags cfg st k0 v0)
      as [st1 [e|]] eqn:E.
    - apply ddHandler_errors in E. now subst e.
    - destruct Hin as [[= -> ->] | Hin].
      + pose proof (ddHandler_corrupted cfg st k v Hbad) as Hc.
        rewrite E in Hc. discriminate Hc.
      + now apply IH. }
  specialize (H zeroSpanContext).
  destruct (ForeachKey _ l zeroSpanContext) as [st e].
  cbn [snd] in H. now subst e.
Qed.

(** X23: A tags limit of zero (or below) switches the propagation of tags off:
    the Datadog injection leaves the header [x-datadog-tags] of the carrier
    as it finds it. *)
Theorem dd_inject_tags_disabled (maxLen : Z) (ctx : SpanContext)
  (w : gmap gostring gostring) :
  maxLen <= 0 ->
  snd (fst (dd_injectTextMap rangeMap isValidPropagatableTag (defaultConfig maxLen)
              ctx w)) !! traceTagsHeader
  = w !! traceTagsHeader.
Proof.
  intros Hmax. unfold dd_injectTextMap.
  destruct (Empty (traceID ctx) || (spanID ctx =? 0)); [reflexivity|].
  cbv zeta.
  cbn [TraceHeader ParentHeader PriorityHeader MaxTagsHeaderLen defaultConfig].
  replace (maxLen <=? 0) with true by (symmetry; apply Z.leb_le; lia).
  destruct (SamplingPriority _) as [sp ok].
  cbn [fst snd].
  rewrite writeBaggage_frame
    by (intros j v _ E; vm_compute in E; discriminate E).
  unfold carrierSet.
  destruct (negb _); destruct ok;
    repeat (rewrite lookup_insert_ne
              by (let E := fresh in intros E; vm_compute in E; discriminate E));
    reflexivity.
Qed.

(** ** Trace ids in hexadecimal *)

Lemma extractTraceID128_lower (ctx : SpanContext) (L : Z) (k : nat) :
  0 < L < 2 ^ 64 -> (k <= 16)%nat ->
  extractTraceID128 ctx (repeat "0"%char k ++ hexPadded 16 L)
  = (with_traceID ctx (SetLower (traceID ctx) L), None).
Proof.
  intros HL Hk. unfold extractTraceID128.
  destruct (hexPadded_hex 16 L ltac:(lia) ltac:(lia)) as [Hlen _].
  assert (Hlen' : length (repeat "0"%char k ++ hexPadded 16 L) = (k + 16)%nat)
    by (rewrite length_app, repeat_length, Hlen; reflexivity).
  rewrite Hlen'.
  replace (32 <? k + 16)%nat with false by (symmetry; apply Nat.ltb_ge; lia).
  cbv beta iota zeta. rewrite TrimLeft_zeros, TrimLeft_hexPadded by lia.
  destruct (FormatUint_hex L ltac:(lia)) as (_ & Hl & _).
  replace (length (FormatUint L 16) <=? 16)%nat with true
    by (symmetry; apply Nat.leb_le; lia).
  change (FormatUint L 16) with (hexPadded 0 L).
  rewrite ParseUint_hexPadded by lia. reflexivity.
Qed.

Lemma extractTraceID128_upper (ctx : SpanContext) (U L : Z) :
  0 < U < 2 ^ 64 -> 0 <= L < 2 ^ 64 ->
  extractTraceID128 ctx (hexPadded 16 U ++ hexPadded 16 L)
  = (with_traceID ctx (mkTraceID U L), None).
Proof.
  intros HU HL. unfold extractTraceID128.
  destruct (hexPadded_hex 16 U ltac:(lia) ltac:(lia)) as [HlenU _].
  destruct (hexPadded_hex 16 L ltac:(lia) ltac:(lia)) as [HlenL _].
  rewrite length_app, HlenU, HlenL. change (32 <? 16 + 16)%nat with false.
  cbv beta iota zeta.
  assert (Htrim : TrimLeft (hexPadded 16 U ++ hexPadded 16 L) (str "0")
                  = FormatUint U 16 ++ hexPadded 16 L).
  { unfold hexPadded at 1. cbv zeta. rewrite <- app_assoc, TrimLeft_zeros.
    destruct (fmtDigits_head_hex 64 U []) as (d & rest & Hd & Heq).
    { split; [lia|]. eapply Z.lt_trans; [exact (proj2 HU)|]. reflexivity. }
    unfold FormatUint. rewrite Heq. apply TrimLeft_head.
    now apply digitChar_not_zero. }
  rewrite Htrim.
  destruct (FormatUint_hex U ltac:(lia)) as (_ & Hl & _).
  rewrite length_app, HlenL.
  replace (length (FormatUint U 16) + 16 <=? 16)%nat with false
    by (symmetry; apply Nat.leb_gt; lia).
  replace (length (FormatUint U 16) + 16 - 16)%nat
    with (length (FormatUint U 16)) by lia.
  rewrite take_app_length, drop_app_length.
  unfold SetUpperFromHex. change (FormatUint U 16) with (hexPadded 0 U).
  rewrite !ParseUint_hexPadded by lia. reflexivity.
Qed.

(** X6: [extractTraceID128] reads back the 32 hex digits of a trace id that is
    not empty, and the 16 digits B3 writes for a 64-bit trace id, into a
    context that holds no upper half yet. *)
Theorem extractTraceID128_HexEncoded (ctx : SpanContext) (t : traceID_t) :
  0 <= upper t < 2 ^ 64 -> 0 <= lower t < 2 ^ 64 ->
  Empty t = false ->
  upper (traceID ctx) = 0 ->
  extractTraceID128 ctx (HexEncoded t) = (with_traceID ctx t, None)
  /\ extractTraceID128 ctx (b3TraceIDString (with_traceID ctx t))
     = (with_traceID ctx t, None).
Proof.
  intros HU HL Hne Hctx. destruct t as [U L]. cbn [upper lower] in *.
  unfold b3TraceIDString, HexEncoded, HasUpper, Empty in *.
  cbn [traceID with_traceID upper lower] in *.
  destruct (U =? 0) eqn:EU.
  - apply Z.eqb_eq in EU. subst U. cbn [andb negb] in *.
    apply Z.eqb_neq in Hne.
    assert (Hset : SetLower (traceID ctx) L = mkTraceID 0 L)
      by (unfold SetLower; now rewrite Hctx).
    split.
    + change (hexPadded 16 0) with (repeat "0"%char 16).
      rewrite extractTraceID128_lower by lia. now rewrite Hset.
    + change (hexPadded 16 L) with (repeat "0"%char 0 ++ hexPadded 16 L).
      rewrite extractTraceID128_lower by lia. now rewrite Hset.
  - apply Z.eqb_neq in EU. cbn [negb].
    split; apply extractTraceID128_upper; lia.
Qed.

(** ** Readers over a map *)

(** A handler that keeps an invariant on the headers of a carrier visits
    all of them without error, in whatever order they come. *)
Lemma ForeachKey_invariant {S : Type}
  (h : S -> gostring -> gostring -> S * option error)
  (entry : gostring -> gostring -> Prop) (Inv : list gostring -> S -> Prop) :
  (forall seen st k v, entry k v -> ~ In k seen -> Inv seen st ->
   exists st', h st k v = (st', None) /\ Inv (k :: seen) st') ->
  forall l, NoDup (map fst l) ->
  (forall k v, In (k, v) l -> entry k v) ->
  forall seen st, (forall k, In k seen -> ~ In k (map fst l)) -> Inv seen st ->
  exists st', ForeachKey h l st = (st', None)
              /\ Inv (rev (map fst l) ++ seen) st'.
Proof.
  intros Hstep l. induction l as [|[k v] l IH]; intros Hnd Hl seen st Hseen Hinv.
  - exists st. split; [reflexivity | exact Hinv].
  - cbn [map fst] in Hnd. apply NoDup_cons in Hnd as [Hk Hnd].
    destruct (Hstep seen st k v) as (st1 & Hh & Hinv1);
      [apply Hl; now left | | exact Hinv |].
    { intros Hin. apply (Hseen k Hin). now left. }
    destruct (IH Hnd (fun k' v' H => Hl k' v' (or_intror H)) (k :: seen) st1)
      as (st' & Hfold & Hinv'); [|exact Hinv1|].
    { intros k' [<- | Hin] Hin'.
      - apply Hk. now apply list_elem_of_In.
      - apply (Hseen k' Hin). now right. }
    exists st'. split.
    + cbn [ForeachKey]. rewrite Hh. exact Hfold.
    + cbn [map fst rev]. rewrite <- app_assoc. exact Hinv'.
Qed.

Section Maps.

Hypothesis rangeMap_perm : forall m, rangeMap m ≡ₚ map_to_list m.

Lemma rangeMap_In (m : gmap gostring gostring) (k v : gostring) :
  In (k, v) (rangeMap m) <-> m !! k = Some v.
Proof.
  rewrite <- list_elem_of_In, (rangeMap_perm m). apply elem_of_map_to_list.
Qed.

Lemma ForeachKey_rangeMap {S : Type}
  (h : S -> gostring -> gostring -> S * option error)
  (entry : gostring -> gostring -> Prop) (Inv : list gostring -> S -> Prop)
  (m : gmap gostring gostring) (st : S) :
  (forall seen st k v, entry k v -> ~ In k seen -> Inv seen st ->
   exists st', h st k v = (st', None) /\ Inv (k :: seen) st') ->
  (forall k v, m !! k = Some v -> entry k v) ->
  Inv [] st ->
  exists st' keys,
    ForeachKey h (rangeMap m) st = (st', None)
    /\ Inv keys st'
    /\ (forall k, In k keys <-> is_Some (m !! k)).
Proof.
  intros Hstep Hm Hinv.
  destruct (ForeachKey_invariant h entry Inv Hstep (rangeMap m)) with (seen := @nil gostring) (st := st)
    as (st' & Hfold & Hinv').
  - change (map fst (rangeMap m)) with ((rangeMap m).*1).
    rewrite (rangeMap_perm m). apply NoDup_fst_map_to_list.
  - intros k v Hin. apply Hm. now apply rangeMap_In.
  - intros k [].
  - exact Hinv.
  - exists st', (rev (map fst (rangeMap m)) ++ []). split; [exact Hfold|].
    split; [exact Hinv'|]. intros k. rewrite app_nil_r, <- in_rev, in_map_iff.
    split.
    + intros ([k' v] & <- & Hin). exists v. now apply rangeMap_In.
    + intros [v Hv]. exists (k, v). split; [reflexivity | now apply rangeMap_In].
Qed.

(** ** The B3 multi-header format *)

Ltac other_key :=
  let E := fresh in intros E; vm_compute in E; discriminate E.

Ltac old_b3_key I :=
  let E := fresh in
  let H := fresh in
  intros [E | H]; [exfalso; vm_compute in E; discriminate E | exact (I H)].

Ltac fresh_b3_key I :=
  let H := fresh in
  let E := fresh in
  intros H; apply I; intros E; apply H; now right.

Lemma b3Handler_traceid (st : SpanContext) (v : gostring) :
  b3Handler unicodeToLower st b3TraceIDHeader v = (fst (extractTraceID128 st v), None).
Proof. reflexivity. Qed.

Lemma b3Handler_spanid (st : SpanContext) (v : gostring) :
  b3Handler unicodeToLower st b3SpanIDHeader v
  = match ParseUint v 16 64 with
    | Some sid => (with_spanID st sid, None)
    | None => (st, Some ErrSpanContextCorrupted)
    end.
Proof. reflexivity. Qed.

Lemma b3Handler_sampled (st : SpanContext) (v : gostring) :
  b3Handler unicodeToLower st b3SampledHeader v
  = match Atoi v with
    | Some priority => (setSamplingPriority st priority samplerUnknown, None)
    | None => (st, Some ErrSpanContextCorrupted)
    end.
Proof. reflexivity. Qed.

Section B3Roundtrip.

Variable C : SpanContext.
Hypothesis upper_range : 0 <= upper (traceID C) < 2 ^ 64.
Hypothesis lower_range : 0 <= lower (traceID C) < 2 ^ 64.
Hypothesis traceID_set : Empty (traceID C) = false.
Hypothesis span_range : 0 < spanID C < 2 ^ 64.

Lemma b3Handler_step (seen : list gostring) (st : SpanContext) (k v : gostring) :
  b3Entry C k v -> ~ In k seen -> b3Rebuilt C seen st ->
  exists st',
    b3Handler unicodeToLower st k v = (st', None) /\ b3Rebuilt C (k :: seen) st'.
Proof.
  intros Hentry Hnew (I0 & I1 & I2 & I3 & I4 & I5).
  destruct Hentry as [[-> ->] | [[-> ->] | [-> (p & Hp & ->)]]].
  - rewrite b3Handler_traceid.
    change (b3TraceIDString C) with (b3TraceIDString (with_traceID st (traceID C))).
    rewrite (proj2 (extractTraceID128_HexEncoded st (traceID C) upper_range
                      lower_range traceID_set (I0 Hnew))).
    eexists. split; [reflexivity|]. repeat split.
    + intros H. exfalso. apply H. now left.
    + old_b3_key I2.
    + old_b3_key I3.
    + fresh_b3_key I4.
    + exact I5.
  - rewrite b3Handler_spanid, ParseUint_hexPadded by lia.
    eexists. split; [reflexivity|]. repeat split.
    + fresh_b3_key I0.
    + old_b3_key I1.
    + old_b3_key I3.
    + fresh_b3_key I4.
    + exact I5.
  - rewrite b3Handler_sampled.
    assert (Ha : Atoi (if PriorityAutoKeep <=? p then str "1" else str "0")
                 = Some (if PriorityAutoKeep <=? p then 1 else 0))
      by (destruct (PriorityAutoKeep <=? p); reflexivity).
    rewrite Ha. eexists. split; [reflexivity|].
    destruct (setSamplingPriority_fields st (if PriorityAutoKeep <=? p then 1 else 0)
                samplerUnknown) as (Ft & Fs & Fb & _).
    unfold b3Rebuilt.
    rewrite Ft, Fs, Fb, SamplingPriority_set
      by (destruct (PriorityAutoKeep <=? p); lia).
    repeat split.
    + fresh_b3_key I0.
    + old_b3_key I1.
    + old_b3_key I2.
    + intros _. unfold b3Sampled. now rewrite Hp.
    + intros H. exfalso. apply H. now left.
    + exact I5.
Qed.

Lemma b3Rebuilt_zero : b3Rebuilt C [] zeroSpanContext.
Proof. repeat split; intros []. Qed.

(** The headers the B3 injection writes for [C]. *)
Lemma b3_inject_entries :
  exists m,
    b3_injectTextMap C ∅ = (C, m, None)
    /\ (forall k v, m !! k = Some v -> b3Entry C k v)
    /\ is_Some (m !! b3TraceIDHeader)
    /\ is_Some (m !! b3SpanIDHeader)
    /\ (snd (SamplingPriority (Some C)) = true -> is_Some (m !! b3SampledHeader)).
Proof.
  unfold b3_injectTextMap.
  assert (HE : Empty (traceID C) || (spanID C =? 0) = false).
  { rewrite traceID_set. apply Z.eqb_neq. lia. }
  rewrite HE. destruct (SamplingPriority (Some C)) as [p ok] eqn:Hp.
  eexists. split; [reflexivity|]. unfold carrierSet.
  split; [|split; [|split]].
  - intros k v H. unfold b3Entry. rewrite Hp.
    destruct ok.
    + apply lookup_insert_Some in H as [[<- <-] | [_ H]]; [right; right; eauto|].
      apply lookup_insert_Some in H as [[<- <-] | [_ H]]; [tauto|].
      apply lookup_insert_Some in H as [[<- <-] | [_ H]]; [tauto|].
      rewrite lookup_empty in H. discriminate H.
    + apply lookup_insert_Some in H as [[<- <-] | [_ H]]; [tauto|].
      apply lookup_insert_Some in H as [[<- <-] | [_ H]]; [tauto|].
      rewrite lookup_empty in H. discriminate H.
  - destruct ok; rewrite ?(lookup_insert_ne _ b3SampledHeader) by other_key;
      rewrite lookup_insert_ne by other_key; rewrite lookup_insert_eq; eauto.
  - destruct ok; rewrite ?(lookup_insert_ne _ b3SampledHeader) by other_key;
      rewrite lookup_insert_eq; eauto.
  - cbn [snd]. intros ->. rewrite lookup_insert_eq. eauto.
Qed.

(** X2: The B3 multi-header format gives back the trace id in full, the span id
    and whether the trace is kept: injecting a context with a trace id and
    a span id into an empty carrier succeeds, and extracting from that
    carrier returns a context with the same 128-bit trace id and span id,
    the priority 1 or 0 for a priority from 1 up or below 1 (none for
    none), and no baggage. *)
Theorem b3_roundtrip (first : bool) :
  let p := mkChainedPropagator [b3multi] [b3multi] [] [] first in
  exists m E,
    chained_Inject p (Some C) (TextMapCarrier ∅)
    = Returned (Some C, TextMapCarrier m, None)
    /\ chained_Extract rangeMap p (TextMapCarrier m) = Returns (Some E) None
    /\ traceID E = traceID C
    /\ spanID E = spanID C
    /\ SamplingPriority (Some E) = b3Sampled C
    /\ baggage E = ∅.
Proof.
  intros p.
  destruct b3_inject_entries as (m & Hinj & Hentries & Htid & Hsid & Hsampled).
  destruct (ForeachKey_rangeMap (b3Handler unicodeToLower) (b3Entry C) (b3Rebuilt C)
              m zeroSpanContext b3Handler_step Hentries b3Rebuilt_zero)
    as (st & keys & Hfold & (I0 & I1 & I2 & I3 & I4 & I5) & Hkeys).
  assert (Ht : traceID st = traceID C) by (apply I1, Hkeys, Htid).
  assert (Hs : spanID st = spanID C) by (apply I2, Hkeys, Hsid).
  assert (Hp : SamplingPriority (Some st) = b3Sampled C).
  { destruct (snd (SamplingPriority (Some C))) eqn:Hok.
    - apply I3, Hkeys, Hsampled. reflexivity.
    - rewrite I4.
      + unfold b3Sampled. destruct (SamplingPriority (Some C)) as [q ok].
        cbn [snd] in Hok. now subst ok.
      + intros Hin. apply Hkeys in Hin as [v Hv].
        destruct (Hentries _ _ Hv) as [[E _] | [[E _] | [_ (q & Hq & _)]]];
          [vm_compute in E; discriminate E | vm_compute in E; discriminate E |].
        rewrite Hq in Hok. discriminate Hok. }
  exists m, st. split; [|split; [|now repeat split]].
  - unfold chained_Inject, p. cbn [injectors injectAll Inject propagatorB3 injectWith].
    rewrite Hinj. reflexivity.
  - unfold chained_Extract, p.
    cbn [extractors extractLoop Extract typeOf propagatorB3 extractWith readerOf isType].
    unfold b3_extractTextMap. rewrite Hfold.
    assert (HE : Empty (traceID st) || (spanID st =? 0) = false).
    { rewrite Ht, Hs, traceID_set. apply Z.eqb_neq. lia. }
    rewrite HE. cbn [onlyExtractFirst].
    destruct first; [reflexivity|].
    unfold finishExtract. rewrite map_size_empty. reflexivity.
Qed.

End B3Roundtrip.

(** ** The B3 single-header format *)

Lemma rangeMap_singleton (k v : gostring) :
  rangeMap (carrierSet ∅ k v) = [(k, v)].
Proof.
  apply Permutation_singleton_r. unfold carrierSet.
  rewrite (rangeMap_perm _), insert_empty, map_to_list_singleton. reflexivity.
Qed.

Lemma b3TraceIDString_hex (c : SpanContext) :
  0 <= upper (traceID c) < 2 ^ 64 -> 0 <= lower (traceID c) < 2 ^ 64 ->
  Forall isHex (b3TraceIDString c).
Proof.
  intros HU HL. unfold b3TraceIDString, HexEncoded.
  destruct (negb (HasUpper (traceID c))).
  - apply (hexPadded_hex 16 _ HL). lia.
  - apply Forall_app. split; [apply (hexPadded_hex 16 _ HU) | apply (hexPadded_hex 16 _ HL)]; lia.
Qed.

Lemma b3singleHandler_b3 (st : SpanContext) (v : gostring) :
  b3singleHandler unicodeToLower st b3SingleHeader v
  = let b3Parts := Split v "-" in
    if (2 <=? length b3Parts)%nat then
      match extractTraceID128 st (nth 0 b3Parts []) with
      | (ctx, Some err) => (ctx, Some err)
      | (ctx, None) =>
          match ParseUint (nth 1 b3Parts []) 16 64 with
          | None => (ctx, Some ErrSpanContextCorrupted)
          | Some sid =>
              let ctx := with_spanID ctx sid in
              if (3 <=? length b3Parts)%nat then
                let flag := nth 2 b3Parts [] in
                if eqb_str flag [] then (ctx, None)
                else if eqb_str flag (str "1") || eqb_str flag (str "d") then
                  (setSamplingPriority ctx PriorityAutoKeep samplerUnknown, None)
                else if eqb_str flag (str "0") then
                  (setSamplingPriority ctx PriorityAutoReject samplerUnknown, None)
                else (ctx, Some ErrSpanContextCorrupted)
              else (ctx, None)
          end
      end
    else (st, Some ErrSpanContextCorrupted).
Proof. reflexivity. Qed.

(** X4: The B3 single header gives back the trace id in full, the span id and
    whether the trace is kept. *)
Theorem b3single_roundtrip (C : SpanContext) (first : bool) :
  0 <= upper (traceID C) < 2 ^ 64 ->
  0 <= lower (traceID C) < 2 ^ 64 ->
  Empty (traceID C) = false ->
  0 < spanID C < 2 ^ 64 ->
  let p := mkChainedPropagator [b3single] [b3single] [] [] first in
  exists m E,
    chained_Inject p (Some C) (TextMapCarrier ∅)
    = Returned (Some C, TextMapCarrier m, None)
    /\ chained_Extract rangeMap p (TextMapCarrier m) = Returns (Some E) None
    /\ traceID E = traceID C
    /\ spanID E = spanID C
    /\ SamplingPriority (Some E) = b3Sampled C
    /\ baggage E = ∅.
Proof.
  intros HU HL Hne Hs p.
  assert (HE : Empty (traceID C) || (spanID C =? 0) = false).
  { rewrite Hne. apply Z.eqb_neq. lia. }
  pose proof (hex_no_dash _ (b3TraceIDString_hex C HU HL)) as Htid.
  pose proof (hex_no_dash _ (proj2 (hexPadded_hex 16 (spanID C) ltac:(lia) ltac:(lia))))
    as Hsid.
  pose proof (proj2 (extractTraceID128_HexEncoded zeroSpanContext (traceID C)
                       HU HL Hne eq_refl)) as Hx.
  change (b3TraceIDString (with_traceID zeroSpanContext (traceID C)))
    with (b3TraceIDString C) in Hx.
  unfold chained_Inject, chained_Extract, p.
  cbn [injectors injectAll Inject propagatorB3SingleHeader injectWith extractors
       extractLoop Extract typeOf extractWith readerOf isType onlyExtractFirst].
  unfold b3single_injectTextMap, b3single_extractTextMap, b3Sampled.
  rewrite HE.
  destruct (SamplingPriority (Some C)) as [q ok]. destruct ok.
  - destruct (PriorityAutoKeep <=? q);
      (eexists _, _; split; [reflexivity|]);
      rewrite rangeMap_singleton; cbn [ForeachKey];
      rewrite b3singleHandler_b3; cbv zeta; unfold Split;
      rewrite <- !app_assoc.
    + change (str "-" ++ hexPadded 16 (spanID C) ++ str "-1")
        with ("-"%char :: hexPadded 16 (spanID C) ++ "-"%char :: str "1").
      rewrite (split_go_piece "-" _ Htid), (split_go_piece "-" _ Hsid).
      change (split_go "-" [] (str "1")) with [str "1"].
      cbn [rev app length Nat.leb nth].
      rewrite Hx, ParseUint_hexPadded by lia.
      change (eqb_str (str "1") []) with false.
      change (eqb_str (str "1") (str "1")) with true.
      cbn [orb].
      rewrite (proj1 (setSamplingPriority_fields _ _ _)).
      rewrite (proj1 (proj2 (setSamplingPriority_fields _ _ _))).
      cbn [traceID spanID with_spanID with_traceID]. rewrite HE.
      replace (if first then _ else _)
        with (Returns (Some (setSamplingPriority
                (with_spanID (with_traceID zeroSpanContext (traceID C)) (spanID C))
                PriorityAutoKeep samplerUnknown)) None).
      2:{ destruct first; [reflexivity|].
          unfold finishExtract. rewrite map_size_empty. reflexivity. }
      split; [reflexivity|].
      rewrite SamplingPriority_set by (vm_compute; split; discriminate).
      destruct (setSamplingPriority_fields
                  (with_spanID (with_traceID zeroSpanContext (traceID C)) (spanID C))
                  PriorityAutoKeep samplerUnknown) as (Ft & Fs & Fb & _).
      rewrite Ft, Fs, Fb. now repeat split.
    + change (str "-" ++ hexPadded 16 (spanID C) ++ str "-0")
        with ("-"%char :: hexPadded 16 (spanID C) ++ "-"%char :: str "0").
      rewrite (split_go_piece "-" _ Htid), (split_go_piece "-" _ Hsid).
      change (split_go "-" [] (str "0")) with [str "0"].
      cbn [rev app length Nat.leb nth].
      rewrite Hx, ParseUint_hexPadded by lia.
      change (eqb_str (str "0") []) with false.
      change (eqb_str (str "0") (str "1")) with false.
      change (eqb_str (str "0") (str "d")) with false.
      change (eqb_str (str "0") (str "0")) with true.
      cbn [orb].
      rewrite (proj1 (setSamplingPriority_fields _ _ _)).
      rewrite (proj1 (proj2 (setSamplingPriority_fields _ _ _))).
      cbn [traceID spanID with_spanID with_traceID]. rewrite HE.
      replace (if first then _ else _)
        with (Returns (Some (setSamplingPriority
                (with_spanID (with_traceID zeroSpanContext (traceID C)) (spanID C))
                PriorityAutoReject samplerUnknown)) None).
      2:{ destruct first; [reflexivity|].
          unfold finishExtract. rewrite map_size_empty. reflexivity. }
      split; [reflexivity|].
      rewrite SamplingPriority_set by (vm_compute; split; discriminate).
      destruct (setSamplingPriority_fields
                  (with_spanID (with_traceID zeroSpanContext (traceID C)) (spanID C))
                  PriorityAutoReject samplerUnknown) as (Ft & Fs & Fb & _).
      rewrite Ft, Fs, Fb. now repeat split.
  - eexists _, _. split; [reflexivity|].
    rewrite rangeMap_singleton. cbn [ForeachKey].
    rewrite b3singleHandler_b3. cbv zeta. unfold Split.
    change (str "-" ++ hexPadded 16 (spanID C))
      with ("-"%char :: hexPadded 16 (spanID C)).
    rewrite (split_go_piece "-" _ Htid), (split_go_nosep "-" _ Hsid).
    cbn [rev app length Nat.leb nth].
    rewrite Hx, ParseUint_hexPadded by lia.
    cbn [traceID spanID with_spanID with_traceID]. rewrite HE.
    replace (if first then _ else _)
      with (Returns (Some (with_spanID (with_traceID zeroSpanContext (traceID C))
                             (spanID C))) None).
    2:{ destruct first; [reflexivity|].
        unfold finishExtract. rewrite map_size_empty. reflexivity. }
    split; [reflexivity|]. now repeat split.
Qed.

(** ** The W3C format *)

Lemma setSamplingPriority_traceID (c : SpanContext) (p s : Z) :
  traceID (setSamplingPriority c p s) = traceID c.
Proof. apply setSamplingPriority_fields. Qed.

Lemma setSamplingPriority_spanID (c : SpanContext) (p s : Z) :
  spanID (setSamplingPriority c p s) = spanID c.
Proof. apply setSamplingPriority_fields. Qed.

Lemma parseMember_ids (st : SpanContext * bool) (member : gostring) :
  traceID (fst (parseMember st member)) = traceID (fst st)
  /\ spanID (fst (parseMember st member)) = spanID (fst st).
Proof.
  destruct st as [ctx dropDM]. unfold parseMember.
  destruct (SplitN member ":" 2) as [|key [|val [|x l]]]; try now split.
  cbv zeta.
  repeat match goal with
         | |- context [if ?b then _ else _] => destruct b
         | |- context [match ?o with Some _ => _ | None => _ end] => destruct o
         end;
    cbn [fst];
    rewrite ?setSamplingPriority_traceID, ?setSamplingPriority_spanID;
    now split.
Qed.

Lemma parseGroup_ids (ctx : SpanContext) (group : gostring) :
  traceID (parseGroup ctx group) = traceID ctx
  /\ spanID (parseGroup ctx group) = spanID ctx.
Proof.
  unfold parseGroup. destruct (negb _); [now split|].
  generalize (Split (drop (length (str "dd=")) group) ";") as members.
  intros members.
  change ctx with (fst (ctx, false)) at 2 4.
  generalize (ctx, false) as st. clear ctx.
  induction members as [|mb members IH]; intros st; [now split|].
  cbn [fold_left]. destruct (IH (parseMember st mb)) as [-> ->].
  apply parseMember_ids.
Qed.

(** [parseTracestate] leaves the trace id and the span id alone. *)
Lemma parseTracestate_ids (ctx : SpanContext) (header : gostring) :
  traceID (parseTracestate ctx header) = traceID ctx
  /\ spanID (parseTracestate ctx header) = spanID ctx.
Proof.
  unfold parseTracestate. destruct (length header =? 0)%nat; [now split|].
  change (traceID ctx) with (traceID (setPropagatingTag ctx tracestateHeader header)).
  change (spanID ctx) with (spanID (setPropagatingTag ctx tracestateHeader header)).
  generalize (setPropagatingTag ctx tracestateHeader header) as c.
  generalize (Split (Trim header [tab; " "%char]) ",") as groups.
  induction groups as [|g groups IH]; intros c; [now split|].
  cbn [fold_left]. destruct (IH (parseGroup c g)) as [-> ->].
  apply parseGroup_ids.
Qed.

Lemma ToLower_lowercase (s : gostring) :
  Forall (fun c => code c < 65 \/ 90 < code c < 128) s ->
  ToLower unicodeToLower s = s.
Proof.
  intros H. unfold ToLower.
  assert (Ha : isASCII s = true).
  { unfold isASCII. apply forallb_forall. intros c Hc.
    rewrite Forall_forall in H. apply list_elem_of_In, H in Hc.
    apply Z.ltb_lt. lia. }
  rewrite Ha. clear Ha. induction H as [|c s Hc _ IH]; [reflexivity|].
  cbn [map]. rewrite IH. f_equal. unfold lowerByte.
  destruct ((65 <=? code c) && (code c <=? 90)) eqn:E; [|reflexivity].
  apply andb_true_iff in E as [E1 E2]. apply Z.leb_le in E1, E2. lia.
Qed.

Lemma traceparentOf_lowercase (T : traceID_t) (sid : Z) (flags : gostring) :
  0 <= upper T < 2 ^ 64 -> 0 <= lower T < 2 ^ 64 -> 0 <= sid < 2 ^ 64 ->
  Forall isHex flags ->
  Forall (fun c => code c < 65 \/ 90 < code c < 128)
    (str "00-" ++ HexEncoded T ++ str "-" ++ hexPadded 16 sid ++ str "-" ++ flags).
Proof.
  intros HU HL Hs Hf.
  assert (Hhex : forall s, Forall isHex s ->
                 Forall (fun c => code c < 65 \/ 90 < code c < 128) s).
  { intros s H. eapply Forall_impl; [exact H|]. intros c Hc.
    apply isHex_range in Hc as Hr. unfold isHex in Hc. lia. }
  assert (Hdash : Forall (fun c => code c < 65 \/ 90 < code c < 128) (str "-"))
    by (repeat constructor).
  apply Forall_app; split; [repeat constructor|].
  apply Forall_app; split.
  { apply Hhex. unfold HexEncoded. apply Forall_app.
    split; [apply (hexPadded_hex 16 _ HU) | apply (hexPadded_hex 16 _ HL)]; lia. }
  apply Forall_app; split; [exact Hdash|].
  apply Forall_app; split; [apply Hhex; apply (hexPadded_hex 16 _ Hs); lia|].
  apply Forall_app; split; [exact Hdash | now apply Hhex].
Qed.

(** X5: [parseTraceparent] reads back the version-0 traceparent of a trace id
    that is not empty and a span id that is not zero: the trace id in full,
    the span id, and the sampled flag as the sampling priority. *)
Theorem parseTraceparent_composed (ctx : SpanContext) (T : traceID_t) (sid : Z)
  (sampled : bool) :
  0 <= upper T < 2 ^ 64 -> 0 <= lower T < 2 ^ 64 -> Empty T = false ->
  0 < sid < 2 ^ 64 ->
  upper (traceID ctx) = 0 ->
  parseTraceparent unicodeToLower ctx
    (str "00-" ++ HexEncoded T ++ str "-" ++ hexPadded 16 sid ++ str "-"
     ++ (if sampled then str "01" else str "00"))
  = (setSamplingPriority
       (with_spanID (with_traceID (unsetPropagatingTag ctx keyTraceID128) T) sid)
       (if sampled then 1 else 0) samplerUnknown,
     None).
Proof.
  intros HU HL Hne Hs Hctx.
  set (flags := if sampled then str "01" else str "00").
  set (tid := HexEncoded T). set (sidh := hexPadded 16 sid).
  assert (Hf : Forall isHex flags /\ length flags = 2%nat
               /\ exists pre c, flags = pre ++ [c] /\ isHex c).
  { unfold flags. destruct sampled.
    - split; [hex_digits | split; [reflexivity|]].
      exists (str "0"), "1"%char. split; [reflexivity|]. left.
      change (code "1") with 49. lia.
    - split; [hex_digits | split; [reflexivity|]].
      exists (str "0"), "0"%char. split; [reflexivity|]. left.
      change (code "0") with 48. lia. }
  destruct Hf as (Hfh & Hfl & pre & c & Hfe & Hc).
  assert (Htid : hexString 32 tid).
  { unfold tid, HexEncoded.
    destruct (hexPadded_hex 16 (upper T) HU ltac:(lia)) as [L1 H1].
    destruct (hexPadded_hex 16 (lower T) HL ltac:(lia)) as [L2 H2].
    split; [rewrite length_app, L1, L2; reflexivity | now apply Forall_app]. }
  assert (Hsid : hexString 16 sidh) by (apply hexPadded_hex; lia).
  assert (Hx : extractTraceID128 (unsetPropagatingTag ctx keyTraceID128) tid
               = (with_traceID (unsetPropagatingTag ctx keyTraceID128) T, None)).
  { apply extractTraceID128_HexEncoded; try assumption.
    rewrite (proj1 (proj2 (tag_update_fields ctx keyTraceID128 []))). exact Hctx. }
  assert (HN : ToLower unicodeToLower
                 (Trim (str "00-" ++ tid ++ str "-" ++ sidh ++ str "-" ++ flags)
                    [tab; " "%char; "-"%char])
               = str "00" ++ str "-" ++ tid ++ str "-" ++ sidh ++ str "-" ++ flags).
  { rewrite Trim_ends.
    - apply ToLower_lowercase. apply traceparentOf_lowercase; try assumption; lia.
    - reflexivity.
    - rewrite Hfe, !app_assoc, rev_app_distr. cbn [rev app].
      unfold inCutset. cbn [existsb].
      repeat match goal with
             | |- context [Ascii.eqb c ?d] =>
                 destruct (Ascii.eqb_spec c d) as [->|_];
                   [exfalso; vm_compute in Hc;
                    destruct Hc as [[H1 H2] | [H1 H2]];
                    (now apply H1) || (now apply H2)|]
             end. reflexivity. }
  unfold parseTraceparent. rewrite HN. cbv zeta.
  assert (Hlen : len (str "00" ++ str "-" ++ tid ++ str "-" ++ sidh ++ str "-" ++ flags)
                 = 55).
  { unfold len. rewrite !length_app, (proj1 Htid), (proj1 Hsid), Hfl. reflexivity. }
  rewrite Hlen. change (55 =? 0) with false. change (55 <? 55) with false.
  cbv iota.
  rewrite (SplitN_traceparent (str "00") tid sidh flags ltac:(hex_digits)
             (proj2 Htid) (proj2 Hsid)).
  rewrite (splitN_go_two_nodash flags (hex_no_dash _ Hfh)).
  cbn [length nth rev app].
  change (Z.of_nat 4 <? 4) with false. cbv iota.
  rewrite (Trim_hex (str "00")) by hex_digits.
  rewrite (Trim_hex tid (proj2 Htid)), (Trim_hex sidh (proj2 Hsid)).
  change (len (str "00") =? 2) with true.
  change (ParseUint (str "00") 16 64) with (Some 0).
  cbn [negb]. cbv iota.
  change (0 =? 255) with false. change ((0 =? 0) && negb (55 =? 55)) with false.
  cbv iota.
  unfold len. rewrite (proj1 Htid), (proj1 Hsid).
  change (Z.of_nat 32 =? 32) with true. change (Z.of_nat 16 =? 16) with true.
  cbn [negb]. cbv iota.
  rewrite (isValidID_hex tid (proj2 Htid))
    by (intros E; pose proof (proj1 Htid) as L; rewrite E in L; discriminate L).
  rewrite (isValidID_hex sidh (proj2 Hsid))
    by (intros E; pose proof (proj1 Hsid) as L; rewrite E in L; discriminate L).
  cbn [negb]. cbv iota. rewrite Hx.
  unfold sidh. rewrite ParseUint_hexPadded by lia.
  replace (sid =? 0) with false by (symmetry; apply Z.eqb_neq; lia).
  unfold flags. destruct sampled; reflexivity.
Qed.

Lemma w3cHandler_traceparent (sh v : gostring) (ctx : SpanContext) :
  w3cHandler unicodeToLower ([], sh, ctx) traceparentHeader v = ((v, sh, ctx), None).
Proof. reflexivity. Qed.

Lemma w3cHandler_tracestate (ph sh v : gostring) (ctx : SpanContext) :
  w3cHandler unicodeToLower (ph, sh, ctx) tracestateHeader v = ((ph, v, ctx), None).
Proof. reflexivity. Qed.

Lemma w3cHandler_step (tp ts : gostring) (seen : list gostring)
  (st : gostring * gostring * SpanContext) (k v : gostring) :
  w3cEntry tp ts k v -> ~ In k seen -> w3cCollected tp ts seen st ->
  exists st',
    w3cHandler unicodeToLower st k v = (st', None)
    /\ w3cCollected tp ts (k :: seen) st'.
Proof.
  destruct st as [[ph sh] ctx]. intros Hentry Hnew (I0 & I1 & I2 & I3).
  destruct Hentry as [[-> ->] | [-> ->]].
  - rewrite (I1 Hnew), w3cHandler_traceparent.
    eexists. split; [reflexivity|]. repeat split; try assumption.
    intros H. exfalso. apply H. now left.
  - rewrite w3cHandler_tracestate.
    eexists. split; [reflexivity|]. repeat split; try assumption.
    + intros H. apply I1. intros Hin. apply H. now right.
    + intros [E | H]; [vm_compute in E; discriminate E | now apply I2].
    + now right.
Qed.

(** X24: The W3C injection of a context that has no trace and whose trace id
    has no upper half panics: the condition under which the tracestate is
    composed ends in [ctx.trace.propagatingTagsLen()], and both branches
    read [ctx.trace.propagatingTag(tracestateHeader)], without a test of
    [ctx.trace].  The Datadog extraction returns such a context for headers
    that hold neither a priority nor tags. *)
Theorem w3c_inject_without_trace_panics (C : SpanContext)
  (w : gmap gostring gostring) (rest : list Propagator) (first : bool) :
  Empty (traceID C) = false ->
  spanID C <> 0 ->
  HasUpper (traceID C) = false ->
  trace C = None ->
  w3c_injectTextMap rangeMap C w = Panicked
  /\ chained_Inject (mkChainedPropagator (tracecontext :: rest) [] [] [] first)
       (Some C) (TextMapCarrier w)
     = Panicked.
Proof.
  intros Hne Hs Hu Ht.
  assert (H : w3c_injectTextMap rangeMap C w = Panicked).
  { unfold w3c_injectTextMap. rewrite Hne, Hu.
    destruct (spanID C =? 0) eqn:E; [apply Z.eqb_eq in E; contradiction|].
    cbn [orb]. destruct (SamplingPriority (Some C)) as [q ok].
    unfold unsetPropagatingTag. now rewrite Ht, Ht. }
  split; [exact H|].
  unfold chained_Inject. cbn [injectors injectAll Inject propagatorW3c injectWith].
  now rewrite H.
Qed.

(** X3: The W3C format gives back the trace id in full and the span id:
    injecting a context with a trace id and a span id, and with a trace
    unless its trace id has an upper half, into an empty carrier succeeds,
    and extracting from that carrier returns a context with the same
    128-bit trace id and span id, whatever the tracestate holds. *)
Theorem w3c_roundtrip_ids (C : SpanContext) (first : bool) :
  0 <= upper (traceID C) < 2 ^ 64 ->
  0 <= lower (traceID C) < 2 ^ 64 ->
  Empty (traceID C) = false ->
  0 < spanID C < 2 ^ 64 ->
  (HasUpper (traceID C) = false -> trace C <> None) ->
  let p := mkChainedPropagator [tracecontext] [tracecontext] [] [] first in
  exists C' m E,
    chained_Inject p (Some C) (TextMapCarrier ∅)
    = Returned (Some C', TextMapCarrier m, None)
    /\ chained_Extract rangeMap p (TextMapCarrier m) = Returns (Some E) None
    /\ traceID E = traceID C
    /\ spanID E = spanID C.
Proof.
  intros HU HL Hne Hs Htrace p.
  assert (HE : Empty (traceID C) || (spanID C =? 0) = false).
  { rewrite Hne. apply Z.eqb_neq. lia. }
  set (sampled := snd (SamplingPriority (Some C))
                  && (PriorityAutoKeep <=? fst (SamplingPriority (Some C)))).
  set (tp := traceparentOf C (if sampled then str "01" else str "00")).
  assert (Hinj : exists C' ts,
             w3c_injectTextMap rangeMap C ∅
             = Returned
                 (C', carrierSet (carrierSet ∅ traceparentHeader tp) tracestateHeader ts,
                  None)).
  { unfold w3c_injectTextMap. rewrite HE.
    unfold tp, traceparentOf, sampled.
    destruct (SamplingPriority (Some C)) as [q ok]. cbn [fst snd].
    set (c1 := if HasUpper (traceID C) then _ else _).
    assert (Hc1 : traceID c1 = traceID C /\ spanID c1 = spanID C).
    { unfold c1. destruct (HasUpper (traceID C)).
      - split; apply (proj1 (tag_update_fields C keyTraceID128 (UpperHex (traceID C)))).
      - split; apply (proj2 (tag_update_fields C keyTraceID128 [])). }
    assert (Ht1 : exists t1, trace c1 = Some t1).
    { unfold c1. destruct (HasUpper (traceID C)) eqn:Eu.
      - eexists. reflexivity.
      - destruct (trace C) as [t|] eqn:Et; [|now destruct (Htrace eq_refl)].
        unfold unsetPropagatingTag. rewrite Et. eexists. reflexivity. }
    destruct Hc1 as [-> ->]. destruct Ht1 as [t1 Ht1].
    unfold composeTracestate. rewrite !Ht1.
    destruct (_ || _ || _ || _); [destruct (length _ =? 0)%nat|];
      eexists _, _; reflexivity. }
  destruct Hinj as (C' & ts & Hinj).
  set (m := carrierSet (carrierSet ∅ traceparentHeader tp) tracestateHeader ts) in *.
  assert (Hentries : forall k v, m !! k = Some v -> w3cEntry tp ts k v).
  { intros k v H. unfold m, carrierSet in H.
    apply lookup_insert_Some in H as [[<- <-] | [_ H]]; [now right|].
    apply lookup_insert_Some in H as [[<- <-] | [_ H]]; [now left|].
    rewrite lookup_empty in H. discriminate H. }
  assert (Htp : is_Some (m !! traceparentHeader)).
  { unfold m, carrierSet. rewrite lookup_insert_ne by other_key.
    rewrite lookup_insert_eq. eauto. }
  destruct (ForeachKey_rangeMap (w3cHandler unicodeToLower) (w3cEntry tp ts)
              (w3cCollected tp ts) m ([], [], with_isRemote zeroSpanContext true)
              (w3cHandler_step tp ts) Hentries)
    as ([[ph sh] ctx] & keys & Hfold & (I0 & I1 & I2 & I3) & Hkeys).
  { repeat split; [intros [] | now left]. }
  rewrite (I2 (proj2 (Hkeys _) Htp)) in Hfold. subst ctx.
  pose proof (parseTraceparent_composed (with_isRemote zeroSpanContext true)
                (traceID C) (spanID C) sampled HU HL Hne Hs eq_refl) as Hparse.
  fold (traceparentOf C (if sampled then str "01" else str "00")) in Hparse.
  fold tp in Hparse.
  set (ctx1 := setSamplingPriority _ _ _) in Hparse.
  exists C', m, (parseTracestate ctx1 sh). split; [|split].
  - unfold chained_Inject, p. cbn [injectors injectAll Inject propagatorW3c injectWith].
    rewrite Hinj. reflexivity.
  - unfold chained_Extract, p.
    cbn [extractors extractLoop Extract typeOf propagatorW3c extractWith readerOf isType].
    unfold w3c_extractTextMap. rewrite Hfold, Hparse. cbn [onlyExtractFirst].
    destruct first; [reflexivity|].
    unfold finishExtract. rewrite map_size_empty. reflexivity.
  - destruct (parseTracestate_ids ctx1 sh) as [-> ->]. unfold ctx1.
    rewrite setSamplingPriority_traceID, setSamplingPriority_spanID.
    now split.
Qed.

(** ** The sanitizers of the tracestate *)

Lemma value_output_free (rs : list Z) :
  forall n, Forall (separatorFree 32) (mapRunes valueDisallowedFn n rs).
Proof.
  induction rs as [|r rs IH]; intros n; [constructor|].
  simpl. unfold mapping, valueDisallowedFn. codes.
  destruct (r =? 61) eqn:E0; simpl.
  { constructor; [unfold separatorFree; codes; lia | apply IH]. }
  destruct ((r =? 44) || (r =? 126) || (r =? 59)) eqn:E1; simpl.
  - constructor; [unfold separatorFree; codes; lia | apply IH].
  - destruct ((r <? 32) || (126 <? r)) eqn:E2; simpl.
    + destruct n; simpl; [apply IH|].
      constructor; [unfold separatorFree; codes; lia | apply IH].
    + bools. destruct (r <? 0) eqn:E3; [bools; lia|].
      destruct (0 <=? r) eqn:E4; [|bools; lia].
      simpl. constructor; [unfold separatorFree; codes; lia | apply IH].
Qed.

Lemma origin_output_free (rs : list Z) :
  forall n, Forall (separatorFree 33) (mapRunes originDisallowedFn n rs).
Proof.
  induction rs as [|r rs IH]; intros n; [constructor|].
  simpl. unfold mapping, originDisallowedFn. codes.
  destruct (r =? 61) eqn:E0; simpl.
  { constructor; [unfold separatorFree; codes; lia | apply IH]. }
  destruct ((r =? 44) || (r =? 126) || (r =? 59)) eqn:E1; simpl.
  - constructor; [unfold separatorFree; codes; lia | apply IH].
  - destruct ((r <? 33) || (126 <? r)) eqn:E2; simpl.
    + destruct n; simpl; [apply IH|].
      constructor; [unfold separatorFree; codes; lia | apply IH].
    + bools. destruct (r <? 0) eqn:E3; [bools; lia|].
      destruct (0 <=? r) eqn:E4; [|bools; lia].
      simpl. constructor; [unfold separatorFree; codes; lia | apply IH].
Qed.

(** The bytes written for runes below 128 are those runes. *)
Lemma encode_ascii_bytes (P : Z -> Prop) (rs : list Z) :
  Forall (fun r => 0 <= r < 128 /\ P r) rs ->
  Forall (fun c => P (code c)) (flat_map encodeRune rs).
Proof.
  induction 1 as [|r rs [Hr HP] _ IH]; [constructor|].
  cbn [flat_map]. rewrite encodeRune_ascii by exact Hr.
  constructor; [|exact IH]. rewrite code_byte_of by lia. exact HP.
Qed.

(** X8: What the sanitizers write can be put into a tracestate as it is: a
    sanitized key is printable ASCII without [','] and ['=']; a sanitized
    value is printable ASCII without [','], [';'] and ['=']; a sanitized
    origin is that and has no space, whatever the input is. *)
Theorem sanitized_bytes (s : gostring) :
  Forall (fun c => keyOK (code c)) (Mutate keyDisallowedFn s)
  /\ Forall (fun c => separatorFree 32 (code c)) (Mutate valueDisallowedFn s)
  /\ Forall (fun c => separatorFree 33 (code c)) (Mutate originDisallowedFn s).
Proof.
  unfold Mutate. split; [|split]; apply encode_ascii_bytes.
  - eapply Forall_impl; [apply key_output|].
    intros r Hr. split; [unfold keyOK in Hr; lia | exact Hr].
  - eapply Forall_impl; [apply value_output_free|].
    intros r Hr. split; [unfold separatorFree in Hr; lia | exact Hr].
  - eapply Forall_impl; [apply origin_output_free|].
    intros r Hr. split; [unfold separatorFree in Hr; lia | exact Hr].
Qed.

(** ** The tracestate *)

(** X11: A tracestate without a [dd=] member is stored as it is and changes
    nothing else of the context. *)
Theorem parseTracestate_foreign (ctx : SpanContext) (header : gostring) :
  header <> [] ->
  Forall (fun g => HasPrefix g (str "dd=") = false)
    (Split (Trim header [tab; " "%char]) ",") ->
  parseTracestate ctx header = setPropagatingTag ctx tracestateHeader header.
Proof.
  intros Hne Hgroups. unfold parseTracestate.
  destruct header as [|c header]; [contradiction|]. cbn [length Nat.eqb].
  generalize (setPropagatingTag ctx tracestateHeader (c :: header)) as c0.
  induction Hgroups as [|g groups Hg _ IH]; intros c0; [reflexivity|].
  cbn [fold_left]. unfold parseGroup at 2. rewrite Hg. cbn [negb]. apply IH.
Qed.

Lemma appendVendors_members (states : list gostring) :
  forall (b : gostring) (n : nat), (n <= 31)%nat ->
  appendVendors b (32 - Z.of_nat n) states
  = b ++ concat (map (fun s => str "," ++ Trim s [" "%char; tab])
                   (take n (List.filter (fun s => negb (HasPrefix s (str "dd=")))
                              states))).
Proof.
  induction states as [|s states IH]; intros b n Hn.
  - cbn. now rewrite take_nil, app_nil_r.
  - cbn [appendVendors List.filter]. destruct (HasPrefix s (str "dd=")); cbn [negb].
    + now apply IH.
    + destruct n as [|n].
      * replace (32 <? 32 - Z.of_nat 0 + 1) with true
          by (symmetry; apply Z.ltb_lt; lia).
        cbn. now rewrite app_nil_r.
      * replace (32 <? 32 - Z.of_nat (S n) + 1) with false
          by (symmetry; apply Z.ltb_ge; lia).
        replace (32 - Z.of_nat (S n) + 1) with (32 - Z.of_nat n) by lia.
        rewrite IH by lia. cbn [take map concat]. now rewrite <- !app_assoc.
Qed.

(** X10: [composeTracestate] puts its own [dd=] member first and keeps, behind
    it and in their order, the first 31 members of the old state that do
    not start with [dd=]; every [dd=] member of the old state is dropped.
    On a context without a trace the call panics. *)
Theorem composeTracestate_members (ctx : SpanContext) (priority : Z)
  (oldState : gostring) :
  composeTracestate rangeMap ctx priority oldState
  = match trace ctx with
    | None => Panicked
    | Some t =>
        Returned
          (if (length oldState =? 0)%nat then composeDD rangeMap ctx t priority
           else composeDD rangeMap ctx t priority
                ++ concat (map (fun s => str "," ++ s) (foreignMembers oldState)))
    end.
Proof.
  unfold composeTracestate, foreignMembers. cbv zeta.
  destruct (trace ctx) as [t|]; [|reflexivity].
  destruct (length oldState =? 0)%nat; [reflexivity|].
  change 1 with (32 - Z.of_nat 31). rewrite appendVendors_members by lia.
  now rewrite map_map.
Qed.

Lemma fmtDigits_no_comma (fuel : nat) (base : Z) :
  0 < base <= 16 ->
  forall n acc, Forall (fun c => c <> ","%char) acc ->
  Forall (fun c => c <> ","%char) (fmtDigits fuel base n acc).
Proof.
  intros Hb. induction fuel as [|fuel IH]; intros n acc Hacc; [exact Hacc|].
  cbn [fmtDigits].
  assert (Hmod : 0 <= n mod base < base) by (apply Z.mod_pos_bound; lia).
  assert (Hacc' : Forall (fun c => c <> ","%char) (digitChar (n mod base) :: acc)).
  { constructor; [|exact Hacc]. intros E.
    pose proof (digitChar_isHex (n mod base) ltac:(lia)) as Hh.
    rewrite E in Hh. unfold isHex in Hh. change (code ",") with 44 in Hh. lia. }
  destruct (n <? base); [exact Hacc' | now apply IH].
Qed.

Lemma Itoa_no_comma (p : Z) : Forall (fun c => c <> ","%char) (Itoa p).
Proof.
  unfold Itoa, FormatUint.
  destruct (p <? 0); [constructor; [discriminate|]|];
    apply fmtDigits_no_comma; (lia || constructor).
Qed.

Lemma hexPadded_no_comma (w : nat) (n : Z) :
  Forall (fun c => c <> ","%char) (hexPadded w n).
Proof.
  unfold hexPadded, FormatUint. cbv zeta. apply Forall_app. split.
  - apply Forall_forall. intros c Hc. apply list_elem_of_In, repeat_spec in Hc.
    subst c. discriminate.
  - apply fmtDigits_no_comma; [lia | constructor].
Qed.

Lemma sanitized_no_comma (s : gostring) :
  Forall (fun c => c <> ","%char) (Mutate keyDisallowedFn s)
  /\ Forall (fun c => c <> ","%char) (Mutate valueDisallowedFn s)
  /\ Forall (fun c => c <> ","%char) (Mutate originDisallowedFn s).
Proof.
  destruct (sanitized_bytes s) as (Hk & Hv & Ho).
  split; [|split]; (eapply Forall_impl; [eassumption|]); intros c Hc ->;
    unfold keyOK, separatorFree in Hc; [apply (proj1 (proj2 Hc)) | |];
    try apply (proj1 (proj2 Hc)); reflexivity.
Qed.

Lemma appendTags_no_comma (tags : list (gostring * gostring)) :
  forall b, Forall (fun c => c <> ","%char) b ->
  Forall (fun c => c <> ","%char) (appendTags b tags).
Proof.
  induction tags as [|[k v] tags IH]; intros b Hb; [exact Hb|].
  cbn [appendTags]. destruct (negb (HasPrefix k (str "_dd.p."))); [now apply IH|].
  cbv zeta. destruct (256 <? _); [exact Hb|].
  apply IH. repeat (apply Forall_app; split); try exact Hb.
  - repeat constructor; discriminate.
  - apply sanitized_no_comma.
  - repeat constructor; discriminate.
  - apply sanitized_no_comma.
Qed.

(** X9: The [dd=] member [composeTracestate] writes for a context with the
    trace [t] is one member of the list: it holds no [','], whatever the
    origin and the tags are; only the reparent id of a remote context is
    written as it is. *)
Theorem composeDD_no_comma (ctx : SpanContext) (t : trace_t) (priority : Z) :
  (isRemote ctx = true -> ~ In ","%char (reparentID ctx)) ->
  ~ In ","%char (composeDD rangeMap ctx t priority).
Proof.
  intros Hre.
  assert (H : Forall (fun c => c <> ","%char) (composeDD rangeMap ctx t priority)).
  { unfold composeDD. apply appendTags_no_comma. unfold composeHead.
    apply Forall_app; split; [repeat constructor; discriminate|].
    apply Forall_app; split; [apply Itoa_no_comma|].
    apply Forall_app; split.
    - destruct (negb _); [|constructor].
      apply Forall_app; split; [repeat constructor; discriminate|].
      apply sanitized_no_comma.
    - destruct (isRemote ctx) eqn:Er; cbn [negb].
      + destruct (negb _); [|constructor].
        apply Forall_app; split; [repeat constructor; discriminate|].
        apply Forall_forall. intros c Hc ->.
        apply (Hre eq_refl). now apply list_elem_of_In.
      + apply Forall_app; split; [repeat constructor; discriminate|].
        apply hexPadded_no_comma. }
  intros Hin. rewrite Forall_forall in H.
  apply (H ","%char); [now apply list_elem_of_In | reflexivity].
Qed.

(** ** Percent-encoding *)

Lemma urlEncode_ascii (s safe : gostring) :
  Forall (fun c => code c < 128) s ->
  urlEncode s safe = flat_map (escapeByte safe) s.
Proof.
  intros H. unfold urlEncode. rewrite (runes_ascii s H).
  induction H as [|c s Hc _ IH]; [reflexivity|].
  cbn [map flat_map]. rewrite IH. f_equal.
  pose proof (code_range c) as Hr.
  rewrite encodeRune_ascii by lia. rewrite byte_of_code.
  unfold escapeByte.
  destruct (existsb _ _); [reflexivity|]. cbn [flat_map]. apply app_nil_r.
Qed.

Lemma unhex_upperhex (d : Z) : 0 <= d < 16 -> unhex (upperhex d) = d.
Proof.
  intros H. unfold unhex, upperhex, digitVal.
  destruct (d <? 10) eqn:E; [apply Z.ltb_lt in E | apply Z.ltb_ge in E];
    rewrite code_byte_of by lia.
  - replace ((48 <=? 48 + d) && (48 + d <=? 57)) with true
      by (symmetry; apply andb_true_iff; split; apply Z.leb_le; lia).
    cbn. lia.
  - replace ((48 <=? 65 + d - 10) && (65 + d - 10 <=? 57)) with false
      by (symmetry; apply andb_false_iff; right; apply Z.leb_gt; lia).
    replace ((97 <=? 65 + d - 10) && (65 + d - 10 <=? 122)) with false
      by (symmetry; apply andb_false_iff; left; apply Z.leb_gt; lia).
    replace ((65 <=? 65 + d - 10) && (65 + d - 10 <=? 90)) with true
      by (symmetry; apply andb_true_iff; split; apply Z.leb_le; lia).
    cbn. lia.
Qed.

Lemma ishex_upperhex (d : Z) :
  0 <= d < 16 -> ishex (upperhex d) = true /\ Ascii.eqb (upperhex d) "%" = false.
Proof.
  intros H. split.
  - unfold ishex, upperhex, digitVal.
    destruct (d <? 10) eqn:E; [apply Z.ltb_lt in E | apply Z.ltb_ge in E];
      rewrite code_byte_of by lia.
    + replace ((48 <=? 48 + d) && (48 + d <=? 57)) with true
        by (symmetry; apply andb_true_iff; split; apply Z.leb_le; lia).
      apply Z.ltb_lt. lia.
    + replace ((48 <=? 65 + d - 10) && (65 + d - 10 <=? 57)) with false
        by (symmetry; apply andb_false_iff; right; apply Z.leb_gt; lia).
      replace ((97 <=? 65 + d - 10) && (65 + d - 10 <=? 122)) with false
        by (symmetry; apply andb_false_iff; left; apply Z.leb_gt; lia).
      replace ((65 <=? 65 + d - 10) && (65 + d - 10 <=? 90)) with true
        by (symmetry; apply andb_true_iff; split; apply Z.leb_le; lia).
      apply Z.ltb_lt. lia.
  - destruct (Ascii.eqb_spec (upperhex d) "%") as [Heq|]; [|reflexivity].
    apply (f_equal code) in Heq. change (code "%") with 37 in Heq.
    unfold upperhex in Heq.
    destruct (d <? 10); rewrite code_byte_of in Heq by lia; lia.
Qed.

(** What one byte of plain text is encoded to is read back as that byte. *)
Lemma escape_chunk (safe : gostring) (c : ascii) (rest : gostring) :
  plainByte c ->
  validEscapes (escapeByte safe c ++ rest) = validEscapes rest
  /\ (0 < length (escapeByte safe c))%nat
  /\ forall f, unescapeBytes (S f) (escapeByte safe c ++ rest)
               = c :: unescapeBytes f rest.
Proof.
  intros (Hc & Hp & Hplus). unfold escapeByte.
  assert (Hself : validEscapes ([c] ++ rest) = validEscapes rest
                  /\ (0 < length [c])%nat
                  /\ forall f, unescapeBytes (S f) ([c] ++ rest)
                               = c :: unescapeBytes f rest).
  { cbn [app validEscapes unescapeBytes length].
    destruct (Ascii.eqb_spec c "%") as [->|_]; [contradiction|].
    destruct (Ascii.eqb_spec c "+") as [->|_]; [contradiction|].
    split; [reflexivity | split; [lia | reflexivity]]. }
  destruct (existsb _ _); [exact Hself|]. unfold queryEscapeByte. cbv zeta.
  destruct (_ || _ || _ || _); [exact Hself|].
  pose proof (code_range c) as Hr.
  destruct (code c =? 32) eqn:E32.
  - apply Z.eqb_eq in E32. assert (c = " "%char) as -> by (now apply code_inj).
    split; [reflexivity | split; [cbn; lia | reflexivity]].
  - assert (H1 : 0 <= code c / 16 < 16).
    { split; [apply Z.div_pos; lia | apply Z.div_lt_upper_bound; lia]. }
    assert (H2 : 0 <= code c mod 16 < 16) by (apply Z.mod_pos_bound; lia).
    destruct (ishex_upperhex _ H1) as [X1 P1].
    destruct (ishex_upperhex _ H2) as [X2 P2].
    cbn [app validEscapes unescapeBytes length]. rewrite X1, X2, P1, P2.
    change (Ascii.eqb "%" "%") with true. cbv iota. cbn [andb].
    split; [reflexivity | split; [lia|]].
    intros f. rewrite !unhex_upperhex by assumption.
    replace (code c / 16 * 16 + code c mod 16) with (code c)
      by (pose proof (Z.div_mod (code c) 16 ltac:(lia)); lia).
    now rewrite byte_of_code.
Qed.

Lemma plain_ascii (s : gostring) :
  Forall plainByte s -> Forall (fun c => code c < 128) s.
Proof. intros H. eapply Forall_impl; [exact H|]. intros c Hc. apply Hc. Qed.

(** X7: [url.QueryUnescape] reads back what [urlEncode] writes for ASCII text
    without ['%'] and ['+'], whichever characters are safe. *)
Theorem urlEncode_roundtrip (s safe : gostring) :
  Forall plainByte s ->
  QueryUnescape (urlEncode s safe) = Some s.
Proof.
  intros H. rewrite (urlEncode_ascii s safe (plain_ascii s H)).
  unfold QueryUnescape.
  assert (Hv : validEscapes (flat_map (escapeByte safe) s) = true).
  { clear -H. induction H as [|c s Hc _ IH]; [reflexivity|].
    cbn [flat_map]. rewrite (proj1 (escape_chunk safe c _ Hc)). exact IH. }
  rewrite Hv. f_equal. clear Hv.
  assert (Hu : forall f, (length (flat_map (escapeByte safe) s) <= f)%nat ->
               unescapeBytes f (flat_map (escapeByte safe) s) = s).
  { induction H as [|c s Hc _ IH]; intros f Hf.
    - destruct f; reflexivity.
    - cbn [flat_map] in *.
      destruct (escape_chunk safe c (flat_map (escapeByte safe) s) Hc)
        as (_ & Hlen & Hstep).
      rewrite length_app in Hf.
      destruct f as [|f]; [lia|]. rewrite Hstep. f_equal. apply IH. lia. }
  now apply Hu.
Qed.

(** ** The baggage header *)

Lemma escapeByte_bytes (c : ascii) :
  implb ((33 <=? code c) && (code c <=? 126))
    (forallb keyByte (escapeByte safeCharactersKey c)
     && forallb valueByte (escapeByte safeCharactersValue c)
     && negb (length (escapeByte safeCharactersKey c) =? 0)%nat
     && negb (length (escapeByte safeCharactersValue c) =? 0)%nat) = true.
Proof.
  destruct c as [[] [] [] [] [] [] [] []]; vm_compute; reflexivity.
Qed.

Lemma printable_plain (s : gostring) :
  Forall (fun c => 33 <= code c <= 126 /\ c <> "%"%char /\ c <> "+"%char) s ->
  Forall plainByte s.
Proof.
  intros H. eapply Forall_impl; [exact H|]. intros c (Hr & Hp & Hplus).
  repeat split; [lia | exact Hp | exact Hplus].
Qed.

(** No white-space rune starts with a printable byte, or ends with one. *)
Lemma stripSpace_printable (spaces : list gostring) (c : ascii) (s : gostring) :
  forallb (fun p => match p with
                    | [] => false
                    | p0 :: _ => (code p0 <? 33) || (126 <? code p0)
                    end) spaces = true ->
  33 <= code c <= 126 ->
  stripSpace spaces (c :: s) = None.
Proof.
  intros Hsp Hc. unfold stripSpace.
  replace (List.filter (fun p => HasPrefix (c :: s) p) spaces) with (@nil gostring);
    [reflexivity|].
  symmetry. induction spaces as [|p spaces IH]; [reflexivity|].
  cbn [forallb] in Hsp. apply andb_true_iff in Hsp as [Hp Hsp].
  cbn [List.filter]. destruct p as [|p0 p]; [discriminate Hp|].
  cbn [HasPrefix]. destruct (Ascii.eqb_spec p0 c) as [->|_].
  - apply orb_true_iff in Hp as [Hp|Hp]; apply Z.ltb_lt in Hp; lia.
  - cbn [andb]. now apply IH.
Qed.

Lemma TrimSpace_printable (s : gostring) :
  Forall (fun c => 33 <= code c <= 126) s -> TrimSpace s = s.
Proof.
  intros H. unfold TrimSpace. cbv zeta.
  assert (Hl : trimSpaceLeft (length s) spaceRunes s = s).
  { destruct H as [|c s Hc _]; [reflexivity|]. cbn [length trimSpaceLeft].
    now rewrite stripSpace_printable by (reflexivity || exact Hc). }
  rewrite Hl.
  assert (Hr : trimSpaceLeft (length s) (map (@rev ascii) spaceRunes) (rev s) = rev s).
  { destruct (rev s) as [|c r] eqn:E.
    - destruct (length s); reflexivity.
    - assert (Hc : 33 <= code c <= 126).
      { rewrite Forall_forall in H. apply H, list_elem_of_In, in_rev.
        rewrite E. now left. }
      destruct (length s) as [|n]; [reflexivity|]. cbn [trimSpaceLeft].
      now rewrite stripSpace_printable by (reflexivity || exact Hc). }
  rewrite Hr. apply rev_involutive.
Qed.

(** The encoded form of a plain key and of a plain value: the bytes it is
    made of, and that something is written. *)
Lemma encode_plain (s : gostring) :
  plainText s ->
  (encodeKey s = flat_map (escapeByte safeCharactersKey) s
   /\ forallb keyByte (encodeKey s) = true /\ encodeKey s <> [])
  /\ (encodeValue s = flat_map (escapeByte safeCharactersValue) s
      /\ forallb valueByte (encodeValue s) = true /\ encodeValue s <> []).
Proof.
  intros [Hne H].
  assert (Hp : Forall (fun c => 33 <= code c <= 126) s)
    by (eapply Forall_impl; [exact H|]; intros c Hc; apply Hc).
  assert (Ha : Forall (fun c => code c < 128) s)
    by (eapply Forall_impl; [exact Hp|]; intros c Hc; cbv beta in Hc; lia).
  unfold encodeKey, encodeValue.
  rewrite (TrimSpace_printable s Hp), !(urlEncode_ascii s _ Ha).
  assert (Hb : forall c, In c s ->
            forallb keyByte (escapeByte safeCharactersKey c) = true
            /\ forallb valueByte (escapeByte safeCharactersValue c) = true
            /\ escapeByte safeCharactersKey c <> []
            /\ escapeByte safeCharactersValue c <> []).
  { intros c Hc. rewrite Forall_forall in Hp.
    specialize (Hp c (proj2 (list_elem_of_In _ _) Hc)).
    pose proof (escapeByte_bytes c) as Hb.
    replace ((33 <=? code c) && (code c <=? 126)) with true in Hb
      by (symmetry; apply andb_true_iff; split; apply Z.leb_le; lia).
    cbn [implb] in Hb.
    apply andb_true_iff in Hb as [Hb H4]. apply andb_true_iff in Hb as [Hb H3].
    apply andb_true_iff in Hb as [H1 H2].
    repeat split; try assumption.
    - intros E. rewrite E in H3. discriminate H3.
    - intros E. rewrite E in H4. discriminate H4. }
  destruct s as [|c s]; [contradiction|].
  split; (split; [reflexivity|]); split.
  - apply forallb_forall. intros b Hin. apply in_flat_map in Hin as (x & Hx & Hin).
    destruct (Hb x Hx) as (H1 & _). rewrite forallb_forall in H1. now apply H1.
  - cbn [flat_map]. destruct (Hb c (or_introl eq_refl)) as (_ & _ & H3 & _).
    destruct (escapeByte safeCharactersKey c); [contradiction | discriminate].
  - apply forallb_forall. intros b Hin. apply in_flat_map in Hin as (x & Hx & Hin).
    destruct (Hb x Hx) as (_ & H2 & _). rewrite forallb_forall in H2. now apply H2.
  - cbn [flat_map]. destruct (Hb c (or_introl eq_refl)) as (_ & _ & _ & H4).
    destruct (escapeByte safeCharactersValue c); [contradiction | discriminate].
Qed.

Lemma keyByte_seps (s : gostring) :
  forallb keyByte s = true ->
  Forall (fun c => Ascii.eqb c "=" = false) s
  /\ Forall (fun c => Ascii.eqb c "," = false) s
  /\ Forall (fun c => 33 <= code c <= 126) s.
Proof.
  intros H. rewrite forallb_forall in H.
  repeat split; apply Forall_forall; intros c Hc;
    apply list_elem_of_In, H in Hc; unfold keyByte in Hc;
    apply andb_true_iff in Hc as [Hc H4]; apply andb_true_iff in Hc as [Hc H3];
    apply andb_true_iff in Hc as [H1 H2];
    apply Z.leb_le in H1, H2; apply negb_true_iff in H3, H4; (assumption || lia).
Qed.

Lemma valueByte_seps (s : gostring) :
  forallb valueByte s = true ->
  Forall (fun c => Ascii.eqb c "," = false) s
  /\ Forall (fun c => 33 <= code c <= 126) s.
Proof.
  intros H. rewrite forallb_forall in H.
  repeat split; apply Forall_forall; intros c Hc;
    apply list_elem_of_In, H in Hc; unfold valueByte in Hc;
    apply andb_true_iff in Hc as [Hc H3];
    apply andb_true_iff in Hc as [H1 H2];
    apply Z.leb_le in H1, H2; apply negb_true_iff in H3; (assumption || lia).
Qed.

Lemma length_eqb_cons (s : gostring) : s <> [] -> (length s =? 0)%nat = false.
Proof. destruct s; [contradiction | reflexivity]. Qed.

Lemma piece_no_comma (k v : gostring) :
  plainText k -> plainText v ->
  Forall (fun c => Ascii.eqb c "," = false) (baggagePiece (k, v)).
Proof.
  intros Hk Hv.
  destruct (encode_plain k Hk) as [(_ & Hkb & _) _].
  destruct (encode_plain v Hv) as [_ (_ & Hvb & _)].
  unfold baggagePiece. cbn [fst snd].
  apply Forall_app; split; [apply (keyByte_seps _ Hkb)|].
  apply Forall_app; split; [repeat constructor | apply (valueByte_seps _ Hvb)].
Qed.

Lemma Cut_piece (k v : gostring) :
  plainText k ->
  Cut (baggagePiece (k, v)) "=" = (encodeKey k, encodeValue v, true).
Proof.
  intros Hk. destruct (encode_plain k Hk) as [(_ & Hkb & _) _].
  unfold baggagePiece, Cut. cbn [fst snd].
  change (str "=" ++ encodeValue v) with ("="%char :: encodeValue v).
  now rewrite (cut_go_piece "=" _ (proj1 (keyByte_seps _ Hkb))).
Qed.

Lemma validateBaggage_pieces (items : list (gostring * gostring)) :
  (forall k v, In (k, v) items -> plainText k /\ plainText v) ->
  validateBaggage (map baggagePiece items) = Some (map baggagePiece items).
Proof.
  induction items as [|[k v] l IH]; intros Hplain; [reflexivity|].
  destruct (Hplain k v (or_introl eq_refl)) as [Hk Hv].
  destruct (encode_plain k Hk) as [(_ & Hkb & Hkn) _].
  destruct (encode_plain v Hv) as [_ (_ & Hvb & Hvn)].
  cbn [map validateBaggage]. rewrite (Cut_piece k v Hk).
  rewrite (TrimSpace_printable _ (proj2 (proj2 (keyByte_seps _ Hkb)))).
  rewrite (TrimSpace_printable _ (proj2 (valueByte_seps _ Hvb))).
  rewrite (length_eqb_cons _ Hkn), (length_eqb_cons _ Hvn).
  cbn [negb orb].
  rewrite IH by (intros k' v' Hin; apply Hplain; now right).
  reflexivity.
Qed.

Lemma applyBaggage_pieces (items : list (gostring * gostring)) :
  (forall k v, In (k, v) items -> plainText k /\ plainText v) ->
  forall ctx,
  baggage (fold_left applyBaggage (map baggagePiece items) ctx)
  = fold_left (fun m kv => <[fst kv := snd kv]> m) items (baggage ctx).
Proof.
  induction items as [|[k v] l IH]; intros Hplain ctx; [reflexivity|].
  destruct (Hplain k v (or_introl eq_refl)) as [Hk Hv].
  cbn [map fold_left].
  rewrite IH by (intros k' v' Hin; apply Hplain; now right).
  f_equal. unfold applyBaggage. rewrite (Cut_piece k v Hk).
  unfold encodeKey, encodeValue.
  rewrite !TrimSpace_printable
    by (eapply Forall_impl; [apply Hk || apply Hv|]; intros c Hc; apply Hc).
  rewrite !urlEncode_roundtrip by (apply printable_plain; apply Hk || apply Hv).
  reflexivity.
Qed.

Lemma Split_pieces (items : list (gostring * gostring)) :
  (forall k v, In (k, v) items -> plainText k /\ plainText v) ->
  forall p cur,
  Forall (fun c => Ascii.eqb c "," = false) p ->
  split_go "," cur (p ++ flat_map (fun kv => str "," ++ baggagePiece kv) items)
  = (rev cur ++ p) :: map baggagePiece items.
Proof.
  induction items as [|[k v] l IH]; intros Hplain p cur Hp.
  - cbn [flat_map map]. rewrite app_nil_r. now apply split_go_nosep.
  - cbn [flat_map map]. rewrite <- app_assoc.
    change (str "," ++ baggagePiece (k, v)
            ++ flat_map (fun kv0 => str "," ++ baggagePiece kv0) l)
      with (","%char :: baggagePiece (k, v)
            ++ flat_map (fun kv0 => str "," ++ baggagePiece kv0) l).
    rewrite (split_go_piece "," p Hp). f_equal.
    destruct (Hplain k v (or_introl eq_refl)) as [Hk Hv].
    rewrite IH.
    + reflexivity.
    + intros k' v' Hin. apply Hplain. now right.
    + now apply piece_no_comma.
Qed.

Lemma baggageBytes_nonneg (items : list (gostring * gostring)) :
  0 <= baggageBytes items.
Proof.
  induction items as [|kv l IH]; [reflexivity|].
  cbn [baggageBytes fold_right]. fold (baggageBytes l). unfold len. lia.
Qed.

Lemma baggageBytes_perm (l l' : list (gostring * gostring)) :
  l ≡ₚ l' -> baggageBytes l = baggageBytes l'.
Proof.
  induction 1 as [|x l l' _ IH|x y l|l1 l2 l3 _ IH1 _ IH2];
    cbn [baggageBytes fold_right]; fold baggageBytes in *;
    [reflexivity | cbn [baggageBytes fold_right] in *; fold (baggageBytes l);
                   fold (baggageBytes l'); lia | lia | congruence].
Qed.

(** Within the two limits every item is written. *)
Lemma baggageItemsEncoded_pieces (items : list (gostring * gostring)) :
  forall ctr b, 0 < ctr ->
  ctr + Z.of_nat (length items) <= baggageMaxItems ->
  len b + baggageBytes items <= baggageMaxBytes ->
  baggageItemsEncoded ctr b items
  = b ++ flat_map (fun kv => str "," ++ baggagePiece kv) items.
Proof.
  induction items as [|[k v] l IH]; intros ctr b Hctr Hn Hbytes.
  - cbn. now rewrite app_nil_r.
  - cbn [baggageItemsEncoded flat_map]. cbn [length] in Hn.
    cbn [baggageBytes fold_right fst snd] in Hbytes. fold (baggageBytes l) in Hbytes.
    pose proof (baggageBytes_nonneg l) as Hl.
    replace (baggageMaxItems <=? ctr) with false by (symmetry; apply Z.leb_gt; lia).
    replace (0 <? ctr) with true by (symmetry; apply Z.ltb_lt; lia).
    assert (Hitem : len (str "," ++ encodeKey k ++ str "=" ++ encodeValue v)
                    = len (encodeKey k) + len (encodeValue v) + 2).
    { rewrite !len_app. change (len (str ",")) with 1.
      change (len (str "=")) with 1. lia. }
    replace (baggageMaxBytes <? _ + len b) with false
      by (symmetry; apply Z.ltb_ge; rewrite Hitem; unfold len in *; lia).
    rewrite IH.
    + unfold baggagePiece. cbn [fst snd]. now rewrite <- !app_assoc.
    + lia.
    + lia.
    + rewrite len_app, Hitem. lia.
Qed.

Lemma fold_insert_items (m : gmap gostring gostring)
  (items : list (gostring * gostring)) :
  items ≡ₚ map_to_list m ->
  fold_left (fun acc kv => <[fst kv := snd kv]> acc) items ∅ = m.
Proof.
  intros Hperm.
  rewrite <- (fold_left_rev_right (fun kv acc => <[fst kv := snd kv]> acc)).
  change (fold_right (fun kv acc => <[fst kv := snd kv]> acc) ∅ (rev items))
    with (list_to_map (rev items) : gmap gostring gostring).
  transitivity (list_to_map (map_to_list m) : gmap gostring gostring);
    [|apply list_to_map_to_list].
  apply list_to_map_proper.
  - rewrite <- (Permutation_rev items), Hperm. apply NoDup_fst_map_to_list.
  - now rewrite <- (Permutation_rev items).
Qed.

(** X1: The baggage format gives the baggage back: for a context whose baggage
    is not empty, holds at most 64 items, fits into 8192 bytes and is made
    of keys and values that are not empty and of printable ASCII without
    space, ['%'] and ['+'], the injection into an empty carrier succeeds,
    and the extraction from that carrier returns a context with the same
    baggage map. *)
Theorem baggage_roundtrip (C : SpanContext) (first : bool) :
  hasBaggage C = true ->
  baggage C <> ∅ ->
  (forall k v, baggage C !! k = Some v -> plainText k /\ plainText v) ->
  Z.of_nat (size (baggage C)) <= baggageMaxItems ->
  baggageBytes (map_to_list (baggage C)) <= baggageMaxBytes ->
  let p := mkChainedPropagator [baggageFormat] [baggageFormat] [] [] first in
  exists m E,
    chained_Inject p (Some C) (TextMapCarrier ∅)
    = Returned (Some C, TextMapCarrier m, None)
    /\ chained_Extract rangeMap p (TextMapCarrier m) = Returns (Some E) None
    /\ baggage E = baggage C.
Proof.
  intros Hhas Hne Hplain Hsize Hbytes p.
  set (items := rangeMap (baggage C)).
  assert (Hperm : items ≡ₚ map_to_list (baggage C)) by apply rangeMap_perm.
  assert (Hitems : forall k v, In (k, v) items -> plainText k /\ plainText v).
  { intros k v Hin. apply (Hplain k v). now apply rangeMap_In. }
  assert (Hlen : Z.of_nat (length items) <= baggageMaxItems).
  { rewrite Hperm, length_map_to_list. exact Hsize. }
  assert (Hb : baggageBytes items <= baggageMaxBytes)
    by (now rewrite (baggageBytes_perm _ _ Hperm)).
  destruct items as [|[k v] rest] eqn:Eitems.
  { exfalso. apply Hne. apply map_to_list_empty_iff.
    symmetry. now apply Permutation_nil_l. }
  destruct (Hitems k v (or_introl eq_refl)) as [Hk Hv].
  pose proof (piece_no_comma k v Hk Hv) as Hpc.
  set (b := baggagePiece (k, v)
            ++ flat_map (fun kv => str "," ++ baggagePiece kv) rest).
  assert (Henc : baggageItemsEncoded 0 [] (baggageItems rangeMap C) = b).
  { unfold baggageItems. rewrite Hhas. fold items. rewrite Eitems.
    cbn [baggageItemsEncoded]. cbn [length] in Hlen.
    cbn [baggageBytes fold_right fst snd] in Hb. fold (baggageBytes rest) in Hb.
    pose proof (baggageBytes_nonneg rest) as Hr.
    change (baggageMaxItems <=? 0) with false. change (0 <? 0) with false.
    cbv iota. cbn [app].
    assert (Hp : len (encodeKey k ++ str "=" ++ encodeValue v)
                 = len (encodeKey k) + len (encodeValue v) + 1).
    { rewrite !len_app. change (len (str "=")) with 1. lia. }
    replace (baggageMaxBytes <? _ + len []) with false
      by (symmetry; apply Z.ltb_ge; rewrite Hp; unfold len in *; cbn [length]; lia).
    rewrite baggageItemsEncoded_pieces.
    - reflexivity.
    - lia.
    - change (0 + 1) with 1. lia.
    - rewrite Hp. lia. }
  assert (Hbne : (length b =? 0)%nat = false).
  { apply length_eqb_cons. unfold b, baggagePiece. cbn [fst snd].
    destruct (encode_plain k Hk) as [(_ & _ & Hkn) _].
    destruct (encodeKey k); [contradiction | discriminate]. }
  assert (Hblen : (0 <? len b) = true).
  { apply Z.ltb_lt. unfold len. destruct b; [discriminate Hbne | cbn [length]; lia]. }
  assert (Hsplit : Split b "," = map baggagePiece ((k, v) :: rest)).
  { unfold Split, b. rewrite (Split_pieces rest); [reflexivity | | exact Hpc].
    intros k' v' Hin. apply Hitems. now right. }
  assert (Hext : baggage_extractTextMap unicodeToLower
                   (rangeMap (carrierSet ∅ (str "baggage") b))
                 = (Some (fold_left applyBaggage (map baggagePiece ((k, v) :: rest))
                            zeroSpanContext), None)).
  { rewrite rangeMap_singleton. unfold baggage_extractTextMap.
    change (ForeachKey (baggageHandler unicodeToLower) [(str "baggage", b)] [])
      with (b, @None error).
    cbv beta iota. rewrite Hbne, Hsplit, (validateBaggage_pieces _ Hitems). reflexivity. }
  assert (Hbag : baggage (fold_left applyBaggage (map baggagePiece ((k, v) :: rest))
                            zeroSpanContext) = baggage C).
  { rewrite (applyBaggage_pieces _ Hitems). now apply fold_insert_items. }
  eexists _, _. split; [|split].
  - unfold chained_Inject, p. cbn [injectors injectAll Inject propagatorBaggage].
    unfold baggage_injectTextMap. rewrite Henc, Hblen. reflexivity.
  - unfold chained_Extract, p.
    cbn [extractors extractLoop Extract typeOf propagatorBaggage extractWith
         readerOf isType].
    rewrite Hext, Hbag.
    assert (Hs : (0 <? size (baggage C))%nat = true).
    { apply Nat.ltb_lt. destruct (size (baggage C)) eqn:E; [|lia].
      exfalso. apply Hne. now apply map_size_empty_iff. }
    rewrite Hs. unfold finishExtract.
    assert (Hs' : (0 <? size (baggage C ∪ ∅))%nat = true)
      by (now rewrite (right_id_L ∅ (∪))).
    rewrite Hs'. reflexivity.
  - cbn [baggage]. apply (right_id_L ∅ (∪)).
Qed.

End Maps.

End More.

(** ** The theorems at concrete inputs *)

Lemma chained_inject_invalid_context_witness :
  injectors datadogBaggageChain = [datadogPropagator; Concrete.propagatorBaggage]
  /\ In datadogPropagator
       [datadogPropagator; Concrete.propagatorB3; Concrete.propagatorB3SingleHeader;
        Concrete.propagatorW3c]
  /\ Empty (traceID zeroSpanContext) || (spanID zeroSpanContext =? 0) = true
  /\ chained_Inject datadogBaggageChain (Some zeroSpanContext) (TextMapCarrier ∅)
     = Returned (Some zeroSpanContext, TextMapCarrier ∅, Some ErrInvalidSpanContext).
Proof.
  assert (H1 : injectors datadogBaggageChain
               = [datadogPropagator; Concrete.propagatorBaggage]) by reflexivity.
  assert (H2 : In datadogPropagator
                 [datadogPropagator; Concrete.propagatorB3;
                  Concrete.propagatorB3SingleHeader; Concrete.propagatorW3c])
    by (left; reflexivity).
  assert (H3 : Empty (traceID zeroSpanContext) || (spanID zeroSpanContext =? 0) = true)
    by reflexivity.
  split; [exact H1|]. split; [exact H2|]. split; [exact H3|].
  exact (chained_inject_invalid_context Concrete.unicodeToLower Concrete.rangeMap
           Concrete.isValidPropagatableTag Concrete.parsePropagatableTraceTags
           datadogBaggageChain (defaultConfig 128) datadogPropagator
           [Concrete.propagatorBaggage] zeroSpanContext ∅ H1 H2 H3).
Defined.

Lemma chained_extract_nothing_found_witness :
  Forall (findsNothing (Concrete.textMap [])) (extractors defaultExtractors)
  /\ Concrete.chained_Extract defaultExtractors (Concrete.textMap [])
     = Returns None (Some ErrSpanContextNotFound).
Proof.
  assert (H : Forall (findsNothing (Concrete.textMap [])) (extractors defaultExtractors)).
  { repeat constructor; vm_compute; reflexivity. }
  split; [exact H|].
  exact (chained_extract_nothing_found Concrete.rangeMap defaultExtractors
           (Concrete.textMap []) H).
Defined.

Lemma extraction_ignores_header_case_witness :
  sameHeaders Concrete.unicodeToLower capitalHeaders lowerHeaders
  /\ Concrete.dd_extractTextMap (defaultConfig 128) capitalHeaders
     = Concrete.dd_extractTextMap (defaultConfig 128) lowerHeaders.
Proof.
  assert (H : sameHeaders Concrete.unicodeToLower capitalHeaders lowerHeaders).
  { repeat constructor. }
  split; [exact H|].
  exact (proj1 (extraction_ignores_header_case Concrete.unicodeToLower
                  Concrete.parsePropagatableTraceTags (defaultConfig 128)
                  capitalHeaders lowerHeaders H)).
Defined.

Lemma dd_extract_corrupted_witness :
  In (str "X-Datadog-Trace-Id", str "abc") corruptedHeaders
  /\ corruptedDatadogEntry Concrete.unicodeToLower (defaultConfig 128)
       (str "X-Datadog-Trace-Id") (str "abc")
  /\ Concrete.dd_extractTextMap (defaultConfig 128) corruptedHeaders
     = (None, Some ErrSpanContextCorrupted).
Proof.
  assert (H1 : In (str "X-Datadog-Trace-Id", str "abc") corruptedHeaders)
    by (right; left; reflexivity).
  assert (H2 : corruptedDatadogEntry Concrete.unicodeToLower (defaultConfig 128)
                 (str "X-Datadog-Trace-Id") (str "abc"))
    by (left; split; reflexivity).
  split; [exact H1|]. split; [exact H2|].
  exact (dd_extract_corrupted Concrete.unicodeToLower
           Concrete.parsePropagatableTraceTags (defaultConfig 128)
           corruptedHeaders _ _ H1 H2).
Defined.

Lemma chained_extract_keeps_baggage_witness :
  extractors datadogBaggageChain = [datadogPropagator] ++ Concrete.propagatorBaggage :: []
  /\ isType (typeOf Concrete.propagatorBaggage) TypePropagatorBaggage = true
  /\ Extract Concrete.propagatorBaggage datadogBaggageCarrier
     = (Some (extracted (Extract Concrete.propagatorBaggage datadogBaggageCarrier)),
        None)
  /\ onlyExtractFirst datadogBaggageChain = false
  /\ Concrete.chained_Extract datadogBaggageChain datadogBaggageCarrier
     = Returns
         (Some (returned (Concrete.chained_Extract datadogBaggageChain
                            datadogBaggageCarrier))) None
  /\ baggage (extracted (Extract Concrete.propagatorBaggage datadogBaggageCarrier))
     !! str "user" = Some (str "alice")
  /\ baggage (extracted (Extract Concrete.propagatorBaggage datadogBaggageCarrier))
     ⊆ baggage (returned (Concrete.chained_Extract datadogBaggageChain
                            datadogBaggageCarrier)).
Proof.
  assert (H1 : extractors datadogBaggageChain
               = [datadogPropagator] ++ Concrete.propagatorBaggage :: [])
    by reflexivity.
  assert (H2 : isType (typeOf Concrete.propagatorBaggage) TypePropagatorBaggage = true)
    by reflexivity.
  assert (H3 : Extract Concrete.propagatorBaggage datadogBaggageCarrier
               = (Some (extracted (Extract Concrete.propagatorBaggage
                                     datadogBaggageCarrier)), None))
    by (vm_compute; reflexivity).
  assert (H4 : onlyExtractFirst datadogBaggageChain = false) by reflexivity.
  assert (H5 : Concrete.chained_Extract datadogBaggageChain datadogBaggageCarrier
               = Returns
                   (Some (returned (Concrete.chained_Extract datadogBaggageChain
                                      datadogBaggageCarrier))) None)
    by (vm_compute; reflexivity).
  split; [exact H1|]. split; [exact H2|]. split; [exact H3|]. split; [exact H4|].
  split; [exact H5|]. split; [vm_compute; reflexivity|].
  exact (chained_extract_keeps_baggage Concrete.rangeMap datadogBaggageChain
           datadogBaggageCarrier [datadogPropagator] [] Concrete.propagatorBaggage
           _ _ None H1 H2 (List.Forall_nil _) H3 H4 H5).
Defined.

Lemma chained_extract_w3c_parent_witness :
  extractors datadogW3cChain = [datadogPropagator; Concrete.propagatorW3c]
  /\ typeOf datadogPropagator = TypePropagator
  /\ typeOf Concrete.propagatorW3c = TypePropagatorW3c
  /\ onlyExtractFirst datadogW3cChain = false
  /\ Extract datadogPropagator reparentedCarrier
     = (Some (extracted (Extract datadogPropagator reparentedCarrier)), None)
  /\ Extract Concrete.propagatorW3c reparentedCarrier
     = (Some (extracted (Extract Concrete.propagatorW3c reparentedCarrier)), None)
  /\ traceID (extracted (Extract Concrete.propagatorW3c reparentedCarrier))
     = traceID (extracted (Extract datadogPropagator reparentedCarrier))
  /\ spanID (extracted (Extract Concrete.propagatorW3c reparentedCarrier))
     <> spanID (extracted (Extract datadogPropagator reparentedCarrier))
  /\ exists r,
       Concrete.chained_Extract datadogW3cChain reparentedCarrier
       = Returns (Some r) None
       /\ spanID r = 3
       /\ reparentID r = str "0000000000000002".
Proof.
  set (d := extracted (Extract datadogPropagator reparentedCarrier)).
  set (w := extracted (Extract Concrete.propagatorW3c reparentedCarrier)).
  assert (H1 : extractors datadogW3cChain = [datadogPropagator; Concrete.propagatorW3c])
    by reflexivity.
  assert (H2 : typeOf datadogPropagator = TypePropagator) by reflexivity.
  assert (H3 : typeOf Concrete.propagatorW3c = TypePropagatorW3c) by reflexivity.
  assert (H4 : onlyExtractFirst datadogW3cChain = false) by reflexivity.
  assert (H5 : Extract datadogPropagator reparentedCarrier = (Some d, None))
    by (vm_compute; reflexivity).
  assert (H6 : Extract Concrete.propagatorW3c reparentedCarrier = (Some w, None))
    by (vm_compute; reflexivity).
  assert (H7 : traceID w = traceID d) by (vm_compute; reflexivity).
  assert (H8 : spanID w <> spanID d) by (vm_compute; discriminate).
  split; [exact H1|]. split; [exact H2|]. split; [exact H3|]. split; [exact H4|].
  split; [exact H5|]. split; [exact H6|]. split; [exact H7|]. split; [exact H8|].
  destruct (chained_extract_w3c_parent Concrete.rangeMap datadogW3cChain
              reparentedCarrier datadogPropagator Concrete.propagatorW3c d w
              H1 H2 H3 H4 H5 H6 H7 H8) as (r & Hr & _ & Hs & Hre & _).
  exists r. split; [exact Hr|]. split; [exact Hs|]. exact Hre.
Defined.

Lemma extractTraceID128_HexEncoded_witness :
  0 <= upper wideTraceID < 2 ^ 64
  /\ 0 <= lower wideTraceID < 2 ^ 64
  /\ Empty wideTraceID = false
  /\ upper (traceID zeroSpanContext) = 0
  /\ extractTraceID128 zeroSpanContext (HexEncoded wideTraceID)
     = (with_traceID zeroSpanContext wideTraceID, None).
Proof.
  assert (H1 : 0 <= upper wideTraceID < 2 ^ 64) by (cbn; lia).
  assert (H2 : 0 <= lower wideTraceID < 2 ^ 64) by (cbn; lia).
  assert (H3 : Empty wideTraceID = false) by reflexivity.
  assert (H4 : upper (traceID zeroSpanContext) = 0) by reflexivity.
  split; [exact H1|]. split; [exact H2|]. split; [exact H3|]. split; [exact H4|].
  exact (proj1 (extractTraceID128_HexEncoded zeroSpanContext wideTraceID H1 H2 H3 H4)).
Defined.

Lemma b3_roundtrip_witness :
  (forall m, Concrete.rangeMap m ≡ₚ map_to_list m)
  /\ 0 <= upper (traceID lowerKeyContext) < 2 ^ 64
  /\ 0 <= lower (traceID lowerKeyContext) < 2 ^ 64
  /\ Empty (traceID lowerKeyContext) = false
  /\ 0 < spanID lowerKeyContext < 2 ^ 64
  /\ exists m E,
       chained_Inject b3Chain (Some lowerKeyContext) (TextMapCarrier ∅)
       = Returned (Some lowerKeyContext, TextMapCarrier m, None)
       /\ Concrete.chained_Extract b3Chain (TextMapCarrier m) = Returns (Some E) None
       /\ traceID E = traceID lowerKeyContext
       /\ spanID E = spanID lowerKeyContext
       /\ SamplingPriority (Some E) = b3Sampled lowerKeyContext
       /\ baggage E = ∅.
Proof.
  assert (H0 : forall m, Concrete.rangeMap m ≡ₚ map_to_list m) by reflexivity.
  assert (H1 : 0 <= upper (traceID lowerKeyContext) < 2 ^ 64) by (cbn; lia).
  assert (H2 : 0 <= lower (traceID lowerKeyContext) < 2 ^ 64) by (cbn; lia).
  assert (H3 : Empty (traceID lowerKeyContext) = false) by reflexivity.
  assert (H4 : 0 < spanID lowerKeyContext < 2 ^ 64) by (cbn; lia).
  split; [exact H0|]. split; [exact H1|]. split; [exact H2|]. split; [exact H3|].
  split; [exact H4|].
  exact (b3_roundtrip Concrete.unicodeToLower Concrete.rangeMap H0 lowerKeyContext
           H1 H2 H3 H4 false).
Defined.

Lemma b3single_roundtrip_witness :
  (forall m, Concrete.rangeMap m ≡ₚ map_to_list m)
  /\ 0 <= upper (traceID lowerKeyContext) < 2 ^ 64
  /\ 0 <= lower (traceID lowerKeyContext) < 2 ^ 64
  /\ Empty (traceID lowerKeyContext) = false
  /\ 0 < spanID lowerKeyContext < 2 ^ 64
  /\ exists m E,
       chained_Inject
         (Concrete.chain [Concrete.propagatorB3SingleHeader]
            [Concrete.propagatorB3SingleHeader] false)
         (Some lowerKeyContext) (TextMapCarrier ∅)
       = Returned (Some lowerKeyContext, TextMapCarrier m, None)
       /\ Concrete.chained_Extract
            (Concrete.chain [Concrete.propagatorB3SingleHeader]
               [Concrete.propagatorB3SingleHeader] false)
            (TextMapCarrier m)
          = Returns (Some E) None
       /\ traceID E = traceID lowerKeyContext
       /\ spanID E = spanID lowerKeyContext
       /\ SamplingPriority (Some E) = b3Sampled lowerKeyContext
       /\ baggage E = ∅.
Proof.
  assert (H0 : forall m, Concrete.rangeMap m ≡ₚ map_to_list m) by reflexivity.
  assert (H1 : 0 <= upper (traceID lowerKeyContext) < 2 ^ 64) by (cbn; lia).
  assert (H2 : 0 <= lower (traceID lowerKeyContext) < 2 ^ 64) by (cbn; lia).
  assert (H3 : Empty (traceID lowerKeyContext) = false) by reflexivity.
  assert (H4 : 0 < spanID lowerKeyContext < 2 ^ 64) by (cbn; lia).
  split; [exact H0|]. split; [exact H1|]. split; [exact H2|]. split; [exact H3|].
  split; [exact H4|].
  exact (b3single_roundtrip Concrete.unicodeToLower Concrete.rangeMap H0
           lowerKeyContext false H1 H2 H3 H4).
Defined.

Lemma parseTraceparent_composed_witness :
  0 <= upper wideTraceID < 2 ^ 64
  /\ 0 <= lower wideTraceID < 2 ^ 64
  /\ Empty wideTraceID = false
  /\ 0 < 7 < 2 ^ 64
  /\ upper (traceID zeroSpanContext) = 0
  /\ Concrete.parseTraceparent zeroSpanContext
       (str "00-" ++ HexEncoded wideTraceID ++ str "-" ++ hexPadded 16 7 ++ str "-"
        ++ str "01")
     = (setSamplingPriority
          (with_spanID
             (with_traceID (unsetPropagatingTag zeroSpanContext keyTraceID128)
                wideTraceID) 7)
          1 samplerUnknown,
        None).
Proof.
  assert (H1 : 0 <= upper wideTraceID < 2 ^ 64) by (cbn; lia).
  assert (H2 : 0 <= lower wideTraceID < 2 ^ 64) by (cbn; lia).
  assert (H3 : Empty wideTraceID = false) by reflexivity.
  assert (H4 : 0 < 7 < 2 ^ 64) by lia.
  assert (H5 : upper (traceID zeroSpanContext) = 0) by reflexivity.
  split; [exact H1|]. split; [exact H2|]. split; [exact H3|]. split; [exact H4|].
  split; [exact H5|].
  exact (parseTraceparent_composed Concrete.unicodeToLower zeroSpanContext
           wideTraceID 7 true H1 H2 H3 H4 H5).
Defined.

Lemma w3c_roundtrip_ids_witness :
  (forall m, Concrete.rangeMap m ≡ₚ map_to_list m)
  /\ 0 <= upper (traceID lowerKeyContext) < 2 ^ 64
  /\ 0 <= lower (traceID lowerKeyContext) < 2 ^ 64
  /\ Empty (traceID lowerKeyContext) = false
  /\ 0 < spanID lowerKeyContext < 2 ^ 64
  /\ (HasUpper (traceID lowerKeyContext) = false -> trace lowerKeyContext <> None)
  /\ exists C' m E,
       chained_Inject
         (Concrete.chain [Concrete.propagatorW3c] [Concrete.propagatorW3c] false)
         (Some lowerKeyContext) (TextMapCarrier ∅)
       = Returned (Some C', TextMapCarrier m, None)
       /\ Concrete.chained_Extract
            (Concrete.chain [Concrete.propagatorW3c] [Concrete.propagatorW3c] false)
            (TextMapCarrier m)
          = Returns (Some E) None
       /\ traceID E = traceID lowerKeyContext
       /\ spanID E = spanID lowerKeyContext.
Proof.
  assert (H0 : forall m, Concrete.rangeMap m ≡ₚ map_to_list m) by reflexivity.
  assert (H1 : 0 <= upper (traceID lowerKeyContext) < 2 ^ 64) by (cbn; lia).
  assert (H2 : 0 <= lower (traceID lowerKeyContext) < 2 ^ 64) by (cbn; lia).
  assert (H3 : Empty (traceID lowerKeyContext) = false) by reflexivity.
  assert (H4 : 0 < spanID lowerKeyContext < 2 ^ 64) by (cbn; lia).
  split; [exact H0|]. split; [exact H1|]. split; [exact H2|]. split; [exact H3|].
  assert (H5 : HasUpper (traceID lowerKeyContext) = false ->
               trace lowerKeyContext <> None) by (intros _; discriminate).
  split; [exact H4|]. split; [exact H5|].
  exact (w3c_roundtrip_ids Concrete.unicodeToLower Concrete.rangeMap H0
           lowerKeyContext false H1 H2 H3 H4 H5).
Defined.

Lemma w3c_inject_without_trace_panics_witness :
  Extract datadogPropagator reparentedCarrier
  = (Some (extracted (Extract datadogPropagator reparentedCarrier)), None)
  /\ Empty (traceID (extracted (Extract datadogPropagator reparentedCarrier))) = false
  /\ spanID (extracted (Extract datadogPropagator reparentedCarrier)) <> 0
  /\ HasUpper (traceID (extracted (Extract datadogPropagator reparentedCarrier)))
     = false
  /\ trace (extracted (Extract datadogPropagator reparentedCarrier)) = None
  /\ chained_Inject
       (mkChainedPropagator [Concrete.propagatorW3c; Concrete.propagatorBaggage]
          [] [] [] false)
       (Some (extracted (Extract datadogPropagator reparentedCarrier)))
       (TextMapCarrier ∅)
     = Panicked.
Proof.
  set (d := extracted (Extract datadogPropagator reparentedCarrier)).
  assert (H0 : Extract datadogPropagator reparentedCarrier = (Some d, None))
    by (vm_compute; reflexivity).
  assert (H1 : Empty (traceID d) = false) by (vm_compute; reflexivity).
  assert (H2 : spanID d <> 0) by (vm_compute; discriminate).
  assert (H3 : HasUpper (traceID d) = false) by (vm_compute; reflexivity).
  assert (H4 : trace d = None) by (vm_compute; reflexivity).
  split; [exact H0|]. split; [exact H1|]. split; [exact H2|]. split; [exact H3|].
  split; [exact H4|].
  exact (proj2 (w3c_inject_without_trace_panics Concrete.unicodeToLower
                  Concrete.rangeMap d ∅ [Concrete.propagatorBaggage] false
                  H1 H2 H3 H4)).
Defined.

Lemma getPropagators_empty_witness :
  fst (Concrete.getPropagators [] (defaultConfig 128) (str "NONE")) = []
  /\ effectiveStyle [] (str "NONE") <> []
  /\ ToLower Concrete.unicodeToLower (effectiveStyle [] (str "NONE")) = str "none".
Proof.
  assert (H : fst (Concrete.getPropagators [] (defaultConfig 128) (str "NONE")) = [])
    by reflexivity.
  split; [exact H|].
  exact (getPropagators_empty Concrete.unicodeToLower Concrete.rangeMap
           Concrete.isValidPropagatableTag Concrete.parsePropagatableTraceTags
           [] (defaultConfig 128) (str "NONE") H).
Defined.

Lemma getPropagators_one_B3_witness :
  B3 b3Config = true
  /\ fst (Concrete.getPropagators [] b3Config (str "b3,datadog,b3multi")) <> []
  /\ countB3 (fst (Concrete.getPropagators [] b3Config (str "b3,datadog,b3multi")))
     = 1%nat.
Proof.
  assert (H1 : B3 b3Config = true) by reflexivity.
  assert (H2 : fst (Concrete.getPropagators [] b3Config (str "b3,datadog,b3multi"))
               <> []).
  { intros E. apply (f_equal (@length Propagator)) in E.
    vm_compute in E. discriminate E. }
  split; [exact H1|]. split; [exact H2|].
  exact (getPropagators_one_B3 Concrete.unicodeToLower Concrete.rangeMap
           Concrete.isValidPropagatableTag Concrete.parsePropagatableTraceTags
           [] b3Config (str "b3,datadog,b3multi") H1 H2).
Defined.

Lemma style_none_disables_witness :
  effectiveStyle (propagationStyle noneEnvironment) (styleInject noneEnvironment) <> []
  /\ ToLower Concrete.unicodeToLower
       (effectiveStyle (propagationStyle noneEnvironment) (styleInject noneEnvironment))
     = str "none"
  /\ chained_Inject (Concrete.NewPropagator noneEnvironment None [])
       (Some lowerKeyContext) (TextMapCarrier ∅)
     = Returned (Some lowerKeyContext, TextMapCarrier ∅, None).
Proof.
  assert (H1 : effectiveStyle (propagationStyle noneEnvironment)
                 (styleInject noneEnvironment) <> []) by discriminate.
  assert (H2 : ToLower Concrete.unicodeToLower
                 (effectiveStyle (propagationStyle noneEnvironment)
                    (styleInject noneEnvironment)) = str "none") by reflexivity.
  split; [exact H1|]. split; [exact H2|].
  exact (proj1 (style_none_disables Concrete.unicodeToLower Concrete.rangeMap
                  Concrete.isValidPropagatableTag Concrete.parsePropagatableTraceTags
                  noneEnvironment None lowerKeyContext (TextMapCarrier ∅)) H1 H2).
Defined.

Lemma parseTracestate_foreign_witness :
  str "vendor=1,other=2" <> []
  /\ Forall (fun g => HasPrefix g (str "dd=") = false)
       (Split (Trim (str "vendor=1,other=2") [tab; " "%char]) ",")
  /\ parseTracestate sampledContext (str "vendor=1,other=2")
     = setPropagatingTag sampledContext tracestateHeader (str "vendor=1,other=2").
Proof.
  assert (H1 : str "vendor=1,other=2" <> []) by discriminate.
  assert (H2 : Forall (fun g => HasPrefix g (str "dd=") = false)
                 (Split (Trim (str "vendor=1,other=2") [tab; " "%char]) ","))
    by (repeat constructor).
  split; [exact H1|]. split; [exact H2|].
  exact (parseTracestate_foreign sampledContext (str "vendor=1,other=2") H1 H2).
Defined.

Lemma composeDD_no_comma_witness :
  (isRemote commaContext = true -> ~ In ","%char (reparentID commaContext))
  /\ trace commaContext = Some (traceOrNew commaContext)
  /\ Concrete.composeDD commaContext (traceOrNew commaContext) 1
     = str "dd=s:1;o:syn_thetics;p:00000000000000ff;t.usr_id:a_b"
  /\ ~ In ","%char (Concrete.composeDD commaContext (traceOrNew commaContext) 1).
Proof.
  assert (H : isRemote commaContext = true ->
              ~ In ","%char (reparentID commaContext)).
  { intros _ Hin. cbn in Hin.
    repeat (destruct Hin as [Hin | Hin]; [discriminate Hin|]). exact Hin. }
  split; [exact H|]. split; [reflexivity|]. split; [vm_compute; reflexivity|].
  exact (composeDD_no_comma Concrete.rangeMap commaContext (traceOrNew commaContext)
           1 H).
Defined.

Lemma urlEncode_roundtrip_witness :
  Forall plainByte (str "a b/c=d")
  /\ QueryUnescape (urlEncode (str "a b/c=d") safeCharactersKey) = Some (str "a b/c=d").
Proof.
  assert (H : Forall plainByte (str "a b/c=d")).
  { repeat (apply List.Forall_cons;
            [split; [vm_compute; reflexivity | split; discriminate]|]).
    apply List.Forall_nil. }
  split; [exact H|].
  exact (urlEncode_roundtrip (str "a b/c=d") safeCharactersKey H).
Defined.

Lemma dd_inject_tags_disabled_witness :
  0 <= 0
  /\ snd (fst (Concrete.dd_injectTextMap (defaultConfig 0) lowerKeyContext ∅))
     !! traceTagsHeader = (∅ : gmap gostring gostring) !! traceTagsHeader.
Proof.
  assert (H : 0 <= 0) by lia.
  split; [exact H|].
  exact (dd_inject_tags_disabled Concrete.rangeMap Concrete.isValidPropagatableTag
           0 lowerKeyContext ∅ H).
Defined.

Lemma chained_extract_span_link_witness :
  extractors w3cDatadogChain = [Concrete.propagatorW3c; datadogPropagator]
  /\ isType (typeOf Concrete.propagatorW3c) TypePropagatorBaggage = false
  /\ isType (typeOf datadogPropagator) TypePropagatorBaggage = false
  /\ onlyExtractFirst w3cDatadogChain = false
  /\ Extract Concrete.propagatorW3c keptDatadogCarrier
     = (Some (extracted (Extract Concrete.propagatorW3c keptDatadogCarrier)), None)
  /\ Extract datadogPropagator keptDatadogCarrier
     = (Some (extracted (Extract datadogPropagator keptDatadogCarrier)), None)
  /\ traceID (extracted (Extract datadogPropagator keptDatadogCarrier))
     <> traceID (extracted (Extract Concrete.propagatorW3c keptDatadogCarrier))
  /\ trace (extracted (Extract datadogPropagator keptDatadogCarrier))
     = Some (traceOrNew (extracted (Extract datadogPropagator keptDatadogCarrier)))
  /\ priority (traceOrNew (extracted (Extract datadogPropagator keptDatadogCarrier)))
     = Some 1
  /\ 0 <= 1 < 2 ^ 32
  /\ spanLinks (returned (Concrete.chained_Extract w3cDatadogChain keptDatadogCarrier))
     = [SpanLink.mk 1 0 1
          (<[str "context_headers" := str "datadog"]>
             (<[str "reason" := str "terminated_context"]> ∅))
          [] 1].
Proof.
  set (ca := extracted (Extract Concrete.propagatorW3c keptDatadogCarrier)).
  set (cb := extracted (Extract datadogPropagator keptDatadogCarrier)).
  assert (H1 : extractors w3cDatadogChain = [Concrete.propagatorW3c; datadogPropagator])
    by reflexivity.
  assert (H2 : isType (typeOf Concrete.propagatorW3c) TypePropagatorBaggage = false)
    by reflexivity.
  assert (H3 : isType (typeOf datadogPropagator) TypePropagatorBaggage = false)
    by reflexivity.
  assert (H4 : onlyExtractFirst w3cDatadogChain = false) by reflexivity.
  assert (H5 : Extract Concrete.propagatorW3c keptDatadogCarrier = (Some ca, None))
    by (vm_compute; reflexivity).
  assert (H6 : Extract datadogPropagator keptDatadogCarrier = (Some cb, None))
    by (vm_compute; reflexivity).
  assert (H7 : traceID cb <> traceID ca) by (vm_compute; discriminate).
  assert (H8 : trace cb = Some (traceOrNew cb)) by (vm_compute; reflexivity).
  assert (H9 : priority (traceOrNew cb) = Some 1) by (vm_compute; reflexivity).
  assert (H10 : 0 <= 1 < 2 ^ 32) by lia.
  split; [exact H1|]. split; [exact H2|]. split; [exact H3|]. split; [exact H4|].
  split; [exact H5|]. split; [exact H6|]. split; [exact H7|]. split; [exact H8|].
  split; [exact H9|]. split; [exact H10|].
  pose proof (chained_extract_span_link Concrete.rangeMap w3cDatadogChain
                keptDatadogCarrier Concrete.propagatorW3c datadogPropagator ca cb None
                (traceOrNew cb) 1 H1 H2 H3 H4 H5 H6 H7 H8 H9 H10) as Hres.
  unfold Concrete.chained_Extract. rewrite Hres. vm_compute. reflexivity.
Defined.

Lemma baggage_roundtrip_witness :
  (forall m, Concrete.rangeMap m ≡ₚ map_to_list m)
  /\ hasBaggage lowerKeyContext = true
  /\ baggage lowerKeyContext <> ∅
  /\ (forall k v, baggage lowerKeyContext !! k = Some v -> plainText k /\ plainText v)
  /\ Z.of_nat (size (baggage lowerKeyContext)) <= baggageMaxItems
  /\ baggageBytes (map_to_list (baggage lowerKeyContext)) <= baggageMaxBytes
  /\ exists m E,
       chained_Inject
         (Concrete.chain [Concrete.propagatorBaggage] [Concrete.propagatorBaggage] false)
         (Some lowerKeyContext) (TextMapCarrier ∅)
       = Returned (Some lowerKeyContext, TextMapCarrier m, None)
       /\ Concrete.chained_Extract
            (Concrete.chain [Concrete.propagatorBaggage] [Concrete.propagatorBaggage]
               false)
            (TextMapCarrier m)
          = Returns (Some E) None
       /\ baggage E = baggage lowerKeyContext.
Proof.
  assert (H0 : forall m, Concrete.rangeMap m ≡ₚ map_to_list m) by reflexivity.
  assert (H1 : hasBaggage lowerKeyContext = true) by reflexivity.
  assert (H2 : baggage lowerKeyContext <> ∅).
  { intros E. apply (f_equal (fun b => b !! str "key")) in E.
    vm_compute in E. discriminate E. }
  assert (H3 : forall k v, baggage lowerKeyContext !! k = Some v ->
               plainText k /\ plainText v).
  { intros k v H.
    change (baggage lowerKeyContext)
      with (<[str "key" := str "value"]> (∅ : gmap gostring gostring)) in H.
    apply lookup_insert_Some in H as [[<- <-] | [_ H]].
    - split; (split; [discriminate|]);
        repeat (apply List.Forall_cons;
                [split; [vm_compute; split; discriminate | split; discriminate]|]);
        apply List.Forall_nil.
    - rewrite lookup_empty in H. discriminate H. }
  assert (H4 : Z.of_nat (size (baggage lowerKeyContext)) <= baggageMaxItems)
    by (vm_compute; discriminate).
  assert (H5 : baggageBytes (map_to_list (baggage lowerKeyContext)) <= baggageMaxBytes)
    by (vm_compute; discriminate).
  split; [exact H0|]. split; [exact H1|]. split; [exact H2|]. split; [exact H3|].
  split; [exact H4|]. split; [exact H5|].
  exact (baggage_roundtrip Concrete.unicodeToLower Concrete.rangeMap H0
           lowerKeyContext false H1 H2 H3 H4 H5).
Defined.

End PropagationFacts.
